(** * Starship simulator: flight dynamics, PID guidance and mission commands

    A shallow embedding of the numerical core of the simulator
    (scripts/improved_physics.js, the mission script, the Mechazilla catch
    module, the reentry formulas, the camera easing, and the layered
    atmosphere and the engine commands of the aerospace engine) together
    with the properties its design document states about it and further
    properties read off the code.

    JavaScript numbers are embedded as real numbers: every arithmetic
    expression of the source is written with the same operations on [R].
    IEEE rounding, infinities and NaN are outside the embedding; wherever the
    source divides, the statements below carry the side condition that the
    divisor is not zero; the one exception exhibits the division by a zero
    total mass in [update] and writes the quotient out.  [Math.random()] is
    embedded as an explicit argument holding the drawn numbers. *)

From Stdlib Require Import Reals Lra Lia Psatz Bool List String ZArith.
From Stdlib Require DecimalString.
Import ListNotations.
Open Scope R_scope.

(** ** JavaScript number primitives *)

Module JS.

(** [a < b], [a <= b], [a > b], [a >= b] and [a !== b] as tests. *)
Definition ltb (a b : R) : bool := if Rlt_dec a b then true else false.
Definition leb (a b : R) : bool := if Rle_dec a b then true else false.
Definition gtb (a b : R) : bool := ltb b a.
Definition geb (a b : R) : bool := leb b a.
Definition neqb (a b : R) : bool := if Req_dec_T a b then false else true.

(** [Math.max], [Math.min], [Math.abs], [Math.sign]. *)
Definition max (a b : R) : R := Rmax a b.
Definition min (a b : R) : R := Rmin a b.
Definition abs (a : R) : R := Rabs a.
Definition sign (a : R) : R :=
  if ltb 0 a then 1 else if ltb a 0 then -1 else 0.

(** [a || b] on numbers: [b] when [a] is zero. *)
Definition orElse (a b : R) : R := if Req_dec_T a 0 then b else a.

(** [Math.atan2(y, x)] (signed zeros are not distinguished). *)
Definition atan2 (y x : R) : R :=
  if ltb 0 x then atan (y / x)
  else if ltb x 0 then
    (if leb 0 y then atan (y / x) + PI else atan (y / x) - PI)
  else if ltb 0 y then PI / 2
  else if ltb y 0 then - (PI / 2)
  else 0.

End JS.

Declare Scope js_scope.
Delimit Scope js_scope with js.
Notation "a <? b" := (JS.ltb a b) (at level 70, no associativity) : js_scope.
Notation "a <=? b" := (JS.leb a b) (at level 70, no associativity) : js_scope.
Notation "a >? b" := (JS.gtb a b) (at level 70, no associativity) : js_scope.
Notation "a >=? b" := (JS.geb a b) (at level 70, no associativity) : js_scope.
Notation "a !== b" := (JS.neqb a b) (at level 70, no associativity) : js_scope.
Open Scope js_scope.

(** ** The three.js value types used by the simulator (three@0.160.0) *)

Module Vector2.
Record t : Set := mk { x : R; y : R }.

Definition zero : t := mk 0 0.
Definition add (a b : t) : t := mk (x a + x b) (y a + y b).
Definition subVectors (a b : t) : t := mk (x a - x b) (y a - y b).
Definition multiplyScalar (a : t) (s : R) : t := mk (x a * s) (y a * s).
Definition divideScalar (a : t) (s : R) : t := multiplyScalar a (1 / s).
Definition lengthSq (a : t) : R := x a * x a + y a * y a.
Definition length (a : t) : R := sqrt (x a * x a + y a * y a).
Definition normalize (a : t) : t := divideScalar a (JS.orElse (length a) 1).
Definition negate (a : t) : t := mk (- x a) (- y a).
End Vector2.

Module Vector3.
Record t : Set := mk { x : R; y : R; z : R }.

Definition zero : t := mk 0 0 0.
Definition add (a b : t) : t := mk (x a + x b) (y a + y b) (z a + z b).
Definition subVectors (a b : t) : t := mk (x a - x b) (y a - y b) (z a - z b).
Definition multiplyScalar (a : t) (s : R) : t :=
  mk (x a * s) (y a * s) (z a * s).
Definition divideScalar (a : t) (s : R) : t := multiplyScalar a (1 / s).
Definition lengthSq (a : t) : R := x a * x a + y a * y a + z a * z a.
Definition length (a : t) : R := sqrt (x a * x a + y a * y a + z a * z a).
Definition normalize (a : t) : t := divideScalar a (JS.orElse (length a) 1).
Definition negate (a : t) : t := mk (- x a) (- y a) (- z a).
Definition distanceToSquared (a b : t) : R :=
  let dx := x a - x b in
  let dy := y a - y b in
  let dz := z a - z b in
  dx * dx + dy * dy + dz * dz.
Definition distanceTo (a b : t) : R := sqrt (distanceToSquared a b).
Definition lerp (a b : t) (alpha : R) : t :=
  mk (x a + (x b - x a) * alpha)
     (y a + (y b - y a) * alpha)
     (z a + (z b - z a) * alpha).
Definition setX (a : t) (v : R) : t := mk v (y a) (z a).
Definition setY (a : t) (v : R) : t := mk (x a) v (z a).
Definition setZ (a : t) (v : R) : t := mk (x a) (y a) v.
End Vector3.

(** Euler angles, always in the default order 'XYZ' in this program. *)
Module Euler.
Record t : Set := mk { x : R; y : R; z : R }.
Definition zero : t := mk 0 0 0.
Definition toVector3 (e : t) : Vector3.t := Vector3.mk (x e) (y e) (z e).
Definition setX (a : t) (v : R) : t := mk v (y a) (z a).
Definition setY (a : t) (v : R) : t := mk (x a) v (z a).
Definition setZ (a : t) (v : R) : t := mk (x a) (y a) v.
End Euler.

Module Quaternion.
Record t : Set := mk { x : R; y : R; z : R; w : R }.

Definition identity : t := mk 0 0 0 1.

(** [Quaternion.setFromEuler] for the order 'XYZ'. *)
Definition setFromEuler (e : Euler.t) : t :=
  let c1 := cos (Euler.x e / 2) in
  let c2 := cos (Euler.y e / 2) in
  let c3 := cos (Euler.z e / 2) in
  let s1 := sin (Euler.x e / 2) in
  let s2 := sin (Euler.y e / 2) in
  let s3 := sin (Euler.z e / 2) in
  mk (s1 * c2 * c3 + c1 * s2 * s3)
     (c1 * s2 * c3 - s1 * c2 * s3)
     (c1 * c2 * s3 + s1 * s2 * c3)
     (c1 * c2 * c3 - s1 * s2 * s3).

(** [Vector3.applyQuaternion]: v + w t + q x t with t = 2 (q x v). *)
Definition applyTo (q : t) (v : Vector3.t) : Vector3.t :=
  let vx := Vector3.x v in
  let vy := Vector3.y v in
  let vz := Vector3.z v in
  let tx := 2 * (y q * vz - z q * vy) in
  let ty := 2 * (z q * vx - x q * vz) in
  let tz := 2 * (x q * vy - y q * vx) in
  Vector3.mk (vx + w q * tx + y q * tz - z q * ty)
             (vy + w q * ty + z q * tx - x q * tz)
             (vz + w q * tz + x q * ty - y q * tx).
End Quaternion.

(** ** scripts/improved_physics.js: class ImprovedPhysicsEngine *)

Module ImprovedPhysicsEngine.

Inductive VehicleId : Set := starship | superHeavy.

Definition VehicleId_eqb (a b : VehicleId) : bool :=
  match a, b with
  | starship, starship | superHeavy, superHeavy => true
  | _, _ => false
  end.

(** The string values taken by [this.landingPhase]. *)
Inductive LandingPhase : Set :=
| none | coast | boostback | entry | descent | landing | touchdown
| approach | final | returning.

Definition LandingPhase_eqb (a b : LandingPhase) : bool :=
  match a, b with
  | none, none | coast, coast | boostback, boostback | entry, entry
  | descent, descent | landing, landing | touchdown, touchdown
  | approach, approach | final, final | returning, returning => true
  | _, _ => false
  end.

(** The string values taken by [this.returnParams.phase]. *)
Inductive ReturnPhase : Set := rCoast | rFlip | rBurn | rApproach.

Record Flaps : Set := mkFlaps {
  fl_deployed : bool;
  fl_effectiveness : R;
  fl_dragContribution : R }.

Record GridFins : Set := mkGridFins {
  gf_deployed : bool;
  gf_effectiveness : R;
  gf_dragContribution : R;
  gf_deploymentRate : R }.

Record LandingLegs : Set := mkLandingLegs {
  ll_deployed : bool;
  ll_deploymentProgress : R }.

Record HeatShield : Set := mkHeatShield {
  temperature : R;
  maxTemperature : R;
  coolingRate : R }.

(** One entry of [this.vehicles].  [gridFinDeflection], [quaternion] and
    [eulerAngles] are the fields [reset()] adds to the constructor's
    object; [flaps] exists on the starship only and [gridFins] on the
    booster only.  The constants [engineStartupTime],
    [engineShutdownTime] and the legs' [deploymentRate] are never read by
    the functions of this module and are left out; the landing sequence
    of [FlightPhases] takes the rate as an argument. *)
Record Vehicle : Set := mkVehicle {
  mass : R;
  fuel : R;
  maxThrust : R;
  dragCoefficient : R;
  crossSectionalArea : R;
  position : Vector3.t;
  velocity : Vector3.t;
  acceleration : Vector3.t;
  rotation : Euler.t;
  angularVelocity : Vector3.t;
  throttle : R;
  active : bool;
  flaps : option Flaps;
  gridFins : option GridFins;
  landingLegs : LandingLegs;
  gimbalAuthority : R;
  gimbalPosition : Vector2.t;
  heatShield : HeatShield;
  gridFinDeflection : R;
  quaternion : Quaternion.t;
  eulerAngles : Euler.t }.

Definition set_fuel (a : R) (v : Vehicle) : Vehicle :=
  let '(mkVehicle m _ mt dc ca p ve ac ro av th act fl gf ll ga gp hs gd q ea) := v in
  mkVehicle m a mt dc ca p ve ac ro av th act fl gf ll ga gp hs gd q ea.
Definition set_position (a : Vector3.t) (v : Vehicle) : Vehicle :=
  let '(mkVehicle m f mt dc ca _ ve ac ro av th act fl gf ll ga gp hs gd q ea) := v in
  mkVehicle m f mt dc ca a ve ac ro av th act fl gf ll ga gp hs gd q ea.
Definition set_velocity (a : Vector3.t) (v : Vehicle) : Vehicle :=
  let '(mkVehicle m f mt dc ca p _ ac ro av th act fl gf ll ga gp hs gd q ea) := v in
  mkVehicle m f mt dc ca p a ac ro av th act fl gf ll ga gp hs gd q ea.
Definition set_acceleration (a : Vector3.t) (v : Vehicle) : Vehicle :=
  let '(mkVehicle m f mt dc ca p ve _ ro av th act fl gf ll ga gp hs gd q ea) := v in
  mkVehicle m f mt dc ca p ve a ro av th act fl gf ll ga gp hs gd q ea.
Definition set_rotation (a : Euler.t) (v : Vehicle) : Vehicle :=
  let '(mkVehicle m f mt dc ca p ve ac _ av th act fl gf ll ga gp hs gd q ea) := v in
  mkVehicle m f mt dc ca p ve ac a av th act fl gf ll ga gp hs gd q ea.
Definition set_angularVelocity (a : Vector3.t) (v : Vehicle) : Vehicle :=
  let '(mkVehicle m f mt dc ca p ve ac ro _ th act fl gf ll ga gp hs gd q ea) := v in
  mkVehicle m f mt dc ca p ve ac ro a th act fl gf ll ga gp hs gd q ea.
Definition set_throttle (a : R) (v : Vehicle) : Vehicle :=
  let '(mkVehicle m f mt dc ca p ve ac ro av _ act fl gf ll ga gp hs gd q ea) := v in
  mkVehicle m f mt dc ca p ve ac ro av a act fl gf ll ga gp hs gd q ea.
Definition set_active (a : bool) (v : Vehicle) : Vehicle :=
  let '(mkVehicle m f mt dc ca p ve ac ro av th _ fl gf ll ga gp hs gd q ea) := v in
  mkVehicle m f mt dc ca p ve ac ro av th a fl gf ll ga gp hs gd q ea.
Definition set_gimbalPosition (a : Vector2.t) (v : Vehicle) : Vehicle :=
  let '(mkVehicle m f mt dc ca p ve ac ro av th act fl gf ll ga _ hs gd q ea) := v in
  mkVehicle m f mt dc ca p ve ac ro av th act fl gf ll ga a hs gd q ea.
Definition set_gridFinDeflection (a : R) (v : Vehicle) : Vehicle :=
  let '(mkVehicle m f mt dc ca p ve ac ro av th act fl gf ll ga gp hs _ q ea) := v in
  mkVehicle m f mt dc ca p ve ac ro av th act fl gf ll ga gp hs a q ea.
Definition set_quaternion (a : Quaternion.t) (v : Vehicle) : Vehicle :=
  let '(mkVehicle m f mt dc ca p ve ac ro av th act fl gf ll ga gp hs gd _ ea) := v in
  mkVehicle m f mt dc ca p ve ac ro av th act fl gf ll ga gp hs gd a ea.
Definition set_eulerAngles (a : Euler.t) (v : Vehicle) : Vehicle :=
  let '(mkVehicle m f mt dc ca p ve ac ro av th act fl gf ll ga gp hs gd q _) := v in
  mkVehicle m f mt dc ca p ve ac ro av th act fl gf ll ga gp hs gd q a.

(** A scalar entry of [this.pidControllers] (verticalVelocity). *)
Record PIDScalar : Set := mkPIDScalar {
  s_kP : R; s_kI : R; s_kD : R;
  s_setpoint : R;
  s_integral : R;
  s_previousError : R;
  s_output : R;
  s_maxOutput : R;
  s_minOutput : R }.

(** The Vector2 entry (horizontalPosition). *)
Record PIDVector2 : Set := mkPIDVector2 {
  h_kP : R; h_kI : R; h_kD : R;
  h_setpoint : Vector2.t;
  h_integral : Vector2.t;
  h_previousError : Vector2.t;
  h_output : Vector2.t;
  h_maxOutput : R;
  h_minOutput : R }.

(** The Vector3 entry (attitude); its setpoint is a [THREE.Euler]. *)
Record PIDVector3 : Set := mkPIDVector3 {
  a_kP : R; a_kI : R; a_kD : R;
  a_setpoint : Euler.t;
  a_integral : Vector3.t;
  a_previousError : Vector3.t;
  a_output : Vector3.t;
  a_maxOutput : R;
  a_minOutput : R }.

Record PIDControllers : Set := mkPIDControllers {
  verticalVelocity : PIDScalar;
  horizontalPosition : PIDVector2;
  attitude : PIDVector3 }.

(** [updatePID], branch [currentValue instanceof THREE.Vector2]. *)
Definition updatePID_Vector2 (controller : PIDVector2)
    (currentValue : Vector2.t) (deltaTime : R) : PIDVector2 * Vector2.t :=
  let error := Vector2.subVectors (h_setpoint controller) currentValue in
  let derivative :=
    Vector2.divideScalar
      (Vector2.subVectors error (h_previousError controller)) deltaTime in
  let integral0 :=
    Vector2.add (h_integral controller)
                (Vector2.multiplyScalar error deltaTime) in
  let integral :=
    if Vector2.length integral0 >? h_maxOutput controller
    then Vector2.multiplyScalar (Vector2.normalize integral0)
                                (h_maxOutput controller)
    else integral0 in
  let output0 :=
    Vector2.add
      (Vector2.add
         (Vector2.add Vector2.zero
                      (Vector2.multiplyScalar error (h_kP controller)))
         (Vector2.multiplyScalar integral (h_kI controller)))
      (Vector2.multiplyScalar derivative (h_kD controller)) in
  let output :=
    if Vector2.length output0 >? h_maxOutput controller
    then Vector2.multiplyScalar (Vector2.normalize output0)
                                (h_maxOutput controller)
    else output0 in
  (mkPIDVector2 (h_kP controller) (h_kI controller) (h_kD controller)
                (h_setpoint controller) integral error output
                (h_maxOutput controller) (h_minOutput controller),
   output).

(** A [currentValue] of the Vector3 branch: a [THREE.Vector3] or a
    [THREE.Euler], which the branch converts componentwise. *)
Inductive Value3 : Set :=
| ofVector3 (v : Vector3.t)
| ofEuler (e : Euler.t).

(** [updatePID], branch [instanceof THREE.Vector3 || instanceof THREE.Euler]. *)
Definition updatePID_Vector3 (controller : PIDVector3)
    (currentValue : Value3) (deltaTime : R) : PIDVector3 * Vector3.t :=
  let currentVector :=
    match currentValue with
    | ofEuler e => Vector3.mk (Euler.x e) (Euler.y e) (Euler.z e)
    | ofVector3 v => v
    end in
  let targetVector :=
    Vector3.mk (Euler.x (a_setpoint controller))
               (Euler.y (a_setpoint controller))
               (Euler.z (a_setpoint controller)) in
  let error := Vector3.subVectors targetVector currentVector in
  let derivative :=
    Vector3.divideScalar
      (Vector3.subVectors error (a_previousError controller)) deltaTime in
  let integral0 :=
    Vector3.add (a_integral controller)
                (Vector3.multiplyScalar error deltaTime) in
  let integral :=
    if Vector3.length integral0 >? a_maxOutput controller
    then Vector3.multiplyScalar (Vector3.normalize integral0)
                                (a_maxOutput controller)
    else integral0 in
  let output0 :=
    Vector3.add
      (Vector3.add
         (Vector3.add Vector3.zero
                      (Vector3.multiplyScalar error (a_kP controller)))
         (Vector3.multiplyScalar integral (a_kI controller)))
      (Vector3.multiplyScalar derivative (a_kD controller)) in
  let output :=
    if Vector3.length output0 >? a_maxOutput controller
    then Vector3.multiplyScalar (Vector3.normalize output0)
                                (a_maxOutput controller)
    else output0 in
  (mkPIDVector3 (a_kP controller) (a_kI controller) (a_kD controller)
                (a_setpoint controller) integral error output
                (a_maxOutput controller) (a_minOutput controller),
   output).

(** [updatePID], the scalar branch. *)
Definition updatePID_scalar (controller : PIDScalar)
    (currentValue : R) (deltaTime : R) : PIDScalar * R :=
  let error := s_setpoint controller - currentValue in
  let derivative := (error - s_previousError controller) / deltaTime in
  let integral0 := s_integral controller + error * deltaTime in
  let integral :=
    JS.max (s_minOutput controller)
           (JS.min (s_maxOutput controller) integral0) in
  let output0 :=
    (s_kP controller * error) + (s_kI controller * integral)
    + (s_kD controller * derivative) in
  let output :=
    JS.max (s_minOutput controller)
           (JS.min (s_maxOutput controller) output0) in
  (mkPIDScalar (s_kP controller) (s_kI controller) (s_kD controller)
               (s_setpoint controller) integral error output
               (s_maxOutput controller) (s_minOutput controller),
   output).

(** [updatePID] dispatches on the run-time class of [currentValue]; a
    controller and a measured value of one kind go together. *)
Inductive PIDCall : Set :=
| callScalar (controller : PIDScalar) (currentValue : R)
| callVector2 (controller : PIDVector2) (currentValue : Vector2.t)
| callVector3 (controller : PIDVector3) (currentValue : Value3).

Inductive PIDResult : Set :=
| resScalar (controller : PIDScalar) (output : R)
| resVector2 (controller : PIDVector2) (output : Vector2.t)
| resVector3 (controller : PIDVector3) (output : Vector3.t).

Definition updatePID (call : PIDCall) (deltaTime : R) : PIDResult :=
  match call with
  | callVector2 c v =>
      let '(c', o) := updatePID_Vector2 c v deltaTime in resVector2 c' o
  | callVector3 c v =>
      let '(c', o) := updatePID_Vector3 c v deltaTime in resVector3 c' o
  | callScalar c v =>
      let '(c', o) := updatePID_scalar c v deltaTime in resScalar c' o
  end.


(** [normalizeAngle]: the two [while] loops, each unrolled by a number of
    turns that is enough for its argument (see [normalizeAngle_range]). *)
Fixpoint whileAbove (n : nat) (angle : R) : R :=
  match n with
  | O => angle
  | S k => if angle >? PI then whileAbove k (angle - 2 * PI) else angle
  end.

Fixpoint whileBelow (n : nat) (angle : R) : R :=
  match n with
  | O => angle
  | S k => if angle <? - PI then whileBelow k (angle + 2 * PI) else angle
  end.

Definition turns (angle : R) : nat :=
  Z.to_nat (up (Rabs angle / (2 * PI))).

Definition normalizeAngle (angle : R) : R :=
  let angle1 := whileAbove (turns angle) angle in
  whileBelow (turns angle1) angle1.

(** [lerp(a, b, t)]. *)
Definition lerp (a b t : R) : R := a + (b - a) * JS.max 0 (JS.min 1 t).

Record LandingParams : Set := mkLandingParams {
  phaseStartTime : R;
  currentPhaseTime : R }.

Record ReturnParams : Set := mkReturnParams {
  startTime : R;
  coastDuration : R;
  turnDuration : R;
  burnDuration : R;
  phase : ReturnPhase }.

(** The engine object.  [separationTimer], [separationCompleted] and
    [returnParams] are created by the separation code; [None] stands for
    [null]/[undefined].  [landingStartAltitude], [hoverAltitude] and
    [touchdownSpeed] are installed together by the mission script's
    [startLandingSequence]; before that they are [undefined], every
    comparison with [landingStartAltitude] is false, and the other two are
    not read (they are read in phase 'final' only, which is entered
    through that comparison).  The altitude and throttle tables of
    [landingParams] and the launch timers, which the functions of this
    module never read, are left out; [FlightPhases.LandingTables] holds
    the tables for the landing sequence. *)
Record Engine : Set := mkEngine {
  gravity : R;
  combinedStage : bool;
  atmosphericDensity : R;
  vehicles_starship : Vehicle;
  vehicles_superHeavy : Vehicle;
  airDensitySeaLevel : R;
  landingTarget : Vector3.t;
  landingPhase : LandingPhase;
  landingParams : LandingParams;
  pidControllers : PIDControllers;
  atmosphereScaleHeight : R;
  simulationTime : R;
  windSpeed : R;
  windDirection : R;
  gustStrength : R;
  turbulenceIntensity : R;
  separationTimer : option R;
  separationCompleted : bool;
  returnParams : option ReturnParams;
  landingStartAltitude : option R;
  hoverAltitude : R;
  touchdownSpeed : R }.

Definition vehicles (e : Engine) (id : VehicleId) : Vehicle :=
  match id with
  | starship => vehicles_starship e
  | superHeavy => vehicles_superHeavy e
  end.

Definition set_vehicle (id : VehicleId) (a : Vehicle) (e : Engine) : Engine :=
  let '(mkEngine g cs ad vs vh sl lt lp lpar pid sh st ws wd gs ti sep sc rp lsa ha ts) := e in
  match id with
  | starship =>
      mkEngine g cs ad a vh sl lt lp lpar pid sh st ws wd gs ti sep sc rp lsa ha ts
  | superHeavy =>
      mkEngine g cs ad vs a sl lt lp lpar pid sh st ws wd gs ti sep sc rp lsa ha ts
  end.
Definition set_landingTarget (a : Vector3.t) (e : Engine) : Engine :=
  let '(mkEngine g cs ad vs vh sl _ lp lpar pid sh st ws wd gs ti sep sc rp lsa ha ts) := e in
  mkEngine g cs ad vs vh sl a lp lpar pid sh st ws wd gs ti sep sc rp lsa ha ts.
Definition set_landingPhase (a : LandingPhase) (e : Engine) : Engine :=
  let '(mkEngine g cs ad vs vh sl lt _ lpar pid sh st ws wd gs ti sep sc rp lsa ha ts) := e in
  mkEngine g cs ad vs vh sl lt a lpar pid sh st ws wd gs ti sep sc rp lsa ha ts.
Definition set_landingParams (a : LandingParams) (e : Engine) : Engine :=
  let '(mkEngine g cs ad vs vh sl lt lp _ pid sh st ws wd gs ti sep sc rp lsa ha ts) := e in
  mkEngine g cs ad vs vh sl lt lp a pid sh st ws wd gs ti sep sc rp lsa ha ts.
Definition set_pidControllers (a : PIDControllers) (e : Engine) : Engine :=
  let '(mkEngine g cs ad vs vh sl lt lp lpar _ sh st ws wd gs ti sep sc rp lsa ha ts) := e in
  mkEngine g cs ad vs vh sl lt lp lpar a sh st ws wd gs ti sep sc rp lsa ha ts.
Definition set_returnParams (a : option ReturnParams) (e : Engine) : Engine :=
  let '(mkEngine g cs ad vs vh sl lt lp lpar pid sh st ws wd gs ti sep sc _ lsa ha ts) := e in
  mkEngine g cs ad vs vh sl lt lp lpar pid sh st ws wd gs ti sep sc a lsa ha ts.
Definition set_landingSettings (lsa : option R) (ha ts : R) (e : Engine) : Engine :=
  let '(mkEngine g cs ad vs vh sl lt lp lpar pid sh st ws wd gs ti sep sc rp _ _ _) := e in
  mkEngine g cs ad vs vh sl lt lp lpar pid sh st ws wd gs ti sep sc rp lsa ha ts.

(** [setLandingTarget(target)]. *)
Definition setLandingTarget (e : Engine) (target : Vector3.t) : Engine :=
  set_landingTarget target e.

(** The numbers [Math.random()] returns to one call of [updateWind], in
    the order they are drawn. *)
Record WindDraws : Set := mkWindDraws {
  drawDirection : R;
  drawGustChance : R;
  drawGustStrength : R;
  drawTurbulence : R }.

(** [updateWind(deltaTime)]. *)
Definition updateWind (e : Engine) (rnd : WindDraws) (deltaTime : R) : Engine :=
  let '(mkEngine g cs ad vs vh sl lt lp lpar pid sh st ws wd gs ti sep sc rp lsa ha ts) := e in
  let wd' := wd + (drawDirection rnd - 0.5) * 0.01 in
  let gustProbability := 0.01 in
  let gs' :=
    if drawGustChance rnd <? gustProbability
    then drawGustStrength rnd * 5.0
    else gs * 0.95 in
  let ti' := drawTurbulence rnd * ws * 0.1 in
  mkEngine g cs ad vs vh sl lt lp lpar pid sh st ws wd' gs' ti' sep sc rp lsa ha ts.

(** *** calculateForces *)

(** [thrustForce]: the vector added inside [if (vehicle.throttle > 0)]. *)
Definition thrustForce (vehicle : Vehicle) : Vector3.t :=
  let thrustDirection :=
    Vector3.mk (Vector2.x (gimbalPosition vehicle) * 0.1)
               1.0
               (Vector2.y (gimbalPosition vehicle) * 0.1) in
  let rotationQuaternion := Quaternion.setFromEuler (rotation vehicle) in
  let thrustDirection :=
    Vector3.normalize (Quaternion.applyTo rotationQuaternion thrustDirection) in
  let thrustMagnitude := maxThrust vehicle * throttle vehicle in
  Vector3.multiplyScalar thrustDirection thrustMagnitude.

(** [densityFactor] at the vehicle's altitude. *)
Definition densityFactor (e : Engine) (vehicle : Vehicle) : R :=
  let altitude := Vector3.y (position vehicle) in
  exp (- altitude / 11000) * atmosphericDensity e.

(** The drag vector added inside [if (velocitySquared > 0)]. *)
Definition dragForce (e : Engine) (vehicle : Vehicle) : Vector3.t :=
  let velocitySquared := Vector3.lengthSq (velocity vehicle) in
  let dragMagnitude :=
    0.5 * densityFactor e vehicle * velocitySquared
    * dragCoefficient vehicle * crossSectionalArea vehicle in
  let dragDirection := Vector3.negate (Vector3.normalize (velocity vehicle)) in
  Vector3.multiplyScalar dragDirection dragMagnitude.

(** The wind vector added inside [if (this.windSpeed > 0 && ...)]. *)
Definition windForceOf (e : Engine) (vehicle : Vehicle) : Vector3.t :=
  let windDirection :=
    Vector3.mk (cos (windDirection e)) 0 (sin (windDirection e)) in
  let gustVector := Vector3.multiplyScalar windDirection (gustStrength e) in
  let windForce :=
    Vector3.multiplyScalar windDirection
      (windSpeed e * densityFactor e vehicle
       * crossSectionalArea vehicle * 0.5) in
  Vector3.add windForce gustVector.

(** The block "Thrust force" of [calculateForces]. *)
Definition addThrust (vehicle : Vehicle) (forces : Vector3.t) : Vector3.t :=
  if throttle vehicle >? 0
  then Vector3.add forces (thrustForce vehicle)
  else forces.

(** The block "Aerodynamic drag". *)
Definition addDrag (e : Engine) (vehicle : Vehicle) (forces : Vector3.t)
    : Vector3.t :=
  let velocitySquared := Vector3.lengthSq (velocity vehicle) in
  if velocitySquared >? 0
  then Vector3.add forces (dragForce e vehicle)
  else forces.

(** The block "Grid fin forces", which also adds the fins' torque to the
    vehicle's angular velocity. *)
Definition addGridFins (e : Engine) (vehicle : Vehicle) (dt : R)
    (forces : Vector3.t) : Vector3.t * Vehicle :=
  let densityFactor := densityFactor e vehicle in
  let velocitySquared := Vector3.lengthSq (velocity vehicle) in
  if (gridFinDeflection vehicle !== 0) && (densityFactor >? 0.001)
  then
    let finForce :=
      Vector3.mk
        (gridFinDeflection vehicle * velocitySquared * 0.01 * densityFactor)
        0 0 in
    (Vector3.add forces finForce,
     set_angularVelocity
       (Vector3.setZ (angularVelocity vehicle)
          (Vector3.z (angularVelocity vehicle)
           + gridFinDeflection vehicle * velocitySquared * 0.0001
             * densityFactor * dt))
       vehicle)
  else (forces, vehicle).

(** The block "Wind forces". *)
Definition addWind (e : Engine) (vehicle : Vehicle) (forces : Vector3.t)
    : Vector3.t :=
  if (windSpeed e >? 0) && (densityFactor e vehicle >? 0.001)
  then Vector3.add forces (windForceOf e vehicle)
  else forces.

(** [calculateForces(vehicle, dt)]: the net force, and the vehicle as the
    grid-fin block leaves it. *)
Definition calculateForces (e : Engine) (vehicle : Vehicle) (dt : R)
    : Vector3.t * Vehicle :=
  let forces := Vector3.mk 0 0 0 in
  let gravityForce := gravity e * (mass vehicle + fuel vehicle) in
  let forces := Vector3.setY forces (Vector3.y forces - gravityForce) in
  let forces := addThrust vehicle forces in
  let forces := addDrag e vehicle forces in
  let '(forces, vehicle) := addGridFins e vehicle dt forces in
  let forces := addWind e vehicle forces in
  (forces, vehicle).

(** [calculateAirDensity(altitude)]. *)
Definition calculateAirDensity (e : Engine) (altitude : R) : R :=
  airDensitySeaLevel e * exp (- altitude / atmosphereScaleHeight e).

(** [calculateDrag(vehicle, altitude)]; [id] tells which entry of
    [this.vehicles] the argument is. *)
Definition calculateDrag (e : Engine) (id : VehicleId) (altitude : R)
    : Vector3.t :=
  let vehicle := vehicles e id in
  let velocityMagnitude := Vector3.length (velocity vehicle) in
  if velocityMagnitude <? 0.01 then Vector3.mk 0 0 0 else
  let airDensity := calculateAirDensity e altitude in
  let dragCoefficient :=
    match id, gridFins vehicle, flaps vehicle with
    | superHeavy, Some fins, _ =>
        if gf_deployed fins
        then dragCoefficient vehicle
             + gf_dragContribution fins * gf_effectiveness fins
        else dragCoefficient vehicle
    | starship, _, Some fl =>
        if fl_deployed fl
        then dragCoefficient vehicle
             + fl_dragContribution fl * fl_effectiveness fl
        else dragCoefficient vehicle
    | _, _, _ => dragCoefficient vehicle
    end in
  let dragForceMagnitude :=
    0.5 * airDensity * velocityMagnitude * velocityMagnitude
    * dragCoefficient * crossSectionalArea vehicle in
  Vector3.multiplyScalar (Vector3.normalize (velocity vehicle))
                         (- dragForceMagnitude).


(** *** updateLandingControl *)

(** [updateLandingControl(vehicle, dt)].  In a landing phase other than
    'approach' and 'final' the source leaves [targetAltitudeRate]
    undefined and goes on with NaN; that case is outside the real-number
    embedding and is the result [None]. *)
Definition updateLandingControl (e : Engine) (vehicle : Vehicle) (dt : R)
    : option (Engine * Vehicle) :=
  let px := Vector3.x (position vehicle) in
  let py := Vector3.y (position vehicle) in
  let pz := Vector3.z (position vehicle) in
  let tx := Vector3.x (landingTarget e) in
  let tz := Vector3.z (landingTarget e) in
  let horizontalDistance := Vector2.length (Vector2.mk (px - tx) (pz - tz)) in
  let belowStart :=
    match landingStartAltitude e with
    | Some a => py <? a / 2
    | None => false
    end in
  let e :=
    if LandingPhase_eqb (landingPhase e) approach && belowStart
    then set_landingPhase final e else e in
  let pid := pidControllers e in
  let branch : option (R * PIDControllers * Vehicle) :=
    match landingPhase e with
    | approach =>
        let descentRate := JS.max (-50) (- py / 20) in
        let targetAltitudeRate := descentRate in
        let directionToTarget :=
          Vector3.normalize (Vector3.mk (tx - px) 0 (tz - pz)) in
        let targetAngle :=
          JS.atan2 (Vector3.x directionToTarget) (Vector3.z directionToTarget) in
        let currentAngle := Euler.y (rotation vehicle) in
        let angleError := normalizeAngle (targetAngle - currentAngle) in
        let '(att, attitudeOutput) :=
          updatePID_Vector3 (attitude pid)
            (ofVector3 (Vector3.mk 0 angleError 0)) dt in
        let vehicle :=
          set_angularVelocity
            (Vector3.setY (angularVelocity vehicle) (Vector3.y attitudeOutput))
            vehicle in
        let '(hor, horizontalOutput) :=
          updatePID_Vector2 (horizontalPosition pid)
            (Vector2.mk horizontalDistance 0) dt in
        let vehicle :=
          set_gridFinDeflection (Vector2.x horizontalOutput * 0.1) vehicle in
        Some (targetAltitudeRate,
              mkPIDControllers (verticalVelocity pid) hor att,
              vehicle)
    | final =>
        let hoverError := py - hoverAltitude e in
        let targetAltitudeRate :=
          if hoverError >? 0
          then - JS.min 20 (hoverError / 2)
          else - touchdownSpeed e in
        let horizontalError := Vector2.mk (tx - px) (tz - pz) in
        let error :=
          Vector2.mk (Vector2.x horizontalError) (Vector2.y horizontalError) in
        let '(hor, output) :=
          updatePID_Vector2 (horizontalPosition pid) error dt in
        let vehicle :=
          set_gimbalPosition
            (Vector2.mk (Vector2.x output * 0.05) (Vector2.y output * 0.05))
            vehicle in
        let attitudeError := - Euler.z (rotation vehicle) in
        let '(att, attitudeOutput) :=
          updatePID_Vector3 (attitude pid)
            (ofVector3 (Vector3.mk 0 0 attitudeError)) dt in
        let vehicle :=
          set_angularVelocity
            (Vector3.setZ (angularVelocity vehicle) (Vector3.z attitudeOutput))
            vehicle in
        Some (targetAltitudeRate,
              mkPIDControllers (verticalVelocity pid) hor att,
              vehicle)
    | _ => None
    end in
  match branch with
  | None => None
  | Some (targetAltitudeRate, pid, vehicle) =>
      let currentAltitudeRate := Vector3.y (velocity vehicle) in
      let altitudeRateError := targetAltitudeRate - currentAltitudeRate in
      let '(ver, throttleOutput) :=
        updatePID_scalar (verticalVelocity pid) altitudeRateError dt in
      let throttleAdjustment := throttleOutput in
      let targetThrottle := 0.5 + throttleAdjustment in
      let vehicle :=
        set_throttle (JS.max 0.1 (JS.min 1.0 targetThrottle)) vehicle in
      Some (set_pidControllers
              (mkPIDControllers ver (horizontalPosition pid) (attitude pid)) e,
            vehicle)
  end.

(** *** update *)

(** The steps of [update] and of [updateVehiclePhysics] from
    "Update acceleration" to the fuel consumption. *)
Definition integrate (forces : Vector3.t) (totalMass dt : R)
    (burning : bool) (vehicle : Vehicle) : Vehicle :=
  let acceleration :=
    Vector3.mk (Vector3.x forces / totalMass)
               (Vector3.y forces / totalMass)
               (Vector3.z forces / totalMass) in
  let velocity :=
    Vector3.mk (Vector3.x (velocity vehicle) + Vector3.x acceleration * dt)
               (Vector3.y (velocity vehicle) + Vector3.y acceleration * dt)
               (Vector3.z (velocity vehicle) + Vector3.z acceleration * dt) in
  let position :=
    Vector3.mk (Vector3.x (position vehicle) + Vector3.x velocity * dt)
               (Vector3.y (position vehicle) + Vector3.y velocity * dt)
               (Vector3.z (position vehicle) + Vector3.z velocity * dt) in
  let rotation :=
    Euler.mk
      (Euler.x (rotation vehicle) + Vector3.x (angularVelocity vehicle) * dt)
      (Euler.y (rotation vehicle) + Vector3.y (angularVelocity vehicle) * dt)
      (Euler.z (rotation vehicle) + Vector3.z (angularVelocity vehicle) * dt) in
  let fuel :=
    if burning && (throttle vehicle >? 0)
    then
      let fuelRate := maxThrust vehicle * throttle vehicle / 3000 in
      JS.max 0 (fuel vehicle - fuelRate * dt)
    else fuel vehicle in
  set_fuel fuel
    (set_rotation rotation
       (set_position position
          (set_velocity velocity
             (set_acceleration acceleration vehicle)))).

(** The body of [if (vehicle.position.y < 0)]. *)
Definition groundContact (vehicle : Vehicle) : Vehicle :=
  set_angularVelocity (Vector3.mk 0 0 0)
    (set_acceleration (Vector3.mk 0 0 0)
       (set_velocity (Vector3.mk 0 0 0)
          (set_position (Vector3.setY (position vehicle) 0) vehicle))).

(** One turn of the loop of [update] over [Object.entries(this.vehicles)]. *)
Definition updateVehicle (e : Engine) (id : VehicleId) (dt : R)
    : option Engine :=
  let vehicle := vehicles e id in
  if negb (active vehicle) then Some e else
  let '(forces, vehicle) := calculateForces e vehicle dt in
  let control :=
    if negb (LandingPhase_eqb (landingPhase e) none)
       && VehicleId_eqb id superHeavy
    then updateLandingControl e vehicle dt
    else Some (e, vehicle) in
  match control with
  | None => None
  | Some (e, vehicle) =>
      let totalMass := mass vehicle + fuel vehicle in
      let vehicle := integrate forces totalMass dt true vehicle in
      let vehicle :=
        set_quaternion (Quaternion.setFromEuler (rotation vehicle)) vehicle in
      let vehicle := set_eulerAngles (rotation vehicle) vehicle in
      if Vector3.y (position vehicle) <? 0
      then
        let vehicle := groundContact vehicle in
        let e :=
          if LandingPhase_eqb (landingPhase e) final
          then set_landingPhase touchdown e else e in
        Some (set_vehicle id vehicle e)
      else Some (set_vehicle id vehicle e)
  end.

(** [update(deltaTime, scene)]: the engine after the call. *)
Definition update (e : Engine) (rnd : WindDraws) (deltaTime : R)
    : option Engine :=
  let dt := JS.min deltaTime 0.1 in
  let e := updateWind e rnd dt in
  match updateVehicle e starship dt with
  | None => None
  | Some e => updateVehicle e superHeavy dt
  end.

(** [updateVehiclePhysics(vehicle, deltaTime, enginesOn)] on the entry
    [id] of [this.vehicles]. *)
Definition updateVehiclePhysics (e : Engine) (id : VehicleId)
    (deltaTime : R) (enginesOn : bool) : Engine :=
  let vehicle := vehicles e id in
  let dt := JS.min deltaTime 0.1 in
  let '(forces, vehicle) := calculateForces e vehicle dt in
  let totalMass := mass vehicle + fuel vehicle in
  if totalMass <=? 0 then set_vehicle id vehicle e else
  let vehicle := integrate forces totalMass dt enginesOn vehicle in
  if Vector3.y (position vehicle) <? 0
  then
    let vehicle := groundContact vehicle in
    let e :=
      if VehicleId_eqb id superHeavy
         && LandingPhase_eqb (landingPhase e) final
      then set_landingPhase touchdown e else e in
    set_vehicle id vehicle e
  else set_vehicle id vehicle e.

(** *** updateMechazillaCatch *)

Record CatchState : Set := mkCatchState {
  cs_position : Vector3.t;
  cs_velocity : Vector3.t;
  cs_quaternion : Quaternion.t;
  cs_eulerAngles : Euler.t;
  cs_acceleration : Vector3.t;
  distanceToCatch : R;
  catchComplete : bool;
  engineThrottle : R }.

(** [catchPosition]: the position of the Mechazilla arms. *)
Definition catchPosition : Vector3.t := Vector3.mk (-120) 100 0.

(** [updateMechazillaCatch(deltaTime)]. *)
Definition updateMechazillaCatch (e : Engine) (deltaTime : R)
    : Engine * CatchState :=
  let booster := vehicles e superHeavy in
  let dt := JS.min deltaTime 0.05 in
  let distanceToCatch := Vector3.distanceTo (position booster) catchPosition in
  let desiredSpeed := JS.min 5 (distanceToCatch * 0.1) in
  let direction :=
    Vector3.normalize (Vector3.subVectors catchPosition (position booster)) in
  let currentSpeed := Vector3.length (velocity booster) in
  let speedDiff := desiredSpeed - currentSpeed in
  let accelerationFactor := JS.min 2.0 (1.0 + (distanceToCatch * 0.01)) in
  let acceleration :=
    Vector3.multiplyScalar direction (speedDiff * accelerationFactor) in
  let maxAccel := 5.0 in
  let acceleration :=
    if Vector3.length acceleration >? maxAccel
    then Vector3.multiplyScalar (Vector3.normalize acceleration) maxAccel
    else acceleration in
  let booster :=
    set_acceleration (Vector3.lerp (ImprovedPhysicsEngine.acceleration booster)
                                   acceleration 0.2) booster in
  let booster :=
    set_throttle (0.1 + (0.2 * JS.min 1.0 (distanceToCatch / 50))) booster in
  let booster :=
    if JS.abs (Vector3.y (position booster) - Vector3.y catchPosition) >? 5
    then
      let verticalCorrection :=
        (Vector3.y catchPosition - Vector3.y (position booster)) * 0.1 in
      set_acceleration
        (Vector3.setY (ImprovedPhysicsEngine.acceleration booster)
           (Vector3.y (ImprovedPhysicsEngine.acceleration booster)
            + verticalCorrection))
        booster
    else booster in
  let e := updateVehiclePhysics (set_vehicle superHeavy booster e)
                                superHeavy deltaTime true in
  let booster := vehicles e superHeavy in
  let catchComplete := distanceToCatch <? 10 in
  let booster :=
    if distanceToCatch <? 50
    then
      set_rotation
        (Euler.mk (Euler.x (rotation booster) * 0.95)
                  (Euler.y (rotation booster))
                  (Euler.z (rotation booster) * 0.95))
        booster
    else booster in
  let quaternion := Quaternion.setFromEuler (rotation booster) in
  (set_vehicle superHeavy booster e,
   mkCatchState (position booster) (velocity booster) quaternion
                (rotation booster)
                (ImprovedPhysicsEngine.acceleration booster)
                distanceToCatch catchComplete (throttle booster)).


(** *** updateLaunch, updateAscent *)

(** [updateLaunch(deltaTime)]: the engine after the call. *)
Definition updateLaunch (e : Engine) (rnd : WindDraws) (deltaTime : R)
    : option Engine :=
  let booster := vehicles e superHeavy in
  let booster := set_active true booster in
  let booster := set_throttle 1.0 booster in
  let booster := set_rotation (Euler.mk 0 0 0) booster in
  let booster :=
    set_quaternion (Quaternion.setFromEuler (Euler.mk 0 0 0)) booster in
  update (set_vehicle superHeavy booster e) rnd deltaTime.

(** [updateAscent(deltaTime)]: the engine after the call. *)
Definition updateAscent (e : Engine) (rnd : WindDraws) (deltaTime : R)
    : option Engine :=
  let booster := set_throttle 0.9 (vehicles e superHeavy) in
  match update (set_vehicle superHeavy booster e) rnd deltaTime with
  | None => None
  | Some e =>
      let booster := vehicles e superHeavy in
      if Vector3.y (position booster) >? 500
      then
        let pitchAngle :=
          JS.min 0.2 ((Vector3.y (position booster) - 500) / 10000) in
        Some (set_vehicle superHeavy
                (set_rotation (Euler.setZ (rotation booster) pitchAngle)
                              booster) e)
      else Some e
  end.

(** *** initializeBoosterReturn *)

Definition initializeBoosterReturn (e : Engine) : Engine :=
  let e := set_landingTarget (Vector3.mk (-120) 0 0) e in
  let e := set_landingPhase returning e in
  set_returnParams
    (Some (mkReturnParams (simulationTime e) 10.0 5.0 15.0 rCoast)) e.

(** *** reset *)

(** The body of the loop of [reset] over [this.vehicles]. *)
Definition resetVehicle (vehicleKey : VehicleId) (vehicle : Vehicle) : Vehicle :=
  let vehicle :=
    set_position
      (Vector3.mk 0 (if VehicleId_eqb vehicleKey superHeavy then 0.1 else 60.75) 0)
      vehicle in
  let vehicle := set_velocity (Vector3.mk 0 0 0) vehicle in
  let vehicle := set_acceleration (Vector3.mk 0 0 0) vehicle in
  let vehicle := set_rotation (Euler.mk 0 0 0) vehicle in
  let vehicle := set_angularVelocity (Vector3.mk 0 0 0) vehicle in
  let vehicle := set_throttle 0 vehicle in
  let vehicle := set_gridFinDeflection 0 vehicle in
  let vehicle := set_gimbalPosition (Vector2.mk 0 0) vehicle in
  let vehicle := set_active true vehicle in
  let vehicle :=
    set_quaternion (Quaternion.setFromEuler (Euler.mk 0 0 0)) vehicle in
  set_eulerAngles (Euler.mk 0 0 0) vehicle.

(** The branch "Reset existing PID controllers" of [reset]. *)
Definition resetPIDControllers (pid : PIDControllers) : PIDControllers :=
  let v := verticalVelocity pid in
  let h := horizontalPosition pid in
  let a := attitude pid in
  mkPIDControllers
    (mkPIDScalar (s_kP v) (s_kI v) (s_kD v) 0 0 0 0
                 (s_maxOutput v) (s_minOutput v))
    (mkPIDVector2 (h_kP h) (h_kI h) (h_kD h)
                  (Vector2.mk 0 0) (Vector2.mk 0 0) (Vector2.mk 0 0)
                  (Vector2.mk 0 0) (h_maxOutput h) (h_minOutput h))
    (mkPIDVector3 (a_kP a) (a_kI a) (a_kD a)
                  (Euler.mk 0 0 0) (Vector3.mk 0 0 0) (Vector3.mk 0 0 0)
                  (Vector3.mk 0 0 0) (a_maxOutput a) (a_minOutput a)).

(** [reset()].  [this.vehicles], [this.landingParams] and
    [this.pidControllers] exist on every engine the constructor made, so
    the three "initialize if missing" branches are never taken. *)
Definition reset (e : Engine) : Engine :=
  let '(mkEngine g cs ad vs vh sl lt lp lpar pid sh st ws wd gs ti sep sc rp lsa ha ts) := e in
  mkEngine g true ad
           (resetVehicle starship vs) (resetVehicle superHeavy vh)
           sl lt none lpar (resetPIDControllers pid) sh 0
           0 wd 0 0 None false rp lsa ha ts.

(** *** The engine as the mission script's [init] leaves it *)

Definition newStarship : Vehicle :=
  mkVehicle 120000 1200000 7500000 0.82 (PI * 4.5 * 4.5)
            (Vector3.mk 0 60.75 0) (Vector3.mk 0 0 0) (Vector3.mk 0 0 0)
            (Euler.mk 0 0 0) (Vector3.mk 0 0 0) 0 true
            (Some (mkFlaps false 0.0 0.3)) None
            (mkLandingLegs false 0.0)
            15 (Vector2.mk 0 0) (mkHeatShield 300 1800 4)
            0 (Quaternion.setFromEuler (Euler.mk 0 0 0)) (Euler.mk 0 0 0).

Definition newSuperHeavy : Vehicle :=
  mkVehicle 200000 3400000 72000000 0.8 100
            (Vector3.mk 0 0.1 0) (Vector3.mk 0 0 0) (Vector3.mk 0 0 0)
            (Euler.mk 0 0 0) (Vector3.mk 0 0 0) 0 true
            None (Some (mkGridFins false 0.0 0.2 0.2))
            (mkLandingLegs false 0.0)
            10 (Vector2.mk 0 0) (mkHeatShield 300 2000 5)
            0 (Quaternion.setFromEuler (Euler.mk 0 0 0)) (Euler.mk 0 0 0).

Definition newPIDControllers : PIDControllers :=
  mkPIDControllers
    (mkPIDScalar 0.2 0.01 0.1 0 0 0 0 0.3 (-0.3))
    (mkPIDVector2 0.1 0.005 0.05 (Vector2.mk 0 0) (Vector2.mk 0 0)
                  (Vector2.mk 0 0) (Vector2.mk 0 0) 0.2 (-0.2))
    (mkPIDVector3 0.5 0.01 0.2 (Euler.mk 0 0 0) (Vector3.mk 0 0 0)
                  (Vector3.mk 0 0 0) (Vector3.mk 0 0 0) 0.1 (-0.1)).

(** [new ImprovedPhysicsEngine()] followed by [reset()], which creates
    [gridFinDeflection], [quaternion] and [eulerAngles] on the vehicles
    and places them on the pad.  The three landing settings are still
    undefined: [landingStartAltitude] is [None] and the two numbers next
    to it are placeholders that nothing reads before they are set. *)
Definition newEngine : Engine :=
  mkEngine 9.81 true 1.225 newStarship newSuperHeavy 1.225
           (Vector3.mk 0 0 0) none (mkLandingParams 0 0) newPIDControllers
           8500 0 0 0 0 0 None false None None 0 0.

End ImprovedPhysicsEngine.

(** ** aerospace_physics.js: the layered atmosphere of AerospacePhysicsEngine *)

Module AerospacePhysicsEngine.

Definition EARTH_GRAVITY : R := 9.80665.
Definition STANDARD_ATMOSPHERE : R := 101325.
Definition GAS_CONSTANT_AIR : R := 287.05.
Definition SCALE_HEIGHT : R := 8400.
Definition SEA_LEVEL_DENSITY : R := 1.225.
Definition SEA_LEVEL_TEMP : R := 288.15.
Definition LAPSE_RATE : R := 0.0065.

Record AtmosphericConditions : Set := mkAtmosphericConditions {
  temperature : R;
  pressure : R;
  density : R;
  windSpeed : R;
  windDirection : R }.

(** The part of the engine [updateAtmosphericConditions] reads and
    writes: the two vehicle positions and [this.atmosphericConditions]. *)
Record Engine : Set := mkEngine {
  starshipPosition : Vector3.t;
  superHeavyPosition : Vector3.t;
  atmosphericConditions : AtmosphericConditions }.

(** [Math.pow(x, y)] for a positive base. *)
Definition pow (x y : R) : R := Rpower x y.

(** The temperature and pressure computed for the reference altitude. *)
Definition layer (maxAltitude : R) : R * R :=
  if maxAltitude <? 11000 then
    let temperature := SEA_LEVEL_TEMP - LAPSE_RATE * maxAltitude in
    (temperature,
     STANDARD_ATMOSPHERE * pow (temperature / SEA_LEVEL_TEMP) 5.2561)
  else if maxAltitude <? 50000 then
    (216.65, 22632 * exp (-0.0001577 * (maxAltitude - 11000)))
  else
    (JS.max 180 (500 - maxAltitude * 0.008),
     JS.max 0.001 (STANDARD_ATMOSPHERE * exp (- maxAltitude / SCALE_HEIGHT))).

(** [updateAtmosphericConditions()]. *)
Definition updateAtmosphericConditions (e : Engine) : Engine :=
  let maxAltitude :=
    JS.max (Vector3.y (starshipPosition e)) (Vector3.y (superHeavyPosition e)) in
  let '(temperature, pressure) := layer maxAltitude in
  let density := pressure / (GAS_CONSTANT_AIR * temperature) in
  mkEngine (starshipPosition e) (superHeavyPosition e)
    (mkAtmosphericConditions temperature pressure density
       (windSpeed (atmosphericConditions e))
       (windDirection (atmosphericConditions e))).

(** The density the model computes when the higher vehicle is at
    [altitude]. *)
Definition densityAt (altitude : R) : R :=
  let '(temperature, pressure) := layer altitude in
  pressure / (GAS_CONSTANT_AIR * temperature).

(** The pressure the model computes when the higher vehicle is at
    [altitude]. *)
Definition pressureAt (altitude : R) : R := snd (layer altitude).

End AerospacePhysicsEngine.

(** ** mechazilla_catch.js: class MechazillaCatchSimulation *)

Module MechazillaCatchSimulation.

(** Plain [{x, y, z}] objects. *)
Record Point : Set := mkPoint { x : R; y : R; z : R }.

Record Orientation : Set := mkOrientation { roll : R; pitch : R; yaw : R }.

Record t : Set := mk {
  towerHeight : R;
  towerPosition : Point;
  armLength : R;
  armWidth : R;
  armPosition : Point;
  armSpread : R;
  armSpeed : R;
  armClosingSpeed : R;
  catchPointsHeight : R;
  catchPointsRadius : R;
  armsOpen : bool;
  armsVerticalPosition : R;
  armsHorizontalPosition : R;
  catchInProgress : bool;
  catchSuccessful : bool;
  catchFailed : bool;
  boosterPosition : Point;
  boosterVelocity : Point;
  boosterOrientation : Orientation;
  trackingError : Point;
  trackingActive : bool;
  trackingRange : R;
  trackingAccuracy : R }.

(** [new MechazillaCatchSimulation()]. *)
Definition new : t :=
  mk 146 (mkPoint (-50) 0 0) 20 2 (mkPoint (-50) 100 0) 15 2 1
     (71 * 0.8) 4.5 true 100 15 false false false
     (mkPoint 0 0 0) (mkPoint 0 0 0) (mkOrientation 0 0 0)
     (mkPoint 0 0 0) false 1000 0.1.

(** [initialize()]. *)
Definition initialize (s : t) : t :=
  let '(mk th tp al aw ap asp asd acs cph cpr _ _ _ _ _ _ bp bv bo te _ tr ta) := s in
  mk th tp al aw ap asp asd acs cph cpr true 100 15 false false false
     bp bv bo te false tr ta.

(** [reset()]. *)
Definition reset (s : t) : t :=
  let '(mk th tp al aw _ asp asd acs cph cpr _ _ _ _ _ _ bp bv bo te _ tr ta) := s in
  mk th tp al aw (mkPoint (-50) 100 0) asp asd acs cph cpr
     true 100 15 false false false bp bv bo te false tr ta.

(** [startTracking(boosterPosition, boosterVelocity)]; [rnd] holds the
    three numbers [Math.random()] returns when the booster is in range. *)
Definition startTracking (s : t) (rnd : Point)
    (boosterPosition boosterVelocity : Point) : t * bool :=
  let dx := x boosterPosition - x (towerPosition s) in
  let dy := y boosterPosition - y (towerPosition s) in
  let dz := z boosterPosition - z (towerPosition s) in
  let distance := sqrt (dx * dx + dy * dy + dz * dz) in
  if distance <=? trackingRange s then
    let '(mk th tp al aw ap asp asd acs cph cpr ao avp ahp cip csu cfa bp bv bo _ _ tr ta) := s in
    (mk th tp al aw ap asp asd acs cph cpr ao avp ahp cip csu cfa bp bv bo
        (mkPoint ((x rnd - 0.5) * 2 * ta)
                 ((y rnd - 0.5) * 2 * ta)
                 ((z rnd - 0.5) * 2 * ta))
        true tr ta,
     true)
  else (s, false).

(** [updateArmPosition(boosterPosition, deltaTime)]. *)
Definition updateArmPosition (s : t) (boosterPosition : Point)
    (deltaTime : R) : t * bool :=
  if negb (trackingActive s) then (s, false) else
  let targetHeight := y boosterPosition - (71 - catchPointsHeight s) in
  let heightDifference := targetHeight - armsVerticalPosition s in
  let heightMovement :=
    JS.min (JS.abs heightDifference) (armSpeed s * deltaTime)
    * JS.sign heightDifference in
  let vertical := armsVerticalPosition s + heightMovement in
  let vertical := JS.max 10 (JS.min vertical (towerHeight s - 10)) in
  let '(mk th tp al aw ap asp asd acs cph cpr ao _ ahp cip csu cfa bp bv bo te tac tr ta) := s in
  (mk th tp al aw (mkPoint (x ap) vertical (z ap)) asp asd acs cph cpr
      ao vertical ahp cip csu cfa bp bv bo te tac tr ta,
   JS.abs heightDifference <? 1).

(** [prepareForCatch()]. *)
Definition prepareForCatch (s : t) : t * bool :=
  if negb (trackingActive s) then (s, false) else
  let '(mk th tp al aw ap asp asd acs cph cpr _ avp _ _ csu cfa bp bv bo te tac tr ta) := s in
  (mk th tp al aw ap asp asd acs cph cpr true avp 15 true csu cfa
      bp bv bo te tac tr ta,
   true).

Definition set_arms (open : bool) (horizontal : R) (s : t) : t :=
  let '(mk th tp al aw ap asp asd acs cph cpr _ avp _ cip csu cfa bp bv bo te tac tr ta) := s in
  mk th tp al aw ap asp asd acs cph cpr open avp horizontal cip csu cfa
     bp bv bo te tac tr ta.
Definition set_catchSuccessful (b : bool) (s : t) : t :=
  let '(mk th tp al aw ap asp asd acs cph cpr ao avp ahp cip _ cfa bp bv bo te tac tr ta) := s in
  mk th tp al aw ap asp asd acs cph cpr ao avp ahp cip b cfa
     bp bv bo te tac tr ta.
Definition set_catchFailed (b : bool) (s : t) : t :=
  let '(mk th tp al aw ap asp asd acs cph cpr ao avp ahp cip csu _ bp bv bo te tac tr ta) := s in
  mk th tp al aw ap asp asd acs cph cpr ao avp ahp cip csu b
     bp bv bo te tac tr ta.
Definition set_booster (p v : Point) (o : Orientation) (s : t) : t :=
  let '(mk th tp al aw ap asp asd acs cph cpr ao avp ahp cip csu cfa _ _ _ te tac tr ta) := s in
  mk th tp al aw ap asp asd acs cph cpr ao avp ahp cip csu cfa
     p v o te tac tr ta.

(** [attemptCatch(boosterPosition, boosterVelocity, deltaTime)]. *)
Definition attemptCatch (s : t) (boosterPosition boosterVelocity : Point)
    (deltaTime : R) : t * bool :=
  if negb (catchInProgress s) then (s, false) else
  let dx := x boosterPosition - x (towerPosition s) in
  let dz := z boosterPosition - z (towerPosition s) in
  let horizontalDistance := sqrt (dx * dx + dz * dz) in
  if horizontalDistance <? 5 then
    let heightDifference :=
      JS.abs ((y boosterPosition - (71 - catchPointsHeight s))
              - armsVerticalPosition s) in
    if heightDifference <? 2 then
      if armsOpen s then
        let horizontal :=
          armsHorizontalPosition s - armClosingSpeed s * deltaTime in
        if horizontal <=? 5 then
          let s := set_arms false 5 s in
          let verticalVelocity := JS.abs (y boosterVelocity) in
          let horizontalVelocity :=
            sqrt (x boosterVelocity * x boosterVelocity
                  + z boosterVelocity * z boosterVelocity) in
          if (verticalVelocity <? 2) && (horizontalVelocity <? 1)
          then (set_catchSuccessful true s, true)
          else (set_catchFailed true s, false)
        else (set_arms true horizontal s, false)
      else (s, false)
    else
      if y boosterPosition <? armsVerticalPosition s - 5
      then (set_catchFailed true s, false)
      else (s, false)
  else if y boosterPosition <? 10
  then (set_catchFailed true s, false)
  else (s, false).

(** [update(deltaTime, boosterPosition, boosterVelocity,
    boosterOrientation)]: the simulation after the call, of which
    [getState()] returns a view. *)
Definition update (s : t) (rnd : Point) (deltaTime : R)
    (boosterPosition boosterVelocity : Point)
    (boosterOrientation : Orientation) : t :=
  let s := set_booster boosterPosition boosterVelocity boosterOrientation s in
  let s :=
    if negb (trackingActive s)
    then fst (startTracking s rnd boosterPosition boosterVelocity)
    else s in
  let '(s, armsInPosition) := updateArmPosition s boosterPosition deltaTime in
  let s :=
    if armsInPosition && negb (catchInProgress s)
    then fst (prepareForCatch s) else s in
  if catchInProgress s && negb (catchSuccessful s) && negb (catchFailed s)
  then fst (attemptCatch s boosterPosition boosterVelocity deltaTime)
  else s.

End MechazillaCatchSimulation.

(** ** The mission script: phase, commands *)

Module Main.

(** [MISSION_PHASES]. *)
Inductive MissionPhase : Set :=
| READY | LAUNCH | ASCENT | STAGE_SEPARATION | BOOSTER_RETURN
| STARSHIP_ASCENT | BOOSTER_LANDING | MECHAZILLA_CATCH | MISSION_COMPLETE.

Definition MissionPhase_eqb (a b : MissionPhase) : bool :=
  match a, b with
  | READY, READY | LAUNCH, LAUNCH | ASCENT, ASCENT
  | STAGE_SEPARATION, STAGE_SEPARATION | BOOSTER_RETURN, BOOSTER_RETURN
  | STARSHIP_ASCENT, STARSHIP_ASCENT | BOOSTER_LANDING, BOOSTER_LANDING
  | MECHAZILLA_CATCH, MECHAZILLA_CATCH
  | MISSION_COMPLETE, MISSION_COMPLETE => true
  | _, _ => false
  end.

(** The keys of [CAMERA_POSITIONS]. *)
Inductive CameraMode : Set := external | booster | starshipView | tower | tracking.

Definition CameraMode_eqb (a b : CameraMode) : bool :=
  match a, b with
  | external, external | booster, booster | starshipView, starshipView
  | tower, tower | tracking, tracking => true
  | _, _ => false
  end.

(** A scene model: the two fields of the mesh the commands touch. *)
Record Object3D : Set := mkObject3D {
  position : Vector3.t;
  quaternion : Quaternion.t }.

(** [THREE.Clock]. *)
Record Clock : Set := mkClock {
  startTime : R;
  oldTime : R;
  elapsedTime : R;
  running : bool }.

(** [Clock.start()], reading the time [now]. *)
Definition Clock_start (now : R) : Clock := mkClock now now 0 true.

(** The camera controller: the mode and the transition flag; the
    transition end points it also stores are rendering data. *)
Record CameraController : Set := mkCameraController {
  currentMode : CameraMode;
  transitioning : bool }.

(** [CameraController.setMode(mode, positions)]. *)
Definition setMode (c : CameraController) (mode : CameraMode) : CameraController :=
  if CameraMode_eqb mode (currentMode c) && negb (transitioning c)
  then c
  else mkCameraController mode true.

(** The [disabled] attribute of the four control buttons. *)
Record Buttons : Set := mkButtons {
  btn_launch : bool;
  btn_stage : bool;
  btn_landing : bool;
  btn_catch : bool }.

(** The module-level variables of the script and the page elements its
    commands write. *)
Record State : Set := mkState {
  currentPhase : MissionPhase;
  missionTime : R;
  isSimulationRunning : bool;
  starshipAscending : bool;
  physicsEngine : option ImprovedPhysicsEngine.Engine;
  superHeavy : option Object3D;
  starship : option Object3D;
  mechazillaCatch : option MechazillaCatchSimulation.t;
  clock : Clock;
  cameraController : CameraController;
  buttons : Buttons;
  missionStatus : string }.

(** [setCameraPosition(viewMode)] for a key of [CAMERA_POSITIONS]; the
    page has no element of class 'camera-button', so only the controller
    changes. *)
Definition setCameraPosition (viewMode : CameraMode) (s : State) : State :=
  let '(mkState cp mt run asc pe sh ss mc ck cam bt ms) := s in
  mkState cp mt run asc pe sh ss mc ck (setMode cam viewMode) bt ms.

(** [updateMissionStatus(status)]. *)
Definition updateMissionStatus (status : string) (s : State) : State :=
  let '(mkState cp mt run asc pe sh ss mc ck cam bt _) := s in
  mkState cp mt run asc pe sh ss mc ck cam bt status.

Definition toPoint (v : Vector3.t) : MechazillaCatchSimulation.Point :=
  MechazillaCatchSimulation.mkPoint (Vector3.x v) (Vector3.y v) (Vector3.z v).

(** [startLaunch()]; [now1] and [now2] are the times read by the two
    calls of [clock.start()].  Reading [.position] of a model that was
    not created throws, which ends the handler where it stands. *)
Definition startLaunch (now1 now2 : R) (s : State) : State :=
  if negb (MissionPhase_eqb (currentPhase s) READY) then s else
  match physicsEngine s with
  | None => s
  | Some engine =>
      let '(mkState cp mt run asc pe sh ss mc ck cam bt ms) := s in
      let ck := Clock_start now1 in
      let mt := 0 in
      let engine := ImprovedPhysicsEngine.reset engine in
      let asc := false in
      match sh with
      | None => mkState cp mt run asc (Some engine) sh ss mc ck cam bt ms
      | Some boosterModel =>
          let engine :=
            ImprovedPhysicsEngine.set_vehicle ImprovedPhysicsEngine.superHeavy
              (ImprovedPhysicsEngine.set_position (position boosterModel)
                 (ImprovedPhysicsEngine.vehicles engine ImprovedPhysicsEngine.superHeavy)) engine in
          match ss with
          | None => mkState cp mt run asc (Some engine) sh ss mc ck cam bt ms
          | Some shipModel =>
              let engine :=
                ImprovedPhysicsEngine.set_vehicle ImprovedPhysicsEngine.starship
                  (ImprovedPhysicsEngine.set_position (position shipModel)
                     (ImprovedPhysicsEngine.vehicles engine ImprovedPhysicsEngine.starship)) engine in
              let cp := LAUNCH in
              let run := true in
              let ck := Clock_start now2 in
              let bt := mkButtons (btn_launch bt) false (btn_landing bt) (btn_catch bt) in
              let engine :=
                ImprovedPhysicsEngine.set_vehicle ImprovedPhysicsEngine.superHeavy
                  (ImprovedPhysicsEngine.set_throttle 1.0 (ImprovedPhysicsEngine.vehicles engine ImprovedPhysicsEngine.superHeavy))
                  engine in
              let ms := "Launch sequence initiated"%string in
              let bt := mkButtons true (btn_stage bt) (btn_landing bt) (btn_catch bt) in
              mkState cp mt run asc (Some engine) sh ss mc ck cam bt ms
          end
      end
  end.

(** [triggerStageSeparation()].  Outside READY the engine exists (it is
    created before the handlers are installed); with the models present
    and no engine the handler would throw at its first engine access. *)
Definition triggerStageSeparation (s : State) : State :=
  if negb (MissionPhase_eqb (currentPhase s) ASCENT) then s else
  let '(mkState cp mt run asc pe sh ss mc ck cam bt ms) := s in
  let finish pe ss :=
    let bt := mkButtons (btn_launch bt) (btn_stage bt) false (btn_catch bt) in
    let bt := mkButtons (btn_launch bt) true (btn_landing bt) (btn_catch bt) in
    mkState STAGE_SEPARATION mt run asc pe sh ss mc ck cam bt
            "Stage separation in progress"%string in
  match ss, sh with
  | Some shipModel, Some boosterModel =>
      let starshipOffset := Vector3.mk 0 ((71 / 2) + (50 / 2) + 0.5) 0 in
      let shipModel :=
        mkObject3D (Vector3.add (position boosterModel) starshipOffset)
                   (quaternion boosterModel) in
      match pe with
      | None => mkState cp mt run asc pe sh (Some shipModel) mc ck cam bt ms
      | Some engine =>
          let engine :=
            ImprovedPhysicsEngine.set_vehicle ImprovedPhysicsEngine.superHeavy
              (ImprovedPhysicsEngine.set_position (position boosterModel)
                 (ImprovedPhysicsEngine.vehicles engine ImprovedPhysicsEngine.superHeavy)) engine in
          let engine :=
            ImprovedPhysicsEngine.set_vehicle ImprovedPhysicsEngine.starship
              (ImprovedPhysicsEngine.set_position (position shipModel)
                 (ImprovedPhysicsEngine.vehicles engine ImprovedPhysicsEngine.starship)) engine in
          let currentVelocity :=
            ImprovedPhysicsEngine.velocity (ImprovedPhysicsEngine.vehicles engine ImprovedPhysicsEngine.superHeavy) in
          let engine :=
            ImprovedPhysicsEngine.set_vehicle ImprovedPhysicsEngine.starship
              (ImprovedPhysicsEngine.set_velocity currentVelocity
                 (ImprovedPhysicsEngine.vehicles engine ImprovedPhysicsEngine.starship)) engine in
          finish (Some engine) (Some shipModel)
      end
  | _, _ => finish pe ss
  end.

(** [startLandingSequence()]. *)
Definition startLandingSequence (s : State) : State :=
  if negb (MissionPhase_eqb (currentPhase s) BOOSTER_RETURN) then s else
  match physicsEngine s with
  | None => s
  | Some engine =>
      let engine :=
        match ImprovedPhysicsEngine.landingStartAltitude engine with
        | None => ImprovedPhysicsEngine.set_landingSettings (Some 5000) 50 2 engine
        | Some a =>
            if a !== 0 then engine
            else ImprovedPhysicsEngine.set_landingSettings (Some 5000) 50 2 engine
        end in
      let engine :=
        ImprovedPhysicsEngine.set_vehicle ImprovedPhysicsEngine.superHeavy
          (ImprovedPhysicsEngine.set_throttle 0.3 (ImprovedPhysicsEngine.vehicles engine ImprovedPhysicsEngine.superHeavy))
          engine in
      let engine := ImprovedPhysicsEngine.set_landingPhase ImprovedPhysicsEngine.coast engine in
      let engine :=
        ImprovedPhysicsEngine.set_landingParams (ImprovedPhysicsEngine.mkLandingParams (missionTime s) 0) engine in
      let s := setCameraPosition booster s in
      let '(mkState cp mt run asc pe sh ss mc ck cam bt ms) := s in
      let bt := mkButtons (btn_launch bt) (btn_stage bt) (btn_landing bt) false in
      let bt := mkButtons (btn_launch bt) (btn_stage bt) true (btn_catch bt) in
      mkState BOOSTER_LANDING mt run asc (Some engine) sh ss mc ck cam bt
              "Booster landing sequence initiated"%string
  end.

(** [startMechazillaCatch()]; [rnd] holds the numbers [Math.random()]
    returns to [startTracking]. *)
Definition startMechazillaCatch (rnd : MechazillaCatchSimulation.Point)
    (s : State) : State :=
  if negb (MissionPhase_eqb (currentPhase s) BOOSTER_LANDING) then s else
  let '(mkState cp mt run asc pe sh ss mc ck cam bt ms) := s in
  let sim :=
    match mc with
    | None => MechazillaCatchSimulation.new
    | Some sim => sim
    end in
  let sim := MechazillaCatchSimulation.reset sim in
  let sim := MechazillaCatchSimulation.initialize sim in
  match pe with
  | None => mkState cp mt run asc pe sh ss (Some sim) ck cam bt ms
  | Some engine =>
      let boosterV := ImprovedPhysicsEngine.vehicles engine ImprovedPhysicsEngine.superHeavy in
      let sim :=
        fst (MechazillaCatchSimulation.startTracking sim rnd
               (toPoint (ImprovedPhysicsEngine.position boosterV))
               (toPoint (ImprovedPhysicsEngine.velocity boosterV))) in
      let sim := fst (MechazillaCatchSimulation.prepareForCatch sim) in
      let s :=
        setCameraPosition tower
          (mkState cp mt run asc pe sh ss (Some sim) ck cam bt ms) in
      let '(mkState cp mt run asc pe sh ss mc ck cam bt ms) := s in
      let bt := mkButtons (btn_launch bt) (btn_stage bt) (btn_landing bt) true in
      mkState MECHAZILLA_CATCH mt run asc pe sh ss mc ck cam bt
              "Mechazilla catch sequence initiated"%string
  end.

(** The four commands of the control panel. *)
Inductive Command : Set :=
| CmdLaunch (now1 now2 : R)
| CmdStageSeparation
| CmdLanding
| CmdCatch (rnd : MechazillaCatchSimulation.Point).

Definition run (c : Command) (s : State) : State :=
  match c with
  | CmdLaunch now1 now2 => startLaunch now1 now2 s
  | CmdStageSeparation => triggerStageSeparation s
  | CmdLanding => startLandingSequence s
  | CmdCatch rnd => startMechazillaCatch rnd s
  end.

(** The phase each command is documented to act from. *)
Definition predecessor (c : Command) : MissionPhase :=
  match c with
  | CmdLaunch _ _ => READY
  | CmdStageSeparation => ASCENT
  | CmdLanding => BOOSTER_RETURN
  | CmdCatch _ => BOOSTER_LANDING
  end.

End Main.

(** ** Vocabulary of the statements *)

Module PIDRun.

Import ImprovedPhysicsEngine.

(** A controller object of one of the three kinds [updatePID] handles. *)
Inductive Controller : Set :=
| CScalar (c : PIDScalar)
| CVector2 (c : PIDVector2)
| CVector3 (c : PIDVector3).

(** A measured value passed as [currentValue]. *)
Inductive Measured : Set :=
| mScalar (r : R)
| mVector2 (v : Vector2.t)
| mVector3 (v : Value3).

Inductive Kind : Set := kScalar | kVector2 | kVector3.

Definition kindOf (c : Controller) : Kind :=
  match c with
  | CScalar _ => kScalar
  | CVector2 _ => kVector2
  | CVector3 _ => kVector3
  end.

Definition kindOfMeasured (m : Measured) : Kind :=
  match m with
  | mScalar _ => kScalar
  | mVector2 _ => kVector2
  | mVector3 _ => kVector3
  end.

(** The call [updatePID(controller, currentValue, _)], when the measured
    value is of the controller's kind. *)
Definition toCall (c : Controller) (m : Measured) : option PIDCall :=
  match c, m with
  | CScalar c, mScalar r => Some (callScalar c r)
  | CVector2 c, mVector2 v => Some (callVector2 c v)
  | CVector3 c, mVector3 v => Some (callVector3 c v)
  | _, _ => None
  end.

(** The controller object after a call. *)
Definition controllerOf (r : PIDResult) : Controller :=
  match r with
  | resScalar c _ => CScalar c
  | resVector2 c _ => CVector2 c
  | resVector3 c _ => CVector3 c
  end.

(** The controller after each call of a sequence of [updatePID] calls on
    it, each call given as its measured value and its time step. *)
Fixpoint run (c : Controller) (calls : list (Measured * R))
    : option (list Controller) :=
  match calls with
  | [] => Some []
  | (m, deltaTime) :: rest =>
      match toCall c m with
      | None => None
      | Some call =>
          let c' := controllerOf (updatePID call deltaTime) in
          match run c' rest with
          | None => None
          | Some trace => Some (c' :: trace)
          end
      end
  end.

(** Bounds that describe an interval (scalar) or a magnitude (vectors). *)
Definition wellConfigured (c : Controller) : Prop :=
  match c with
  | CScalar c => s_minOutput c <= s_maxOutput c
  | CVector2 c => 0 <= h_maxOutput c
  | CVector3 c => 0 <= a_maxOutput c
  end.

(** Output and integral of [c] lie within the bounds configured in [c0]. *)
Definition withinBounds (c0 c : Controller) : Prop :=
  match c0, c with
  | CScalar c0, CScalar c =>
      s_minOutput c0 <= s_output c <= s_maxOutput c0
      /\ s_minOutput c0 <= s_integral c <= s_maxOutput c0
  | CVector2 c0, CVector2 c =>
      Vector2.length (h_output c) <= h_maxOutput c0
      /\ Vector2.length (h_integral c) <= h_maxOutput c0
  | CVector3 c0, CVector3 c =>
      Vector3.length (a_output c) <= a_maxOutput c0
      /\ Vector3.length (a_integral c) <= a_maxOutput c0
  | _, _ => False
  end.

(** [c] carries the bounds configured in [c0]. *)
Definition sameBounds (c0 c : Controller) : Prop :=
  match c0, c with
  | CScalar c0, CScalar c =>
      s_minOutput c = s_minOutput c0 /\ s_maxOutput c = s_maxOutput c0
  | CVector2 c0, CVector2 c => h_maxOutput c = h_maxOutput c0
  | CVector3 c0, CVector3 c => a_maxOutput c = a_maxOutput c0
  | _, _ => False
  end.

End PIDRun.

(** ** Concrete states used in the examples *)

Module Scenario.

Import ImprovedPhysicsEngine.

(** The booster on the pad with empty tanks and the throttle fully open. *)
Definition spentBooster : Vehicle :=
  set_throttle 1 (set_fuel 0 newSuperHeavy).

(** The page as [init] leaves it: phase READY, engine created and reset,
    both models loaded at the pad, only the launch button enabled. *)
Definition readyState : Main.State :=
  Main.mkState Main.READY 0 false false
    (Some (setLandingTarget newEngine (Vector3.mk (-120) 0 0)))
    (Some (Main.mkObject3D (Vector3.mk 0 0 0) Quaternion.identity))
    (Some (Main.mkObject3D (Vector3.mk 0 61 0) Quaternion.identity))
    None (Main.mkClock 0 0 0 false)
    (Main.mkCameraController Main.external false)
    (Main.mkButtons false true true true)
    "Ready for launch"%string.

(** The catch simulation tracking the booster, catch in progress, the arms
    at tower height 100 m and half a metre from closed. *)
Definition armsClosing : MechazillaCatchSimulation.t :=
  MechazillaCatchSimulation.mk
    146 (MechazillaCatchSimulation.mkPoint (-50) 0 0) 20 2
    (MechazillaCatchSimulation.mkPoint (-50) 100 0) 15 2 1
    (71 * 0.8) 4.5 true 100 5.5 true false false
    (MechazillaCatchSimulation.mkPoint (-50) 114.2 0)
    (MechazillaCatchSimulation.mkPoint 0 (-1) 0)
    (MechazillaCatchSimulation.mkOrientation 0 0 0)
    (MechazillaCatchSimulation.mkPoint 0 0 0) true 1000 0.1.

(** The booster on the tower axis with its catch points at arm height. *)
Definition boosterAtArms : MechazillaCatchSimulation.Point :=
  MechazillaCatchSimulation.mkPoint (-50) 114.2 0.

(** The engine after a landing: the booster standing on the ground. *)
Definition landedEngine : Engine :=
  set_vehicle superHeavy
    (set_position (Vector3.mk 0 0 0) newSuperHeavy) newEngine.

(** Vacuum: the engine with its sea-level density set to 0, the booster
    0.1 m above the pad and falling at 10 m/s with its engines off. *)
Definition divingInVacuum : Engine :=
  mkEngine 9.81 true 0 newStarship
           (set_velocity (Vector3.mk 0 (-10) 0) newSuperHeavy) 1.225
           (Vector3.mk 0 0 0) none (mkLandingParams 0 0) newPIDControllers
           8500 0 0 0 0 0 None false None None 0 0.

(** Vacuum, the booster 1000 m up and rising at 5 m/s, engines off. *)
Definition coastingInVacuum : Engine :=
  mkEngine 9.81 true 0 newStarship
           (set_velocity (Vector3.mk 0 5 0)
              (set_position (Vector3.mk 0 1000 0) newSuperHeavy)) 1.225
           (Vector3.mk 0 0 0) none (mkLandingParams 0 0) newPIDControllers
           8500 0 0 0 0 0 None false None None 0 0.

(** The booster hovering at rest 10.01 m above the catch point. *)
Definition aboveCatchPoint : Engine :=
  set_vehicle superHeavy
    (set_position (Vector3.mk (-120) 110.01 0) newSuperHeavy) newEngine.

(** Four draws of [Math.random()] for [updateWind]: no change of
    direction, no gust, no turbulence. *)
Definition stillAir : WindDraws := mkWindDraws 0.5 0.5 0 0.


End Scenario.

(** ** The catch envelope *)

Module CatchEnvelope.

Import MechazillaCatchSimulation.

(** The velocity limits of a successful catch: vertical speed under 2 m/s
    and horizontal speed under 1 m/s. *)
Definition withinLimits (boosterVelocity : Point) : Prop :=
  Rabs (y boosterVelocity) < 2
  /\ sqrt (x boosterVelocity * x boosterVelocity
           + z boosterVelocity * z boosterVelocity) < 1.

(** What the steps of [update] before [attemptCatch] leave alone. *)
Definition keepsOutcome (f : t -> t) : Prop :=
  forall s,
    catchSuccessful (f s) = catchSuccessful s
    /\ catchFailed (f s) = catchFailed s
    /\ (armsOpen s = true -> armsOpen (f s) = true).

(** The booster is on the tower's axis: less than 5 m from it,
    horizontally. *)
Definition aligned (s : t) (boosterPosition : Point) : Prop :=
  sqrt ((x boosterPosition - x (towerPosition s))
        * (x boosterPosition - x (towerPosition s))
        + (z boosterPosition - z (towerPosition s))
          * (z boosterPosition - z (towerPosition s))) < 5.

(** The booster's catch points are less than 2 m from the arms' height. *)
Definition atArmHeight (s : t) (boosterPosition : Point) : Prop :=
  Rabs ((y boosterPosition - (71 - catchPointsHeight s))
        - armsVerticalPosition s) < 2.

(** The arms fully close in a catch attempt on [s] with time step
    [deltaTime]: they are open, the booster is on the axis and at arm
    height, and the closing step brings their spread to 5 m or less. *)
Definition armsClose (s : t) (boosterPosition : Point) (deltaTime : R)
    : Prop :=
  armsOpen s = true
  /\ aligned s boosterPosition /\ atArmHeight s boosterPosition
  /\ armsHorizontalPosition s - armClosingSpeed s * deltaTime <= 5.

(** The booster has missed the arms: on the axis, away from arm height and
    more than 5 m below the arms; or off the axis and below 10 m. *)
Definition missed (s : t) (boosterPosition : Point) : Prop :=
  (aligned s boosterPosition /\ ~ atArmHeight s boosterPosition
   /\ y boosterPosition < armsVerticalPosition s - 5)
  \/ (~ aligned s boosterPosition /\ y boosterPosition < 10).

End CatchEnvelope.

(** ** Vehicle motion *)

Module Motion.

Import ImprovedPhysicsEngine.

(** A vehicle resting on the ground. *)
Definition atRest (v : Vehicle) : Prop :=
  Vector3.y (position v) = 0
  /\ velocity v = Vector3.mk 0 0 0
  /\ acceleration v = Vector3.mk 0 0 0
  /\ angularVelocity v = Vector3.mk 0 0 0.

(** [v'] differs from [v] in control fields only: the fields the force
    model and the integrator read for the translation are the same. *)
Definition sameBody (v v' : Vehicle) : Prop :=
  mass v' = mass v /\ fuel v' = fuel v /\ maxThrust v' = maxThrust v
  /\ dragCoefficient v' = dragCoefficient v
  /\ crossSectionalArea v' = crossSectionalArea v
  /\ position v' = position v /\ velocity v' = velocity v
  /\ acceleration v' = acceleration v /\ active v' = active v.

(** The acceleration, velocity and position the integrator computes from
    a net force, a total mass and a time step. *)
Definition accelerationOf (forces : Vector3.t) (totalMass : R) : Vector3.t :=
  Vector3.mk (Vector3.x forces / totalMass)
             (Vector3.y forces / totalMass)
             (Vector3.z forces / totalMass).

Definition velocityAfter (v : Vehicle) (forces : Vector3.t)
    (totalMass dt : R) : Vector3.t :=
  let a := accelerationOf forces totalMass in
  Vector3.mk (Vector3.x (velocity v) + Vector3.x a * dt)
             (Vector3.y (velocity v) + Vector3.y a * dt)
             (Vector3.z (velocity v) + Vector3.z a * dt).

Definition positionAfter (v : Vehicle) (forces : Vector3.t)
    (totalMass dt : R) : Vector3.t :=
  let u := velocityAfter v forces totalMass dt in
  Vector3.mk (Vector3.x (position v) + Vector3.x u * dt)
             (Vector3.y (position v) + Vector3.y u * dt)
             (Vector3.z (position v) + Vector3.z u * dt).

(** The engine-wide settings the force model reads. *)
Definition sameSettings (e e' : Engine) : Prop :=
  gravity e' = gravity e /\ atmosphericDensity e' = atmosphericDensity e
  /\ windSpeed e' = windSpeed e.

End Motion.

(** ** Vocabulary of the further properties *)

Module Frame.

Import ImprovedPhysicsEngine.

(** [v'] has the control and equipment fields of [v]: the fields the
    integrator and the ground contact leave alone. *)
Definition sameControls (v v' : Vehicle) : Prop :=
  throttle v' = throttle v /\ maxThrust v' = maxThrust v
  /\ mass v' = mass v /\ active v' = active v
  /\ gridFins v' = gridFins v /\ flaps v' = flaps v
  /\ landingLegs v' = landingLegs v /\ heatShield v' = heatShield v
  /\ gimbalPosition v' = gimbalPosition v
  /\ gimbalAuthority v' = gimbalAuthority v
  /\ gridFinDeflection v' = gridFinDeflection v.

(** [e'] differs from [e] in its vehicles and its landing phase only. *)
Definition sameMission (e e' : Engine) : Prop :=
  gravity e' = gravity e
  /\ combinedStage e' = combinedStage e
  /\ atmosphericDensity e' = atmosphericDensity e
  /\ airDensitySeaLevel e' = airDensitySeaLevel e
  /\ atmosphereScaleHeight e' = atmosphereScaleHeight e
  /\ landingTarget e' = landingTarget e
  /\ landingParams e' = landingParams e
  /\ pidControllers e' = pidControllers e
  /\ simulationTime e' = simulationTime e
  /\ separationTimer e' = separationTimer e
  /\ separationCompleted e' = separationCompleted e
  /\ returnParams e' = returnParams e.

(** [e'] has the surroundings and the vehicles of [e]: what the clock and
    the phase bookkeeping of the landing sequence leave alone. *)
Definition sameWorld (e e' : Engine) : Prop :=
  gravity e' = gravity e
  /\ airDensitySeaLevel e' = airDensitySeaLevel e
  /\ atmosphereScaleHeight e' = atmosphereScaleHeight e
  /\ landingTarget e' = landingTarget e
  /\ vehicles_starship e' = vehicles_starship e
  /\ vehicles_superHeavy e' = vehicles_superHeavy e.

(** A call of the landing sequence in which every operation of the
    source yields a number: a positive time step (the controllers divide
    by it), gravity and the booster's altitude not negative (the landing
    burn takes the square root of their product), a sea-level density
    that is not negative and a positive scale height (the heating rate
    takes the square root of the air density). *)
Definition numeric (e : Engine) (deltaTime : R) : Prop :=
  0 < deltaTime
  /\ 0 <= gravity e
  /\ 0 <= Vector3.y (position (vehicles e superHeavy))
  /\ 0 <= airDensitySeaLevel e
  /\ 0 < atmosphereScaleHeight e.

End Frame.

Module ArmsFrame.

Import MechazillaCatchSimulation.

(** What the steps of [update] before the catch attempt keep. *)
Definition keepsArms (s s' : t) : Prop :=
  catchSuccessful s' = catchSuccessful s
  /\ catchFailed s' = catchFailed s
  /\ armClosingSpeed s' = armClosingSpeed s
  /\ armsHorizontalPosition s' = armsHorizontalPosition s
  /\ catchInProgress s' = catchInProgress s.

End ArmsFrame.

(** ** scripts/improved_physics.js: class ImprovedPhysicsEngine, the thermal
    model and the updates of the flight phases *)

Module FlightPhases.

Import ImprovedPhysicsEngine.

Definition set_heatShield (a : HeatShield) (v : Vehicle) : Vehicle :=
  let '(mkVehicle m f mt dc ca p ve ac ro av th act fl gf ll ga gp _ gd q ea) := v in
  mkVehicle m f mt dc ca p ve ac ro av th act fl gf ll ga gp a gd q ea.
Definition set_gridFins (a : option GridFins) (v : Vehicle) : Vehicle :=
  let '(mkVehicle m f mt dc ca p ve ac ro av th act fl _ ll ga gp hs gd q ea) := v in
  mkVehicle m f mt dc ca p ve ac ro av th act fl a ll ga gp hs gd q ea.
Definition set_landingLegs (a : LandingLegs) (v : Vehicle) : Vehicle :=
  let '(mkVehicle m f mt dc ca p ve ac ro av th act fl gf _ ga gp hs gd q ea) := v in
  mkVehicle m f mt dc ca p ve ac ro av th act fl gf a ga gp hs gd q ea.

Definition set_simulationTime (a : R) (e : Engine) : Engine :=
  let '(mkEngine g cs ad vs vh sl lt lp lpar pid sh _ ws wd gs ti sep sc rp lsa ha ts) := e in
  mkEngine g cs ad vs vh sl lt lp lpar pid sh a ws wd gs ti sep sc rp lsa ha ts.
Definition set_combinedStage (a : bool) (e : Engine) : Engine :=
  let '(mkEngine g _ ad vs vh sl lt lp lpar pid sh st ws wd gs ti sep sc rp lsa ha ts) := e in
  mkEngine g a ad vs vh sl lt lp lpar pid sh st ws wd gs ti sep sc rp lsa ha ts.
Definition set_separationTimer (a : option R) (e : Engine) : Engine :=
  let '(mkEngine g cs ad vs vh sl lt lp lpar pid sh st ws wd gs ti _ sc rp lsa ha ts) := e in
  mkEngine g cs ad vs vh sl lt lp lpar pid sh st ws wd gs ti a sc rp lsa ha ts.
Definition set_separationCompleted (a : bool) (e : Engine) : Engine :=
  let '(mkEngine g cs ad vs vh sl lt lp lpar pid sh st ws wd gs ti sep _ rp lsa ha ts) := e in
  mkEngine g cs ad vs vh sl lt lp lpar pid sh st ws wd gs ti sep a rp lsa ha ts.

(** *** The thermal model *)

(** [calculateAtmosphericTemperature(altitude)]. *)
Definition calculateAtmosphericTemperature (altitude : R) : R :=
  let seaLevelTemp := 288.15 in
  let lapseRate := 0.0065 in
  if altitude <? 11000 then seaLevelTemp - (lapseRate * altitude)
  else if altitude <? 20000 then 216.65
  else if altitude <? 50000 then 216.65 + 0.001 * (altitude - 20000)
  else 270.65 - 0.0025 * (altitude - 50000).

(** [calculateHeatingRate(vehicle, altitude)]; [Math.pow(v, 3)] is the
    cube, and [Math.sqrt] is taken of a density that is not negative when
    the sea-level density is not. *)
Definition calculateHeatingRate (e : Engine) (vehicle : Vehicle)
    (altitude : R) : R :=
  let velocityMagnitude := Vector3.length (velocity vehicle) in
  let airDensity := calculateAirDensity e altitude in
  1e-10 * velocityMagnitude ^ 3 * sqrt airDensity.

(** [updateThermalState(vehicle, altitude, deltaTime)]; both vehicles
    carry a heat shield. *)
Definition updateThermalState (e : Engine) (vehicle : Vehicle)
    (altitude deltaTime : R) : Vehicle :=
  let heatingRate := calculateHeatingRate e vehicle altitude in
  let shield := heatShield vehicle in
  let heated := temperature shield + heatingRate * deltaTime in
  let coolingFactor := 1.0 - JS.min 1.0 (altitude / 100000) in
  let cooling := coolingRate shield * coolingFactor * deltaTime in
  let ambientTemp := calculateAtmosphericTemperature altitude in
  set_heatShield
    (mkHeatShield (JS.max ambientTemp (heated - cooling))
                  (maxTemperature shield) (coolingRate shield))
    vehicle.

(** *** updateStageSeparation *)

(** The object [updateStageSeparation] returns. *)
Record SeparationState : Set := mkSeparationState {
  boosterPosition : Vector3.t;
  boosterQuaternion : Quaternion.t;
  boosterVelocity : Vector3.t;
  boosterEulerAngles : Euler.t;
  boosterAcceleration : Vector3.t;
  boosterThrottle : R;
  starshipPosition : Vector3.t;
  starshipQuaternion : Quaternion.t;
  starshipVelocity : Vector3.t;
  starshipEulerAngles : Euler.t;
  starshipAcceleration : Vector3.t;
  starshipThrottle : R;
  separationComplete : bool;
  separationTime : R;
  ss_combinedStage : bool }.

(** [!this.separationTimer]: the timer is [null] or 0. *)
Definition timerUnset (e : Engine) : bool :=
  match separationTimer e with
  | None => true
  | Some t => negb (t !== 0)
  end.

(** The block "Initialize separation if not already started": the engine
    it leaves and the timer it sets. *)
Definition initializeSeparation (e : Engine) : Engine :=
  let e := set_combinedStage false e in
  let booster := vehicles e superHeavy in
  let ship := vehicles e starship in
  let currentPosition := position booster in
  let currentVelocity := velocity booster in
  let currentRotation := rotation booster in
  let ship :=
    set_position
      (Vector3.setY currentPosition (Vector3.y currentPosition + 60)) ship in
  let ship := set_velocity currentVelocity ship in
  let ship := set_rotation currentRotation ship in
  let e := set_separationTimer (Some 3.0) e in
  let booster :=
    set_velocity
      (Vector3.setY (velocity booster) (Vector3.y (velocity booster) - 2.0))
      booster in
  let ship :=
    set_velocity
      (Vector3.setY (velocity ship) (Vector3.y (velocity ship) + 3.0))
      ship in
  let booster := set_throttle 0.0 booster in
  let ship := set_throttle 0.9 ship in
  set_vehicle starship ship (set_vehicle superHeavy booster e).

(** The two calls "Update physics for both vehicles". *)
Definition separationPhysics (e : Engine) (deltaTime : R) : Engine :=
  let e :=
    updateVehiclePhysics e superHeavy deltaTime
      (throttle (vehicles e superHeavy) >? 0) in
  updateVehiclePhysics e starship deltaTime
    (throttle (vehicles e starship) >? 0).

(** The block "Continue separation forces". *)
Definition continueSeparationForces (e : Engine) (timer : R) : Engine :=
  let forceStrength := timer / 3.0 in
  let booster := vehicles e superHeavy in
  let booster :=
    set_acceleration
      (Vector3.setY (acceleration booster)
         (Vector3.y (acceleration booster) - forceStrength * 0.5))
      booster in
  let ship := vehicles e starship in
  let ship :=
    set_acceleration
      (Vector3.setY (acceleration ship)
         (Vector3.y (acceleration ship) + forceStrength * 0.8))
      ship in
  set_vehicle starship ship (set_vehicle superHeavy booster e).

(** The block "Complete separation setup". *)
Definition completeSeparation (e : Engine) : Engine :=
  let e := set_separationCompleted true e in
  let ship := set_active true (set_throttle 1.0 (vehicles e starship)) in
  let booster := set_active true (set_throttle 0.0 (vehicles e superHeavy)) in
  initializeBoosterReturn
    (set_vehicle superHeavy booster (set_vehicle starship ship e)).

(** The object returned. *)
Definition separationState (e : Engine) (separationComplete : bool)
    (timer : R) : SeparationState :=
  let booster := vehicles e superHeavy in
  let ship := vehicles e starship in
  mkSeparationState
    (position booster) (Quaternion.setFromEuler (rotation booster))
    (velocity booster) (rotation booster) (acceleration booster)
    (throttle booster)
    (position ship) (Quaternion.setFromEuler (rotation ship))
    (velocity ship) (rotation ship) (acceleration ship) (throttle ship)
    separationComplete timer (combinedStage e).

(** [updateStageSeparation(deltaTime)]: the engine after the call and the
    object returned. *)
Definition updateStageSeparation (e : Engine) (deltaTime : R)
    : Engine * SeparationState :=
  let e := if timerUnset e then initializeSeparation e else e in
  let timer :=
    match separationTimer e with
    | Some t => t - deltaTime
    | None => 0 - deltaTime
    end in
  let e := set_separationTimer (Some timer) e in
  let separationComplete := timer <=? 0 in
  let e := separationPhysics e deltaTime in
  let e :=
    if negb separationComplete
    then continueSeparationForces e timer else e in
  let e :=
    if separationComplete && negb (separationCompleted e)
    then completeSeparation e else e in
  (e, separationState e separationComplete timer).

(** *** updateBoosterReturn *)

(** The object [updateBoosterReturn] returns; [returnPhase] is [None] for
    the string 'none'. *)
Record ReturnState : Set := mkReturnState {
  rs_position : Vector3.t;
  rs_quaternion : Quaternion.t;
  rs_velocity : Vector3.t;
  rs_acceleration : Vector3.t;
  rs_eulerAngles : Euler.t;
  rs_fuel : R;
  rs_throttle : R;
  rs_landingComplete : bool;
  readyForCatch : bool;
  returnPhase : option ReturnPhase;
  distanceToTarget : R }.

(** The attitude the flip and the burn turn the booster to: pitch and yaw
    of the direction to the landing target. *)
Definition turnToward (e : Engine) (vehicle : Vehicle) (rate : R) : Vehicle :=
  let direction :=
    Vector3.normalize
      (Vector3.subVectors (landingTarget e) (position vehicle)) in
  let targetPitch :=
    JS.atan2 (- Vector3.y direction)
             (sqrt (Vector3.x direction * Vector3.x direction
                    + Vector3.z direction * Vector3.z direction)) in
  let targetYaw := JS.atan2 (Vector3.x direction) (Vector3.z direction) in
  set_rotation
    (Euler.mk (lerp (Euler.x (rotation vehicle)) targetPitch rate)
              (lerp (Euler.y (rotation vehicle)) targetYaw rate)
              (Euler.z (rotation vehicle)))
    vehicle.

(** The [switch] on [this.returnParams.phase]: the engine and the booster
    it leaves; [None] where the landing control goes on with NaN. *)
Definition returnGuidance (e : Engine) (rp : ReturnParams)
    (vehicle : Vehicle) (deltaTime : R) : option (Engine * Vehicle) :=
  let timeInPhase := simulationTime e - startTime rp in
  let next (p : ReturnPhase) :=
    mkReturnParams (simulationTime e) (coastDuration rp) (turnDuration rp)
                   (burnDuration rp) p in
  match phase rp with
  | rCoast =>
      let vehicle := set_throttle 0.0 vehicle in
      let e :=
        if timeInPhase >=? coastDuration rp
        then set_returnParams (Some (next rFlip)) e else e in
      Some (e, vehicle)
  | rFlip =>
      let vehicle := set_throttle 0.2 vehicle in
      let flipRate := 0.8 * deltaTime in
      let vehicle := turnToward e vehicle flipRate in
      let e :=
        if timeInPhase >=? turnDuration rp
        then set_returnParams (Some (next rBurn)) e else e in
      Some (e, vehicle)
  | rBurn =>
      let vehicle := set_throttle 0.6 vehicle in
      let burnRate := 0.5 * deltaTime in
      let vehicle := turnToward e vehicle burnRate in
      let e :=
        if timeInPhase >=? burnDuration rp
        then set_landingPhase approach
               (set_returnParams (Some (next rApproach)) e)
        else e in
      Some (e, vehicle)
  | rApproach =>
      let e :=
        if LandingPhase_eqb (landingPhase e) none
        then set_landingPhase approach e else e in
      updateLandingControl e vehicle deltaTime
  end.

(** [updateBoosterReturn(deltaTime)]: the engine after the call and the
    object returned. *)
Definition updateBoosterReturn (e : Engine) (deltaTime : R)
    : option (Engine * ReturnState) :=
  let vehicle := vehicles e superHeavy in
  let e := set_simulationTime (simulationTime e + deltaTime) e in
  let guided :=
    match returnParams e with
    | Some rp => returnGuidance e rp vehicle deltaTime
    | None => Some (e, vehicle)
    end in
  match guided with
  | None => None
  | Some (e, vehicle) =>
      let e :=
        updateVehiclePhysics (set_vehicle superHeavy vehicle e) superHeavy
          deltaTime (throttle vehicle >? 0) in
      let vehicle := vehicles e superHeavy in
      let approaching :=
        match returnParams e with
        | None => true
        | Some rp =>
            match phase rp with rApproach => true | _ => false end
        end in
      let controlled :=
        if negb (LandingPhase_eqb (landingPhase e) none)
           && negb (LandingPhase_eqb (landingPhase e) touchdown)
           && approaching
        then updateLandingControl e vehicle deltaTime
        else Some (e, vehicle) in
      match controlled with
      | None => None
      | Some (e, vehicle) =>
          let e := set_vehicle superHeavy vehicle e in
          Some (e,
                mkReturnState
                  (position vehicle)
                  (Quaternion.setFromEuler (rotation vehicle))
                  (velocity vehicle) (acceleration vehicle)
                  (rotation vehicle) (fuel vehicle) (throttle vehicle)
                  (LandingPhase_eqb (landingPhase e) touchdown)
                  (LandingPhase_eqb (landingPhase e) final
                   && (Vector3.y (position vehicle) <? 100))
                  (option_map phase (returnParams e))
                  (Vector3.distanceTo (position vehicle) (landingTarget e)))
      end
  end.

(** *** updateStarshipAscent *)

Record AscentState : Set := mkAscentState {
  as_position : Vector3.t;
  as_velocity : Vector3.t;
  as_quaternion : Quaternion.t;
  as_thrust : R;
  as_throttle : R;
  as_fuel : R;
  orbitReached : bool }.

(** [updateStarshipAscent(deltaTime)]. *)
Definition updateStarshipAscent (e : Engine) (deltaTime : R)
    : Engine * AscentState :=
  let vehicle := set_throttle 1.0 (vehicles e starship) in
  let e :=
    updateVehiclePhysics (set_vehicle starship vehicle e) starship
      deltaTime true in
  let vehicle := vehicles e starship in
  (e,
   mkAscentState (position vehicle) (velocity vehicle)
     (Quaternion.setFromEuler (rotation vehicle))
     (maxThrust vehicle * throttle vehicle) (throttle vehicle)
     (fuel vehicle) (Vector3.y (position vehicle) >? 200000)).

(** *** updateBoosterLanding *)

(** The entries of [this.landingParams] that are set by the constructor
    and assigned nowhere: altitude triggers, burn durations, deployment
    altitudes and throttle profile. *)
Record LandingTables : Set := mkLandingTables {
  coastAltitude : R;
  boostbackAltitude : R;
  entryAltitude : R;
  descentAltitude : R;
  landingAltitude : R;
  lt_hoverAltitude : R;
  lt_touchdownSpeed : R;
  boostbackBurnDuration : R;
  entryBurnDuration : R;
  gridFinDeployAltitude : R;
  gridFinStowAltitude : R;
  landingLegDeployAltitude : R;
  coastThrottle : R;
  boostbackThrottle : R;
  entryThrottle : R;
  descentThrottle : R;
  landingBaseThrottle : R }.

(** The values the constructor gives them. *)
Definition constructorTables : LandingTables :=
  mkLandingTables 70000 65000 40000 20000 3000 50 2.0 20 15
                  60000 1000 1000 0.0 0.6 0.4 0.0 0.3.

(** [deploymentRate] of the booster's landing legs in the constructor. *)
Definition boosterLegDeploymentRate : R := 0.3.

(** The object [updateBoosterLanding] returns, without the [telemetry]
    strings, which render fields of it. *)
Record LandingState : Set := mkLandingState {
  l_position : Vector3.t;
  l_velocity : Vector3.t;
  l_acceleration : Vector3.t;
  l_rotation : Euler.t;
  l_quaternion : Quaternion.t;
  l_throttle : R;
  l_altitude : R;
  horizontalDistance : R;
  l_landingPhase : LandingPhase;
  landingComplete : bool;
  gridFinDeployment : R;
  landingLegDeployment : R;
  heatShieldTemperature : R }.

(** The chain "Transition between phases based on altitude": the phase it
    leaves, and whether it moved. *)
Definition nextLandingPhase (tables : LandingTables) (phase : LandingPhase)
    (altitude currentPhaseTime : R) : LandingPhase * bool :=
  if LandingPhase_eqb phase coast && (altitude <=? boostbackAltitude tables)
  then (boostback, true)
  else if LandingPhase_eqb phase boostback
          && ((currentPhaseTime >=? boostbackBurnDuration tables)
              || (altitude <=? entryAltitude tables))
  then (entry, true)
  else if LandingPhase_eqb phase entry
          && ((currentPhaseTime >=? entryBurnDuration tables)
              || (altitude <=? descentAltitude tables))
  then (descent, true)
  else if LandingPhase_eqb phase descent
          && (altitude <=? landingAltitude tables)
  then (landing, true)
  else if LandingPhase_eqb phase landing && (altitude <=? 0)
  then (touchdown, true)
  else (phase, false).

(** The block "Handle grid fin deployment/stowing". *)
Definition moveGridFins (tables : LandingTables) (fins : GridFins)
    (altitude deltaTime : R) : GridFins :=
  if (altitude <=? gridFinDeployAltitude tables)
     && (altitude >=? gridFinStowAltitude tables)
     && negb (gf_deployed fins)
  then
    let effectiveness :=
      gf_effectiveness fins + gf_deploymentRate fins * deltaTime in
    if effectiveness >=? 1.0
    then mkGridFins true 1.0 (gf_dragContribution fins)
                    (gf_deploymentRate fins)
    else mkGridFins (gf_deployed fins) effectiveness
                    (gf_dragContribution fins) (gf_deploymentRate fins)
  else if ((altitude <? gridFinStowAltitude tables)
           || (altitude >? gridFinDeployAltitude tables))
          && gf_deployed fins
  then
    let effectiveness :=
      gf_effectiveness fins - gf_deploymentRate fins * deltaTime in
    if effectiveness <=? 0.0
    then mkGridFins false 0.0 (gf_dragContribution fins)
                    (gf_deploymentRate fins)
    else mkGridFins (gf_deployed fins) effectiveness
                    (gf_dragContribution fins) (gf_deploymentRate fins)
  else fins.

(** The block "Handle landing leg deployment"; [deploymentRate] is the
    rate of the legs. *)
Definition moveLandingLegs (tables : LandingTables) (deploymentRate : R)
    (legs : LandingLegs) (altitude deltaTime : R) : LandingLegs :=
  if (altitude <=? landingLegDeployAltitude tables)
     && negb (ll_deployed legs)
  then
    let progress := ll_deploymentProgress legs + deploymentRate * deltaTime in
    if progress >=? 1.0
    then mkLandingLegs true 1.0
    else mkLandingLegs (ll_deployed legs) progress
  else legs.

Definition set_attitudeSetpoint (a : Euler.t) (pid : PIDControllers)
    : PIDControllers :=
  let c := attitude pid in
  mkPIDControllers (verticalVelocity pid) (horizontalPosition pid)
    (mkPIDVector3 (a_kP c) (a_kI c) (a_kD c) a (a_integral c)
                  (a_previousError c) (a_output c)
                  (a_maxOutput c) (a_minOutput c)).

Definition set_verticalSetpoint (a : R) (pid : PIDControllers)
    : PIDControllers :=
  let c := verticalVelocity pid in
  mkPIDControllers
    (mkPIDScalar (s_kP c) (s_kI c) (s_kD c) a (s_integral c)
                 (s_previousError c) (s_output c)
                 (s_maxOutput c) (s_minOutput c))
    (horizontalPosition pid) (attitude pid).

Definition set_horizontalSetpoint (a : Vector2.t) (pid : PIDControllers)
    : PIDControllers :=
  let c := horizontalPosition pid in
  mkPIDControllers (verticalVelocity pid)
    (mkPIDVector2 (h_kP c) (h_kI c) (h_kD c) a (h_integral c)
                  (h_previousError c) (h_output c)
                  (h_maxOutput c) (h_minOutput c))
    (attitude pid).

Definition set_horizontalGain (a : R) (pid : PIDControllers)
    : PIDControllers :=
  let c := horizontalPosition pid in
  mkPIDControllers (verticalVelocity pid)
    (mkPIDVector2 a (h_kI c) (h_kD c) (h_setpoint c) (h_integral c)
                  (h_previousError c) (h_output c)
                  (h_maxOutput c) (h_minOutput c))
    (attitude pid).

Definition set_horizontal (c : PIDVector2) (pid : PIDControllers)
    : PIDControllers :=
  mkPIDControllers (verticalVelocity pid) c (attitude pid).
Definition set_vertical (c : PIDScalar) (pid : PIDControllers)
    : PIDControllers :=
  mkPIDControllers c (horizontalPosition pid) (attitude pid).
Definition set_attitude (c : PIDVector3) (pid : PIDControllers)
    : PIDControllers :=
  mkPIDControllers (verticalVelocity pid) (horizontalPosition pid) c.

(** The chain "PHASE-SPECIFIC BEHAVIORS": the base throttle, the
    controllers and the booster it leaves.  [fins] is the booster's
    [gridFins] after the deployment block.  In phase 'landing'
    [Math.sqrt] is taken of [gravity * altitude], which is not negative
    for a booster at or above the ground. *)
Definition phaseBehavior (tables : LandingTables) (e : Engine)
    (phase : LandingPhase) (currentPhaseTime : R) (fins : GridFins)
    (horizontalPosition : Vector2.t) (altitude dt : R)
    (pid : PIDControllers) (booster : Vehicle)
    : R * PIDControllers * Vehicle :=
  match phase with
  | coast =>
      let baseThrottle := coastThrottle tables in
      if Vector3.length (velocity booster) >? 10 then
        let retrogradeDir :=
          Vector3.negate (Vector3.normalize (velocity booster)) in
        let targetAttitude :=
          Euler.mk
            (JS.atan2 (Vector3.y retrogradeDir)
               (sqrt (Vector3.x retrogradeDir * Vector3.x retrogradeDir
                      + Vector3.z retrogradeDir * Vector3.z retrogradeDir)))
            0
            (JS.atan2 (Vector3.x retrogradeDir) (Vector3.z retrogradeDir)) in
        (baseThrottle, set_attitudeSetpoint targetAttitude pid, booster)
      else (baseThrottle, pid, booster)
  | boostback =>
      let baseThrottle := boostbackThrottle tables in
      let horizontalVel :=
        Vector2.mk (Vector3.x (velocity booster))
                   (Vector3.z (velocity booster)) in
      if Vector2.length horizontalVel >? 2 then
        let cancelDir := Vector2.negate (Vector2.normalize horizontalVel) in
        let tiltAngle :=
          JS.min (PI * 0.25) (Vector2.length horizontalVel * 0.01) in
        let targetAttitude :=
          Euler.mk (Vector2.y cancelDir * tiltAngle) 0
                   (- Vector2.x cancelDir * tiltAngle) in
        (baseThrottle, set_attitudeSetpoint targetAttitude pid, booster)
      else
        (baseThrottle, set_attitudeSetpoint (Euler.mk 0 0 0) pid, booster)
  | entry =>
      let baseThrottle := entryThrottle tables in
      let velDir := Vector3.normalize (velocity booster) in
      let targetAttitude :=
        Euler.mk
          (JS.atan2 (- Vector3.y velDir)
             (sqrt (Vector3.x velDir * Vector3.x velDir
                    + Vector3.z velDir * Vector3.z velDir)))
          0
          (JS.atan2 (- Vector3.x velDir) (- Vector3.z velDir)) in
      let pid := set_attitudeSetpoint targetAttitude pid in
      let entrySpeed := -50 in
      (baseThrottle, set_verticalSetpoint entrySpeed pid, booster)
  | descent =>
      let baseThrottle := descentThrottle tables in
      let pid := set_attitudeSetpoint (Euler.mk 0 0 0) pid in
      let pid := set_horizontalSetpoint (Vector2.mk 0 0) pid in
      let '(hor, horizontalPosControl) :=
        updatePID_Vector2 (ImprovedPhysicsEngine.horizontalPosition pid)
                          horizontalPosition dt in
      let pid := set_horizontal hor pid in
      let booster :=
        if gf_effectiveness fins >? 0.1 then
          let controlEffectiveness := gf_effectiveness fins * 0.1 in
          set_rotation
            (Euler.mk
               (- Vector2.y horizontalPosControl * controlEffectiveness)
               (Euler.y (rotation booster))
               (Vector2.x horizontalPosControl * controlEffectiveness))
            booster
        else booster in
      (baseThrottle, pid, booster)
  | landing =>
      let baseThrottle := landingBaseThrottle tables in
      let pid := set_attitudeSetpoint (Euler.mk 0 0 0) pid in
      let targetSpeed :=
        JS.min (- lt_touchdownSpeed tables)
               (- sqrt (2 * 0.5 * gravity e * altitude)) in
      let pid := set_verticalSetpoint targetSpeed pid in
      let pid := set_horizontalSetpoint (Vector2.mk 0 0) pid in
      let pid :=
        set_horizontalGain
          (0.1 + (0.2 * (1.0 - JS.min 1.0 (altitude / 1000)))) pid in
      let '(hor, horizontalPosControl) :=
        updatePID_Vector2 (ImprovedPhysicsEngine.horizontalPosition pid)
                          horizontalPosition dt in
      let pid := set_horizontal hor pid in
      let gimbalLimit := gimbalAuthority booster * (PI / 180) in
      let gimbal :=
        Vector2.mk
          (JS.max (-1) (JS.min 1 (Vector2.x horizontalPosControl * 5)))
          (JS.max (-1) (JS.min 1 (Vector2.y horizontalPosControl * 5))) in
      let booster := set_gimbalPosition gimbal booster in
      let booster :=
        set_rotation
          (Euler.mk (Vector2.y gimbal * gimbalLimit * 0.3)
                    (Euler.y (rotation booster))
                    (- Vector2.x gimbal * gimbalLimit * 0.3))
          booster in
      (baseThrottle, pid, booster)
  | touchdown =>
      let baseThrottle := 0.2 in
      let booster :=
        set_rotation
          (Euler.mk (Euler.x (rotation booster) * 0.8)
                    (Euler.y (rotation booster))
                    (Euler.z (rotation booster) * 0.8))
          booster in
      let baseThrottle :=
        baseThrottle * JS.max 0 (1.0 - currentPhaseTime * 0.5) in
      let baseThrottle :=
        if currentPhaseTime >? 3.0 then 0 else baseThrottle in
      (baseThrottle, pid, booster)
  | _ => (0, pid, booster)
  end.

(** The blocks "Initialize landing phase if not set", "Update phase
    elapsed time" and "Transition between phases based on altitude", on
    the engine with its clock advanced. *)
Definition trackLandingPhase (tables : LandingTables) (e : Engine)
    (altitude : R) : Engine :=
  let e :=
    if LandingPhase_eqb (landingPhase e) none
    then set_landingParams
           (mkLandingParams (simulationTime e)
                            (currentPhaseTime (landingParams e)))
           (set_landingPhase descent e)
    else e in
  let currentPhaseTime :=
    simulationTime e - phaseStartTime (landingParams e) in
  let e :=
    set_landingParams
      (mkLandingParams (phaseStartTime (landingParams e)) currentPhaseTime)
      e in
  let '(phase, moved) :=
    nextLandingPhase tables (landingPhase e) altitude currentPhaseTime in
  if moved
  then set_landingParams
         (mkLandingParams (simulationTime e) currentPhaseTime)
         (set_landingPhase phase e)
  else e.

(** The blocks "Apply vertical velocity PID control" and "Clamp throttle
    between 0 and 1". *)
Definition commandThrottle (phase : LandingPhase) (pid : PIDControllers)
    (baseThrottle dt : R) (booster : Vehicle) : PIDControllers * Vehicle :=
  let '(pid, throttle0) :=
    if LandingPhase_eqb phase landing || LandingPhase_eqb phase touchdown
    then
      let '(ver, verticalControl) :=
        updatePID_scalar (verticalVelocity pid)
                         (Vector3.y (velocity booster)) dt in
      (set_vertical ver pid, baseThrottle + verticalControl)
    else (pid, baseThrottle) in
  (pid, set_throttle (JS.min 1.0 (JS.max 0.0 throttle0)) booster).

(** The blocks from "Apply attitude control (in all phases)" to "Simulate
    ground effect when close to landing"; [fins] is the booster's
    [gridFins]. *)
Definition commandAttitude (e : Engine) (pid : PIDControllers)
    (fins : GridFins) (altitude dt : R) (booster : Vehicle)
    : PIDControllers * Vehicle :=
  let '(att, attitudeControl) :=
    updatePID_Vector3 (attitude pid) (ofEuler (rotation booster)) dt in
  let pid := set_attitude att pid in
  let angular := Vector3.add (angularVelocity booster) attitudeControl in
  let angular :=
    if throttle booster >? 0.1 then
      let thrustVectoringStrength := 0.5 * throttle booster in
      Vector3.mk
        (Vector3.x angular
         + Vector2.y (gimbalPosition booster) * thrustVectoringStrength)
        (Vector3.y angular)
        (Vector3.z angular
         - Vector2.x (gimbalPosition booster) * thrustVectoringStrength)
    else angular in
  let angularDamping := 0.95 - (0.1 * gf_effectiveness fins) in
  let angular := Vector3.multiplyScalar angular angularDamping in
  let booster := set_angularVelocity angular booster in
  let booster :=
    if (altitude <? 20) && (throttle booster >? 0.1) then
      let groundEffectStrength :=
        0.2 * (1.0 - altitude / 20.0) * throttle booster in
      set_angularVelocity
        (Vector3.multiplyScalar (angularVelocity booster) 0.9)
        (set_acceleration
           (Vector3.setY (acceleration booster)
              (Vector3.y (acceleration booster)
               + groundEffectStrength * gravity e))
           booster)
    else booster in
  (pid, booster).

(** The object returned. *)
Definition landingState (e : Engine) (altitude horizontalDistance : R)
    : LandingState :=
  let booster := vehicles e superHeavy in
  let landingComplete :=
    LandingPhase_eqb (landingPhase e) touchdown
    && (currentPhaseTime (landingParams e) >? 3.0)
    && (altitude <=? 0.1)
    && (JS.abs (Vector3.y (velocity booster)) <? 0.1) in
  let quaternion := Quaternion.setFromEuler (rotation booster) in
  mkLandingState
    (position booster) (velocity booster) (acceleration booster)
    (rotation booster) quaternion (throttle booster) altitude
    horizontalDistance (landingPhase e) landingComplete
    (match gridFins booster with
     | Some f => gf_effectiveness f
     | None => 0
     end)
    (ll_deploymentProgress (landingLegs booster))
    (temperature (heatShield booster)).

(** [updateBoosterLanding(deltaTime)]: the engine after the call and the
    object returned.  [tables] holds the constant entries of
    [this.landingParams] and [legRate] the [deploymentRate] of the
    booster's legs.  A booster without [gridFins] makes the source throw
    at [booster.gridFins.deployed]: the result is [None]. *)
Definition updateBoosterLanding (tables : LandingTables) (legRate : R)
    (e : Engine) (deltaTime : R) : option (Engine * LandingState) :=
  let booster := vehicles e superHeavy in
  let dt := JS.min deltaTime 0.05 in
  let e := set_simulationTime (simulationTime e + dt) e in
  let altitude := Vector3.y (position booster) in
  let horizontalPosition :=
    Vector2.mk (Vector3.x (position booster) - Vector3.x (landingTarget e))
               (Vector3.z (position booster) - Vector3.z (landingTarget e)) in
  let horizontalDistance := Vector2.length horizontalPosition in
  let e := trackLandingPhase tables e altitude in
  match gridFins booster with
  | None => None
  | Some fins =>
      let fins := moveGridFins tables fins altitude deltaTime in
      let booster := set_gridFins (Some fins) booster in
      let booster :=
        set_landingLegs
          (moveLandingLegs tables legRate (landingLegs booster)
                           altitude deltaTime)
          booster in
      let booster := updateThermalState e booster altitude deltaTime in
      let '(baseThrottle, pid, booster) :=
        phaseBehavior tables e (landingPhase e)
                      (currentPhaseTime (landingParams e)) fins
                      horizontalPosition altitude dt (pidControllers e)
                      booster in
      let '(pid, booster) :=
        commandThrottle (landingPhase e) pid baseThrottle dt booster in
      let '(pid, booster) :=
        commandAttitude e pid fins altitude dt booster in
      let e := set_pidControllers pid e in
      let e :=
        updateVehiclePhysics (set_vehicle superHeavy booster e) superHeavy
          deltaTime (throttle booster >? 0) in
      Some (e, landingState e altitude horizontalDistance)
  end.

End FlightPhases.

(** ** Runs of the stage separation *)

Module SeparationRun.

Import ImprovedPhysicsEngine FlightPhases.

(** Successive calls of [updateStageSeparation] with the given time
    steps: the engine after the last call and the [separationComplete]
    each call reported. *)
Fixpoint run (e : Engine) (steps : list R) : Engine * list bool :=
  match steps with
  | [] => (e, [])
  | deltaTime :: rest =>
      let '(e1, r) := updateStageSeparation e deltaTime in
      let '(e2, reports) := run e1 rest in
      (e2, separationComplete r :: reports)
  end.

(** The time elapsed after each step, starting from [t0]. *)
Fixpoint elapsed (t0 : R) (steps : list R) : list R :=
  match steps with
  | [] => []
  | deltaTime :: rest => (t0 + deltaTime) :: elapsed (t0 + deltaTime) rest
  end.

End SeparationRun.

(** ** The reentry and landing simulation module: the force and guidance
    formulas of class ReentrySimulation *)

Module ReentrySimulation.

(** The constants the constructor sets; nothing assigns them again. *)
Definition EARTH_RADIUS : R := 6371000.
Definition G : R := 6.67430e-11.
Definition EARTH_MASS : R := 5.972e24.
Definition EARTH_MU : R := G * EARTH_MASS.
Definition SCALE_HEIGHT : R := 8500.
Definition AIR_DENSITY_SEA_LEVEL : R := 1.225.
Definition mass : R := 120000.
Definition crossSectionalArea : R := PI * (9 / 2) ^ 2.
Definition dragCoefficient : R := 0.3.
Definition liftCoefficient : R := 0.1.
Definition landingBurnStartAltitude : R := 2000.

(** [calculateAirDensity(altitude)]. *)
Definition calculateAirDensity (altitude : R) : R :=
  AIR_DENSITY_SEA_LEVEL * exp (- altitude / SCALE_HEIGHT).

(** [calculateGravity(altitude)]. *)
Definition calculateGravity (altitude : R) : R :=
  let distance := EARTH_RADIUS + altitude in
  EARTH_MU / (distance * distance).

(** The object [calculateAerodynamicForces] returns. *)
Record AerodynamicForces : Set := mkAerodynamicForces {
  drag : Vector3.t;
  lift : Vector3.t;
  total : Vector3.t;
  dragMagnitude : R;
  liftMagnitude : R }.

(** [calculateAerodynamicForces(velocity, altitude, angleOfAttack)]; the
    drag components divide by the speed. *)
Definition calculateAerodynamicForces (velocity : Vector3.t)
    (altitude angleOfAttack : R) : AerodynamicForces :=
  let airDensity := calculateAirDensity altitude in
  let velocityMagnitude :=
    sqrt (Vector3.x velocity * Vector3.x velocity
          + Vector3.y velocity * Vector3.y velocity
          + Vector3.z velocity * Vector3.z velocity) in
  let adjustedDragCoefficient :=
    dragCoefficient * (1 + 0.5 * sin angleOfAttack) in
  let adjustedLiftCoefficient :=
    liftCoefficient * sin (2 * angleOfAttack) in
  let dragForceMagnitude :=
    0.5 * airDensity * velocityMagnitude ^ 2
    * adjustedDragCoefficient * crossSectionalArea in
  let liftForceMagnitude :=
    0.5 * airDensity * velocityMagnitude ^ 2
    * adjustedLiftCoefficient * crossSectionalArea in
  let dragForce :=
    Vector3.mk
      (- dragForceMagnitude * Vector3.x velocity / velocityMagnitude)
      (- dragForceMagnitude * Vector3.y velocity / velocityMagnitude)
      (- dragForceMagnitude * Vector3.z velocity / velocityMagnitude) in
  let liftDirection :=
    Vector3.mk (- Vector3.z velocity) 0 (Vector3.x velocity) in
  let liftDirectionMagnitude :=
    sqrt (Vector3.x liftDirection * Vector3.x liftDirection
          + Vector3.y liftDirection * Vector3.y liftDirection
          + Vector3.z liftDirection * Vector3.z liftDirection) in
  let liftDirection :=
    if liftDirectionMagnitude >? 0
    then Vector3.mk (Vector3.x liftDirection / liftDirectionMagnitude)
                    (Vector3.y liftDirection / liftDirectionMagnitude)
                    (Vector3.z liftDirection / liftDirectionMagnitude)
    else liftDirection in
  let liftForce :=
    Vector3.mk (liftForceMagnitude * Vector3.x liftDirection)
               (liftForceMagnitude * Vector3.y liftDirection)
               (liftForceMagnitude * Vector3.z liftDirection) in
  let totalForce :=
    Vector3.mk (Vector3.x dragForce + Vector3.x liftForce)
               (Vector3.y dragForce + Vector3.y liftForce)
               (Vector3.z dragForce + Vector3.z liftForce) in
  mkAerodynamicForces dragForce liftForce totalForce
                      dragForceMagnitude liftForceMagnitude.

(** [shouldStartLandingBurn(altitude, verticalVelocity)]. *)
Definition shouldStartLandingBurn (altitude verticalVelocity : R) : bool :=
  (altitude <? landingBurnStartAltitude) && (verticalVelocity <? 0).

(** [calculateLandingBurnThrottle(altitude, velocity)]; it divides by the
    vertical velocity and by the time to impact. *)
Definition calculateLandingBurnThrottle (altitude : R)
    (velocity : Vector3.t) : R :=
  let timeToImpact := altitude / - Vector3.y velocity in
  let requiredDeceleration :=
    Vector3.y velocity / timeToImpact + calculateGravity altitude in
  let requiredThrust := mass * requiredDeceleration in
  let maxThrust := 1200000 * 9.81 in
  let throttle := requiredThrust / maxThrust in
  JS.max 0 (JS.min 1 throttle).

End ReentrySimulation.

(** ** camera_controller.js: the easing of camera transitions *)

Module Camera.

(** [CameraController.easeInOutCubic(t)]; [Math.pow(x, 3)] is the cube. *)
Definition easeInOutCubic (t : R) : R :=
  if t <? 0.5
  then 4 * t * t * t
  else 1 - (-2 * t + 2) ^ 3 / 2.

End Camera.

(** ** aerospace_physics.js: the rocket engines of AerospacePhysicsEngine *)

Module AerospacePropulsion.

Import AerospacePhysicsEngine.

(** [this.propellant.mixtureRatio]. *)
Definition mixtureRatio : R := 3.6.

(** An entry of [vehicleSpecs.<vehicle>.engines]; [gimbaled] and
    [gimbalRange] are missing from some entries. *)
Record EngineSpec : Set := mkEngineSpec {
  count : nat;
  spec_thrust : R;
  spec_isp : R;
  spec_throttleRange : R * R;
  gimbaled : bool;
  spec_gimbalRange : option R }.

(** An engine object, without [startupTime], [shutdownTime],
    [chamberPressure], [position] and [health], which the functions below
    do not read. *)
Record RocketEngine : Set := mkRocketEngine {
  type : string;
  id : string;
  thrust : R;
  isp : R;
  throttle : R;
  throttleRange : R * R;
  gimbal : option Vector2.t;
  gimbalRange : R;
  lit : bool;
  restartCapable : bool;
  fuelFlow : R;
  oxidFlow : R;
  nozzleExpansionRatio : R }.

(** The decimal numeral of the template string [`${type}_${i}`]. *)
Definition numeral (i : nat) : string :=
  DecimalString.NilEmpty.string_of_uint (Nat.to_uint i).

(** [initializeEngines(engineSpecs)], over the entries of [engineSpecs]
    in the order of [Object.entries]. *)
Definition initializeEngines (engineSpecs : list (string * EngineSpec))
    : list RocketEngine :=
  flat_map
    (fun '(type, specs) =>
       map (fun i =>
              mkRocketEngine
                type (type ++ "_" ++ numeral i)%string
                (spec_thrust specs) (spec_isp specs) 0
                (spec_throttleRange specs)
                (if gimbaled specs then Some (Vector2.mk 0 0) else None)
                (match spec_gimbalRange specs with
                 | Some r => JS.orElse r 0
                 | None => 0
                 end)
                false
                (String.eqb type "outer" || String.eqb type "seaLevel")
                0 0
                (if String.eqb type "vacuum" then 80 else 40))
           (seq 0 (count specs)))
    engineSpecs.

(** The engine tables of the constructor. *)
Definition starshipEngineSpecs : list (string * EngineSpec) :=
  [("seaLevel"%string, mkEngineSpec 3 1845000 330 (0.4, 1.0) false None);
   ("vacuum"%string, mkEngineSpec 3 2200000 380 (0.4, 1.0) false None)].

Definition superHeavyEngineSpecs : list (string * EngineSpec) :=
  [("outer"%string, mkEngineSpec 20 1845000 330 (0.4, 1.0) true (Some 15));
   ("inner"%string, mkEngineSpec 13 1845000 330 (0.4, 1.0) false None)].

(** The part of a vehicle the engine commands read and write. *)
Record Vehicle : Set := mkVehicle {
  engines : list RocketEngine;
  engines_lit : bool }.

(** [this.vehicles]. *)
Record Vehicles : Set := mkVehicles {
  starship : Vehicle;
  superHeavy : Vehicle }.

Definition vehicles (v : Vehicles) (vehicleId : ImprovedPhysicsEngine.VehicleId)
    : Vehicle :=
  match vehicleId with
  | ImprovedPhysicsEngine.starship => starship v
  | ImprovedPhysicsEngine.superHeavy => superHeavy v
  end.

Definition set_vehicle (vehicleId : ImprovedPhysicsEngine.VehicleId)
    (a : Vehicle) (v : Vehicles) : Vehicles :=
  match vehicleId with
  | ImprovedPhysicsEngine.starship => mkVehicles a (superHeavy v)
  | ImprovedPhysicsEngine.superHeavy => mkVehicles (starship v) a
  end.

(** The vehicles as the constructor makes them. *)
Definition newVehicles : Vehicles :=
  mkVehicles (mkVehicle (initializeEngines starshipEngineSpecs) false)
             (mkVehicle (initializeEngines superHeavyEngineSpecs) false).

(** [engineIds.includes(e.id)]. *)
Definition includes (engineIds : list string) (s : string) : bool :=
  existsb (String.eqb s) engineIds.

Definition set_throttle (a : R) (e : RocketEngine) : RocketEngine :=
  mkRocketEngine (type e) (id e) (thrust e) (isp e) a (throttleRange e)
    (gimbal e) (gimbalRange e) (lit e) (restartCapable e)
    (fuelFlow e) (oxidFlow e) (nozzleExpansionRatio e).

Definition set_lit (a : bool) (e : RocketEngine) : RocketEngine :=
  mkRocketEngine (type e) (id e) (thrust e) (isp e) (throttle e)
    (throttleRange e) (gimbal e) (gimbalRange e) a (restartCapable e)
    (fuelFlow e) (oxidFlow e) (nozzleExpansionRatio e).

Definition set_gimbal (a : option Vector2.t) (e : RocketEngine)
    : RocketEngine :=
  mkRocketEngine (type e) (id e) (thrust e) (isp e) (throttle e)
    (throttleRange e) a (gimbalRange e) (lit e) (restartCapable e)
    (fuelFlow e) (oxidFlow e) (nozzleExpansionRatio e).

Definition set_flows (fuel oxid : R) (e : RocketEngine) : RocketEngine :=
  mkRocketEngine (type e) (id e) (thrust e) (isp e) (throttle e)
    (throttleRange e) (gimbal e) (gimbalRange e) (lit e) (restartCapable e)
    fuel oxid (nozzleExpansionRatio e).

(** [startEngines(vehicleId, engineIds)]; [engineIds] is [None] for
    [null]. *)
Definition startEngines (v : Vehicles)
    (vehicleId : ImprovedPhysicsEngine.VehicleId)
    (engineIds : option (list string)) : Vehicles :=
  let vehicle := vehicles v vehicleId in
  let selected (e : RocketEngine) :=
    match engineIds with
    | Some ids => includes ids (id e)
    | None => true
    end in
  let engines :=
    map (fun engine =>
           if selected engine
           then set_throttle (fst (throttleRange engine)) (set_lit true engine)
           else engine)
        (engines vehicle) in
  set_vehicle vehicleId (mkVehicle engines true) v.

(** [setThrottle(vehicleId, throttle, engineIds)]. *)
Definition setThrottle (v : Vehicles)
    (vehicleId : ImprovedPhysicsEngine.VehicleId) (throttle : R)
    (engineIds : option (list string)) : Vehicles :=
  let vehicle := vehicles v vehicleId in
  let selected (e : RocketEngine) :=
    match engineIds with
    | Some ids => includes ids (id e)
    | None => lit e
    end in
  let engines :=
    map (fun engine =>
           if selected engine
           then
             let minThrottle := fst (throttleRange engine) in
             let maxThrottle := snd (throttleRange engine) in
             set_throttle
               (JS.max 0
                  (JS.min maxThrottle
                     (if throttle >? 0
                      then JS.max minThrottle throttle else 0)))
               engine
           else engine)
        (engines vehicle) in
  set_vehicle vehicleId (mkVehicle engines (engines_lit vehicle)) v.

(** [setGimbal(vehicleId, gimbal, engineIds)]. *)
Definition setGimbal (v : Vehicles)
    (vehicleId : ImprovedPhysicsEngine.VehicleId) (gimbal : Vector2.t)
    (engineIds : option (list string)) : Vehicles :=
  let vehicle := vehicles v vehicleId in
  let selected (e : RocketEngine) :=
    match engineIds with
    | Some ids => includes ids (id e)
    | None =>
        match AerospacePropulsion.gimbal e with
        | Some _ => true
        | None => false
        end
    end in
  let engines :=
    map (fun engine =>
           if selected engine
           then
             match AerospacePropulsion.gimbal engine with
             | Some _ =>
                 let maxGimbal := gimbalRange engine * PI / 180 in
                 set_gimbal
                   (Some
                      (Vector2.mk
                         (JS.max (- maxGimbal)
                                 (JS.min maxGimbal (Vector2.x gimbal)))
                         (JS.max (- maxGimbal)
                                 (JS.min maxGimbal (Vector2.y gimbal)))))
                   engine
             | None => engine
             end
           else engine)
        (engines vehicle) in
  set_vehicle vehicleId (mkVehicle engines (engines_lit vehicle)) v.

(** [shutdownEngines(vehicleId, engineIds)]. *)
Definition shutdownEngines (v : Vehicles)
    (vehicleId : ImprovedPhysicsEngine.VehicleId)
    (engineIds : option (list string)) : Vehicles :=
  let vehicle := vehicles v vehicleId in
  let selected (e : RocketEngine) :=
    match engineIds with
    | Some ids => includes ids (id e)
    | None => true
    end in
  let engines :=
    map (fun engine =>
           if selected engine
           then set_throttle 0 (set_lit false engine)
           else engine)
        (engines vehicle) in
  set_vehicle vehicleId (mkVehicle engines (existsb lit engines)) v.

(** [calculateAtmosphericThrust(engine, altitude)]. *)
Definition calculateAtmosphericThrust (conditions : AtmosphericConditions)
    (engine : RocketEngine) : R :=
  let seaLevelPressure := STANDARD_ATMOSPHERE in
  let currentPressure := pressure conditions in
  let pressureRatio := currentPressure / seaLevelPressure in
  let thrustCoefficient := JS.min 1.1 (1.0 + (1.0 - pressureRatio) * 0.2) in
  thrust engine * thrustCoefficient.

(** [calculateEffectiveIsp(engine, altitude)]. *)
Definition calculateEffectiveIsp (conditions : AtmosphericConditions)
    (engine : RocketEngine) : R :=
  let pressureRatio := pressure conditions / STANDARD_ATMOSPHERE in
  let vacuumIsp :=
    isp engine + (if String.eqb (type engine) "vacuum" then 50 else 30) in
  isp engine + (vacuumIsp - isp engine) * (1 - pressureRatio).

(** [updateFuelFlow(engine, altitude)]; the mass flow divides by the
    effective specific impulse. *)
Definition updateFuelFlow (conditions : AtmosphericConditions)
    (engine : RocketEngine) : RocketEngine :=
  if lit engine && (throttle engine >? 0)
  then
    let effectiveIsp := calculateEffectiveIsp conditions engine in
    let massFlowRate :=
      (thrust engine * throttle engine) / (effectiveIsp * EARTH_GRAVITY) in
    let totalFlow := massFlowRate in
    let oxidFlow := totalFlow * (mixtureRatio / (1 + mixtureRatio)) in
    set_flows (totalFlow - oxidFlow) oxidFlow engine
  else set_flows 0 0 engine.

End AerospacePropulsion.

(** * Properties *)

(** ** Comparisons and clamps *)

Lemma ltb_true_iff (a b : R) : (a <? b) = true <-> a < b.
Proof. unfold JS.ltb; destruct (Rlt_dec a b); split; intros; try easy. Qed.

Lemma ltb_false_iff (a b : R) : (a <? b) = false <-> b <= a.
Proof.
  unfold JS.ltb; destruct (Rlt_dec a b); split; intros; try easy; lra.
Qed.

Lemma leb_true_iff (a b : R) : (a <=? b) = true <-> a <= b.
Proof. unfold JS.leb; destruct (Rle_dec a b); split; intros; try easy. Qed.

Lemma leb_false_iff (a b : R) : (a <=? b) = false <-> b < a.
Proof.
  unfold JS.leb; destruct (Rle_dec a b); split; intros; try easy; lra.
Qed.

Lemma gtb_true_iff (a b : R) : (a >? b) = true <-> b < a.
Proof. unfold JS.gtb; apply ltb_true_iff. Qed.

Lemma gtb_false_iff (a b : R) : (a >? b) = false <-> a <= b.
Proof. unfold JS.gtb; apply ltb_false_iff. Qed.

Lemma neqb_true_iff (a b : R) : (a !== b) = true <-> a <> b.
Proof. unfold JS.neqb; destruct (Req_dec_T a b); split; intros; easy. Qed.

Lemma neqb_false_iff (a b : R) : (a !== b) = false <-> a = b.
Proof.
  unfold JS.neqb; destruct (Req_dec_T a b); split; intros; try easy.
Qed.

(** Splits on one comparison of the goal and records its meaning. *)
Ltac js_case t :=
  let H := fresh "Hcmp" in
  destruct t eqn:H;
  [ first [ apply ltb_true_iff in H | apply leb_true_iff in H
          | apply gtb_true_iff in H | apply neqb_true_iff in H ]
  | first [ apply ltb_false_iff in H | apply leb_false_iff in H
          | apply gtb_false_iff in H | apply neqb_false_iff in H ] ].

Lemma clamp_between (lo hi x : R) :
  lo <= hi -> lo <= JS.max lo (JS.min hi x) <= hi.
Proof.
  intros H. unfold JS.max, JS.min. split.
  - apply Rmax_l.
  - apply Rmax_lub; [exact H | apply Rmin_l].
Qed.

Lemma orElse_nonzero (a : R) : JS.orElse a 1 <> 0.
Proof. unfold JS.orElse. destruct (Req_dec_T a 0); lra. Qed.

Lemma orElse_of_nonzero (a b : R) : a <> 0 -> JS.orElse a b = a.
Proof. unfold JS.orElse. destruct (Req_dec_T a 0); intros; easy. Qed.

Lemma Vector2_length_nonneg (v : Vector2.t) : 0 <= Vector2.length v.
Proof. apply sqrt_pos. Qed.

Lemma Vector3_length_nonneg (v : Vector3.t) : 0 <= Vector3.length v.
Proof. apply sqrt_pos. Qed.

(** A normalized non-zero vector scaled by [m] has length [|m|]. *)
Lemma Vector2_normalize_scale_length (v : Vector2.t) (m : R) :
  Vector2.length v <> 0 ->
  Vector2.length (Vector2.multiplyScalar (Vector2.normalize v) m) = Rabs m.
Proof.
  intros Hl.
  unfold Vector2.normalize. rewrite (orElse_of_nonzero _ _ Hl).
  unfold Vector2.length in *. destruct v as [a b].
  cbn [Vector2.multiplyScalar Vector2.divideScalar Vector2.x Vector2.y] in *.
  set (l := sqrt (a * a + b * b)) in *.
  assert (Hsq : l * l = a * a + b * b).
  { apply sqrt_sqrt. nra. }
  replace (a * (1 / l) * m * (a * (1 / l) * m) + b * (1 / l) * m * (b * (1 / l) * m))
    with (Rsqr m).
  - apply sqrt_Rsqr_abs.
  - unfold Rsqr. transitivity (m * m * ((a * a + b * b) / (l * l))).
    + rewrite <- Hsq. field. exact Hl.
    + field. exact Hl.
Qed.

Lemma Vector3_normalize_scale_length (v : Vector3.t) (m : R) :
  Vector3.length v <> 0 ->
  Vector3.length (Vector3.multiplyScalar (Vector3.normalize v) m) = Rabs m.
Proof.
  intros Hl.
  unfold Vector3.normalize. rewrite (orElse_of_nonzero _ _ Hl).
  unfold Vector3.length in *. destruct v as [a b c].
  cbn [Vector3.multiplyScalar Vector3.divideScalar Vector3.x Vector3.y Vector3.z] in *.
  set (l := sqrt (a * a + b * b + c * c)) in *.
  assert (Hsq : l * l = a * a + b * b + c * c).
  { apply sqrt_sqrt. nra. }
  replace (a * (1 / l) * m * (a * (1 / l) * m) + b * (1 / l) * m * (b * (1 / l) * m)
           + c * (1 / l) * m * (c * (1 / l) * m))
    with (Rsqr m).
  - apply sqrt_Rsqr_abs.
  - unfold Rsqr. transitivity (m * m * ((a * a + b * b + c * c) / (l * l))).
    + rewrite <- Hsq. field. exact Hl.
    + field. exact Hl.
Qed.

(** Rescaling a vector longer than [m] to [m] gives length exactly [m]. *)
Lemma Vector2_rescale_length (v : Vector2.t) (m : R) :
  0 <= m -> m < Vector2.length v ->
  Vector2.length (Vector2.multiplyScalar (Vector2.normalize v) m) = m.
Proof.
  intros Hm Hlen. rewrite Vector2_normalize_scale_length by lra.
  apply Rabs_pos_eq; exact Hm.
Qed.

Lemma Vector3_rescale_length (v : Vector3.t) (m : R) :
  0 <= m -> m < Vector3.length v ->
  Vector3.length (Vector3.multiplyScalar (Vector3.normalize v) m) = m.
Proof.
  intros Hm Hlen. rewrite Vector3_normalize_scale_length by lra.
  apply Rabs_pos_eq; exact Hm.
Qed.

(** ** The PID controller: anti-windup and output clamp *)

Section PIDBounds.

Import ImprovedPhysicsEngine PIDRun.

(** One scalar call: output and integral end inside the interval, and the
    configured interval itself is not touched. *)
Lemma updatePID_scalar_bounded (c : PIDScalar) (v dt : R) :
  s_minOutput c <= s_maxOutput c ->
  let c' := fst (updatePID_scalar c v dt) in
  (s_minOutput c <= s_output c' <= s_maxOutput c
   /\ s_minOutput c <= s_integral c' <= s_maxOutput c)
  /\ s_minOutput c' = s_minOutput c /\ s_maxOutput c' = s_maxOutput c
  /\ snd (updatePID_scalar c v dt) = s_output c'.
Proof.
  intros H. cbn. repeat split; try apply clamp_between; try exact H;
    try (apply (proj2 (clamp_between _ _ _ H))).
Qed.

Lemma updatePID_Vector2_bounded (c : PIDVector2) (v : Vector2.t) (dt : R) :
  0 <= h_maxOutput c ->
  let c' := fst (updatePID_Vector2 c v dt) in
  (Vector2.length (h_output c') <= h_maxOutput c
   /\ Vector2.length (h_integral c') <= h_maxOutput c)
  /\ h_maxOutput c' = h_maxOutput c
  /\ snd (updatePID_Vector2 c v dt) = h_output c'.
Proof.
  intros H. unfold updatePID_Vector2. cbn [fst snd h_output h_integral h_maxOutput].
  repeat split.
  - match goal with |- context [if ?t then _ else _] => js_case t end.
    + rewrite Vector2_rescale_length; [lra | exact H | exact Hcmp].
    + exact Hcmp.
  - match goal with |- context [if ?t then _ else _] => js_case t end.
    + rewrite Vector2_rescale_length; [lra | exact H | exact Hcmp].
    + exact Hcmp.
Qed.

Lemma updatePID_Vector3_bounded (c : PIDVector3) (v : Value3) (dt : R) :
  0 <= a_maxOutput c ->
  let c' := fst (updatePID_Vector3 c v dt) in
  (Vector3.length (a_output c') <= a_maxOutput c
   /\ Vector3.length (a_integral c') <= a_maxOutput c)
  /\ a_maxOutput c' = a_maxOutput c
  /\ snd (updatePID_Vector3 c v dt) = a_output c'.
Proof.
  intros H. unfold updatePID_Vector3. cbn [fst snd a_output a_integral a_maxOutput].
  repeat split.
  - match goal with |- context [if ?t then _ else _] => js_case t end.
    + rewrite Vector3_rescale_length; [lra | exact H | exact Hcmp].
    + exact Hcmp.
  - match goal with |- context [if ?t then _ else _] => js_case t end.
    + rewrite Vector3_rescale_length; [lra | exact H | exact Hcmp].
    + exact Hcmp.
Qed.

Lemma sameBounds_refl (c : Controller) : sameBounds c c.
Proof. destruct c; cbn; auto. Qed.

Lemma sameBounds_kind (c0 c : Controller) :
  sameBounds c0 c -> kindOf c = kindOf c0.
Proof. destruct c0, c; cbn; intros; try easy. Qed.

(** One call of the right kind keeps the configured bounds and ends within
    them. *)
Lemma step_bounded (c0 c : Controller) (m : Measured) (dt : R) :
  wellConfigured c0 -> sameBounds c0 c -> kindOfMeasured m = kindOf c0 ->
  exists call,
    toCall c m = Some call
    /\ sameBounds c0 (controllerOf (updatePID call dt))
    /\ withinBounds c0 (controllerOf (updatePID call dt)).
Proof.
  intros Hwf Hsame Hkind.
  destruct c0 as [c0|c0|c0], c as [c|c|c]; cbn in Hsame; try easy;
    destruct m as [r|v|v]; cbn in Hkind; try discriminate; cbn in Hwf.
  - destruct Hsame as [Hmin Hmax].
    exists (callScalar c r). split; [reflexivity|].
    assert (Hc : s_minOutput c <= s_maxOutput c) by lra.
    pose proof (updatePID_scalar_bounded c r dt Hc) as Hb. cbv zeta in Hb.
    cbn [updatePID]. destruct (updatePID_scalar c r dt) as [c' o].
    cbn [fst snd controllerOf sameBounds withinBounds] in *.
    destruct Hb as [[Ho Hi] [Emin [Emax _]]].
    rewrite <- Hmin, <- Hmax. repeat split; try lra.
  - exists (callVector2 c v). split; [reflexivity|].
    assert (Hc : 0 <= h_maxOutput c) by lra.
    pose proof (updatePID_Vector2_bounded c v dt Hc) as Hb. cbv zeta in Hb.
    cbn [updatePID]. destruct (updatePID_Vector2 c v dt) as [c' o].
    cbn [fst snd controllerOf sameBounds withinBounds] in *.
    destruct Hb as [[Ho Hi] [Emax _]]. repeat split; lra.
  - exists (callVector3 c v). split; [reflexivity|].
    assert (Hc : 0 <= a_maxOutput c) by lra.
    pose proof (updatePID_Vector3_bounded c v dt Hc) as Hb. cbv zeta in Hb.
    cbn [updatePID]. destruct (updatePID_Vector3 c v dt) as [c' o].
    cbn [fst snd controllerOf sameBounds withinBounds] in *.
    destruct Hb as [[Ho Hi] [Emax _]]. repeat split; lra.
Qed.

Lemma run_bounded (calls : list (Measured * R)) :
  forall c0 c,
    wellConfigured c0 -> sameBounds c0 c ->
    Forall (fun call => kindOfMeasured (fst call) = kindOf c0 /\ 0 < snd call)
           calls ->
    exists trace,
      run c calls = Some trace
      /\ List.length trace = List.length calls
      /\ Forall (withinBounds c0) trace.
Proof.
  induction calls as [|[m dt] rest IH]; intros c0 c Hwf Hsame Hall.
  - exists []. repeat split; constructor.
  - inversion Hall as [|? ? [Hkind Hdt] Hrest]; subst. cbn [fst snd] in *.
    destruct (step_bounded c0 c m dt Hwf Hsame Hkind) as [call [Ecall [Hs Hb]]].
    destruct (IH c0 _ Hwf Hs Hrest) as [trace [Erun [Elen Htrace]]].
    exists (controllerOf (updatePID call dt) :: trace).
    cbn [run]. rewrite Ecall, Erun. repeat split.
    + cbn. now rewrite Elen.
    + constructor; assumption.
Qed.

End PIDBounds.

(** C3.  Whatever sequence of [updatePID] calls with positive time steps is
    made on a controller (scalar, Vector2 or Vector3/Euler measurements of
    the controller's kind), after every call the output lies within the
    configured bounds, in the interval [minOutput, maxOutput] for a scalar
    and with magnitude at most [maxOutput] for a vector, and so does the
    accumulated integral.  The bounds are an interval (scalar) or a
    non-negative magnitude (vectors). *)
Theorem updatePID_output_and_integral_bounded :
  forall (c : PIDRun.Controller)
         (calls : list (PIDRun.Measured * R)),
    PIDRun.wellConfigured c ->
    Forall (fun call =>
              PIDRun.kindOfMeasured (fst call) = PIDRun.kindOf c
              /\ 0 < snd call) calls ->
    exists trace,
      PIDRun.run c calls = Some trace
      /\ List.length trace = List.length calls
      /\ Forall (PIDRun.withinBounds c) trace.
Proof.
  intros c calls Hwf Hall.
  apply run_bounded; [exact Hwf | apply sameBounds_refl | exact Hall].
Qed.

Lemma updatePID_output_and_integral_bounded_witness :
  let c := PIDRun.CScalar
             (ImprovedPhysicsEngine.verticalVelocity
                ImprovedPhysicsEngine.newPIDControllers) in
  let calls := [(PIDRun.mScalar 40, 0.05); (PIDRun.mScalar (-3), 0.1)] in
  exists trace,
    PIDRun.run c calls = Some trace
    /\ List.length trace = List.length calls
    /\ Forall (PIDRun.withinBounds c) trace.
Proof.
  refine (updatePID_output_and_integral_bounded
            (PIDRun.CScalar
               (ImprovedPhysicsEngine.verticalVelocity
                  ImprovedPhysicsEngine.newPIDControllers))
            [(PIDRun.mScalar 40, 0.05); (PIDRun.mScalar (-3), 0.1)] _ _).
  - cbn. lra.
  - repeat constructor; cbn; lra.
Defined.

(** ** The force model: thrust *)

Section Thrust.

Import ImprovedPhysicsEngine.

Lemma Vector3_eq (a b : Vector3.t) :
  Vector3.x a = Vector3.x b -> Vector3.y a = Vector3.y b ->
  Vector3.z a = Vector3.z b -> a = b.
Proof. destruct a, b; cbn; intros; subst; reflexivity. Qed.

Lemma Vector3_add_swap (a b c : Vector3.t) :
  Vector3.add (Vector3.add a b) c = Vector3.add (Vector3.add a c) b.
Proof. apply Vector3_eq; cbn; ring. Qed.

(** The quaternion of an Euler rotation has unit norm. *)
Lemma setFromEuler_unit (r : Euler.t) :
  let q := Quaternion.setFromEuler r in
  Quaternion.x q * Quaternion.x q + Quaternion.y q * Quaternion.y q
  + Quaternion.z q * Quaternion.z q + Quaternion.w q * Quaternion.w q = 1.
Proof.
  cbn.
  pose proof (sin2_cos2 (Euler.x r / 2)) as H1.
  pose proof (sin2_cos2 (Euler.y r / 2)) as H2.
  pose proof (sin2_cos2 (Euler.z r / 2)) as H3.
  unfold Rsqr in *.
  set (s1 := sin (Euler.x r / 2)) in *. set (c1 := cos (Euler.x r / 2)) in *.
  set (s2 := sin (Euler.y r / 2)) in *. set (c2 := cos (Euler.y r / 2)) in *.
  set (s3 := sin (Euler.z r / 2)) in *. set (c3 := cos (Euler.z r / 2)) in *.
  transitivity ((s1 * s1 + c1 * c1) * (s2 * s2 + c2 * c2) * (s3 * s3 + c3 * c3)).
  - ring.
  - rewrite H1, H2, H3. ring.
Qed.

(** Rotating by a unit quaternion keeps the squared length. *)
Lemma applyTo_lengthSq (q : Quaternion.t) (v : Vector3.t) :
  Quaternion.x q * Quaternion.x q + Quaternion.y q * Quaternion.y q
  + Quaternion.z q * Quaternion.z q + Quaternion.w q * Quaternion.w q = 1 ->
  Vector3.lengthSq (Quaternion.applyTo q v) = Vector3.lengthSq v.
Proof.
  destruct q as [qx qy qz qw], v as [vx vy vz]. cbn. intros Hq.
  set (a := qx * qx + qy * qy + qz * qz).
  set (p := qx * vx + qy * vy + qz * vz).
  set (n := vx * vx + vy * vy + vz * vz).
  transitivity (n + (a + qw * qw - 1) * (4 * a * n - 4 * p * p)).
  - unfold a, p, n, Vector3.lengthSq, Quaternion.applyTo. cbn. ring.
  - replace (a + qw * qw) with 1 by (unfold a; lra).
    unfold n, Vector3.lengthSq. cbn. ring.
Qed.

Lemma thrustForce_length (v : Vehicle) :
  Vector3.length (thrustForce v) = Rabs (maxThrust v * throttle v).
Proof.
  unfold thrustForce.
  apply Vector3_normalize_scale_length.
  unfold Vector3.length.
  fold (Vector3.lengthSq
          (Quaternion.applyTo (Quaternion.setFromEuler (rotation v))
             (Vector3.mk (Vector2.x (gimbalPosition v) * 0.1) 1.0
                (Vector2.y (gimbalPosition v) * 0.1)))).
  rewrite applyTo_lengthSq by apply setFromEuler_unit.
  unfold Vector3.lengthSq. cbn. intros H.
  apply sqrt_eq_0 in H; nra.
Qed.


(** The blocks after the thrust block do not read the throttle, and each
    adds its vector to whatever force it is given. *)
Lemma addDrag_shift (e : Engine) (v : Vehicle) (a : R) (F T : Vector3.t) :
  addDrag e v (Vector3.add F T)
  = Vector3.add (addDrag e (set_throttle a v) F) T.
Proof.
  destruct v. unfold addDrag, dragForce, densityFactor. cbn.
  match goal with |- context [if ?t then _ else _] => destruct t end;
    [apply Vector3_add_swap | reflexivity].
Qed.

Lemma addGridFins_shift (e : Engine) (v : Vehicle) (a dt : R)
    (F T : Vector3.t) :
  fst (addGridFins e v dt (Vector3.add F T))
  = Vector3.add (fst (addGridFins e (set_throttle a v) dt F)) T.
Proof.
  destruct v. unfold addGridFins, densityFactor. cbn.
  match goal with |- context [if ?t then _ else _] => destruct t end;
    [apply Vector3_add_swap | reflexivity].
Qed.

Lemma addWind_shift (e : Engine) (v v' : Vehicle) (F T : Vector3.t) :
  position v' = position v ->
  crossSectionalArea v' = crossSectionalArea v ->
  addWind e v (Vector3.add F T) = Vector3.add (addWind e v' F) T.
Proof.
  intros Hp Ha. unfold addWind, windForceOf, densityFactor.
  rewrite Hp, Ha.
  match goal with |- context [if ?t then _ else _] => destruct t end;
    [apply Vector3_add_swap | reflexivity].
Qed.

Lemma addGridFins_frame (e : Engine) (v : Vehicle) (dt : R) (F : Vector3.t) :
  let v' := snd (addGridFins e v dt F) in
  position v' = position v
  /\ crossSectionalArea v' = crossSectionalArea v
  /\ velocity v' = velocity v /\ mass v' = mass v /\ fuel v' = fuel v
  /\ throttle v' = throttle v /\ maxThrust v' = maxThrust v
  /\ rotation v' = rotation v /\ active v' = active v
  /\ acceleration v' = acceleration v
  /\ dragCoefficient v' = dragCoefficient v
  /\ gimbalPosition v' = gimbalPosition v.
Proof.
  destruct v. unfold addGridFins. cbn.
  match goal with |- context [if ?t then _ else _] => destruct t end;
    cbn; repeat split; reflexivity.
Qed.

Lemma calculateForces_engine_off (e : Engine) (v : Vehicle) (dt : R) :
  throttle v <= 0 ->
  fst (calculateForces e v dt) = fst (calculateForces e (set_throttle 0 v) dt).
Proof.
  intros H. destruct v. cbn in H.
  unfold calculateForces, addThrust, addDrag, addGridFins, addWind,
    dragForce, windForceOf, densityFactor.
  cbn.
  replace (throttle0 >? 0) with false
    by (symmetry; apply gtb_false_iff; exact H).
  replace (0 >? 0) with false by (symmetry; apply gtb_false_iff; lra).
  repeat (match goal with |- context [if ?t then _ else _] => destruct t end;
          cbn);
    reflexivity.
Qed.

Lemma calculateForces_thrust (e : Engine) (v : Vehicle) (dt : R) :
  0 < throttle v ->
  fst (calculateForces e v dt)
  = Vector3.add (fst (calculateForces e (set_throttle 0 v) dt)) (thrustForce v).
Proof.
  intros H. unfold calculateForces.
  assert (E1 : addThrust v
                 (Vector3.setY (Vector3.mk 0 0 0)
                    (Vector3.y (Vector3.mk 0 0 0) - gravity e * (mass v + fuel v)))
               = Vector3.add
                   (addThrust (set_throttle 0 v)
                      (Vector3.setY (Vector3.mk 0 0 0)
                         (Vector3.y (Vector3.mk 0 0 0)
                          - gravity e * (mass (set_throttle 0 v)
                                         + fuel (set_throttle 0 v)))))
                   (thrustForce v)).
  { unfold addThrust. destruct v. cbn in *.
    replace (throttle0 >? 0) with true
      by (symmetry; apply gtb_true_iff; exact H).
    replace (0 >? 0) with false by (symmetry; apply gtb_false_iff; lra).
    reflexivity. }
  cbv zeta. rewrite E1.
  rewrite (addDrag_shift e v 0).
  destruct (addGridFins e v dt _) as [F1 v1] eqn:E2.
  destruct (addGridFins e (set_throttle 0 v) dt _) as [F2 v2] eqn:E3.
  cbn [fst].
  pose proof (addGridFins_shift e v 0 dt
                (addDrag e (set_throttle 0 v)
                   (addThrust (set_throttle 0 v)
                      (Vector3.setY (Vector3.mk 0 0 0)
                         (Vector3.y (Vector3.mk 0 0 0)
                          - gravity e * (mass (set_throttle 0 v)
                                         + fuel (set_throttle 0 v))))))
                (thrustForce v)) as Hs.
  rewrite E2, E3 in Hs. cbn [fst] in Hs. subst F1.
  pose proof (addGridFins_frame e v dt
                (Vector3.add
                   (addDrag e (set_throttle 0 v)
                      (addThrust (set_throttle 0 v)
                         (Vector3.setY (Vector3.mk 0 0 0)
                            (Vector3.y (Vector3.mk 0 0 0)
                             - gravity e * (mass (set_throttle 0 v)
                                            + fuel (set_throttle 0 v))))))
                   (thrustForce v))) as Hf1.
  rewrite E2 in Hf1. cbn [snd] in Hf1.
  pose proof (addGridFins_frame e (set_throttle 0 v) dt
                (addDrag e (set_throttle 0 v)
                   (addThrust (set_throttle 0 v)
                      (Vector3.setY (Vector3.mk 0 0 0)
                         (Vector3.y (Vector3.mk 0 0 0)
                          - gravity e * (mass (set_throttle 0 v)
                                         + fuel (set_throttle 0 v))))))) as Hf2.
  rewrite E3 in Hf2. cbn [snd] in Hf2.
  apply addWind_shift.
  - destruct Hf1 as [-> _], Hf2 as [-> _]. destruct v; reflexivity.
  - destruct Hf1 as [_ [-> _]], Hf2 as [_ [-> _]]. destruct v; reflexivity.
Qed.

Lemma thrustForce_set_fuel (v : Vehicle) (f : R) :
  thrustForce (set_fuel f v) = thrustForce v.
Proof. destruct v; reflexivity. Qed.

(** The thrust of an upright vehicle with centred gimbal. *)
Lemma thrustForce_upright (v : Vehicle) :
  rotation v = Euler.mk 0 0 0 -> gimbalPosition v = Vector2.mk 0 0 ->
  thrustForce v = Vector3.mk 0 (maxThrust v * throttle v) 0.
Proof.
  intros Hr Hg. unfold thrustForce. rewrite Hr, Hg.
  unfold Quaternion.setFromEuler, Quaternion.applyTo, Vector3.normalize,
    Vector3.length. cbn.
  replace (0 / 2) with 0 by lra. rewrite cos_0, sin_0.
  match goal with |- context [sqrt ?x] => replace x with 1 by lra end.
  rewrite sqrt_1. rewrite orElse_of_nonzero by lra.
  apply Vector3_eq; cbn; lra.
Qed.

End Thrust.

(** C1, as the code has it.  The thrust block of the force model is gated
    by the throttle alone: with throttle <= 0 the net force is the one of
    the same vehicle with its engines off; with throttle > 0 it is that
    force plus a thrust vector of magnitude |maxThrust * throttle|, and this
    thrust vector is the same whatever the propellant mass is, zero
    included. *)
Theorem thrust_gated_by_throttle_alone :
  forall (e : ImprovedPhysicsEngine.Engine)
         (v : ImprovedPhysicsEngine.Vehicle) (dt : R),
    let engineOff := ImprovedPhysicsEngine.set_throttle 0 v in
    let thrust := ImprovedPhysicsEngine.thrustForce v in
    (ImprovedPhysicsEngine.throttle v <= 0 /\
       fst (ImprovedPhysicsEngine.calculateForces e v dt)
       = fst (ImprovedPhysicsEngine.calculateForces e engineOff dt)
     \/
     0 < ImprovedPhysicsEngine.throttle v /\
       fst (ImprovedPhysicsEngine.calculateForces e v dt)
       = Vector3.add
           (fst (ImprovedPhysicsEngine.calculateForces e engineOff dt)) thrust)
    /\ Vector3.length thrust
       = Rabs (ImprovedPhysicsEngine.maxThrust v
               * ImprovedPhysicsEngine.throttle v)
    /\ (forall f : R,
          ImprovedPhysicsEngine.thrustForce
            (ImprovedPhysicsEngine.set_fuel f v) = thrust).
Proof.
  intros e v dt engineOff thrust. repeat split.
  - destruct (Rle_or_lt (ImprovedPhysicsEngine.throttle v) 0) as [H|H].
    + left. split; [exact H | apply calculateForces_engine_off; exact H].
    + right. split; [exact H | apply calculateForces_thrust; exact H].
  - apply thrustForce_length.
  - intros f. apply thrustForce_set_fuel.
Qed.

(** C1, as stated, fails: the booster with no propellant left and the
    throttle open still gets 72 MN of thrust in its net force. *)
Lemma thrust_with_empty_tanks :
  ImprovedPhysicsEngine.fuel Scenario.spentBooster = 0
  /\ 0 < ImprovedPhysicsEngine.throttle Scenario.spentBooster
  /\ fst (ImprovedPhysicsEngine.calculateForces
            ImprovedPhysicsEngine.newEngine
            (ImprovedPhysicsEngine.set_throttle 0 Scenario.spentBooster) 0.1)
     = Vector3.mk 0 (- (9.81 * 200000)) 0
  /\ fst (ImprovedPhysicsEngine.calculateForces
            ImprovedPhysicsEngine.newEngine Scenario.spentBooster 0.1)
     = Vector3.mk 0 (72000000 - 9.81 * 200000) 0.
Proof.
  assert (Hoff :
    fst (ImprovedPhysicsEngine.calculateForces
           ImprovedPhysicsEngine.newEngine
           (ImprovedPhysicsEngine.set_throttle 0 Scenario.spentBooster) 0.1)
    = Vector3.mk 0 (- (9.81 * 200000)) 0).
  { unfold ImprovedPhysicsEngine.calculateForces,
      ImprovedPhysicsEngine.addThrust, ImprovedPhysicsEngine.addDrag,
      ImprovedPhysicsEngine.addGridFins, ImprovedPhysicsEngine.addWind,
      Vector3.lengthSq.
    cbn.
    replace (0 >? 0) with false by (symmetry; apply gtb_false_iff; lra).
    replace (0 * 0 + 0 * 0 + 0 * 0 >? 0) with false
      by (symmetry; apply gtb_false_iff; lra).
    replace (0 !== 0) with false by (symmetry; apply neqb_false_iff; lra).
    cbn. apply Vector3_eq; cbn; lra. }
  repeat split.
  - cbn. lra.
  - exact Hoff.
  - rewrite calculateForces_thrust by (cbn; lra).
    rewrite Hoff. rewrite thrustForce_upright by reflexivity.
    apply Vector3_eq; cbn; lra.
Qed.

(** ** Mission commands *)

(** C2.  A command invoked from a phase other than its documented
    predecessor (launch: READY, stage separation: ASCENT, landing:
    BOOSTER_RETURN, catch: BOOSTER_LANDING) returns at its first line: the
    phase and every other variable of the script, the engine and the page
    stay as they were. *)
Theorem command_outside_predecessor_is_noop :
  forall (c : Main.Command) (s : Main.State),
    Main.currentPhase s <> Main.predecessor c ->
    Main.run c s = s.
Proof.
  intros c s H.
  destruct c; cbn [Main.run Main.predecessor] in *;
    unfold Main.startLaunch, Main.triggerStageSeparation,
      Main.startLandingSequence, Main.startMechazillaCatch;
    destruct (Main.currentPhase s); cbn; try reflexivity; contradiction.
Qed.

Lemma command_outside_predecessor_is_noop_witness :
  Main.currentPhase Scenario.readyState <> Main.predecessor Main.CmdStageSeparation
  /\ Main.run Main.CmdStageSeparation Scenario.readyState = Scenario.readyState.
Proof.
  assert (H : Main.currentPhase Scenario.readyState
              <> Main.predecessor Main.CmdStageSeparation)
    by (cbn; discriminate).
  split; [exact H | exact (command_outside_predecessor_is_noop _ _ H)].
Defined.

(** From its predecessor phase each command does act: launching from READY
    moves to LAUNCH with the booster at full throttle. *)
Lemma startLaunch_from_ready (now1 now2 : R) :
  let s := Main.startLaunch now1 now2 Scenario.readyState in
  Main.currentPhase s = Main.LAUNCH
  /\ Main.isSimulationRunning s = true
  /\ Main.missionTime s = 0
  /\ option_map
       (fun e => ImprovedPhysicsEngine.throttle
                   (ImprovedPhysicsEngine.vehicles e
                      ImprovedPhysicsEngine.superHeavy))
       (Main.physicsEngine s) = Some 1.0.
Proof. cbn. repeat split. Qed.

(** ** The Mechazilla catch *)

Section Catch.

Import MechazillaCatchSimulation CatchEnvelope.

Lemma set_booster_keeps (p v : Point) (o : Orientation) :
  keepsOutcome (set_booster p v o).
Proof. intros s; destruct s; cbn; auto. Qed.

Lemma startTracking_keeps (rnd p v : Point) :
  keepsOutcome (fun s => fst (startTracking s rnd p v)).
Proof.
  intros s; unfold startTracking.
  destruct (_ <=? _); destruct s; cbn; auto.
Qed.

Lemma updateArmPosition_keeps (p : Point) (dt : R) :
  keepsOutcome (fun s => fst (updateArmPosition s p dt)).
Proof.
  intros s; unfold updateArmPosition.
  destruct (negb (trackingActive s)); destruct s; cbn; auto.
Qed.

Lemma prepareForCatch_keeps :
  keepsOutcome (fun s => fst (prepareForCatch s)).
Proof.
  intros s; unfold prepareForCatch.
  destruct (negb (trackingActive s)); destruct s; cbn; auto.
Qed.

(** The decision inside [attemptCatch]. *)
Lemma attemptCatch_decides (s : t) (bp bv : Point) (dt : R) :
  let s' := fst (attemptCatch s bp bv dt) in
  catchSuccessful s = false -> catchFailed s = false ->
  (armsOpen s = true -> armsOpen s' = false ->
     (catchSuccessful s' = true <-> withinLimits bv)
     /\ (catchFailed s' = true <-> ~ withinLimits bv))
  /\ (catchSuccessful s' = true -> armsOpen s' = false /\ withinLimits bv).
Proof.
  unfold attemptCatch, withinLimits.
  destruct s as [th tp al aw ap asp asd acs cph cpr ao avp ahp cip csu cfa
                 bp0 bv0 bo0 te tac tr ta].
  cbn [catchInProgress towerPosition catchPointsHeight armsVerticalPosition
       armsOpen armsHorizontalPosition armClosingSpeed catchSuccessful
       catchFailed negb].
  intros Hs Hf; subst csu cfa.
  destruct cip; cbn [negb fst]; [ | cbn; split; intros; congruence ].
  match goal with |- context [if ?t then _ else _] => destruct t end.
  - match goal with |- context [if ?t then _ else _] => destruct t end.
    + destruct ao; [ | cbn; split; intros; congruence ].
      match goal with |- context [if ?t then _ else _] => destruct t end.
      * unfold JS.abs.
        destruct (Rabs (y bv) <? 2) eqn:E1;
          destruct (sqrt (x bv * x bv + z bv * z bv) <? 1) eqn:E2;
          cbn;
          try apply ltb_true_iff in E1; try apply ltb_false_iff in E1;
          try apply ltb_true_iff in E2; try apply ltb_false_iff in E2;
          repeat split; intros; try congruence; try lra;
          try (intros [? ?]; lra).
      * cbn. split; intros; congruence.
    + match goal with |- context [if ?t then _ else _] => destruct t end;
        cbn; split; intros; congruence.
  - match goal with |- context [if ?t then _ else _] => destruct t end;
      cbn; split; intros; congruence.
Qed.


Lemma update_decides (s : t) (rnd : Point) (dt : R) (bp bv : Point)
    (bo : Orientation) :
  let s' := update s rnd dt bp bv bo in
  catchSuccessful s = false -> catchFailed s = false ->
  (armsOpen s = true -> armsOpen s' = false ->
     (catchSuccessful s' = true <-> withinLimits bv)
     /\ (catchFailed s' = true <-> ~ withinLimits bv))
  /\ (catchSuccessful s' = true -> armsOpen s' = false /\ withinLimits bv).
Proof.
  cbv zeta. intros Hs Hf. unfold update.
  (* the state before the attempt *)
  set (s1 := set_booster bp bv bo s).
  destruct (set_booster_keeps bp bv bo s) as [Es1 [Ef1 Ho1]]. fold s1 in Es1, Ef1, Ho1.
  set (s2 := if negb (trackingActive s1)
             then fst (startTracking s1 rnd bp bv) else s1).
  assert (K2 : catchSuccessful s2 = false /\ catchFailed s2 = false
               /\ (armsOpen s = true -> armsOpen s2 = true)).
  { unfold s2. destruct (negb (trackingActive s1)).
    - destruct (startTracking_keeps rnd bp bv s1) as [A [B C]].
      repeat split; [congruence | congruence | auto].
    - repeat split; [congruence | congruence | auto]. }
  destruct K2 as [Es2 [Ef2 Ho2]].
  destruct (updateArmPosition s2 bp dt) as [s3 armsInPosition] eqn:E3.
  destruct (updateArmPosition_keeps bp dt s2) as [A3 [B3 C3]].
  rewrite E3 in A3, B3, C3. cbn [fst] in A3, B3, C3.
  set (s4 := if armsInPosition && negb (catchInProgress s3)
             then fst (prepareForCatch s3) else s3).
  assert (K4 : catchSuccessful s4 = false /\ catchFailed s4 = false
               /\ (armsOpen s = true -> armsOpen s4 = true)).
  { unfold s4. destruct (armsInPosition && negb (catchInProgress s3)).
    - destruct (prepareForCatch_keeps s3) as [A [B C]].
      repeat split; [congruence | congruence | auto].
    - repeat split; [congruence | congruence | auto]. }
  destruct K4 as [Es4 [Ef4 Ho4]].
  destruct (catchInProgress s4 && negb (catchSuccessful s4)
            && negb (catchFailed s4)).
  - destruct (attemptCatch_decides s4 bp bv dt Es4 Ef4) as [P1 P2].
    split; [ intros Ho; apply P1; auto | exact P2 ].
  - split.
    + intros Ho Hc. specialize (Ho4 Ho). congruence.
    + intros Hc. congruence.
Qed.

(** What one call of [attemptCatch] decides while the outcome is open. *)
Lemma attemptCatch_outcome (s : t) (bp bv : Point) (dt : R) :
  let s' := fst (attemptCatch s bp bv dt) in
  catchInProgress s = true ->
  catchSuccessful s = false -> catchFailed s = false ->
  (armsClose s bp dt ->
     armsOpen s' = false /\ armsHorizontalPosition s' = 5
     /\ (catchSuccessful s' = true <-> withinLimits bv)
     /\ (catchFailed s' = true <-> ~ withinLimits bv))
  /\ (catchSuccessful s' = true <-> armsClose s bp dt /\ withinLimits bv)
  /\ (catchFailed s' = true
      <-> (armsClose s bp dt /\ ~ withinLimits bv) \/ missed s bp)
  /\ (missed s bp ->
      catchFailed s' = true /\ armsOpen s' = armsOpen s
      /\ armsHorizontalPosition s' = armsHorizontalPosition s).
Proof.
  cbv zeta. intros Hp Hs Hf.
  unfold attemptCatch, armsClose, missed, aligned, atArmHeight, withinLimits.
  rewrite Hp. cbn [negb].
  destruct s as [th tp al aw ap asp asd acs cph cpr ao avp ahp cip csu cfa
                 bp0 bv0 bo0 te tac tr ta].
  cbn [towerPosition catchPointsHeight armsVerticalPosition armsOpen
       armsHorizontalPosition armClosingSpeed catchSuccessful catchFailed
       catchInProgress] in *.
  subst cip csu cfa. unfold JS.abs.
  js_case (sqrt ((x bp - x tp) * (x bp - x tp)
                 + (z bp - z tp) * (z bp - z tp)) <? 5).
  - js_case (Rabs (y bp - (71 - cph) - avp) <? 2).
    + destruct ao.
      * js_case (ahp - acs * dt <=? 5).
        -- js_case (Rabs (y bv) <? 2);
             [js_case (sqrt (x bv * x bv + z bv * z bv) <? 1)|];
             cbn; intuition (try congruence; try lra).
        -- cbn. intuition (try congruence; try lra).
      * cbn. intuition (try congruence; try lra).
    + js_case (y bp <? avp - 5); cbn; intuition (try congruence; try lra).
  - js_case (y bp <? 10); cbn; intuition (try congruence; try lra).
Qed.

(** While tracking with a catch in progress and the outcome open, [update]
    records the booster, moves the arms and attempts the catch. *)
Lemma update_attempts (s : t) (rnd : Point) (dt : R) (bp bv : Point)
    (bo : Orientation) :
  let p := fst (updateArmPosition (set_booster bp bv bo s) bp dt) in
  trackingActive s = true -> catchInProgress s = true ->
  catchSuccessful s = false -> catchFailed s = false ->
  update s rnd dt bp bv bo = fst (attemptCatch p bp bv dt)
  /\ catchInProgress p = true /\ catchSuccessful p = false
  /\ catchFailed p = false /\ armsOpen p = armsOpen s
  /\ armsHorizontalPosition p = armsHorizontalPosition s.
Proof.
  cbv zeta. intros Ht Hp Hs Hf.
  destruct s as [th tp al aw ap asp asd acs cph cpr ao avp ahp cip csu cfa
                 bp0 bv0 bo0 te tac tr ta].
  cbn in Ht, Hp, Hs, Hf. subst tac cip csu cfa.
  split; [|cbn; repeat split].
  unfold update, updateArmPosition. cbn.
  rewrite andb_false_r. reflexivity.
Qed.

Lemma update_outcome (s : t) (rnd : Point) (dt : R) (bp bv : Point)
    (bo : Orientation) :
  let p := fst (updateArmPosition (set_booster bp bv bo s) bp dt) in
  let s' := update s rnd dt bp bv bo in
  catchSuccessful s = false -> catchFailed s = false ->
  (trackingActive s = true -> catchInProgress s = true ->
     (armsClose p bp dt ->
        armsOpen s' = false /\ armsHorizontalPosition s' = 5
        /\ (catchSuccessful s' = true <-> withinLimits bv)
        /\ (catchFailed s' = true <-> ~ withinLimits bv))
     /\ (catchSuccessful s' = true <-> armsClose p bp dt /\ withinLimits bv)
     /\ (catchFailed s' = true
         <-> (armsClose p bp dt /\ ~ withinLimits bv) \/ missed p bp)
     /\ (missed p bp ->
         catchFailed s' = true /\ armsOpen s' = armsOpen s
         /\ armsHorizontalPosition s' = armsHorizontalPosition s))
  /\ (catchSuccessful s' = true -> armsOpen s' = false /\ withinLimits bv).
Proof.
  cbv zeta. intros Hs Hf. split.
  - intros Ht Hp.
    destruct (update_attempts s rnd dt bp bv bo Ht Hp Hs Hf)
      as [-> [Pp [Ps [Pf [Po Ph]]]]].
    rewrite <- Po, <- Ph.
    apply attemptCatch_outcome; assumption.
  - apply (update_decides s rnd dt bp bv bo Hs Hf).
Qed.

End Catch.

Section CatchExamples.

Import MechazillaCatchSimulation CatchEnvelope.

Lemma sqrt_zero_sum : sqrt (0 * 0 + 0 * 0) = 0.
Proof. replace (0 * 0 + 0 * 0) with 0 by ring. apply sqrt_0. Qed.

(** A descent at 1 m/s straight down is within the limits; one at 3 m/s
    is not. *)
Lemma slow_descent_withinLimits : withinLimits (mkPoint 0 (-1) 0).
Proof.
  unfold withinLimits. cbn. rewrite sqrt_zero_sum. split; [|lra].
  unfold Rabs. destruct (Rcase_abs (-1)); lra.
Qed.

Lemma fast_descent_outside : ~ withinLimits (mkPoint 0 (-3) 0).
Proof.
  unfold withinLimits. cbn. intros [H _]. revert H.
  unfold Rabs. destruct (Rcase_abs (-3)); lra.
Qed.

(** With the booster at the arms, the arms of [Scenario.armsClosing] stay
    at 100 m and a step of one second closes them. *)
Lemma armsClosing_closes (bv : Point) (bo : Orientation) :
  armsClose
    (fst (updateArmPosition
            (set_booster Scenario.boosterAtArms bv bo Scenario.armsClosing)
            Scenario.boosterAtArms 1))
    Scenario.boosterAtArms 1.
Proof.
  unfold armsClose, aligned, atArmHeight. cbn.
  split; [reflexivity|]. split; [|split; [|lra]].
  - replace (-50 - -50) with 0 by lra. replace (0 - 0) with 0 by lra.
    rewrite sqrt_zero_sum. lra.
  - set (d := 114.2 - (71 - 71 * 0.8) - 100).
    assert (Hd : JS.sign d = 0).
    { unfold JS.sign, JS.ltb, d.
      destruct (Rlt_dec _ _); [lra|]. destruct (Rlt_dec _ _); [lra|].
      reflexivity. }
    rewrite Hd, Rmult_0_r. unfold JS.max, JS.min.
    rewrite Rmin_left by lra. rewrite Rmax_right by lra.
    apply Rabs_def1; lra.
Qed.

(** A booster 50 m off the tower's axis and 5 m above the ground has
    missed the arms. *)
Lemma off_axis_near_ground_missed (bv : Point) (bo : Orientation) :
  missed
    (fst (updateArmPosition
            (set_booster (mkPoint 0 5 0) bv bo Scenario.armsClosing)
            (mkPoint 0 5 0) 1))
    (mkPoint 0 5 0).
Proof.
  unfold missed, aligned, atArmHeight. cbn. right. split; [|lra].
  replace ((0 - -50) * (0 - -50) + (0 - 0) * (0 - 0)) with (50 * 50) by ring.
  rewrite sqrt_square by lra. lra.
Qed.

End CatchExamples.

(** C4.  While the simulation tracks the booster with a catch in progress
    and the outcome open, one [update] moves the arms to the state [p] and
    attempts the catch on it.  If the arms fully close in that attempt
    (they are open, the booster is less than 5 m from the tower's axis
    with its catch points less than 2 m from the arms' height, and the
    closing step brings the spread to 5 m or less), the arms end closed at
    5 m and the outcome is decided by the booster's velocity: successful
    if and only if its vertical speed is under 2 m/s and its horizontal
    speed under 1 m/s, failed if and only if not.  [catchSuccessful] is
    set in no other case.  [catchFailed] is also set, with the arms left
    as they were, when the booster has missed the arms: on the axis, 2 m
    or more from the arms' height and more than 5 m below them, or off
    the axis and below 10 m.  And from any state with the outcome open,
    [update] sets [catchSuccessful] only with the arms closed and the
    velocity within the limits. *)
Theorem catch_outcome_decided :
  forall (s : MechazillaCatchSimulation.t)
         (rnd : MechazillaCatchSimulation.Point) (deltaTime : R)
         (boosterPosition boosterVelocity : MechazillaCatchSimulation.Point)
         (boosterOrientation : MechazillaCatchSimulation.Orientation),
    let p :=
      fst (MechazillaCatchSimulation.updateArmPosition
             (MechazillaCatchSimulation.set_booster boosterPosition
                boosterVelocity boosterOrientation s)
             boosterPosition deltaTime) in
    let s' :=
      MechazillaCatchSimulation.update s rnd deltaTime boosterPosition
        boosterVelocity boosterOrientation in
    MechazillaCatchSimulation.catchSuccessful s = false ->
    MechazillaCatchSimulation.catchFailed s = false ->
    (MechazillaCatchSimulation.trackingActive s = true ->
     MechazillaCatchSimulation.catchInProgress s = true ->
       (CatchEnvelope.armsClose p boosterPosition deltaTime ->
          MechazillaCatchSimulation.armsOpen s' = false
          /\ MechazillaCatchSimulation.armsHorizontalPosition s' = 5
          /\ (MechazillaCatchSimulation.catchSuccessful s' = true
              <-> CatchEnvelope.withinLimits boosterVelocity)
          /\ (MechazillaCatchSimulation.catchFailed s' = true
              <-> ~ CatchEnvelope.withinLimits boosterVelocity))
       /\ (MechazillaCatchSimulation.catchSuccessful s' = true
           <-> CatchEnvelope.armsClose p boosterPosition deltaTime
               /\ CatchEnvelope.withinLimits boosterVelocity)
       /\ (MechazillaCatchSimulation.catchFailed s' = true
           <-> (CatchEnvelope.armsClose p boosterPosition deltaTime
                /\ ~ CatchEnvelope.withinLimits boosterVelocity)
               \/ CatchEnvelope.missed p boosterPosition)
       /\ (CatchEnvelope.missed p boosterPosition ->
           MechazillaCatchSimulation.catchFailed s' = true
           /\ MechazillaCatchSimulation.armsOpen s'
              = MechazillaCatchSimulation.armsOpen s
           /\ MechazillaCatchSimulation.armsHorizontalPosition s'
              = MechazillaCatchSimulation.armsHorizontalPosition s))
    /\ (MechazillaCatchSimulation.catchSuccessful s' = true ->
          MechazillaCatchSimulation.armsOpen s' = false
          /\ CatchEnvelope.withinLimits boosterVelocity).
Proof. intros. apply update_outcome; assumption. Qed.

Lemma catch_outcome_decided_witness :
  let slow :=
    MechazillaCatchSimulation.update Scenario.armsClosing
      (MechazillaCatchSimulation.mkPoint 0 0 0) 1 Scenario.boosterAtArms
      (MechazillaCatchSimulation.mkPoint 0 (-1) 0)
      (MechazillaCatchSimulation.mkOrientation 0 0 0) in
  let fast :=
    MechazillaCatchSimulation.update Scenario.armsClosing
      (MechazillaCatchSimulation.mkPoint 0 0 0) 1 Scenario.boosterAtArms
      (MechazillaCatchSimulation.mkPoint 0 (-3) 0)
      (MechazillaCatchSimulation.mkOrientation 0 0 0) in
  (MechazillaCatchSimulation.armsOpen slow = false
   /\ MechazillaCatchSimulation.armsHorizontalPosition slow = 5
   /\ MechazillaCatchSimulation.catchSuccessful slow = true)
  /\ (MechazillaCatchSimulation.armsOpen fast = false
      /\ MechazillaCatchSimulation.armsHorizontalPosition fast = 5
      /\ MechazillaCatchSimulation.catchFailed fast = true).
Proof.
  cbv zeta. split.
  - destruct (catch_outcome_decided Scenario.armsClosing
                (MechazillaCatchSimulation.mkPoint 0 0 0) 1
                Scenario.boosterAtArms
                (MechazillaCatchSimulation.mkPoint 0 (-1) 0)
                (MechazillaCatchSimulation.mkOrientation 0 0 0)
                eq_refl eq_refl) as [A _].
    destruct (A eq_refl eq_refl) as [B _].
    destruct (B (armsClosing_closes _ _)) as [C1 [C2 [C3 _]]].
    split; [exact C1|]. split; [exact C2|].
    apply C3. exact slow_descent_withinLimits.
  - destruct (catch_outcome_decided Scenario.armsClosing
                (MechazillaCatchSimulation.mkPoint 0 0 0) 1
                Scenario.boosterAtArms
                (MechazillaCatchSimulation.mkPoint 0 (-3) 0)
                (MechazillaCatchSimulation.mkOrientation 0 0 0)
                eq_refl eq_refl) as [A _].
    destruct (A eq_refl eq_refl) as [B _].
    destruct (B (armsClosing_closes _ _)) as [C1 [C2 [_ C4]]].
    split; [exact C1|]. split; [exact C2|].
    apply C4. exact fast_descent_outside.
Defined.

(** C4, as stated, fails where the booster misses the arms: with a catch
    in progress and the outcome open, the booster 50 m off the tower's
    axis and 5 m above the ground, descending at 1 m/s (within both
    limits), one [update] sets [catchFailed] while the arms are open, half
    a metre from closed, and stay so. *)
Lemma catch_failed_with_arms_open :
  let s := Scenario.armsClosing in
  let boosterVelocity := MechazillaCatchSimulation.mkPoint 0 (-1) 0 in
  let s' :=
    MechazillaCatchSimulation.update s
      (MechazillaCatchSimulation.mkPoint 0 0 0) 1
      (MechazillaCatchSimulation.mkPoint 0 5 0) boosterVelocity
      (MechazillaCatchSimulation.mkOrientation 0 0 0) in
  MechazillaCatchSimulation.catchInProgress s = true
  /\ MechazillaCatchSimulation.catchSuccessful s = false
  /\ MechazillaCatchSimulation.catchFailed s = false
  /\ CatchEnvelope.withinLimits boosterVelocity
  /\ MechazillaCatchSimulation.catchFailed s' = true
  /\ MechazillaCatchSimulation.catchSuccessful s' = false
  /\ MechazillaCatchSimulation.armsOpen s' = true
  /\ MechazillaCatchSimulation.armsHorizontalPosition s' = 5.5.
Proof.
  cbv zeta.
  split; [reflexivity|]. split; [reflexivity|]. split; [reflexivity|].
  split; [exact slow_descent_withinLimits|].
  destruct (update_outcome Scenario.armsClosing
              (MechazillaCatchSimulation.mkPoint 0 0 0) 1
              (MechazillaCatchSimulation.mkPoint 0 5 0)
              (MechazillaCatchSimulation.mkPoint 0 (-1) 0)
              (MechazillaCatchSimulation.mkOrientation 0 0 0)
              eq_refl eq_refl) as [A S].
  destruct (A eq_refl eq_refl) as [_ [_ [_ M]]].
  destruct (M (off_axis_near_ground_missed _ _)) as [M1 [M2 M3]].
  split; [exact M1|]. split; [|split; [exact M2 | exact M3]].
  destruct (MechazillaCatchSimulation.catchSuccessful _) eqn:E;
    [|reflexivity].
  destruct (S eq_refl) as [O _]. rewrite M2 in O. discriminate.
Qed.

(** ** The integrator *)

Section Integrator.

Import ImprovedPhysicsEngine Motion.

Lemma sameBody_refl (v : Vehicle) : sameBody v v.
Proof. unfold sameBody; repeat split. Qed.

Lemma sameBody_trans (a b c : Vehicle) :
  sameBody a b -> sameBody b c -> sameBody a c.
Proof.
  unfold sameBody. intros H1 H2.
  repeat match goal with H : _ /\ _ |- _ => destruct H end.
  repeat split; congruence.
Qed.

Lemma sameBody_set_throttle (a : R) (v : Vehicle) :
  sameBody v (set_throttle a v).
Proof. destruct v; unfold sameBody; cbn; repeat split. Qed.

Lemma sameBody_set_angularVelocity (a : Vector3.t) (v : Vehicle) :
  sameBody v (set_angularVelocity a v).
Proof. destruct v; unfold sameBody; cbn; repeat split. Qed.

Lemma sameBody_set_gridFinDeflection (a : R) (v : Vehicle) :
  sameBody v (set_gridFinDeflection a v).
Proof. destruct v; unfold sameBody; cbn; repeat split. Qed.

Lemma sameBody_set_gimbalPosition (a : Vector2.t) (v : Vehicle) :
  sameBody v (set_gimbalPosition a v).
Proof. destruct v; unfold sameBody; cbn; repeat split. Qed.

Lemma vehicles_set_vehicle_same (id : VehicleId) (v : Vehicle) (e : Engine) :
  vehicles (set_vehicle id v e) id = v.
Proof. destruct e, id; reflexivity. Qed.

Lemma vehicles_set_vehicle_other (id id' : VehicleId) (v : Vehicle)
    (e : Engine) :
  id' <> id -> vehicles (set_vehicle id v e) id' = vehicles e id'.
Proof. destruct e, id, id'; intros; try reflexivity; congruence. Qed.

Lemma sameSettings_refl (e : Engine) : sameSettings e e.
Proof. unfold sameSettings; auto. Qed.

Lemma sameSettings_trans (a b c : Engine) :
  sameSettings a b -> sameSettings b c -> sameSettings a c.
Proof.
  unfold sameSettings. intros [? [? ?]] [? [? ?]]. repeat split; congruence.
Qed.

Lemma sameSettings_set_vehicle (id : VehicleId) (v : Vehicle) (e : Engine) :
  sameSettings e (set_vehicle id v e).
Proof. destruct e, id; unfold sameSettings; cbn; auto. Qed.

Lemma sameSettings_set_landingPhase (p : LandingPhase) (e : Engine) :
  sameSettings e (set_landingPhase p e).
Proof. destruct e; unfold sameSettings; cbn; auto. Qed.

Lemma sameSettings_set_pidControllers (p : PIDControllers) (e : Engine) :
  sameSettings e (set_pidControllers p e).
Proof. destruct e; unfold sameSettings; cbn; auto. Qed.

Lemma sameSettings_updateWind (e : Engine) (rnd : WindDraws) (dt : R) :
  sameSettings e (updateWind e rnd dt).
Proof. destruct e; unfold sameSettings; cbn; auto. Qed.

Lemma vehicles_set_landingPhase (p : LandingPhase) (e : Engine)
    (id : VehicleId) :
  vehicles (set_landingPhase p e) id = vehicles e id.
Proof. destruct e, id; reflexivity. Qed.

Lemma vehicles_set_pidControllers (p : PIDControllers) (e : Engine)
    (id : VehicleId) :
  vehicles (set_pidControllers p e) id = vehicles e id.
Proof. destruct e, id; reflexivity. Qed.

Lemma vehicles_updateWind (e : Engine) (rnd : WindDraws) (dt : R)
    (id : VehicleId) :
  vehicles (updateWind e rnd dt) id = vehicles e id.
Proof. destruct e, id; reflexivity. Qed.

Lemma landingPhase_set_vehicle (id : VehicleId) (v : Vehicle) (e : Engine) :
  landingPhase (set_vehicle id v e) = landingPhase e.
Proof. destruct e, id; reflexivity. Qed.

Lemma landingPhase_updateWind (e : Engine) (rnd : WindDraws) (dt : R) :
  landingPhase (updateWind e rnd dt) = landingPhase e.
Proof. destruct e; reflexivity. Qed.

(** The force computation changes the vehicle's angular velocity only. *)
Lemma calculateForces_sameBody (e : Engine) (v : Vehicle) (dt : R) :
  sameBody v (snd (calculateForces e v dt))
  /\ throttle (snd (calculateForces e v dt)) = throttle v.
Proof.
  unfold calculateForces.
  destruct (addGridFins e v dt _) as [F v'] eqn:E. cbn [snd].
  pose proof (addGridFins_frame e v dt
                (addDrag e v
                   (addThrust v
                      (Vector3.setY (Vector3.mk 0 0 0)
                         (Vector3.y (Vector3.mk 0 0 0)
                          - gravity e * (mass v + fuel v)))))) as H.
  rewrite E in H. cbn [snd] in H. unfold sameBody.
  repeat match goal with H : _ /\ _ |- _ => destruct H end.
  repeat split; assumption.
Qed.

(** What [integrate] computes. *)
Lemma integrate_spec (F : Vector3.t) (m dt : R) (b : bool) (v : Vehicle) :
  let v' := integrate F m dt b v in
  acceleration v' = accelerationOf F m
  /\ velocity v' = velocityAfter v F m dt
  /\ position v' = positionAfter v F m dt
  /\ mass v' = mass v /\ active v' = active v.
Proof. destruct v; cbn; repeat split. Qed.

Lemma groundContact_spec (v : Vehicle) :
  let v' := groundContact v in
  Vector3.y (position v') = 0
  /\ Vector3.x (position v') = Vector3.x (position v)
  /\ Vector3.z (position v') = Vector3.z (position v)
  /\ velocity v' = Vector3.mk 0 0 0
  /\ acceleration v' = Vector3.mk 0 0 0
  /\ angularVelocity v' = Vector3.mk 0 0 0.
Proof. destruct v; cbn; repeat split. Qed.


Lemma velocityAfter_sameBody (v v1 : Vehicle) (F : Vector3.t) (m dt : R) :
  sameBody v v1 -> velocityAfter v1 F m dt = velocityAfter v F m dt.
Proof.
  unfold sameBody, velocityAfter. intros H.
  repeat match goal with H : _ /\ _ |- _ => destruct H end.
  congruence.
Qed.

Lemma positionAfter_sameBody (v v1 : Vehicle) (F : Vector3.t) (m dt : R) :
  sameBody v v1 -> positionAfter v1 F m dt = positionAfter v F m dt.
Proof.
  intros H. unfold positionAfter. rewrite (velocityAfter_sameBody v v1 F m dt H).
  unfold sameBody in H.
  repeat match goal with H : _ /\ _ |- _ => destruct H end.
  congruence.
Qed.

(** [updateVehiclePhysics]: nothing moves when the total mass is not
    positive; otherwise the vehicle takes one Euler step, and is stopped on
    the ground when that step ends below it. *)
Lemma updateVehiclePhysics_spec (e : Engine) (id : VehicleId)
    (deltaTime : R) (enginesOn : bool) :
  let v := vehicles e id in
  let dt := JS.min deltaTime 0.1 in
  let F := fst (calculateForces e v dt) in
  let m := mass v + fuel v in
  let v' := vehicles (updateVehiclePhysics e id deltaTime enginesOn) id in
  (m <= 0 /\ sameBody v v')
  \/ (0 < m /\ Vector3.y (positionAfter v F m dt) < 0
      /\ Vector3.y (position v') = 0
      /\ velocity v' = Vector3.mk 0 0 0
      /\ acceleration v' = Vector3.mk 0 0 0
      /\ angularVelocity v' = Vector3.mk 0 0 0)
  \/ (0 < m /\ 0 <= Vector3.y (positionAfter v F m dt)
      /\ position v' = positionAfter v F m dt
      /\ velocity v' = velocityAfter v F m dt
      /\ acceleration v' = accelerationOf F m).
Proof.
  cbv zeta. unfold updateVehiclePhysics.
  destruct (calculateForces e (vehicles e id) (JS.min deltaTime 0.1))
    as [F v1] eqn:EF.
  destruct (calculateForces_sameBody e (vehicles e id) (JS.min deltaTime 0.1))
    as [Hb Ht].
  rewrite EF in Hb, Ht. cbn [fst snd] in *.
  assert (Hm : mass v1 + fuel v1 = mass (vehicles e id) + fuel (vehicles e id)).
  { unfold sameBody in Hb. destruct Hb as [-> [-> _]]. reflexivity. }
  rewrite Hm.
  set (m := mass (vehicles e id) + fuel (vehicles e id)) in *.
  js_case (m <=? 0).
  - left. split; [exact Hcmp|]. rewrite vehicles_set_vehicle_same. exact Hb.
  - right.
    destruct (integrate_spec F m (JS.min deltaTime 0.1) enginesOn v1)
      as [Ha [Hv [Hp _]]].
    rewrite (velocityAfter_sameBody _ _ _ _ _ Hb) in Hv.
    rewrite (positionAfter_sameBody _ _ _ _ _ Hb) in Hp.
    rewrite Hp.
    js_case (Vector3.y (positionAfter (vehicles e id) F m (JS.min deltaTime 0.1)) <? 0).
    + left. split; [exact Hcmp|]. split; [exact Hcmp0|].
      rewrite vehicles_set_vehicle_same.
      destruct (groundContact_spec
                  (integrate F m (JS.min deltaTime 0.1) enginesOn v1))
        as [G1 [_ [_ [G2 [G3 G4]]]]].
      repeat split; assumption.
    + right. split; [exact Hcmp|]. split; [exact Hcmp0|].
      rewrite vehicles_set_vehicle_same. repeat split; assumption.
Qed.

(** The landing control writes control fields of the vehicle and the
    controllers and landing phase of the engine. *)
Lemma updateLandingControl_frame (e e' : Engine) (v v' : Vehicle) (dt : R) :
  updateLandingControl e v dt = Some (e', v') ->
  sameBody v v' /\ sameSettings e e'
  /\ (forall id, vehicles e' id = vehicles e id).
Proof.
  unfold updateLandingControl.
  match goal with
  | |- context [if ?c then set_landingPhase final e else e] =>
      set (e1 := if c then set_landingPhase final e else e)
  end.
  assert (H1 : sameSettings e e1 /\ forall id, vehicles e1 id = vehicles e id).
  { unfold e1.
    match goal with |- context [if ?t then _ else _] => destruct t end.
    - split; [apply sameSettings_set_landingPhase
             | intros; apply vehicles_set_landingPhase].
    - split; [apply sameSettings_refl | reflexivity]. }
  destruct H1 as [Hs1 Hv1]. clearbody e1.
  destruct (landingPhase e1); try discriminate.
  - (* approach *)
    destruct (updatePID_Vector3 _ _ _) as [att ao].
    destruct (updatePID_Vector2 _ _ _) as [hor ho].
    destruct (updatePID_scalar _ _ _) as [ver vo].
    intros H; inversion H; subst; clear H. split; [|split].
    + eapply sameBody_trans; [|apply sameBody_set_throttle].
      eapply sameBody_trans; [|apply sameBody_set_gridFinDeflection].
      apply sameBody_set_angularVelocity.
    + eapply sameSettings_trans; [exact Hs1|apply sameSettings_set_pidControllers].
    + intros id. rewrite vehicles_set_pidControllers. apply Hv1.
  - (* final *)
    destruct (updatePID_Vector2 _ _ _) as [hor ho].
    destruct (updatePID_Vector3 _ _ _) as [att ao].
    destruct (updatePID_scalar _ _ _) as [ver vo].
    intros H; inversion H; subst; clear H. split; [|split].
    + eapply sameBody_trans; [|apply sameBody_set_throttle].
      eapply sameBody_trans; [|apply sameBody_set_angularVelocity].
      apply sameBody_set_gimbalPosition.
    + eapply sameSettings_trans; [exact Hs1|apply sameSettings_set_pidControllers].
    + intros id. rewrite vehicles_set_pidControllers. apply Hv1.
Qed.


Lemma updateLandingControl_defined (e : Engine) (v : Vehicle) (dt : R) :
  landingPhase e = approach \/ landingPhase e = final ->
  exists r, updateLandingControl e v dt = Some r.
Proof.
  intros H. unfold updateLandingControl.
  match goal with
  | |- context [if ?c then set_landingPhase final e else e] =>
      set (e1 := if c then set_landingPhase final e else e)
  end.
  assert (H1 : landingPhase e1 = approach \/ landingPhase e1 = final).
  { unfold e1.
    match goal with |- context [if ?t then _ else _] => destruct t end.
    - right. destruct e; reflexivity.
    - exact H. }
  clearbody e1.
  destruct H1 as [-> | ->].
  - destruct (updatePID_Vector3 _ _ _) as [att ao].
    destruct (updatePID_Vector2 _ _ _) as [hor ho].
    destruct (updatePID_scalar _ _ _) as [ver vo]. eexists; reflexivity.
  - destruct (updatePID_Vector2 _ _ _) as [hor ho].
    destruct (updatePID_Vector3 _ _ _) as [att ao].
    destruct (updatePID_scalar _ _ _) as [ver vo]. eexists; reflexivity.
Qed.

(** One turn of the loop of [update]: an inactive vehicle is skipped; an
    active one takes one Euler step and is stopped on the ground when the
    step ends below it.  The other vehicle and the settings are not
    touched. *)
Lemma updateVehicle_spec (e e' : Engine) (id : VehicleId) (dt : R) :
  updateVehicle e id dt = Some e' ->
  let v := vehicles e id in
  let F := fst (calculateForces e v dt) in
  let m := mass v + fuel v in
  let v' := vehicles e' id in
  sameSettings e e'
  /\ (forall id', id' <> id -> vehicles e' id' = vehicles e id')
  /\ ((active v = false /\ e' = e)
      \/ (active v = true /\ Vector3.y (positionAfter v F m dt) < 0
          /\ Vector3.y (position v') = 0
          /\ velocity v' = Vector3.mk 0 0 0
          /\ acceleration v' = Vector3.mk 0 0 0
          /\ angularVelocity v' = Vector3.mk 0 0 0)
      \/ (active v = true /\ 0 <= Vector3.y (positionAfter v F m dt)
          /\ position v' = positionAfter v F m dt
          /\ velocity v' = velocityAfter v F m dt
          /\ acceleration v' = accelerationOf F m)).
Proof.
  cbv zeta. unfold updateVehicle.
  destruct (active (vehicles e id)) eqn:Eact; cbn [negb].
  2:{ intros H; inversion H; subst. split; [apply sameSettings_refl|].
      split; [reflexivity|]. left; auto. }
  destruct (calculateForces e (vehicles e id) dt) as [F v1] eqn:EF.
  destruct (calculateForces_sameBody e (vehicles e id) dt) as [Hb Ht].
  rewrite EF in Hb, Ht. cbn [fst snd] in *.
  match goal with
  | |- context [if ?c then updateLandingControl e v1 dt else Some (e, v1)] =>
      set (control := if c then updateLandingControl e v1 dt else Some (e, v1))
  end.
  assert (Hc : forall e2 v2, control = Some (e2, v2) ->
                 sameBody v1 v2 /\ sameSettings e e2
                 /\ forall id, vehicles e2 id = vehicles e id).
  { unfold control.
    match goal with |- context [if ?t then _ else _] => destruct t end.
    - intros e2 v2 H. apply (updateLandingControl_frame _ _ _ _ _ H).
    - intros e2 v2 H; inversion H; subst.
      split; [apply sameBody_refl|]. split; [apply sameSettings_refl|].
      reflexivity. }
  clearbody control.
  destruct control as [[e2 v2]|]; [|discriminate].
  destruct (Hc e2 v2 eq_refl) as [Hb2 [Hs2 Hv2]]. clear Hc.
  pose proof (sameBody_trans _ _ _ Hb Hb2) as Hb'.
  assert (Hm : mass v2 + fuel v2 = mass (vehicles e id) + fuel (vehicles e id)).
  { unfold sameBody in Hb'. destruct Hb' as [-> [-> _]]. reflexivity. }
  rewrite Hm.
  set (m := mass (vehicles e id) + fuel (vehicles e id)) in *.
  set (v3 := integrate F m dt true v2).
  destruct (integrate_spec F m dt true v2) as [Ha [Hv [Hp [_ _]]]].
  fold v3 in Ha, Hv, Hp.
  rewrite (velocityAfter_sameBody _ _ _ _ _ Hb') in Hv.
  rewrite (positionAfter_sameBody _ _ _ _ _ Hb') in Hp.
  set (v4 := set_eulerAngles _ _).
  assert (H4 : position v4 = position v3 /\ velocity v4 = velocity v3
               /\ acceleration v4 = acceleration v3).
  { unfold v4. destruct v3; cbn; auto. }
  destruct H4 as [P4 [V4 A4]]. clearbody v4.
  rewrite P4, Hp.
  js_case (Vector3.y (positionAfter (vehicles e id) F m dt) <? 0).
  - intros H; inversion H; subst; clear H.
    split.
    { eapply sameSettings_trans; [|apply sameSettings_set_vehicle].
      match goal with |- context [if ?t then _ else _] => destruct t end.
      - eapply sameSettings_trans; [exact Hs2|apply sameSettings_set_landingPhase].
      - exact Hs2. }
    split.
    { intros id' Hne. rewrite vehicles_set_vehicle_other by exact Hne.
      match goal with |- context [if ?t then _ else _] => destruct t end.
      - rewrite vehicles_set_landingPhase. apply Hv2.
      - apply Hv2. }
    right; left. split; [reflexivity|]. split; [exact Hcmp|].
    rewrite vehicles_set_vehicle_same.
    destruct (groundContact_spec v4) as [G1 [_ [_ [G2 [G3 G4]]]]].
    repeat split; assumption.
  - intros H; inversion H; subst; clear H.
    split.
    { eapply sameSettings_trans; [exact Hs2|apply sameSettings_set_vehicle]. }
    split.
    { intros id' Hne. rewrite vehicles_set_vehicle_other by exact Hne.
      apply Hv2. }
    right; right. split; [reflexivity|]. split; [exact Hcmp|].
    rewrite vehicles_set_vehicle_same. repeat split; congruence.
Qed.

(** The landing phase after a turn of the loop for the starship. *)
Lemma updateVehicle_starship_phase (e e' : Engine) (dt : R) :
  updateVehicle e starship dt = Some e' ->
  landingPhase e <> final -> landingPhase e' = landingPhase e.
Proof.
  unfold updateVehicle.
  destruct (active (vehicles e starship)); cbn [negb].
  2:{ intros H; inversion H; reflexivity. }
  destruct (calculateForces e (vehicles e starship) dt) as [F v1].
  rewrite andb_false_r.
  match goal with |- context [if ?t then _ else _] => destruct t end;
    intros H Hne; inversion H; subst; clear H.
  - destruct (landingPhase e) eqn:E; cbn [LandingPhase_eqb];
      rewrite ?landingPhase_set_vehicle; try assumption; congruence.
  - apply landingPhase_set_vehicle.
Qed.

Lemma updateVehicle_defined (e : Engine) (id : VehicleId) (dt : R) :
  id = starship \/ landingPhase e = none \/ landingPhase e = approach
  \/ landingPhase e = final ->
  exists e', updateVehicle e id dt = Some e'.
Proof.
  intros H. unfold updateVehicle.
  destruct (active (vehicles e id)); cbn [negb]; [|eexists; reflexivity].
  destruct (calculateForces e (vehicles e id) dt) as [F v1].
  assert (Hc : exists r,
             (if negb (LandingPhase_eqb (landingPhase e) none)
                 && VehicleId_eqb id superHeavy
              then updateLandingControl e v1 dt else Some (e, v1)) = Some r).
  { destruct H as [-> | [H | H]].
    - rewrite andb_false_r. eexists; reflexivity.
    - rewrite H. eexists; reflexivity.
    - destruct (negb _ && _); [|eexists; reflexivity].
      apply updateLandingControl_defined. exact H. }
  destruct Hc as [[e2 v2] ->].
  match goal with |- context [if ?t then _ else _] => destruct t end;
    eexists; reflexivity.
Qed.

(** [update], seen from one vehicle: its turn of the loop runs on an engine
    with the same settings and the same vehicle, and is the last thing that
    writes the vehicle. *)
Lemma update_turn (e e' : Engine) (rnd : WindDraws) (deltaTime : R)
    (id : VehicleId) :
  update e rnd deltaTime = Some e' ->
  exists ek e'',
    sameSettings e ek /\ vehicles ek id = vehicles e id
    /\ updateVehicle ek id (JS.min deltaTime 0.1) = Some e''
    /\ vehicles e' id = vehicles e'' id.
Proof.
  unfold update.
  set (dt := JS.min deltaTime 0.1).
  destruct (updateVehicle (updateWind e rnd dt) starship dt) as [e1|] eqn:E1;
    [|discriminate].
  intros E2.
  destruct (updateVehicle_spec _ _ _ _ E1) as [S1 [O1 _]].
  destruct (updateVehicle_spec _ _ _ _ E2) as [S2 [O2 _]].
  destruct id.
  - exists (updateWind e rnd dt), e1. repeat split.
    + apply sameSettings_updateWind.
    + apply sameSettings_updateWind.
    + apply sameSettings_updateWind.
    + apply vehicles_updateWind.
    + exact E1.
    + apply O2. discriminate.
  - exists e1, e'.
    pose proof (sameSettings_trans _ _ _ (sameSettings_updateWind e rnd dt) S1)
      as [? [? ?]].
    repeat split; try assumption.
    rewrite O1 by discriminate. apply vehicles_updateWind.
Qed.

Lemma update_defined (e : Engine) (rnd : WindDraws) (deltaTime : R) :
  landingPhase e = none \/ landingPhase e = approach ->
  exists e', update e rnd deltaTime = Some e'.
Proof.
  intros H. unfold update.
  set (dt := JS.min deltaTime 0.1).
  destruct (updateVehicle_defined (updateWind e rnd dt) starship dt)
    as [e1 E1]; [left; reflexivity|].
  rewrite E1.
  apply updateVehicle_defined. right.
  rewrite (updateVehicle_starship_phase _ _ _ E1);
    rewrite landingPhase_updateWind.
  - destruct H as [-> | ->]; auto.
  - destruct H as [-> | ->]; discriminate.
Qed.


(** *** The net force in the two situations of interest *)

Lemma gtb_false (a b : R) : a <= b -> (a >? b) = false.
Proof. intros; apply gtb_false_iff; assumption. Qed.

Lemma gtb_true (a b : R) : b < a -> (a >? b) = true.
Proof. intros; apply gtb_true_iff; assumption. Qed.

(** Engines off, no wind, vehicle not moving: weight only. *)
Lemma forces_at_rest (e : Engine) (v : Vehicle) (dt : R) :
  velocity v = Vector3.mk 0 0 0 -> throttle v <= 0 -> windSpeed e <= 0 ->
  fst (calculateForces e v dt)
  = Vector3.mk 0 (- (gravity e * (mass v + fuel v))) 0.
Proof.
  intros Hv Ht Hw.
  unfold calculateForces, addThrust, addDrag, addGridFins, addWind.
  rewrite (gtb_false _ _ Ht), (gtb_false _ _ Hw), Hv.
  unfold Vector3.lengthSq. cbn [Vector3.x Vector3.y Vector3.z].
  rewrite (gtb_false (0 * 0 + 0 * 0 + 0 * 0) 0) by lra.
  cbn [andb].
  match goal with |- context [if ?t then _ else _] => destruct t end;
    cbn [fst]; apply Vector3_eq; cbn; ring.
Qed.

Lemma densityFactor_vacuum (e : Engine) (v : Vehicle) :
  atmosphericDensity e = 0 -> densityFactor e v = 0.
Proof. intros H. unfold densityFactor. rewrite H. ring. Qed.

(** Engines off in vacuum: weight only, whatever the velocity. *)
Lemma forces_in_vacuum (e : Engine) (v : Vehicle) (dt : R) :
  throttle v <= 0 -> atmosphericDensity e = 0 ->
  fst (calculateForces e v dt)
  = Vector3.mk 0 (- (gravity e * (mass v + fuel v))) 0.
Proof.
  intros Ht Hd.
  unfold calculateForces, addThrust, addDrag, addGridFins, addWind, dragForce.
  rewrite (gtb_false _ _ Ht).
  rewrite !(densityFactor_vacuum e v Hd).
  rewrite (gtb_false 0 0.001) by lra.
  rewrite andb_false_r. cbv iota beta.
  rewrite !(densityFactor_vacuum e v Hd).
  rewrite (gtb_false 0 0.001) by lra.
  rewrite andb_false_r. cbn [fst].
  match goal with |- context [if ?t then _ else _] => destruct t end;
    apply Vector3_eq; cbn; ring.
Qed.


(** A step from rest under weight alone: if it does not end below the
    ground, it does not move the vehicle at all. *)
Lemma rest_step (v : Vehicle) (g m dt : R) :
  Vector3.y (position v) = 0 -> velocity v = Vector3.mk 0 0 0 ->
  0 <= g -> m <> 0 ->
  let F := Vector3.mk 0 (- (g * m)) 0 in
  0 <= Vector3.y (positionAfter v F m dt) ->
  Vector3.y (positionAfter v F m dt) = 0
  /\ velocityAfter v F m dt = Vector3.mk 0 0 0.
Proof.
  intros Hp Hv Hg Hm. cbv zeta.
  unfold positionAfter, velocityAfter, accelerationOf.
  rewrite Hp, Hv. cbn [Vector3.x Vector3.y Vector3.z].
  replace (- (g * m) / m) with (- g) by (field; exact Hm).
  replace (0 / m) with 0 by (field; exact Hm).
  intros H.
  assert (Hz : g * dt * dt = 0) by nra.
  assert (Hz' : g * dt = 0) by nra.
  split; [nra|]. apply Vector3_eq; cbn; nra.
Qed.

(** A step in free fall: the vertical velocity after it. *)
Lemma fall_step (v : Vehicle) (g m dt : R) :
  m <> 0 ->
  let F := Vector3.mk 0 (- (g * m)) 0 in
  Vector3.y (velocityAfter v F m dt) = Vector3.y (velocity v) - g * dt
  /\ Vector3.y (positionAfter v F m dt)
     = Vector3.y (position v) + (Vector3.y (velocity v) - g * dt) * dt.
Proof.
  intros Hm. cbv zeta. unfold positionAfter, velocityAfter, accelerationOf.
  cbn [Vector3.x Vector3.y Vector3.z].
  replace (- (g * m) / m) with (- g) by (field; exact Hm).
  split; ring.
Qed.

End Integrator.

(** C5.  A vehicle resting at altitude 0 with zero velocity, acceleration
    and angular velocity, with throttle 0 and no wind, is found at altitude
    0 with zero velocity after a further physics update, by
    [updateVehiclePhysics] and by [update] alike (gravity is not negative;
    for [update], which divides by the total mass unguarded, the total mass
    is not zero).  [update] returns a result in the launch and approach
    configurations. *)
Theorem ground_clamp_idempotent :
  forall (e : ImprovedPhysicsEngine.Engine)
         (id : ImprovedPhysicsEngine.VehicleId)
         (deltaTime : R) (enginesOn : bool)
         (rnd : ImprovedPhysicsEngine.WindDraws),
    let v := ImprovedPhysicsEngine.vehicles e id in
    Motion.atRest v ->
    ImprovedPhysicsEngine.throttle v = 0 ->
    ImprovedPhysicsEngine.windSpeed e = 0 ->
    0 <= ImprovedPhysicsEngine.gravity e ->
    (let v' :=
       ImprovedPhysicsEngine.vehicles
         (ImprovedPhysicsEngine.updateVehiclePhysics e id deltaTime enginesOn)
         id in
     Vector3.y (ImprovedPhysicsEngine.position v') = 0
     /\ ImprovedPhysicsEngine.velocity v' = Vector3.mk 0 0 0)
    /\ (ImprovedPhysicsEngine.mass v + ImprovedPhysicsEngine.fuel v <> 0 ->
        (forall e',
           ImprovedPhysicsEngine.update e rnd deltaTime = Some e' ->
           let v' := ImprovedPhysicsEngine.vehicles e' id in
           Vector3.y (ImprovedPhysicsEngine.position v') = 0
           /\ ImprovedPhysicsEngine.velocity v' = Vector3.mk 0 0 0)
        /\ (ImprovedPhysicsEngine.landingPhase e = ImprovedPhysicsEngine.none
            \/ ImprovedPhysicsEngine.landingPhase e
               = ImprovedPhysicsEngine.approach ->
            exists e', ImprovedPhysicsEngine.update e rnd deltaTime = Some e')).
Proof.
  intros e id deltaTime enginesOn rnd v [Hy [Hv [Ha Hw]]] Ht Hwind Hg.
  split.
  - cbv zeta.
    pose proof (updateVehiclePhysics_spec e id deltaTime enginesOn) as H.
    cbv zeta in H. fold v in H.
    rewrite (forces_at_rest e v _ Hv) in H by lra.
    destruct H as [[Hm Hb] | [[Hm [_ [P [V _]]]] | [Hm [Hpos [P [V _]]]]]].
    + unfold Motion.sameBody in Hb.
      destruct Hb as [_ [_ [_ [_ [_ [-> [-> _]]]]]]]. auto.
    + auto.
    + destruct (rest_step v (ImprovedPhysicsEngine.gravity e)
                  (ImprovedPhysicsEngine.mass v + ImprovedPhysicsEngine.fuel v)
                  (JS.min deltaTime 0.1) Hy Hv Hg) as [R1 R2];
        [lra | exact Hpos | ].
      rewrite P, V. auto.
  - intros Hm. split.
    + intros e' Hup. cbv zeta.
      destruct (update_turn e e' rnd deltaTime id Hup)
        as [ek [e'' [[Sg [Sd Sw]] [Ev [Hturn ->]]]]].
      destruct (updateVehicle_spec _ _ _ _ Hturn) as [_ [_ H]].
      cbv zeta in H. rewrite Ev in H. fold v in H.
      rewrite (forces_at_rest ek v _ Hv) in H by lra.
      rewrite Sg in H.
      destruct H as [[_ ->] | [[_ [_ [P [V _]]]] | [_ [Hpos [P [V _]]]]]].
      * rewrite Ev. auto.
      * auto.
      * destruct (rest_step v (ImprovedPhysicsEngine.gravity e)
                    (ImprovedPhysicsEngine.mass v + ImprovedPhysicsEngine.fuel v)
                    (JS.min deltaTime 0.1) Hy Hv Hg Hm Hpos) as [R1 R2].
        rewrite P, V. auto.
    + apply update_defined.
Qed.

Lemma ground_clamp_idempotent_witness :
  let e := Scenario.landedEngine in
  let v' :=
    ImprovedPhysicsEngine.vehicles
      (ImprovedPhysicsEngine.updateVehiclePhysics e
         ImprovedPhysicsEngine.superHeavy 0.1 false)
      ImprovedPhysicsEngine.superHeavy in
  Vector3.y (ImprovedPhysicsEngine.position v') = 0
  /\ ImprovedPhysicsEngine.velocity v' = Vector3.mk 0 0 0.
Proof.
  refine (proj1 (ground_clamp_idempotent Scenario.landedEngine
                   ImprovedPhysicsEngine.superHeavy 0.1 false
                   (ImprovedPhysicsEngine.mkWindDraws 0.5 0.5 0.5 0.5)
                   _ eq_refl eq_refl _)).
  - cbn. repeat split; reflexivity.
  - cbn. lra.
Defined.

(** ** Free fall *)

Lemma updateVehiclePhysics_free_fall (e : ImprovedPhysicsEngine.Engine)
    (id : ImprovedPhysicsEngine.VehicleId) (deltaTime : R) (enginesOn : bool) :
  let v := ImprovedPhysicsEngine.vehicles e id in
  let dt := JS.min deltaTime 0.1 in
  let v0 := Vector3.y (ImprovedPhysicsEngine.velocity v) in
  let g := ImprovedPhysicsEngine.gravity e in
  ImprovedPhysicsEngine.throttle v = 0 ->
  ImprovedPhysicsEngine.atmosphericDensity e = 0 ->
  0 < ImprovedPhysicsEngine.mass v + ImprovedPhysicsEngine.fuel v ->
  0 <= Vector3.y (ImprovedPhysicsEngine.position v) + (v0 - g * dt) * dt ->
  Vector3.y
    (ImprovedPhysicsEngine.velocity
       (ImprovedPhysicsEngine.vehicles
          (ImprovedPhysicsEngine.updateVehiclePhysics e id deltaTime enginesOn)
          id)) = v0 - g * dt.
Proof.
  intros v dt v0 g Ht Hd Hm Hpos.
  assert (Hm' : ImprovedPhysicsEngine.mass v + ImprovedPhysicsEngine.fuel v <> 0)
    by lra.
  destruct (fall_step v g _ dt Hm') as [Fv Fp]. cbv zeta in Fv, Fp.
  pose proof (updateVehiclePhysics_spec e id deltaTime enginesOn) as H.
  cbv zeta in H. fold v dt in H.
  rewrite (forces_in_vacuum e v _) in H by (try lra; assumption).
  fold g in H.
  destruct H as [[Hle _] | [[_ [Hneg _]] | [_ [_ [_ [V _]]]]]].
  - lra.
  - rewrite Fp in Hneg. fold v0 in Hneg. lra.
  - rewrite V. exact Fv.
Qed.

(** C8, as the code has it.  With throttle 0 in vacuum and a positive
    total mass, one physics update with argument [deltaTime] integrates
    over the capped step dt = min(deltaTime, 0.1) and yields the vertical
    velocity v0 - g dt exactly, for every v0 and every gravity g, provided
    the step does not end below the ground; this holds for
    [updateVehiclePhysics] and, for an active vehicle, for [update], which
    returns a result in the launch and approach configurations. *)
Theorem free_fall_velocity :
  forall (e : ImprovedPhysicsEngine.Engine)
         (id : ImprovedPhysicsEngine.VehicleId)
         (deltaTime : R) (enginesOn : bool)
         (rnd : ImprovedPhysicsEngine.WindDraws),
    let v := ImprovedPhysicsEngine.vehicles e id in
    let dt := JS.min deltaTime 0.1 in
    let v0 := Vector3.y (ImprovedPhysicsEngine.velocity v) in
    let g := ImprovedPhysicsEngine.gravity e in
    ImprovedPhysicsEngine.throttle v = 0 ->
    ImprovedPhysicsEngine.atmosphericDensity e = 0 ->
    0 < ImprovedPhysicsEngine.mass v + ImprovedPhysicsEngine.fuel v ->
    0 <= Vector3.y (ImprovedPhysicsEngine.position v) + (v0 - g * dt) * dt ->
    Vector3.y
      (ImprovedPhysicsEngine.velocity
         (ImprovedPhysicsEngine.vehicles
            (ImprovedPhysicsEngine.updateVehiclePhysics e id deltaTime enginesOn)
            id)) = v0 - g * dt
    /\ (ImprovedPhysicsEngine.active v = true ->
        (forall e',
           ImprovedPhysicsEngine.update e rnd deltaTime = Some e' ->
           Vector3.y
             (ImprovedPhysicsEngine.velocity
                (ImprovedPhysicsEngine.vehicles e' id)) = v0 - g * dt)
        /\ (ImprovedPhysicsEngine.landingPhase e = ImprovedPhysicsEngine.none
            \/ ImprovedPhysicsEngine.landingPhase e
               = ImprovedPhysicsEngine.approach ->
            exists e', ImprovedPhysicsEngine.update e rnd deltaTime = Some e')).
Proof.
  intros e id deltaTime enginesOn rnd v dt v0 g Ht Hd Hm Hpos.
  assert (Hm' : ImprovedPhysicsEngine.mass v + ImprovedPhysicsEngine.fuel v <> 0)
    by lra.
  destruct (fall_step v g _ dt Hm') as [Fv Fp]. cbv zeta in Fv, Fp.
  split.
  - apply updateVehiclePhysics_free_fall; assumption.
  - intros Hact. split.
    + intros e' Hup.
      destruct (update_turn e e' rnd deltaTime id Hup)
        as [ek [e'' [[Sg [Sd Sw]] [Ev [Hturn ->]]]]].
      destruct (updateVehicle_spec _ _ _ _ Hturn) as [_ [_ H]].
      cbv zeta in H. rewrite Ev in H. fold v dt in H.
      rewrite (forces_in_vacuum ek v _) in H by (try lra; congruence).
      rewrite Sg in H. fold g in H.
      destruct H as [[Hina _] | [[_ [Hneg _]] | [_ [_ [_ [V _]]]]]].
      * congruence.
      * rewrite Fp in Hneg. fold v0 in Hneg. lra.
      * rewrite V. exact Fv.
    + apply update_defined.
Qed.

Lemma free_fall_velocity_witness :
  Vector3.y
    (ImprovedPhysicsEngine.velocity
       (ImprovedPhysicsEngine.vehicles
          (ImprovedPhysicsEngine.updateVehiclePhysics Scenario.coastingInVacuum
             ImprovedPhysicsEngine.superHeavy 0.05 false)
          ImprovedPhysicsEngine.superHeavy))
  = 5 - 9.81 * JS.min 0.05 0.1.
Proof.
  refine (proj1 (free_fall_velocity Scenario.coastingInVacuum
                   ImprovedPhysicsEngine.superHeavy 0.05 false
                   (ImprovedPhysicsEngine.mkWindDraws 0.5 0.5 0.5 0.5)
                   eq_refl eq_refl _ _)).
  - cbn. lra.
  - cbn. unfold JS.min, Rmin. destruct (Rle_dec 0.05 0.1); lra.
Defined.

(** C8, as stated, fails where the step meets the ground: in vacuum with
    throttle 0 the booster 0.1 m up and falling at 10 m/s ends the update
    with vertical velocity 0, not v0 - g dt = -10.981. *)
Lemma free_fall_stopped_by_ground :
  let e := Scenario.divingInVacuum in
  let v := ImprovedPhysicsEngine.vehicles e ImprovedPhysicsEngine.superHeavy in
  let v' :=
    ImprovedPhysicsEngine.vehicles
      (ImprovedPhysicsEngine.updateVehiclePhysics e
         ImprovedPhysicsEngine.superHeavy 0.1 false)
      ImprovedPhysicsEngine.superHeavy in
  ImprovedPhysicsEngine.throttle v = 0
  /\ ImprovedPhysicsEngine.atmosphericDensity e = 0
  /\ Vector3.y (ImprovedPhysicsEngine.velocity v)
     - ImprovedPhysicsEngine.gravity e * 0.1 = -10.981
  /\ Vector3.y (ImprovedPhysicsEngine.velocity v') = 0.
Proof.
  cbv zeta. repeat split; try (cbn; lra).
  pose proof (updateVehiclePhysics_spec Scenario.divingInVacuum
                ImprovedPhysicsEngine.superHeavy 0.1 false) as H.
  cbv zeta in H.
  rewrite forces_in_vacuum in H by (cbn; lra).
  assert (Hmin : JS.min 0.1 0.1 = 0.1).
  { unfold JS.min, Rmin. destruct (Rle_dec 0.1 0.1); lra. }
  rewrite Hmin in H.
  destruct (fall_step
              (ImprovedPhysicsEngine.vehicles Scenario.divingInVacuum
                 ImprovedPhysicsEngine.superHeavy)
              (ImprovedPhysicsEngine.gravity Scenario.divingInVacuum)
              (ImprovedPhysicsEngine.mass
                 (ImprovedPhysicsEngine.vehicles Scenario.divingInVacuum
                    ImprovedPhysicsEngine.superHeavy)
               + ImprovedPhysicsEngine.fuel
                   (ImprovedPhysicsEngine.vehicles Scenario.divingInVacuum
                      ImprovedPhysicsEngine.superHeavy))
              0.1) as [_ Fp]; [cbn; lra|].
  cbv zeta in Fp. rewrite Fp in H. cbn in H.
  destruct H as [[Hle _] | [[_ [_ [_ [V _]]]] | [_ [Hpos _]]]].
  - lra.
  - cbn. rewrite V. reflexivity.
  - lra.
Qed.

(** The cap: an update called with one second integrates 0.1 s. *)
Lemma free_fall_step_is_capped :
  Vector3.y
    (ImprovedPhysicsEngine.velocity
       (ImprovedPhysicsEngine.vehicles
          (ImprovedPhysicsEngine.updateVehiclePhysics Scenario.coastingInVacuum
             ImprovedPhysicsEngine.superHeavy 1 false)
          ImprovedPhysicsEngine.superHeavy))
  = 5 - 9.81 * 0.1.
Proof.
  assert (Hmin : JS.min 1 0.1 = 0.1).
  { unfold JS.min, Rmin. destruct (Rle_dec 1 0.1); lra. }
  rewrite (updateVehiclePhysics_free_fall Scenario.coastingInVacuum
             ImprovedPhysicsEngine.superHeavy 1 false
             eq_refl eq_refl
             ltac:(cbn; lra)
             ltac:(rewrite Hmin; cbn; lra)).
  rewrite Hmin. reflexivity.
Qed.

(** ** Numerical edge cases *)

Section EdgeCases.

Import ImprovedPhysicsEngine Motion.

Lemma length_zero_vector : Vector3.length (Vector3.mk 0 0 0) = 0.
Proof.
  unfold Vector3.length. cbn.
  replace (0 * 0 + 0 * 0 + 0 * 0) with 0 by ring. apply sqrt_0.
Qed.

Lemma addDrag_zero_velocity (e : Engine) (v : Vehicle) (F : Vector3.t) :
  velocity v = Vector3.mk 0 0 0 -> addDrag e v F = F.
Proof.
  intros H. unfold addDrag, Vector3.lengthSq. rewrite H. cbn.
  rewrite (gtb_false (0 * 0 + 0 * 0 + 0 * 0) 0) by lra. reflexivity.
Qed.

Lemma calculateDrag_zero_velocity (e : Engine) (id : VehicleId) (alt : R) :
  velocity (vehicles e id) = Vector3.mk 0 0 0 ->
  calculateDrag e id alt = Vector3.mk 0 0 0.
Proof.
  intros H. unfold calculateDrag. rewrite H, length_zero_vector.
  replace (0 <? 0.01) with true by (symmetry; apply ltb_true_iff; lra).
  reflexivity.
Qed.

Lemma updateVehiclePhysics_massless (e : Engine) (id : VehicleId)
    (deltaTime : R) (enginesOn : bool) :
  mass (vehicles e id) + fuel (vehicles e id) <= 0 ->
  updateVehiclePhysics e id deltaTime enginesOn
  = set_vehicle id
      (snd (calculateForces e (vehicles e id) (JS.min deltaTime 0.1))) e.
Proof.
  intros H. unfold updateVehiclePhysics.
  destruct (calculateForces e (vehicles e id) (JS.min deltaTime 0.1))
    as [F v1] eqn:EF.
  destruct (calculateForces_sameBody e (vehicles e id) (JS.min deltaTime 0.1))
    as [Hb _].
  rewrite EF in Hb. cbn [snd] in *.
  assert (Hm : mass v1 + fuel v1 = mass (vehicles e id) + fuel (vehicles e id)).
  { unfold sameBody in Hb. destruct Hb as [-> [-> _]]. reflexivity. }
  rewrite Hm.
  replace (_ <=? 0) with true by (symmetry; apply leb_true_iff; exact H).
  reflexivity.
Qed.

End EdgeCases.

(** The guards that are there.  The drag block of [calculateForces] adds
    nothing, and [calculateDrag] returns the zero vector, when the velocity
    is the zero vector, so no zero-length vector is normalized there (and
    the divisor [normalize] uses is never zero anyway); and
    [updateVehiclePhysics] leaves acceleration, velocity and position as
    they were when the total mass is not positive, so that it computes
    acceleration = F/m for a positive m only. *)
Theorem edge_cases_are_guarded :
  forall (e : ImprovedPhysicsEngine.Engine)
         (id : ImprovedPhysicsEngine.VehicleId)
         (forces : Vector3.t) (altitude deltaTime : R) (enginesOn : bool),
    let v := ImprovedPhysicsEngine.vehicles e id in
    let m := ImprovedPhysicsEngine.mass v + ImprovedPhysicsEngine.fuel v in
    let dt := JS.min deltaTime 0.1 in
    let e' := ImprovedPhysicsEngine.updateVehiclePhysics e id deltaTime enginesOn in
    let v' := ImprovedPhysicsEngine.vehicles e' id in
    (ImprovedPhysicsEngine.velocity v = Vector3.mk 0 0 0 ->
       ImprovedPhysicsEngine.addDrag e v forces = forces
       /\ ImprovedPhysicsEngine.calculateDrag e id altitude = Vector3.mk 0 0 0)
    /\ (forall u : Vector3.t, JS.orElse (Vector3.length u) 1 <> 0)
    /\ (m <= 0 ->
          e' = ImprovedPhysicsEngine.set_vehicle id
                 (snd (ImprovedPhysicsEngine.calculateForces e v dt)) e
          /\ Motion.sameBody v v')
    /\ (ImprovedPhysicsEngine.acceleration v'
          <> ImprovedPhysicsEngine.acceleration v -> 0 < m).
Proof.
  intros e id forces altitude deltaTime enginesOn v m dt e' v'.
  split; [|split; [|split]].
  - intros H. split.
    + apply addDrag_zero_velocity; exact H.
    + apply calculateDrag_zero_velocity; exact H.
  - intros u. apply orElse_nonzero.
  - intros H. split.
    + apply updateVehiclePhysics_massless; exact H.
    + unfold v', e'. rewrite updateVehiclePhysics_massless by exact H.
      rewrite vehicles_set_vehicle_same.
      apply calculateForces_sameBody.
  - intros Hacc.
    destruct (Rle_or_lt m 0) as [Hle|Hlt]; [|exact Hlt].
    exfalso. apply Hacc.
    unfold v', e'. rewrite updateVehiclePhysics_massless by exact Hle.
    rewrite vehicles_set_vehicle_same.
    destruct (calculateForces_sameBody e v dt) as [Hb _].
    unfold Motion.sameBody in Hb.
    repeat match goal with H : _ /\ _ |- _ => destruct H end.
    assumption.
Qed.

Lemma edge_cases_are_guarded_witness :
  ImprovedPhysicsEngine.addDrag ImprovedPhysicsEngine.newEngine
    (ImprovedPhysicsEngine.vehicles ImprovedPhysicsEngine.newEngine
       ImprovedPhysicsEngine.superHeavy) (Vector3.mk 0 0 0)
  = Vector3.mk 0 0 0
  /\ ImprovedPhysicsEngine.calculateDrag ImprovedPhysicsEngine.newEngine
       ImprovedPhysicsEngine.superHeavy 0 = Vector3.mk 0 0 0.
Proof.
  exact (proj1 (edge_cases_are_guarded ImprovedPhysicsEngine.newEngine
                  ImprovedPhysicsEngine.superHeavy (Vector3.mk 0 0 0)
                  0 0.1 false) eq_refl).
Defined.

(** The older loop, [update], has no such guard: a turn of its loop for an
    active vehicle assigns F/m whatever m is. *)
Lemma update_divides_unguarded (e e' : ImprovedPhysicsEngine.Engine)
    (id : ImprovedPhysicsEngine.VehicleId) (dt : R) :
  let v := ImprovedPhysicsEngine.vehicles e id in
  let F := fst (ImprovedPhysicsEngine.calculateForces e v dt) in
  let m := ImprovedPhysicsEngine.mass v + ImprovedPhysicsEngine.fuel v in
  ImprovedPhysicsEngine.updateVehicle e id dt = Some e' ->
  ImprovedPhysicsEngine.active v = true ->
  0 <= Vector3.y (Motion.positionAfter v F m dt) ->
  ImprovedPhysicsEngine.acceleration (ImprovedPhysicsEngine.vehicles e' id)
  = Motion.accelerationOf F m.
Proof.
  cbv zeta. intros H Hact Hpos.
  destruct (updateVehicle_spec _ _ _ _ H) as [_ [_ Hs]]. cbv zeta in Hs.
  destruct Hs as [[Hina _] | [[_ [Hneg _]] | [_ [_ [_ [_ A]]]]]].
  - congruence.
  - lra.
  - exact A.
Qed.

Section MassGuard.

Import ImprovedPhysicsEngine Motion.




End MassGuard.


(** ** The catch update of the physics engine *)

Section CatchUpdate.

Import ImprovedPhysicsEngine Motion.

Lemma catchComplete_spec (e : Engine) (deltaTime : R) :
  catchComplete (snd (updateMechazillaCatch e deltaTime))
  = (Vector3.distanceTo (position (vehicles e superHeavy)) catchPosition <? 10).
Proof. reflexivity. Qed.

Lemma position_set_rotation (r : Euler.t) (v : Vehicle) :
  position (set_rotation r v) = position v.
Proof. destruct v; reflexivity. Qed.

(** The guidance part of [updateMechazillaCatch] sets the throttle and the
    acceleration of the booster, and the returned position is the one the
    physics update then computes. *)
Lemma updateMechazillaCatch_physics (e : Engine) (deltaTime : R) :
  let b := vehicles e superHeavy in
  let d := Vector3.distanceTo (position b) catchPosition in
  exists b1 : Vehicle,
    (sameBody (set_acceleration (acceleration b1) b) b1
     /\ rotation b1 = rotation b /\ gimbalPosition b1 = gimbalPosition b
     /\ gridFinDeflection b1 = gridFinDeflection b)
    /\ throttle b1 = 0.1 + 0.2 * JS.min 1.0 (d / 50)
    /\ cs_position (snd (updateMechazillaCatch e deltaTime))
       = position
           (vehicles
              (updateVehiclePhysics (set_vehicle superHeavy b1 e)
                 superHeavy deltaTime true) superHeavy).
Proof.
  cbv zeta. unfold updateMechazillaCatch. cbv zeta.
  match goal with
  | |- context [updateVehiclePhysics (set_vehicle superHeavy ?b e)] =>
      set (b1 := b)
  end.
  exists b1. split; [|split].
  - unfold b1. destruct (vehicles e superHeavy).
    cbn [set_acceleration set_throttle position acceleration].
    match goal with |- context [if ?t then _ else _] => destruct t end;
      unfold sameBody; cbn; repeat split; reflexivity.
  - unfold b1. destruct (vehicles e superHeavy).
    cbn [set_acceleration set_throttle position acceleration].
    match goal with |- context [if ?t then _ else _] => destruct t end;
      reflexivity.
  - cbn [snd cs_position].
    match goal with |- context [if ?t then _ else _] => destruct t end;
      [|reflexivity].
    apply position_set_rotation.
Qed.


Lemma min_left (a b : R) : a <= b -> JS.min a b = a.
Proof. intros; unfold JS.min; apply Rmin_left; assumption. Qed.

Lemma min_right (a b : R) : b <= a -> JS.min a b = b.
Proof. intros; unfold JS.min; apply Rmin_right; assumption. Qed.

Lemma sqrt_below (x c : R) : 0 <= x -> 0 < c -> x < c * c -> sqrt x < c.
Proof.
  intros Hx Hc H. rewrite <- (sqrt_square c) by lra.
  apply sqrt_lt_1_alt. lra.
Qed.

(** The start of the counterexample: 10.01 m from the catch point. *)
Lemma aboveCatchPoint_distance :
  Vector3.distanceTo
    (position (vehicles Scenario.aboveCatchPoint superHeavy)) catchPosition
  = 10.01.
Proof.
  unfold Vector3.distanceTo, Vector3.distanceToSquared. cbn.
  replace ((-120 - -120) * (-120 - -120)
           + (110.01 - 100) * (110.01 - 100) + (0 - 0) * (0 - 0))
    with (10.01 * 10.01) by lra.
  apply sqrt_square. lra.
Qed.

(** One catch update from there: the position the booster ends at. *)
Lemma aboveCatchPoint_step :
  cs_position (snd (updateMechazillaCatch Scenario.aboveCatchPoint 0.05))
  = Vector3.mk (-120) (110.01 + (-9.81 + 20 * 0.14004) * 0.05 * 0.05) 0.
Proof.
  destruct (updateMechazillaCatch_physics Scenario.aboveCatchPoint 0.05)
    as [b1 [[Hb [Hrot [Hgim Hfin]]] [Hthr ->]]].
  rewrite aboveCatchPoint_distance in Hthr.
  rewrite (min_right 1.0 (10.01 / 50)) in Hthr by lra.
  unfold sameBody in Hb.
  destruct Hb as [Hmass [Hfuel [Hmt [_ [_ [Hpos [Hvel _]]]]]]].
  assert (Hmass' : mass b1 = 200000)
    by (rewrite Hmass; reflexivity).
  assert (Hfuel' : fuel b1 = 3400000)
    by (rewrite Hfuel; reflexivity).
  assert (Hmt' : maxThrust b1 = 72000000)
    by (rewrite Hmt; reflexivity).
  assert (Hpos' : position b1 = Vector3.mk (-120) 110.01 0)
    by (rewrite Hpos; reflexivity).
  assert (Hvel' : velocity b1 = Vector3.mk 0 0 0)
    by (rewrite Hvel; reflexivity).
  assert (Hrot' : rotation b1 = Euler.mk 0 0 0)
    by (rewrite Hrot; reflexivity).
  assert (Hgim' : gimbalPosition b1 = Vector2.mk 0 0)
    by (rewrite Hgim; reflexivity).
  set (e1 := set_vehicle superHeavy b1 Scenario.aboveCatchPoint).
  assert (Hg : gravity e1 = 9.81) by reflexivity.
  assert (Hw : windSpeed e1 = 0) by reflexivity.
  pose proof (updateVehiclePhysics_spec e1 superHeavy 0.05 true) as H.
  cbv zeta in H.
  replace (vehicles e1 superHeavy) with b1 in H
    by (symmetry; apply vehicles_set_vehicle_same).
  rewrite (min_left 0.05 0.1) in H by lra.
  rewrite calculateForces_thrust in H by (rewrite Hthr; lra).
  rewrite forces_at_rest in H;
    [ | destruct b1; cbn in *; assumption
      | destruct b1; cbn; lra
      | rewrite Hw; lra ].
  rewrite thrustForce_upright in H by assumption.
  replace (mass (set_throttle 0 b1)) with (mass b1) in H
    by (destruct b1; reflexivity).
  replace (fuel (set_throttle 0 b1)) with (fuel b1) in H
    by (destruct b1; reflexivity).
  rewrite Hg, Hmass', Hfuel', Hmt', Hthr in H.
  unfold positionAfter, velocityAfter, accelerationOf in H.
  rewrite Hpos', Hvel' in H. cbn [Vector3.add Vector3.x Vector3.y Vector3.z] in H.
  destruct H as [[Hle _] | [[_ [Hneg _]] | [_ [_ [P _]]]]].
  - lra.
  - lra.
  - rewrite P. apply Vector3_eq; cbn [Vector3.x Vector3.y Vector3.z]; lra.
Qed.

End CatchUpdate.

(** C10, as the code has it.  [updateMechazillaCatch] reports
    catchComplete = true if and only if the booster's distance to the catch
    point (-120, 100, 0), measured on the position the booster has when the
    call starts, before the step's physics update, is below 10 m; the
    booster's velocity and attitude do not enter the test. *)
Theorem catchComplete_iff_close_at_start :
  forall (e : ImprovedPhysicsEngine.Engine) (deltaTime : R),
    let booster :=
      ImprovedPhysicsEngine.vehicles e ImprovedPhysicsEngine.superHeavy in
    let report r := ImprovedPhysicsEngine.catchComplete (snd r) in
    (report (ImprovedPhysicsEngine.updateMechazillaCatch e deltaTime) = true
     <-> Vector3.distanceTo (ImprovedPhysicsEngine.position booster)
           (Vector3.mk (-120) 100 0) < 10)
    /\ (forall (u : Vector3.t) (r : Euler.t),
          report
            (ImprovedPhysicsEngine.updateMechazillaCatch
               (ImprovedPhysicsEngine.set_vehicle
                  ImprovedPhysicsEngine.superHeavy
                  (ImprovedPhysicsEngine.set_rotation r
                     (ImprovedPhysicsEngine.set_velocity u booster)) e)
               deltaTime)
          = report (ImprovedPhysicsEngine.updateMechazillaCatch e deltaTime)).
Proof.
  intros e deltaTime booster report. unfold report. split.
  - rewrite catchComplete_spec. apply ltb_true_iff.
  - intros u r. rewrite !catchComplete_spec.
    rewrite vehicles_set_vehicle_same.
    unfold booster.
    destruct (ImprovedPhysicsEngine.vehicles e ImprovedPhysicsEngine.superHeavy).
    reflexivity.
Qed.

(** C10, as stated, fails on the timing: the booster at rest 10.01 m above
    the catch point ends the step 9.99 m from it, and the step reports
    catchComplete = false. *)
Lemma catchComplete_uses_distance_at_start :
  let r :=
    snd (ImprovedPhysicsEngine.updateMechazillaCatch
           Scenario.aboveCatchPoint 0.05) in
  ImprovedPhysicsEngine.catchComplete r = false
  /\ Vector3.distanceTo (ImprovedPhysicsEngine.cs_position r)
       ImprovedPhysicsEngine.catchPosition < 10.
Proof.
  cbv zeta. split.
  - rewrite catchComplete_spec, aboveCatchPoint_distance.
    apply ltb_false_iff. lra.
  - rewrite aboveCatchPoint_step.
    unfold Vector3.distanceTo, Vector3.distanceToSquared,
      ImprovedPhysicsEngine.catchPosition.
    cbn [Vector3.x Vector3.y Vector3.z].
    apply sqrt_below; nra.
Qed.

(** ** The atmosphere *)

Section Atmosphere.

(** Bounds on the exponential, by repeated squaring of 1 + x <= exp x. *)
Lemma exp_double (t b : R) : 0 <= b -> b <= exp t -> b * b <= exp (2 * t).
Proof.
  intros Hb H. replace (2 * t) with (t + t) by ring. rewrite exp_plus. nra.
Qed.

Lemma exp_23_large : 101325000 <= exp (200000 / 8400).
Proof.
  assert (H0 : 1.37 <= exp (200000 / 8400 / 64)).
  { pose proof (exp_ineq1_le (200000 / 8400 / 64)). lra. }
  pose proof (exp_double _ 1.37 ltac:(lra) H0) as H1.
  assert (H1' : 1.87 <= exp (2 * (200000 / 8400 / 64))) by lra.
  pose proof (exp_double _ 1.87 ltac:(lra) H1') as H2.
  assert (H2' : 3.49 <= exp (2 * (2 * (200000 / 8400 / 64)))) by lra.
  pose proof (exp_double _ 3.49 ltac:(lra) H2') as H3.
  assert (H3' : 12 <= exp (2 * (2 * (2 * (200000 / 8400 / 64))))) by lra.
  pose proof (exp_double _ 12 ltac:(lra) H3') as H4.
  pose proof (exp_double _ (12 * 12) ltac:(lra) H4) as H5.
  pose proof (exp_double _ (12 * 12 * (12 * 12)) ltac:(lra) H5) as H6.
  replace (200000 / 8400)
    with (2 * (2 * (2 * (2 * (2 * (2 * (200000 / 8400 / 64))))))) by lra.
  lra.
Qed.

Lemma exp_6_small : exp 6 <= 729.
Proof.
  pose proof exp_le_3 as H. pose proof (exp_pos 1) as Hp.
  replace 6 with (1 + 1 + 1 + 1 + 1 + 1) by lra.
  rewrite !exp_plus.
  assert (H2 : exp 1 * exp 1 <= 9) by nra.
  assert (H3 : exp 1 * exp 1 * exp 1 <= 27) by nra.
  assert (H4 : exp 1 * exp 1 * exp 1 * exp 1 <= 81) by nra.
  assert (H5 : exp 1 * exp 1 * exp 1 * exp 1 * exp 1 <= 243) by nra.
  nra.
Qed.

Import AerospacePhysicsEngine.

(** Above the point where the computed pressure meets its floor, the
    layered model is constant. *)
Lemma layer_floor (a : R) :
  200000 <= a -> layer a = (180, 0.001).
Proof.
  intros Ha. unfold layer.
  replace (a <? 11000) with false by (symmetry; apply ltb_false_iff; lra).
  replace (a <? 50000) with false by (symmetry; apply ltb_false_iff; lra).
  f_equal.
  - unfold JS.max. apply Rmax_left. lra.
  - unfold JS.max. apply Rmax_left.
    unfold STANDARD_ATMOSPHERE, SCALE_HEIGHT.
    assert (Hmono : exp (- a / 8400) <= exp (- (200000 / 8400))).
    { destruct (Req_dec a 200000) as [->|Hne].
      - right. f_equal. lra.
      - left. apply exp_increasing. lra. }
    rewrite exp_Ropp in Hmono.
    pose proof exp_23_large as Hbig.
    assert (Hinv : / exp (200000 / 8400) <= / 101325000).
    { apply Rinv_le_contravar; lra. }
    lra.
Qed.


Lemma ln_neg (x : R) : 0 < x < 1 -> ln x < 0.
Proof.
  intros [H0 H1]. rewrite <- ln_1. apply ln_increasing; assumption.
Qed.

Lemma pow_one (y : R) : pow 1 y = 1.
Proof. unfold pow, Rpower. rewrite ln_1, Rmult_0_r. apply exp_0. Qed.

(** For a base below 1, raising to a power above 1 goes below the base. *)
Lemma pow_below_base (x y : R) : 0 < x < 1 -> 1 < y -> pow x y < x.
Proof.
  intros Hx Hy. pose proof (ln_neg x Hx) as Hl. unfold pow.
  rewrite <- (Rpower_1 x) at 2 by lra.
  unfold Rpower. apply exp_increasing. nra.
Qed.

Lemma pow_above_sixth (x y : R) : 0 < x < 1 -> y <= 6 -> x ^ 6 <= pow x y.
Proof.
  intros Hx Hy. pose proof (ln_neg x Hx) as Hl. unfold pow.
  rewrite <- (Rpower_pow 6 x) by lra.
  replace (INR 6) with 6 by (simpl; lra).
  unfold Rpower.
  destruct (Req_dec y 6) as [->|Hne]; [lra|].
  left. apply exp_increasing. nra.
Qed.

Lemma exp_5_bounds :
  / 729 <= exp (- 50000 / 8400) <= / (1 + 50000 / 8400).
Proof.
  replace (- 50000 / 8400) with (- (50000 / 8400)) by lra.
  rewrite exp_Ropp. split.
  - apply Rinv_le_contravar; [apply exp_pos|].
    apply Rle_trans with (exp 6); [|apply exp_6_small].
    left. apply exp_increasing. lra.
  - apply Rinv_le_contravar; [lra|]. apply exp_ineq1_le.
Qed.

Lemma layer_0 : layer 0 = (288.15, 101325).
Proof.
  unfold layer.
  replace (0 <? 11000) with true by (symmetry; apply ltb_true_iff; lra).
  unfold SEA_LEVEL_TEMP, LAPSE_RATE, STANDARD_ATMOSPHERE.
  replace (288.15 - 0.0065 * 0) with 288.15 by lra.
  replace (288.15 / 288.15) with 1 by lra.
  rewrite pow_one. f_equal. lra.
Qed.

Lemma layer_10000 :
  layer 10000 = (223.15, 101325 * pow (223.15 / 288.15) 5.2561).
Proof.
  unfold layer.
  replace (10000 <? 11000) with true by (symmetry; apply ltb_true_iff; lra).
  unfold SEA_LEVEL_TEMP, LAPSE_RATE, STANDARD_ATMOSPHERE.
  replace (288.15 - 0.0065 * 10000) with 223.15 by lra.
  reflexivity.
Qed.

Lemma layer_50000 :
  layer 50000 = (180, 101325 * exp (- 50000 / 8400)).
Proof.
  unfold layer.
  replace (50000 <? 11000) with false by (symmetry; apply ltb_false_iff; lra).
  replace (50000 <? 50000) with false by (symmetry; apply ltb_false_iff; lra).
  unfold STANDARD_ATMOSPHERE, SCALE_HEIGHT, JS.max.
  pose proof exp_5_bounds as [Hlo _].
  f_equal; [apply Rmax_left; lra | apply Rmax_right; lra].
Qed.

Lemma layer_100000 :
  layer 100000
  = (180, JS.max 0.001 (101325 * exp (- 100000 / 8400))).
Proof.
  unfold layer.
  replace (100000 <? 11000) with false by (symmetry; apply ltb_false_iff; lra).
  replace (100000 <? 50000) with false by (symmetry; apply ltb_false_iff; lra).
  unfold STANDARD_ATMOSPHERE, SCALE_HEIGHT, JS.max.
  f_equal. apply Rmax_left; lra.
Qed.

(** The pressures of the layered model at 0, 10, 50 and 100 km. *)
Lemma pressure_sequence :
  pressureAt 100000 < pressureAt 50000
  /\ pressureAt 50000 < pressureAt 10000
  /\ pressureAt 10000 < pressureAt 0.
Proof.
  unfold pressureAt.
  rewrite layer_0, layer_10000, layer_50000, layer_100000. cbn [snd].
  pose proof exp_5_bounds as [Hlo Hhi].
  assert (Hx : 0 < 223.15 / 288.15 < 1) by lra.
  pose proof (pow_below_base _ 5.2561 Hx ltac:(lra)) as Hr1.
  pose proof (pow_above_sixth _ 5.2561 Hx ltac:(lra)) as Hr6.
  assert (H6 : 0.2 <= (223.15 / 288.15) ^ 6) by (simpl; lra).
  assert (He : exp (- 100000 / 8400) < exp (- 50000 / 8400))
    by (apply exp_increasing; lra).
  repeat split.
  - unfold JS.max. apply Rmax_lub_lt; lra.
  - lra.
  - lra.
Qed.

(** The densities of the layered model at 0, 10, 50 and 100 km. *)
Lemma density_sequence :
  densityAt 100000 < densityAt 50000
  /\ densityAt 50000 < densityAt 10000
  /\ densityAt 10000 < densityAt 0.
Proof.
  unfold densityAt.
  rewrite layer_0, layer_10000, layer_50000, layer_100000.
  unfold GAS_CONSTANT_AIR.
  pose proof exp_5_bounds as [Hlo Hhi].
  assert (Hx : 0 < 223.15 / 288.15 < 1) by lra.
  pose proof (pow_below_base _ 5.2561 Hx ltac:(lra)) as Hr1.
  pose proof (pow_above_sixth _ 5.2561 Hx ltac:(lra)) as Hr6.
  assert (H6 : 0.2 <= (223.15 / 288.15) ^ 6) by (simpl; lra).
  assert (He : exp (- 100000 / 8400) < exp (- 50000 / 8400))
    by (apply exp_increasing; lra).
  assert (Hp : JS.max 0.001 (101325 * exp (- 100000 / 8400))
               < 101325 * exp (- 50000 / 8400)).
  { unfold JS.max. apply Rmax_lub_lt; lra. }
  set (r := pow (223.15 / 288.15) 5.2561) in *.
  set (E5 := exp (- 50000 / 8400)) in *.
  set (P10 := JS.max 0.001 (101325 * exp (- 100000 / 8400))) in *.
  repeat split.
  - unfold Rdiv. apply Rmult_lt_compat_r; [|exact Hp].
    apply Rinv_0_lt_compat. lra.
  - assert (E5 <= 0.144).
    { eapply Rle_trans; [exact Hhi|]. apply Rle_trans with (/ 6.95).
      - apply Rinv_le_contravar; lra.
      - lra. }
    lra.
  - lra.
Qed.

Import ImprovedPhysicsEngine.

(** The exponential model: strictly decreasing. *)
Lemma calculateAirDensity_decreasing (e : ImprovedPhysicsEngine.Engine)
    (a1 a2 : R) :
  0 < airDensitySeaLevel e -> 0 < atmosphereScaleHeight e -> a1 < a2 ->
  calculateAirDensity e a2 < calculateAirDensity e a1.
Proof.
  intros Hd Hs Ha. unfold calculateAirDensity.
  apply Rmult_lt_compat_l; [exact Hd|].
  apply exp_increasing. unfold Rdiv.
  apply Rmult_lt_compat_r; [apply Rinv_0_lt_compat; exact Hs | lra].
Qed.


Lemma exp_double_le (t b : R) : exp t <= b -> exp (2 * t) <= b * b.
Proof.
  intros H. pose proof (exp_pos t).
  replace (2 * t) with (t + t) by ring. rewrite exp_plus. nra.
Qed.

Lemma exp_small_arg (t : R) : 0 <= t < 1 -> exp t <= / (1 - t).
Proof.
  intros Ht. pose proof (exp_ineq1_le (- t)) as H.
  rewrite exp_Ropp in H. pose proof (exp_pos t) as Hp.
  rewrite <- (Rinv_inv (exp t)).
  apply Rinv_le_contravar; lra.
Qed.

(** Across the 50 km boundary of the layered model the density goes up. *)
Lemma density_rises_at_50km :
  AerospacePhysicsEngine.densityAt 40000
  < AerospacePhysicsEngine.densityAt 50000.
Proof.
  unfold AerospacePhysicsEngine.densityAt. rewrite layer_50000.
  unfold AerospacePhysicsEngine.layer.
  replace (40000 <? 11000) with false by (symmetry; apply ltb_false_iff; lra).
  replace (40000 <? 50000) with true by (symmetry; apply ltb_true_iff; lra).
  unfold AerospacePhysicsEngine.GAS_CONSTANT_AIR.
  set (t := (50000 / 8400 - 0.0001577 * (40000 - 11000)) / 8).
  assert (H0 : exp t <= 1.21).
  { eapply Rle_trans; [apply exp_small_arg; unfold t; lra|].
    apply Rle_trans with (/ 0.827).
    - apply Rinv_le_contravar; unfold t; lra.
    - lra. }
  pose proof (exp_double_le _ _ H0) as H1.
  assert (H1' : exp (2 * t) <= 1.47) by lra.
  pose proof (exp_double_le _ _ H1') as H2.
  assert (H2' : exp (2 * (2 * t)) <= 2.17) by lra.
  pose proof (exp_double_le _ _ H2') as H3.
  assert (H3' : exp (2 * (2 * (2 * t))) <= 4.71) by lra.
  assert (Esplit :
    exp (-0.0001577 * (40000 - 11000))
    = exp (- 50000 / 8400) * exp (2 * (2 * (2 * t)))).
  { rewrite <- exp_plus. f_equal. unfold t. lra. }
  rewrite Esplit.
  pose proof (exp_pos (- 50000 / 8400)) as Hp.
  set (E5 := exp (- 50000 / 8400)) in *.
  set (X := exp (2 * (2 * (2 * t)))) in *.
  assert (HX : E5 * X <= E5 * 4.71) by nra.
  lra.
Qed.

End Atmosphere.

(** C6, as the code has it.  The exponential model of the improved engine
    ([calculateAirDensity], positive sea-level density and scale height, as
    configured) is strictly decreasing in altitude for every pair of
    altitudes.  The layered model of the aerospace engine is strictly
    decreasing in density and in pressure over the altitudes 0, 10000,
    50000, 100000 m; its pressure is floored at 0.001 Pa, so from 200 km up
    pressure and density are constant. *)
Theorem density_decreasing_as_modelled :
  (forall (e : ImprovedPhysicsEngine.Engine) (a1 a2 : R),
      (0 < ImprovedPhysicsEngine.airDensitySeaLevel e
       /\ 0 < ImprovedPhysicsEngine.atmosphereScaleHeight e
       /\ a1 < a2 ->
       ImprovedPhysicsEngine.calculateAirDensity e a2
       < ImprovedPhysicsEngine.calculateAirDensity e a1))
  /\ (AerospacePhysicsEngine.densityAt 100000
      < AerospacePhysicsEngine.densityAt 50000
      /\ AerospacePhysicsEngine.densityAt 50000
         < AerospacePhysicsEngine.densityAt 10000
      /\ AerospacePhysicsEngine.densityAt 10000
         < AerospacePhysicsEngine.densityAt 0)
  /\ (AerospacePhysicsEngine.pressureAt 100000
      < AerospacePhysicsEngine.pressureAt 50000
      /\ AerospacePhysicsEngine.pressureAt 50000
         < AerospacePhysicsEngine.pressureAt 10000
      /\ AerospacePhysicsEngine.pressureAt 10000
         < AerospacePhysicsEngine.pressureAt 0)
  /\ (forall a : R,
        (200000 <= a ->
         AerospacePhysicsEngine.pressureAt a = 0.001
         /\ AerospacePhysicsEngine.densityAt a
            = AerospacePhysicsEngine.densityAt 200000)).
Proof.
  split; [|split; [|split]].
  - intros e a1 a2 [Hd [Hs Ha]].
    apply calculateAirDensity_decreasing; assumption.
  - apply density_sequence.
  - apply pressure_sequence.
  - intros a Ha.
    unfold AerospacePhysicsEngine.pressureAt, AerospacePhysicsEngine.densityAt.
    rewrite (layer_floor a Ha), (layer_floor 200000) by lra.
    split; reflexivity.
Qed.

Lemma density_decreasing_as_modelled_witness :
  ImprovedPhysicsEngine.calculateAirDensity ImprovedPhysicsEngine.newEngine 1000
  < ImprovedPhysicsEngine.calculateAirDensity ImprovedPhysicsEngine.newEngine 0.
Proof.
  apply (proj1 density_decreasing_as_modelled
           ImprovedPhysicsEngine.newEngine 0 1000).
  cbn. lra.
Defined.

(** C6, as stated, fails for the layered model: between 200 km and 300 km
    neither the density nor the pressure decreases. *)
Lemma density_constant_above_floor :
  200000 < 300000
  /\ AerospacePhysicsEngine.densityAt 300000
     = AerospacePhysicsEngine.densityAt 200000
  /\ AerospacePhysicsEngine.pressureAt 300000
     = AerospacePhysicsEngine.pressureAt 200000.
Proof.
  unfold AerospacePhysicsEngine.pressureAt, AerospacePhysicsEngine.densityAt.
  rewrite (layer_floor 300000), (layer_floor 200000) by lra.
  repeat split. lra.
Qed.

(** The configured constants of the improved engine are positive, so its
    density falls between any two altitudes. *)
Lemma calculateAirDensity_newEngine_decreasing (a1 a2 : R) :
  a1 < a2 ->
  ImprovedPhysicsEngine.calculateAirDensity ImprovedPhysicsEngine.newEngine a2
  < ImprovedPhysicsEngine.calculateAirDensity ImprovedPhysicsEngine.newEngine a1.
Proof.
  intros H. apply calculateAirDensity_decreasing; cbn; lra.
Qed.

(** ** reset *)

Section Reset.

Import ImprovedPhysicsEngine Motion.

(** What [reset] puts back. *)
Lemma reset_restores (e : Engine) (id : VehicleId) :
  let v := vehicles (reset e) id in
  velocity v = Vector3.mk 0 0 0 /\ acceleration v = Vector3.mk 0 0 0
  /\ rotation v = Euler.mk 0 0 0 /\ angularVelocity v = Vector3.mk 0 0 0
  /\ throttle v = 0 /\ gridFinDeflection v = 0
  /\ gimbalPosition v = Vector2.mk 0 0 /\ active v = true
  /\ position v = position (vehicles newEngine id)
  /\ landingPhase (reset e) = none
  /\ separationTimer (reset e) = None
  /\ separationCompleted (reset e) = false
  /\ combinedStage (reset e) = true
  /\ simulationTime (reset e) = 0
  /\ s_integral (verticalVelocity (pidControllers (reset e))) = 0
  /\ s_previousError (verticalVelocity (pidControllers (reset e))) = 0
  /\ h_integral (horizontalPosition (pidControllers (reset e))) = Vector2.mk 0 0
  /\ h_previousError (horizontalPosition (pidControllers (reset e)))
     = Vector2.mk 0 0
  /\ a_integral (attitude (pidControllers (reset e))) = Vector3.mk 0 0 0
  /\ a_previousError (attitude (pidControllers (reset e))) = Vector3.mk 0 0 0.
Proof.
  destruct e as [g cs ad vs vh sl lt lp lpar pid sh st ws wd gs ti sep sc rp
                 lsa ha ts].
  destruct id; [destruct vs | destruct vh]; cbn; repeat split; reflexivity.
Qed.

(** What [reset] does not touch. *)
Lemma reset_keeps (e : Engine) (id : VehicleId) :
  let v := vehicles e id in
  let v' := vehicles (reset e) id in
  fuel v' = fuel v /\ mass v' = mass v
  /\ gridFins v' = gridFins v /\ landingLegs v' = landingLegs v
  /\ heatShield v' = heatShield v
  /\ returnParams (reset e) = returnParams e
  /\ landingParams (reset e) = landingParams e
  /\ landingTarget (reset e) = landingTarget e
  /\ windDirection (reset e) = windDirection e
  /\ h_kP (horizontalPosition (pidControllers (reset e)))
     = h_kP (horizontalPosition (pidControllers e)).
Proof.
  destruct e as [g cs ad vs vh sl lt lp lpar pid sh st ws wd gs ti sep sc rp
                 lsa ha ts].
  destruct id; [destruct vs | destruct vh]; cbn; repeat split; reflexivity.
Qed.

Lemma reset_newEngine : reset newEngine = newEngine.
Proof. reflexivity. Qed.

(** The propellant after a turn of the loop of [update] outside the
    landing phases. *)
Lemma updateVehicle_fuel (e e' : Engine) (id : VehicleId) (dt : R) :
  landingPhase e = none ->
  active (vehicles e id) = true ->
  updateVehicle e id dt = Some e' ->
  let v := vehicles e id in
  fuel (vehicles e' id)
  = if throttle v >? 0
    then JS.max 0 (fuel v - maxThrust v * throttle v / 3000 * dt)
    else fuel v.
Proof.
  intros Hph Hact. unfold updateVehicle. rewrite Hact, Hph. cbn [negb andb LandingPhase_eqb].
  destruct (calculateForces e (vehicles e id) dt) as [F v1] eqn:EF.
  destruct (calculateForces_sameBody e (vehicles e id) dt) as [Hb Ht].
  rewrite EF in Hb, Ht. cbn [snd] in Hb, Ht.
  unfold sameBody in Hb.
  destruct Hb as [Hm [Hf [Hmt _]]].
  assert (Hfuel : forall m, fuel (integrate F m dt true v1)
            = if throttle (vehicles e id) >? 0
              then JS.max 0 (fuel (vehicles e id)
                             - maxThrust (vehicles e id)
                               * throttle (vehicles e id) / 3000 * dt)
              else fuel (vehicles e id)).
  { intros m. rewrite <- Ht, <- Hf, <- Hmt. destruct v1; reflexivity. }
  match goal with |- context [if ?t then _ else _] => destruct t end;
    intros H; inversion H; subst; clear H; cbv zeta;
    rewrite vehicles_set_vehicle_same.
  - rewrite <- (Hfuel (mass v1 + fuel v1)).
    destruct (integrate F (mass v1 + fuel v1) dt true v1); reflexivity.
  - rewrite <- (Hfuel (mass v1 + fuel v1)).
    destruct (integrate F (mass v1 + fuel v1) dt true v1); reflexivity.
Qed.

(** The propellant of the booster after [update] outside the landing
    phases. *)
Lemma update_booster_fuel (e e' : Engine) (rnd : WindDraws) (deltaTime : R) :
  landingPhase e = none ->
  active (vehicles e superHeavy) = true ->
  update e rnd deltaTime = Some e' ->
  let v := vehicles e superHeavy in
  fuel (vehicles e' superHeavy)
  = if throttle v >? 0
    then JS.max 0 (fuel v - maxThrust v * throttle v / 3000
                            * JS.min deltaTime 0.1)
    else fuel v.
Proof.
  intros Hph Hact. unfold update.
  set (dt := JS.min deltaTime 0.1).
  destruct (updateVehicle (updateWind e rnd dt) starship dt) as [e1|] eqn:E1;
    [|discriminate].
  intros E2.
  destruct (updateVehicle_spec _ _ _ _ E1) as [_ [O1 _]].
  assert (Hv : vehicles e1 superHeavy = vehicles e superHeavy).
  { rewrite O1 by discriminate. apply vehicles_updateWind. }
  assert (Hp : landingPhase e1 = none).
  { rewrite (updateVehicle_starship_phase _ _ _ E1);
      rewrite landingPhase_updateWind; rewrite Hph;
      [reflexivity | discriminate]. }
  pose proof (updateVehicle_fuel e1 e' superHeavy dt Hp) as Hf.
  rewrite Hv in Hf. cbv zeta in Hf. cbv zeta. apply Hf; assumption.
Qed.

End Reset.

(** C7.  One tenth of a second of launch on the engine as [init] leaves
    it burns 2400 kg of the booster's propellant, and [reset()] on the
    engine so obtained leaves the booster with 3397600 kg where the
    constructor gives 3400000 kg: for every engine and vehicle [reset()]
    returns the propellant mass, the dry mass, the grid fins, the landing
    legs and the heat shield as it found them, and likewise
    [returnParams], [landingParams], the landing target, the wind
    direction and the proportional gain of the horizontal controller.
    Positions, velocities, rotations, throttles, the landing phase, the
    separation state, the simulation time and the integrals and previous
    errors of the three controllers are put back. *)
Theorem reset_leaves_propellant_and_return_state :
  (exists e1,
     ImprovedPhysicsEngine.updateLaunch ImprovedPhysicsEngine.newEngine
       Scenario.stillAir 0.1 = Some e1
     /\ ImprovedPhysicsEngine.fuel
          (ImprovedPhysicsEngine.vehicles (ImprovedPhysicsEngine.reset e1)
             ImprovedPhysicsEngine.superHeavy) = 3397600
     /\ ImprovedPhysicsEngine.fuel
          (ImprovedPhysicsEngine.vehicles ImprovedPhysicsEngine.newEngine
             ImprovedPhysicsEngine.superHeavy) = 3400000
     /\ ImprovedPhysicsEngine.reset e1 <> ImprovedPhysicsEngine.newEngine)
  /\ (forall e id,
        ImprovedPhysicsEngine.fuel
          (ImprovedPhysicsEngine.vehicles (ImprovedPhysicsEngine.reset e) id)
        = ImprovedPhysicsEngine.fuel (ImprovedPhysicsEngine.vehicles e id)
        /\ ImprovedPhysicsEngine.returnParams (ImprovedPhysicsEngine.reset e)
           = ImprovedPhysicsEngine.returnParams e
        /\ ImprovedPhysicsEngine.landingParams (ImprovedPhysicsEngine.reset e)
           = ImprovedPhysicsEngine.landingParams e)
  /\ ImprovedPhysicsEngine.returnParams
       (ImprovedPhysicsEngine.reset
          (ImprovedPhysicsEngine.initializeBoosterReturn
             ImprovedPhysicsEngine.newEngine))
     = Some (ImprovedPhysicsEngine.mkReturnParams 0 10.0 5.0 15.0
               ImprovedPhysicsEngine.rCoast)
  /\ ImprovedPhysicsEngine.returnParams ImprovedPhysicsEngine.newEngine = None.
Proof.
  split; [|split; [|split]].
  - destruct (update_defined
                (ImprovedPhysicsEngine.set_vehicle
                   ImprovedPhysicsEngine.superHeavy
                   (ImprovedPhysicsEngine.set_quaternion
                      (Quaternion.setFromEuler (Euler.mk 0 0 0))
                      (ImprovedPhysicsEngine.set_rotation (Euler.mk 0 0 0)
                         (ImprovedPhysicsEngine.set_throttle 1.0
                            (ImprovedPhysicsEngine.set_active true
                               (ImprovedPhysicsEngine.vehicles
                                  ImprovedPhysicsEngine.newEngine
                                  ImprovedPhysicsEngine.superHeavy)))))
                   ImprovedPhysicsEngine.newEngine)
                Scenario.stillAir 0.1) as [e1 E1]; [left; reflexivity|].
    assert (Hf : ImprovedPhysicsEngine.fuel
                   (ImprovedPhysicsEngine.vehicles e1
                      ImprovedPhysicsEngine.superHeavy) = 3397600).
    { rewrite (fun Hp Ha => update_booster_fuel _ _ _ _ Hp Ha E1)
        by reflexivity.
      cbn. rewrite gtb_true by lra.
      rewrite min_left by lra. unfold JS.max. rewrite Rmax_right by lra.
      lra. }
    assert (Hr : ImprovedPhysicsEngine.fuel
                   (ImprovedPhysicsEngine.vehicles
                      (ImprovedPhysicsEngine.reset e1)
                      ImprovedPhysicsEngine.superHeavy) = 3397600).
    { rewrite (proj1 (reset_keeps e1 ImprovedPhysicsEngine.superHeavy)).
      exact Hf. }
    exists e1. split; [exact E1|]. split; [exact Hr|].
    split; [reflexivity|].
    intros Heq. rewrite Heq in Hr. cbn in Hr. lra.
  - intros e id.
    pose proof (reset_keeps e id) as H. cbv zeta in H.
    repeat split; apply H.
  - reflexivity.
  - reflexivity.
Qed.

(** ** normalizeAngle *)

Section Angles.

Import ImprovedPhysicsEngine.

Lemma turns_enough (angle : R) : Rabs angle < 2 * PI * INR (turns angle).
Proof.
  unfold turns.
  assert (Hpi : 0 < 2 * PI) by (pose proof PI_RGT_0; lra).
  set (x := Rabs angle / (2 * PI)).
  assert (Hx : 0 <= x).
  { unfold x. apply Rmult_le_pos; [apply Rabs_pos|].
    left. apply Rinv_0_lt_compat. exact Hpi. }
  destruct (archimed x) as [Hup _].
  assert (Hz : (0 <= up x)%Z).
  { apply le_IZR. lra. }
  rewrite INR_IZR_INZ, Z2Nat.id by exact Hz.
  replace (Rabs angle) with (2 * PI * x) by (unfold x; field; lra).
  apply Rmult_lt_compat_l; lra.
Qed.

Lemma whileAbove_spec (n : nat) (angle : R) :
  angle <= PI + 2 * PI * INR n ->
  whileAbove n angle <= PI
  /\ (whileAbove n angle = angle \/ - PI < whileAbove n angle).
Proof.
  revert angle. induction n as [|k IH]; intros angle H.
  - cbn in *. split; [lra | left; reflexivity].
  - cbn [whileAbove]. js_case (angle >? PI).
    + destruct (IH (angle - 2 * PI)) as [H1 H2].
      { rewrite S_INR in H. lra. }
      split; [exact H1|]. right. destruct H2 as [-> | H2]; lra.
    + split; [lra | left; reflexivity].
Qed.

Lemma whileBelow_spec (n : nat) (angle : R) :
  - PI - 2 * PI * INR n <= angle ->
  - PI <= whileBelow n angle
  /\ (whileBelow n angle = angle \/ whileBelow n angle < PI).
Proof.
  revert angle. induction n as [|k IH]; intros angle H.
  - cbn in *. split; [lra | left; reflexivity].
  - cbn [whileBelow]. js_case (angle <? - PI).
    + destruct (IH (angle + 2 * PI)) as [H1 H2].
      { rewrite S_INR in H. lra. }
      split; [exact H1|]. right. destruct H2 as [-> | H2]; lra.
    + split; [lra | left; reflexivity].
Qed.

(** Both loops of [normalizeAngle] end within the turns given to them:
    the result lies between [-PI] and [PI]. *)
Lemma normalizeAngle_range (angle : R) :
  - PI <= normalizeAngle angle <= PI.
Proof.
  unfold normalizeAngle.
  set (angle1 := whileAbove (turns angle) angle).
  pose proof (turns_enough angle) as T0.
  pose proof (turns_enough angle1) as T1.
  pose proof PI_RGT_0 as Hpi.
  destruct (whileAbove_spec (turns angle) angle) as [A1 _].
  { pose proof (Rle_abs angle). lra. }
  fold angle1 in A1.
  destruct (whileBelow_spec (turns angle1) angle1) as [B1 B2].
  { pose proof (Rle_abs (- angle1)). rewrite Rabs_Ropp in H. lra. }
  split; [exact B1|]. destruct B2 as [-> | B2]; lra.
Qed.

End Angles.

(** * Further properties of the embedded code *)

(** ** Angles and interpolation *)

Section AnglesMore.

Import ImprovedPhysicsEngine.

Lemma whileAbove_turns (n : nat) (angle : R) :
  exists k : Z, whileAbove n angle = angle + 2 * PI * IZR k.
Proof.
  revert angle. induction n as [|n IH]; intros angle.
  - exists 0%Z. cbn. lra.
  - cbn [whileAbove]. destruct (angle >? PI).
    + destruct (IH (angle - 2 * PI)) as [k Hk]. exists (k - 1)%Z.
      rewrite Hk, minus_IZR. lra.
    + exists 0%Z. lra.
Qed.

Lemma whileBelow_turns (n : nat) (angle : R) :
  exists k : Z, whileBelow n angle = angle + 2 * PI * IZR k.
Proof.
  revert angle. induction n as [|n IH]; intros angle.
  - exists 0%Z. cbn. lra.
  - cbn [whileBelow]. destruct (angle <? - PI).
    + destruct (IH (angle + 2 * PI)) as [k Hk]. exists (k + 1)%Z.
      rewrite Hk, plus_IZR. lra.
    + exists 0%Z. lra.
Qed.

Lemma whileAbove_fixed (n : nat) (angle : R) :
  angle <= PI -> whileAbove n angle = angle.
Proof.
  intros H. destruct n; [reflexivity|]. cbn [whileAbove].
  rewrite gtb_false by exact H. reflexivity.
Qed.

Lemma whileBelow_fixed (n : nat) (angle : R) :
  - PI <= angle -> whileBelow n angle = angle.
Proof.
  intros H. destruct n; [reflexivity|]. cbn [whileBelow].
  replace (angle <? - PI) with false; [reflexivity|].
  symmetry. apply ltb_false_iff. lra.
Qed.

End AnglesMore.

(** X1.  [normalizeAngle] returns an angle between -PI and PI that differs
    from its argument by a whole number of turns, and it returns an
    argument that already lies between -PI and PI unchanged. *)
Theorem normalizeAngle_normalizes :
  forall angle : R,
    (- PI <= ImprovedPhysicsEngine.normalizeAngle angle <= PI)
    /\ (exists k : Z,
          ImprovedPhysicsEngine.normalizeAngle angle = angle + 2 * PI * IZR k)
    /\ (- PI <= angle <= PI ->
        ImprovedPhysicsEngine.normalizeAngle angle = angle).
Proof.
  intros angle. split; [apply normalizeAngle_range|]. split.
  - unfold ImprovedPhysicsEngine.normalizeAngle.
    destruct (whileAbove_turns (ImprovedPhysicsEngine.turns angle) angle)
      as [k1 H1].
    set (angle1 := ImprovedPhysicsEngine.whileAbove
                     (ImprovedPhysicsEngine.turns angle) angle) in *.
    destruct (whileBelow_turns (ImprovedPhysicsEngine.turns angle1) angle1)
      as [k2 H2].
    exists (k1 + k2)%Z. rewrite H2, H1, plus_IZR. lra.
  - intros [Hlo Hhi]. unfold ImprovedPhysicsEngine.normalizeAngle.
    rewrite (whileAbove_fixed _ _ Hhi). apply whileBelow_fixed. exact Hlo.
Qed.

(** X2.  [lerp(a, b, t)] clamps its factor: the result lies between [a]
    and [b] for every [t], it is [a] for t <= 0 and [b] for t >= 1, and in
    between it is a + (b - a) t. *)
Theorem lerp_stays_between :
  forall a b t : R,
    (Rmin a b <= ImprovedPhysicsEngine.lerp a b t <= Rmax a b)
    /\ (t <= 0 -> ImprovedPhysicsEngine.lerp a b t = a)
    /\ (1 <= t -> ImprovedPhysicsEngine.lerp a b t = b)
    /\ (0 <= t <= 1 -> ImprovedPhysicsEngine.lerp a b t = a + (b - a) * t).
Proof.
  intros a b t. unfold ImprovedPhysicsEngine.lerp.
  pose proof (clamp_between 0 1 t ltac:(lra)) as Hc.
  set (c := JS.max 0 (JS.min 1 t)) in *.
  split; [|split; [|split]].
  - unfold Rmin, Rmax. destruct (Rle_dec a b); split; nra.
  - intros Ht. unfold c, JS.max, JS.min.
    rewrite (Rmin_right 1 t) by lra. rewrite Rmax_left by lra. lra.
  - intros Ht. unfold c, JS.max, JS.min.
    rewrite (Rmin_left 1 t) by lra. rewrite Rmax_right by lra. lra.
  - intros Ht. unfold c, JS.max, JS.min.
    rewrite (Rmin_right 1 t) by lra. rewrite Rmax_right by lra. lra.
Qed.

(** ** Wind, propellant and ground *)

Section FlightInvariants.

Import ImprovedPhysicsEngine Motion Frame.

Lemma burn_between (f x : R) :
  0 <= f -> 0 <= x -> 0 <= JS.max 0 (f - x) <= f.
Proof.
  intros Hf Hx. unfold JS.max. split.
  - apply Rmax_l.
  - apply Rmax_lub; lra.
Qed.

Lemma min_nonneg (a b : R) : 0 <= a -> 0 <= b -> 0 <= JS.min a b.
Proof. intros; unfold JS.min; apply Rmin_glb; assumption. Qed.

(** The propellant [integrate] leaves. *)
Lemma integrate_fuel (F : Vector3.t) (m dt : R) (b : bool) (v : Vehicle) :
  fuel (integrate F m dt b v)
  = if b && (throttle v >? 0)
    then JS.max 0 (fuel v - maxThrust v * throttle v / 3000 * dt)
    else fuel v.
Proof. destruct v; reflexivity. Qed.

Lemma integrate_fuel_le (F : Vector3.t) (m dt : R) (b : bool) (v : Vehicle) :
  0 <= dt -> 0 <= maxThrust v -> 0 <= fuel v ->
  0 <= fuel (integrate F m dt b v) <= fuel v.
Proof.
  intros Hdt Hmt Hf. rewrite integrate_fuel.
  destruct b; cbn [andb]; [|lra].
  js_case (throttle v >? 0); [|lra].
  apply burn_between; [exact Hf|].
  apply Rmult_le_pos; [|exact Hdt].
  apply Rmult_le_pos; [|lra].
  apply Rmult_le_pos; lra.
Qed.

Lemma sameControls_integrate (F : Vector3.t) (m dt : R) (b : bool)
    (v : Vehicle) : sameControls v (integrate F m dt b v).
Proof. destruct v; cbn; repeat split. Qed.

Lemma sameControls_groundContact (v : Vehicle) :
  sameControls v (groundContact v)
  /\ fuel (groundContact v) = fuel v
  /\ rotation (groundContact v) = rotation v.
Proof. destruct v; cbn; repeat split. Qed.

Lemma sameControls_trans (a b c : Vehicle) :
  sameControls a b -> sameControls b c -> sameControls a c.
Proof.
  unfold sameControls. intros H1 H2.
  repeat match goal with H : _ /\ _ |- _ => destruct H end.
  repeat split; congruence.
Qed.

Lemma sameControls_calculateForces (e : Engine) (v : Vehicle) (dt : R) :
  sameControls v (snd (calculateForces e v dt))
  /\ fuel (snd (calculateForces e v dt)) = fuel v
  /\ position (snd (calculateForces e v dt)) = position v
  /\ velocity (snd (calculateForces e v dt)) = velocity v
  /\ rotation (snd (calculateForces e v dt)) = rotation v.
Proof.
  unfold calculateForces.
  match goal with |- context [addGridFins e v dt ?F] => set (F0 := F) end.
  unfold addGridFins.
  match goal with |- context [if ?c then _ else _] => destruct c end;
    cbn [snd]; destruct v; cbn; repeat split.
Qed.

Lemma updateLandingControl_throttle (e e' : Engine) (v v' : Vehicle) (dt : R) :
  updateLandingControl e v dt = Some (e', v') ->
  0.1 <= throttle v' <= 1
  /\ (landingPhase e' = approach \/ landingPhase e' = final)
  /\ fuel v' = fuel v /\ maxThrust v' = maxThrust v.
Proof.
  unfold updateLandingControl.
  match goal with
  | |- context [if ?c then set_landingPhase final e else e] =>
      set (e1 := if c then set_landingPhase final e else e)
  end.
  clearbody e1.
  destruct (landingPhase e1) eqn:Ep; try discriminate.
  - destruct (updatePID_Vector3 _ _ _) as [att ao].
    destruct (updatePID_Vector2 _ _ _) as [hor ho].
    destruct (updatePID_scalar _ _ _) as [ver vo].
    intros H; inversion H; subst; clear H.
    split; [|split; [|split]].
    + destruct v; cbn.
      match goal with
      | |- _ <= JS.max _ (JS.min _ ?x) <= _ =>
          pose proof (clamp_between 0.1 1.0 x ltac:(lra)); lra
      end.
    + left. destruct e1; cbn in *. exact Ep.
    + destruct v; reflexivity.
    + destruct v; reflexivity.
  - destruct (updatePID_Vector2 _ _ _) as [hor ho].
    destruct (updatePID_Vector3 _ _ _) as [att ao].
    destruct (updatePID_scalar _ _ _) as [ver vo].
    intros H; inversion H; subst; clear H.
    split; [|split; [|split]].
    + destruct v; cbn.
      match goal with
      | |- _ <= JS.max _ (JS.min _ ?x) <= _ =>
          pose proof (clamp_between 0.1 1.0 x ltac:(lra)); lra
      end.
    + right. destruct e1; cbn in *. exact Ep.
    + destruct v; reflexivity.
    + destruct v; reflexivity.
Qed.

(** The vehicle a turn of the loop of [update] stores: the vehicle as the
    force computation and the landing control left it, integrated, and
    stopped on the ground if it ended below it. *)
Lemma updateVehicle_stored (e e' : Engine) (id : VehicleId) (dt : R) :
  updateVehicle e id dt = Some e' ->
  active (vehicles e id) = true ->
  exists (F : Vector3.t) (m : R) (v2 : Vehicle),
    fuel v2 = fuel (vehicles e id)
    /\ maxThrust v2 = maxThrust (vehicles e id)
    /\ (landingPhase e <> none -> id = superHeavy ->
        0.1 <= throttle v2 <= 1)
    /\ (landingPhase e = none \/ id = starship ->
        throttle v2 = throttle (vehicles e id))
    /\ sameControls v2 (vehicles e' id)
    /\ fuel (vehicles e' id) = fuel (integrate F m dt true v2)
    /\ 0 <= Vector3.y (position (vehicles e' id)).
Proof.
  intros H Hact. unfold updateVehicle in H. rewrite Hact in H.
  cbn [negb] in H.
  destruct (calculateForces e (vehicles e id) dt) as [F v1] eqn:EF.
  destruct (sameControls_calculateForces e (vehicles e id) dt)
    as [Hc [Hf _]].
  rewrite EF in Hc, Hf. cbn [snd] in Hc, Hf.
  destruct Hc as [Ht [Hmt _]].
  match type of H with
  | match ?c with _ => _ end = _ => destruct c as [[e1 v2]|] eqn:EC
  end; [|discriminate].
  assert (K : fuel v2 = fuel (vehicles e id)
              /\ maxThrust v2 = maxThrust (vehicles e id)
              /\ (landingPhase e <> none -> id = superHeavy ->
                  0.1 <= throttle v2 <= 1)
              /\ (landingPhase e = none \/ id = starship ->
                  throttle v2 = throttle (vehicles e id))).
  { destruct (negb (LandingPhase_eqb (landingPhase e) none)
              && VehicleId_eqb id superHeavy) eqn:Eb.
    - destruct (updateLandingControl_throttle _ _ _ _ _ EC)
        as [Hr [_ [Hf2 Hm2]]].
      split; [congruence|]. split; [congruence|]. split.
      + intros _ _. exact Hr.
      + intros [Hn | Hs].
        * rewrite Hn in Eb. discriminate.
        * subst id. rewrite andb_false_r in Eb. discriminate.
    - injection EC as E1 E2. subst e1 v2.
      split; [congruence|]. split; [congruence|]. split.
      + intros Hn Hid. subst id. exfalso.
        destruct (landingPhase e); try discriminate; congruence.
      + intros _. exact Ht. }
  destruct K as [K1 [K2 [K3 K4]]].
  exists F, (mass v2 + fuel v2), v2.
  repeat match goal with |- _ /\ _ => split end; try assumption.
  - set (v3 := integrate F (mass v2 + fuel v2) dt true v2) in *.
    pose proof (sameControls_integrate F (mass v2 + fuel v2) dt true v2) as S3.
    fold v3 in S3.
    match type of H with
    | (if ?c then _ else _) = _ => destruct c
    end; inversion H; subst; clear H; rewrite vehicles_set_vehicle_same.
    + eapply sameControls_trans; [exact S3|].
      eapply sameControls_trans;
        [|apply sameControls_groundContact].
      destruct v3; cbn; repeat split.
    + eapply sameControls_trans; [exact S3|].
      destruct v3; cbn; repeat split.
  - set (v3 := integrate F (mass v2 + fuel v2) dt true v2) in *.
    match type of H with
    | (if ?c then _ else _) = _ => destruct c
    end; inversion H; subst; clear H; rewrite vehicles_set_vehicle_same.
    + rewrite (proj1 (proj2 (sameControls_groundContact _))).
      destruct v3; reflexivity.
    + destruct v3; reflexivity.
  - set (v3 := integrate F (mass v2 + fuel v2) dt true v2) in *.
    match type of H with
    | (if ?c then _ else _) = _ => js_case c
    end; inversion H; subst; clear H; rewrite vehicles_set_vehicle_same.
    + destruct v3; cbn. lra.
    + destruct v3; cbn in *. lra.
Qed.

End FlightInvariants.

Section FlightTurns.

Import ImprovedPhysicsEngine Motion Frame.

Lemma updateVehicle_starship_keeps_landing (e e' : Engine) (dt : R) :
  updateVehicle e starship dt = Some e' ->
  landingPhase e <> none -> landingPhase e' <> none.
Proof.
  unfold updateVehicle.
  destruct (active (vehicles e starship)); cbn [negb].
  2:{ intros H; inversion H; subst; auto. }
  destruct (calculateForces e (vehicles e starship) dt) as [F v1].
  rewrite andb_false_r.
  match goal with |- context [if ?t then _ else _] => destruct t end;
    intros H Hne; inversion H; subst; clear H;
    rewrite ?landingPhase_set_vehicle; try assumption.
  destruct (landingPhase e) eqn:E; cbn [LandingPhase_eqb];
    rewrite ?landingPhase_set_vehicle; try congruence;
    destruct e; cbn in *; congruence.
Qed.

(** The two turns of the loop of [update]. *)
Lemma update_turns (e e' : Engine) (rnd : WindDraws) (deltaTime : R) :
  update e rnd deltaTime = Some e' ->
  let dt := JS.min deltaTime 0.1 in
  exists e1,
    updateVehicle (updateWind e rnd dt) starship dt = Some e1
    /\ updateVehicle e1 superHeavy dt = Some e'
    /\ vehicles e1 superHeavy = vehicles e superHeavy
    /\ vehicles e' starship = vehicles e1 starship
    /\ (landingPhase e <> none -> landingPhase e1 <> none)
    /\ (landingPhase e = none -> landingPhase e1 = none).
Proof.
  unfold update. cbv zeta.
  set (dt := JS.min deltaTime 0.1).
  destruct (updateVehicle (updateWind e rnd dt) starship dt) as [e1|] eqn:E1;
    [|discriminate].
  intros E2. exists e1.
  destruct (updateVehicle_spec _ _ _ _ E1) as [_ [O1 _]].
  destruct (updateVehicle_spec _ _ _ _ E2) as [_ [O2 _]].
  split; [reflexivity|]. split; [exact E2|]. split; [|split; [|split]].
  - rewrite O1 by discriminate. apply vehicles_updateWind.
  - apply O2. discriminate.
  - intros Hne. apply (updateVehicle_starship_keeps_landing _ _ _ E1).
    rewrite landingPhase_updateWind. exact Hne.
  - intros Hn. rewrite (updateVehicle_starship_phase _ _ _ E1);
      rewrite landingPhase_updateWind; rewrite Hn;
      [reflexivity | discriminate].
Qed.

Lemma updateVehicle_inactive (e e' : Engine) (id : VehicleId) (dt : R) :
  updateVehicle e id dt = Some e' ->
  active (vehicles e id) = false -> e' = e.
Proof.
  unfold updateVehicle. intros H Ha. rewrite Ha in H. cbn in H. congruence.
Qed.

Lemma updateVehiclePhysics_stored (e : Engine) (id : VehicleId)
    (deltaTime : R) (enginesOn : bool) :
  let v := vehicles e id in
  let v' := vehicles (updateVehiclePhysics e id deltaTime enginesOn) id in
  sameControls v v'
  /\ (fuel v' = fuel v
      \/ exists F m v1,
           fuel v1 = fuel v /\ maxThrust v1 = maxThrust v
           /\ throttle v1 = throttle v
           /\ fuel v' = fuel (integrate F m (JS.min deltaTime 0.1)
                                enginesOn v1))
  /\ (Vector3.y (position v') = Vector3.y (position v)
      \/ 0 <= Vector3.y (position v')).
Proof.
  cbv zeta. unfold updateVehiclePhysics.
  destruct (calculateForces e (vehicles e id) (JS.min deltaTime 0.1))
    as [F v1] eqn:EF.
  destruct (sameControls_calculateForces e (vehicles e id)
              (JS.min deltaTime 0.1)) as [Hc [Hf [Hp _]]].
  rewrite EF in Hc, Hf, Hp. cbn [snd] in Hc, Hf, Hp.
  destruct (mass v1 + fuel v1 <=? 0).
  - rewrite vehicles_set_vehicle_same.
    split; [exact Hc|]. split; [left; exact Hf|]. left. congruence.
  - set (v3 := integrate F (mass v1 + fuel v1) (JS.min deltaTime 0.1)
                 enginesOn v1).
    pose proof (sameControls_integrate F (mass v1 + fuel v1)
                  (JS.min deltaTime 0.1) enginesOn v1) as S3.
    fold v3 in S3.
    destruct Hc as [Ht [Hmt Hrest]].
    js_case (Vector3.y (position v3) <? 0); rewrite vehicles_set_vehicle_same.
    + split; [|split].
      * eapply sameControls_trans; [|apply sameControls_groundContact].
        eapply sameControls_trans; [|exact S3].
        repeat split; tauto.
      * right. exists F, (mass v1 + fuel v1), v1.
        repeat split; try assumption.
        apply (proj1 (proj2 (sameControls_groundContact v3))).
      * right. destruct v3; cbn. lra.
    + split; [|split].
      * eapply sameControls_trans; [|exact S3]. repeat split; tauto.
      * right. exists F, (mass v1 + fuel v1), v1.
        repeat split; assumption.
      * right. lra.
Qed.

End FlightTurns.

(** X3.  [updateWind] with draws of [Math.random()] (numbers in [0, 1)):
    the wind direction drifts by at most 0.005 rad per call, the gust
    strength stays between 0 and 5, decaying by the factor 0.95 when no
    gust is drawn, the turbulence stays below a tenth of the wind speed,
    and the wind speed and both vehicles are left alone. *)
Theorem updateWind_stays_in_range :
  forall (e : ImprovedPhysicsEngine.Engine)
         (rnd : ImprovedPhysicsEngine.WindDraws) (deltaTime : R),
    let e' := ImprovedPhysicsEngine.updateWind e rnd deltaTime in
    0 <= ImprovedPhysicsEngine.drawDirection rnd < 1 ->
    0 <= ImprovedPhysicsEngine.drawGustStrength rnd < 1 ->
    0 <= ImprovedPhysicsEngine.drawTurbulence rnd < 1 ->
    0 <= ImprovedPhysicsEngine.windSpeed e ->
    0 <= ImprovedPhysicsEngine.gustStrength e <= 5 ->
    Rabs (ImprovedPhysicsEngine.windDirection e'
          - ImprovedPhysicsEngine.windDirection e) <= 0.005
    /\ 0 <= ImprovedPhysicsEngine.gustStrength e' <= 5
    /\ (0.01 <= ImprovedPhysicsEngine.drawGustChance rnd ->
        ImprovedPhysicsEngine.gustStrength e'
        = ImprovedPhysicsEngine.gustStrength e * 0.95)
    /\ 0 <= ImprovedPhysicsEngine.turbulenceIntensity e'
       <= ImprovedPhysicsEngine.windSpeed e * 0.1
    /\ ImprovedPhysicsEngine.windSpeed e' = ImprovedPhysicsEngine.windSpeed e
    /\ (forall id, ImprovedPhysicsEngine.vehicles e' id
                   = ImprovedPhysicsEngine.vehicles e id).
Proof.
  intros e rnd deltaTime e' Hd Hg Ht Hw Hs. unfold e'.
  destruct e as [g cs ad vs vh sl lt lp lpar pid sh st ws wd gs ti sep sc rp
                 lsa ha ts].
  destruct rnd as [dd dc dg dtb].
  cbn in *.
  split; [|split; [|split; [|split; [|split]]]].
  - apply Rabs_le. lra.
  - js_case (dc <? 0.01); lra.
  - intros Hc. rewrite (proj2 (ltb_false_iff dc 0.01)) by lra. reflexivity.
  - split; nra.
  - reflexivity.
  - intros id; destruct id; reflexivity.
Qed.

Lemma updateWind_stays_in_range_witness :
  let e' :=
    ImprovedPhysicsEngine.updateWind ImprovedPhysicsEngine.newEngine
      Scenario.stillAir 0.1 in
  Rabs (ImprovedPhysicsEngine.windDirection e'
        - ImprovedPhysicsEngine.windDirection ImprovedPhysicsEngine.newEngine)
  <= 0.005
  /\ 0 <= ImprovedPhysicsEngine.gustStrength e' <= 5.
Proof.
  pose proof (updateWind_stays_in_range ImprovedPhysicsEngine.newEngine
                Scenario.stillAir 0.1
                ltac:(cbn; lra) ltac:(cbn; lra) ltac:(cbn; lra)
                ltac:(cbn; lra) ltac:(cbn; lra)) as H.
  cbv zeta in *. split; [apply H | apply H].
Defined.

(** X4.  Propellant never increases and never becomes negative: for a
    vehicle with propellant >= 0 and maxThrust >= 0 and a step
    deltaTime >= 0, the propellant after [updateVehiclePhysics], and after
    [update] whenever it returns, lies between 0 and the propellant
    before. *)
Theorem propellant_never_increases :
  forall (e : ImprovedPhysicsEngine.Engine)
         (id : ImprovedPhysicsEngine.VehicleId) (deltaTime : R),
    let v := ImprovedPhysicsEngine.vehicles e id in
    0 <= deltaTime ->
    0 <= ImprovedPhysicsEngine.maxThrust v ->
    0 <= ImprovedPhysicsEngine.fuel v ->
    (forall enginesOn : bool,
        0 <= ImprovedPhysicsEngine.fuel
               (ImprovedPhysicsEngine.vehicles
                  (ImprovedPhysicsEngine.updateVehiclePhysics
                     e id deltaTime enginesOn) id)
        <= ImprovedPhysicsEngine.fuel v)
    /\ (forall (rnd : ImprovedPhysicsEngine.WindDraws)
               (e' : ImprovedPhysicsEngine.Engine),
          ImprovedPhysicsEngine.update e rnd deltaTime = Some e' ->
          0 <= ImprovedPhysicsEngine.fuel
                 (ImprovedPhysicsEngine.vehicles e' id)
          <= ImprovedPhysicsEngine.fuel v).
Proof.
  intros e id deltaTime v Hdt Hmt Hf.
  assert (Hmin : 0 <= JS.min deltaTime 0.1) by (apply min_nonneg; lra).
  split.
  - intros enginesOn.
    destruct (updateVehiclePhysics_stored e id deltaTime enginesOn)
      as [_ [[-> | [F [m [v1 [A [B [C ->]]]]]]] _]].
    + fold v. lra.
    + fold v in A, B. rewrite <- A.
      apply integrate_fuel_le; [exact Hmin | lra | lra].
  - intros rnd e' Hup.
    destruct (update_turns _ _ _ _ Hup) as [e1 [E1 [E2 [V1 [V2 _]]]]].
    cbv zeta in *.
    assert (Step : forall ea eb i,
               ImprovedPhysicsEngine.updateVehicle ea i (JS.min deltaTime 0.1)
               = Some eb ->
               0 <= ImprovedPhysicsEngine.maxThrust
                      (ImprovedPhysicsEngine.vehicles ea i) ->
               0 <= ImprovedPhysicsEngine.fuel
                      (ImprovedPhysicsEngine.vehicles ea i) ->
               0 <= ImprovedPhysicsEngine.fuel
                      (ImprovedPhysicsEngine.vehicles eb i)
               <= ImprovedPhysicsEngine.fuel
                    (ImprovedPhysicsEngine.vehicles ea i)).
    { intros ea eb i Hs Hm0 Hf0.
      destruct (ImprovedPhysicsEngine.active
                  (ImprovedPhysicsEngine.vehicles ea i)) eqn:Ea.
      - destruct (updateVehicle_stored _ _ _ _ Hs Ea)
          as [F [m [v2 [A [B [_ [_ [_ [C _]]]]]]]]].
        rewrite C, <- A. apply integrate_fuel_le; [exact Hmin | lra | lra].
      - rewrite (updateVehicle_inactive _ _ _ _ Hs Ea). lra. }
    destruct id.
    + rewrite V2.
      pose proof (Step _ _ _ E1) as S1.
      rewrite vehicles_updateWind in S1. apply S1; assumption.
    + pose proof (Step _ _ _ E2) as S2. rewrite V1 in S2.
      apply S2; assumption.
Qed.

Lemma propellant_never_increases_witness :
  0 <= ImprovedPhysicsEngine.fuel
         (ImprovedPhysicsEngine.vehicles
            (ImprovedPhysicsEngine.updateVehiclePhysics
               ImprovedPhysicsEngine.newEngine
               ImprovedPhysicsEngine.superHeavy 0.1 true)
            ImprovedPhysicsEngine.superHeavy)
  <= ImprovedPhysicsEngine.fuel
       (ImprovedPhysicsEngine.vehicles ImprovedPhysicsEngine.newEngine
          ImprovedPhysicsEngine.superHeavy).
Proof.
  exact (proj1 (propellant_never_increases ImprovedPhysicsEngine.newEngine
                  ImprovedPhysicsEngine.superHeavy 0.1
                  ltac:(lra) ltac:(cbn; lra) ltac:(cbn; lra)) true).
Defined.

(** X5.  [update] never leaves an active vehicle below the ground and
    never touches an inactive one.  For a positive time step and active
    vehicles whose mass and propellant do not add up to zero (the step
    divides by the time step and by that sum): whenever [update] returns,
    every active vehicle has altitude >= 0 and every inactive vehicle is
    exactly as it was; and it does return outside the landing phases and
    in phase 'approach'. *)
Theorem update_keeps_above_ground_and_skips_inactive :
  forall (e : ImprovedPhysicsEngine.Engine)
         (rnd : ImprovedPhysicsEngine.WindDraws) (deltaTime : R),
    0 < deltaTime ->
    (forall id,
        ImprovedPhysicsEngine.active (ImprovedPhysicsEngine.vehicles e id)
        = true ->
        ImprovedPhysicsEngine.mass (ImprovedPhysicsEngine.vehicles e id)
        + ImprovedPhysicsEngine.fuel (ImprovedPhysicsEngine.vehicles e id)
        <> 0) ->
    (forall (e' : ImprovedPhysicsEngine.Engine)
            (id : ImprovedPhysicsEngine.VehicleId),
        ImprovedPhysicsEngine.update e rnd deltaTime = Some e' ->
        (ImprovedPhysicsEngine.active (ImprovedPhysicsEngine.vehicles e id)
         = true ->
         0 <= Vector3.y (ImprovedPhysicsEngine.position
                           (ImprovedPhysicsEngine.vehicles e' id)))
        /\ (ImprovedPhysicsEngine.active (ImprovedPhysicsEngine.vehicles e id)
            = false ->
            ImprovedPhysicsEngine.vehicles e' id
            = ImprovedPhysicsEngine.vehicles e id))
    /\ (ImprovedPhysicsEngine.landingPhase e = ImprovedPhysicsEngine.none
        \/ ImprovedPhysicsEngine.landingPhase e
           = ImprovedPhysicsEngine.approach ->
        exists e', ImprovedPhysicsEngine.update e rnd deltaTime = Some e').
Proof.
  intros e rnd deltaTime _ _. split; [|apply update_defined].
  intros e' id Hup.
  destruct (update_turns _ _ _ _ Hup) as [e1 [E1 [E2 [V1 [V2 _]]]]].
  cbv zeta in *.
  destruct id.
  - rewrite V2. split; intros Ha.
    + rewrite <- (vehicles_updateWind e rnd (JS.min deltaTime 0.1)) in Ha.
      destruct (updateVehicle_stored _ _ _ _ E1 Ha)
        as [F [m [v2 [_ [_ [_ [_ [_ [_ C]]]]]]]]].
      exact C.
    + rewrite <- (vehicles_updateWind e rnd (JS.min deltaTime 0.1)) in Ha.
      rewrite (updateVehicle_inactive _ _ _ _ E1 Ha).
      apply vehicles_updateWind.
  - split; intros Ha.
    + rewrite <- V1 in Ha.
      destruct (updateVehicle_stored _ _ _ _ E2 Ha)
        as [F [m [v2 [_ [_ [_ [_ [_ [_ C]]]]]]]]].
      exact C.
    + rewrite <- V1 in Ha.
      rewrite (updateVehicle_inactive _ _ _ _ E2 Ha). exact V1.
Qed.

Lemma update_keeps_above_ground_and_skips_inactive_witness :
  exists e',
    ImprovedPhysicsEngine.update ImprovedPhysicsEngine.newEngine
      Scenario.stillAir 0.1 = Some e'
    /\ 0 <= Vector3.y (ImprovedPhysicsEngine.position
                         (ImprovedPhysicsEngine.vehicles e'
                            ImprovedPhysicsEngine.superHeavy)).
Proof.
  destruct (update_keeps_above_ground_and_skips_inactive
              ImprovedPhysicsEngine.newEngine Scenario.stillAir 0.1
              ltac:(lra)
              ltac:(intros id _; destruct id; cbn; lra))
    as [A B].
  destruct (B (or_introl eq_refl)) as [e' E].
  exists e'. split; [exact E|].
  exact (proj1 (A e' ImprovedPhysicsEngine.superHeavy E) eq_refl).
Defined.

Section LandingControlPhases.

Import ImprovedPhysicsEngine Motion Frame.

(** Outside the phases 'approach' and 'final' the landing control computes
    no numeric throttle. *)
Lemma updateLandingControl_undefined (e : Engine) (v : Vehicle) (dt : R) :
  landingPhase e <> approach -> landingPhase e <> final ->
  updateLandingControl e v dt = None.
Proof.
  intros Ha Hf. unfold updateLandingControl.
  replace (LandingPhase_eqb (landingPhase e) approach) with false
    by (destruct (landingPhase e); try reflexivity; congruence).
  cbn [andb].
  destruct (landingPhase e); try reflexivity; congruence.
Qed.

(** [update] in a landing phase the control does not handle: the booster's
    turn of the loop yields no numeric state. *)
Lemma update_undefined (e : Engine) (rnd : WindDraws) (deltaTime : R) :
  landingPhase e <> none -> landingPhase e <> approach ->
  landingPhase e <> final ->
  active (vehicles e superHeavy) = true ->
  update e rnd deltaTime = None.
Proof.
  intros Hn Ha Hf Hact. unfold update.
  set (dt := JS.min deltaTime 0.1).
  destruct (updateVehicle_defined (updateWind e rnd dt) starship dt)
    as [e1 E1]; [left; reflexivity|].
  rewrite E1.
  pose proof (updateVehicle_starship_phase _ _ _ E1) as P.
  rewrite landingPhase_updateWind in P. specialize (P Hf).
  destruct (updateVehicle_spec _ _ _ _ E1) as [_ [O1 _]].
  assert (V : vehicles e1 superHeavy = vehicles e superHeavy).
  { rewrite O1 by discriminate. apply vehicles_updateWind. }
  unfold updateVehicle. rewrite V, Hact. cbn [negb].
  destruct (calculateForces e1 (vehicles e superHeavy) dt) as [F v1].
  rewrite P.
  replace (negb (LandingPhase_eqb (landingPhase e) none)) with true
    by (destruct (landingPhase e); try reflexivity; congruence).
  cbn [andb VehicleId_eqb].
  rewrite updateLandingControl_undefined by congruence.
  reflexivity.
Qed.

(** [update] in a landing phase: the throttle of the active booster after
    it. *)
Lemma update_landing_throttle (e e' : Engine) (rnd : WindDraws) (dt : R) :
  update e rnd dt = Some e' ->
  landingPhase e <> none -> active (vehicles e superHeavy) = true ->
  0.1 <= throttle (vehicles e' superHeavy) <= 1.
Proof.
  intros Hup Hne Ha.
  destruct (update_turns _ _ _ _ Hup) as [e1 [E1 [E2 [V1 [V2 [P1 _]]]]]].
  cbv zeta in *. rewrite <- V1 in Ha.
  destruct (updateVehicle_stored _ _ _ _ E2 Ha)
    as [F [m [v2 [_ [_ [T [_ [[S _] _]]]]]]]].
  rewrite S. apply T; [apply P1; exact Hne | reflexivity].
Qed.

End LandingControlPhases.

(** X6.  The landing control commands a throttle between 0.1 and 1, in
    the two phases it handles.  For a positive time step (the controllers
    divide by it) and an engine that is in phase 'final' only with its
    landing settings installed: [updateLandingControl] returns a numeric
    state in the phases 'approach' and 'final' and in no other phase, and
    the state it returns has the vehicle's throttle in [0.1, 1] and the
    landing phase 'approach' or 'final'.  For [update] with an active
    booster: in phase 'approach' it returns a state, in which the
    booster's throttle lies in [0.1, 1]; in the landing phases other than
    'approach' and 'final' it returns no numeric state; and whenever it
    returns a state in phase 'final', the booster's throttle in it lies in
    [0.1, 1]. *)
Theorem landing_control_throttle_range :
  forall (e : ImprovedPhysicsEngine.Engine)
         (v : ImprovedPhysicsEngine.Vehicle) (dt : R),
    0 < dt ->
    (ImprovedPhysicsEngine.landingPhase e = ImprovedPhysicsEngine.final ->
     ImprovedPhysicsEngine.landingStartAltitude e <> None) ->
    (forall e' v',
        ImprovedPhysicsEngine.updateLandingControl e v dt = Some (e', v') ->
        0.1 <= ImprovedPhysicsEngine.throttle v' <= 1
        /\ (ImprovedPhysicsEngine.landingPhase e'
            = ImprovedPhysicsEngine.approach
            \/ ImprovedPhysicsEngine.landingPhase e'
               = ImprovedPhysicsEngine.final))
    /\ (ImprovedPhysicsEngine.landingPhase e = ImprovedPhysicsEngine.approach
        \/ ImprovedPhysicsEngine.landingPhase e = ImprovedPhysicsEngine.final ->
        exists r, ImprovedPhysicsEngine.updateLandingControl e v dt = Some r)
    /\ (ImprovedPhysicsEngine.landingPhase e <> ImprovedPhysicsEngine.approach ->
        ImprovedPhysicsEngine.landingPhase e <> ImprovedPhysicsEngine.final ->
        ImprovedPhysicsEngine.updateLandingControl e v dt = None)
    /\ (forall rnd : ImprovedPhysicsEngine.WindDraws,
          ImprovedPhysicsEngine.active
            (ImprovedPhysicsEngine.vehicles e
               ImprovedPhysicsEngine.superHeavy) = true ->
          (ImprovedPhysicsEngine.landingPhase e
           = ImprovedPhysicsEngine.approach ->
           exists e',
             ImprovedPhysicsEngine.update e rnd dt = Some e'
             /\ 0.1 <= ImprovedPhysicsEngine.throttle
                         (ImprovedPhysicsEngine.vehicles e'
                            ImprovedPhysicsEngine.superHeavy) <= 1)
          /\ (ImprovedPhysicsEngine.landingPhase e
              <> ImprovedPhysicsEngine.none ->
              ImprovedPhysicsEngine.landingPhase e
              <> ImprovedPhysicsEngine.approach ->
              ImprovedPhysicsEngine.landingPhase e
              <> ImprovedPhysicsEngine.final ->
              ImprovedPhysicsEngine.update e rnd dt = None)
          /\ (ImprovedPhysicsEngine.landingPhase e
              = ImprovedPhysicsEngine.final ->
              forall e',
                ImprovedPhysicsEngine.update e rnd dt = Some e' ->
                0.1 <= ImprovedPhysicsEngine.throttle
                         (ImprovedPhysicsEngine.vehicles e'
                            ImprovedPhysicsEngine.superHeavy) <= 1)).
Proof.
  intros e v dt _ _. split; [|split; [|split]].
  - intros e' v' H.
    destruct (updateLandingControl_throttle _ _ _ _ _ H) as [A [B _]].
    split; assumption.
  - apply updateLandingControl_defined.
  - apply updateLandingControl_undefined.
  - intros rnd Ha. split; [|split].
    + intros Hp.
      destruct (update_defined e rnd dt) as [e' Hup]; [right; exact Hp|].
      exists e'. split; [exact Hup|].
      apply (update_landing_throttle e e' rnd dt Hup); [|exact Ha].
      rewrite Hp. discriminate.
    + intros Hn Hap Hf. apply update_undefined; assumption.
    + intros Hp e' Hup.
      apply (update_landing_throttle e e' rnd dt Hup); [|exact Ha].
      rewrite Hp. discriminate.
Qed.

Lemma landing_control_throttle_range_witness :
  exists e',
    ImprovedPhysicsEngine.update
      (ImprovedPhysicsEngine.set_landingPhase ImprovedPhysicsEngine.approach
         ImprovedPhysicsEngine.newEngine)
      Scenario.stillAir 0.1 = Some e'
    /\ 0.1 <= ImprovedPhysicsEngine.throttle
                (ImprovedPhysicsEngine.vehicles e'
                   ImprovedPhysicsEngine.superHeavy) <= 1.
Proof.
  destruct (landing_control_throttle_range
              (ImprovedPhysicsEngine.set_landingPhase
                 ImprovedPhysicsEngine.approach
                 ImprovedPhysicsEngine.newEngine)
              ImprovedPhysicsEngine.newSuperHeavy 0.1 ltac:(lra)
              ltac:(cbn; discriminate))
    as [_ [_ [_ U]]].
  destruct (U Scenario.stillAir eq_refl) as [A _].
  exact (A eq_refl).
Defined.

(** ** Drag *)

Section Drag.

Import ImprovedPhysicsEngine.

Lemma Vector3_scale_scale (v : Vector3.t) (a b : R) :
  Vector3.multiplyScalar (Vector3.multiplyScalar v a) b
  = Vector3.multiplyScalar v (a * b).
Proof. destruct v; unfold Vector3.multiplyScalar; cbn. f_equal; ring. Qed.

Lemma calculateDrag_shape (e : Engine) (id : VehicleId) (altitude : R) :
  let v := vehicles e id in
  exists Cd : R,
    (Cd = dragCoefficient v
     \/ (exists f, gridFins v = Some f
                   /\ Cd = dragCoefficient v
                           + gf_dragContribution f * gf_effectiveness f)
     \/ (exists f, flaps v = Some f
                   /\ Cd = dragCoefficient v
                           + fl_dragContribution f * fl_effectiveness f))
    /\ calculateDrag e id altitude
       = if Vector3.length (velocity v) <? 0.01 then Vector3.mk 0 0 0
         else Vector3.multiplyScalar (Vector3.normalize (velocity v))
                (- (0.5 * calculateAirDensity e altitude
                    * Vector3.length (velocity v)
                    * Vector3.length (velocity v)
                    * Cd * crossSectionalArea v)).
Proof.
  cbv zeta. unfold calculateDrag.
  destruct id.
  - destruct (flaps (vehicles e starship)) as [fl|] eqn:Efl.
    + destruct (gridFins (vehicles e starship)); destruct (fl_deployed fl);
        eexists; (split; [|reflexivity]); eauto.
    + destruct (gridFins (vehicles e starship));
        eexists; (split; [|reflexivity]); eauto.
  - destruct (gridFins (vehicles e superHeavy)) as [gf|] eqn:Egf.
    + destruct (gf_deployed gf); eexists; (split; [|reflexivity]); eauto.
    + destruct (flaps (vehicles e superHeavy));
        eexists; (split; [|reflexivity]); eauto.
Qed.

End Drag.

(** X7.  [calculateDrag] never pushes along the motion: for a non-negative
    sea-level density, a positive scale height, and non-negative drag
    coefficient, fin and flap contributions and cross section, the drag
    it returns is the velocity scaled by a factor -k with k >= 0, and
    k = 0 (no drag at all) below a speed of 0.01 m/s. *)
Theorem calculateDrag_opposes_velocity :
  forall (e : ImprovedPhysicsEngine.Engine)
         (id : ImprovedPhysicsEngine.VehicleId) (altitude : R),
    let v := ImprovedPhysicsEngine.vehicles e id in
    0 <= ImprovedPhysicsEngine.airDensitySeaLevel e ->
    0 < ImprovedPhysicsEngine.atmosphereScaleHeight e ->
    0 <= ImprovedPhysicsEngine.dragCoefficient v ->
    0 <= ImprovedPhysicsEngine.crossSectionalArea v ->
    (forall f, ImprovedPhysicsEngine.gridFins v = Some f ->
               0 <= ImprovedPhysicsEngine.gf_dragContribution f
                    * ImprovedPhysicsEngine.gf_effectiveness f) ->
    (forall f, ImprovedPhysicsEngine.flaps v = Some f ->
               0 <= ImprovedPhysicsEngine.fl_dragContribution f
                    * ImprovedPhysicsEngine.fl_effectiveness f) ->
    exists k : R,
      0 <= k
      /\ ImprovedPhysicsEngine.calculateDrag e id altitude
         = Vector3.multiplyScalar (ImprovedPhysicsEngine.velocity v) (- k)
      /\ (Vector3.length (ImprovedPhysicsEngine.velocity v) < 0.01 -> k = 0).
Proof.
  intros e id altitude v Hrho _ Hcd Ha Hgf Hfl.
  destruct (calculateDrag_shape e id altitude) as [Cd [HCd Heq]].
  fold v in HCd, Heq.
  assert (HCd0 : 0 <= Cd).
  { destruct HCd as [-> | [[f [Ef ->]] | [f [Ef ->]]]].
    - exact Hcd.
    - pose proof (Hgf f Ef). lra.
    - pose proof (Hfl f Ef). lra. }
  rewrite Heq.
  set (l := Vector3.length (ImprovedPhysicsEngine.velocity v)) in *.
  js_case (l <? 0.01).
  - exists 0. split; [lra|]. split; [|reflexivity].
    destruct (ImprovedPhysicsEngine.velocity v); unfold Vector3.multiplyScalar;
      cbn. f_equal; ring.
  - assert (Hrho' : 0 <= ImprovedPhysicsEngine.calculateAirDensity e altitude).
    { unfold ImprovedPhysicsEngine.calculateAirDensity.
      apply Rmult_le_pos; [exact Hrho | left; apply exp_pos]. }
    set (rho := ImprovedPhysicsEngine.calculateAirDensity e altitude) in *.
    exists (0.5 * rho * l * Cd * ImprovedPhysicsEngine.crossSectionalArea v).
    split; [|split].
    + assert (H1 : 0 <= 0.5 * rho * l) by nra.
      assert (H2 : 0 <= 0.5 * rho * l * Cd) by (apply Rmult_le_pos; assumption).
      apply Rmult_le_pos; assumption.
    + unfold Vector3.normalize, Vector3.divideScalar. fold l.
      rewrite orElse_of_nonzero by lra.
      rewrite Vector3_scale_scale. f_equal. field. lra.
    + intros Hl. lra.
Qed.

Lemma calculateDrag_opposes_velocity_witness :
  exists k : R,
    0 <= k
    /\ ImprovedPhysicsEngine.calculateDrag Scenario.coastingInVacuum
         ImprovedPhysicsEngine.superHeavy 1000
       = Vector3.multiplyScalar
           (ImprovedPhysicsEngine.velocity
              (ImprovedPhysicsEngine.vehicles Scenario.coastingInVacuum
                 ImprovedPhysicsEngine.superHeavy)) (- k)
    /\ (Vector3.length
          (ImprovedPhysicsEngine.velocity
             (ImprovedPhysicsEngine.vehicles Scenario.coastingInVacuum
                ImprovedPhysicsEngine.superHeavy)) < 0.01 -> k = 0).
Proof.
  apply (calculateDrag_opposes_velocity Scenario.coastingInVacuum
           ImprovedPhysicsEngine.superHeavy 1000).
  - cbn. lra.
  - cbn. lra.
  - cbn. lra.
  - cbn. lra.
  - intros f H. cbn in H. inversion H; subst. cbn. lra.
  - intros f H. cbn in H. discriminate.
Defined.

(** ** The catch arms *)

Section Arms.

Import MechazillaCatchSimulation CatchEnvelope ArmsFrame.

Ltac case_if :=
  match goal with
  | |- context [if ?c then _ else _] => destruct c eqn:?
  end.

Lemma set_booster_arms (p v : Point) (o : Orientation) (s : t) :
  keepsArms s (set_booster p v o s)
  /\ trackingActive (set_booster p v o s) = trackingActive s.
Proof. destruct s; cbn; repeat split. Qed.

Lemma startTracking_arms (rnd p v : Point) (s : t) :
  keepsArms s (fst (startTracking s rnd p v))
  /\ (trackingActive (fst (startTracking s rnd p v)) = false ->
      fst (startTracking s rnd p v) = s).
Proof.
  unfold startTracking. case_if; cbn [fst].
  - destruct s; cbn. repeat split. discriminate.
  - repeat split.
Qed.

Lemma updateArmPosition_arms (p : Point) (dt : R) (s : t) :
  keepsArms s (fst (updateArmPosition s p dt))
  /\ trackingActive (fst (updateArmPosition s p dt)) = trackingActive s
  /\ (trackingActive s = false -> updateArmPosition s p dt = (s, false)).
Proof.
  unfold updateArmPosition.
  destruct (trackingActive s) eqn:Et; cbn [negb fst].
  - destruct s; cbn in *. repeat split; try assumption. discriminate.
  - repeat split; assumption.
Qed.

Lemma prepareForCatch_arms (s : t) :
  catchSuccessful (fst (prepareForCatch s)) = catchSuccessful s
  /\ catchFailed (fst (prepareForCatch s)) = catchFailed s
  /\ armClosingSpeed (fst (prepareForCatch s)) = armClosingSpeed s
  /\ (armsHorizontalPosition (fst (prepareForCatch s))
      = armsHorizontalPosition s
      \/ armsHorizontalPosition (fst (prepareForCatch s)) = 15)
  /\ trackingActive (fst (prepareForCatch s)) = trackingActive s
  /\ (trackingActive s = false -> fst (prepareForCatch s) = s).
Proof.
  unfold prepareForCatch.
  destruct (trackingActive s) eqn:Et; cbn [negb fst].
  - destruct s; cbn in *. repeat split; auto. discriminate.
  - repeat split; auto.
Qed.

(** [update] up to its last step: the state before the catch attempt keeps
    the outcome flags and the arms' closing speed, and has the arms'
    spread of the state before or the open spread 15. *)
Lemma update_before_attempt (s : t) (rnd : Point) (dt : R) (bp bv : Point)
    (bo : Orientation) :
  exists s3,
    update s rnd dt bp bv bo
    = (if catchInProgress s3 && negb (catchSuccessful s3)
          && negb (catchFailed s3)
       then fst (attemptCatch s3 bp bv dt) else s3)
    /\ catchSuccessful s3 = catchSuccessful s
    /\ catchFailed s3 = catchFailed s
    /\ armClosingSpeed s3 = armClosingSpeed s
    /\ (armsHorizontalPosition s3 = armsHorizontalPosition s
        \/ armsHorizontalPosition s3 = 15)
    /\ (trackingActive s3 = false ->
        trackingActive s = false
        /\ s3 = set_booster bp bv bo s).
Proof.
  unfold update.
  destruct (set_booster_arms bp bv bo s) as [[A1 [B1 [C1 [D1 I1]]]] T1].
  set (s1 := set_booster bp bv bo s) in *. clearbody s1.
  set (s2 := if negb (trackingActive s1)
             then fst (startTracking s1 rnd bp bv) else s1).
  assert (K2 : keepsArms s1 s2 /\ (trackingActive s2 = false ->
                                   trackingActive s1 = false /\ s2 = s1)).
  { unfold s2. destruct (trackingActive s1) eqn:Et; cbn [negb].
    - split; [repeat split|]. intros; split; [congruence|reflexivity].
    - destruct (startTracking_arms rnd bp bv s1) as [K N].
      split; [exact K|]. intros H. split; [reflexivity|apply N; exact H]. }
  destruct K2 as [[A2 [B2 [C2 [D2 I2]]]] T2]. clearbody s2.
  destruct (updateArmPosition_arms bp dt s2)
    as [[A3 [B3 [C3 [D3 I3]]]] [T3 N3]].
  destruct (updateArmPosition s2 bp dt) as [s3 aip] eqn:E3.
  cbn [fst] in *.
  set (s4 := if aip && negb (catchInProgress s3)
             then fst (prepareForCatch s3) else s3).
  exists s4. split; [reflexivity|].
  destruct (prepareForCatch_arms s3) as [A4 [B4 [C4 [D4 [T4 N4]]]]].
  unfold s4.
  destruct (aip && negb (catchInProgress s3)) eqn:Ec.
  - split; [congruence|]. split; [congruence|]. split; [congruence|].
    split.
    + destruct D4 as [D4 | D4]; [left; congruence | right; exact D4].
    + intros Et. rewrite T4, T3 in Et.
      injection (N3 Et) as Q1 Q2. subst aip. discriminate.
  - split; [congruence|]. split; [congruence|]. split; [congruence|].
    split; [left; congruence|].
    intros Et. rewrite T3 in Et. injection (N3 Et) as Q1 Q2.
    destruct (T2 Et) as [Et1 Q3]. split; congruence.
Qed.

Lemma attemptCatch_at_most_one (s : t) (bp bv : Point) (dt : R) :
  let s' := fst (attemptCatch s bp bv dt) in
  catchSuccessful s = false -> catchFailed s = false ->
  catchSuccessful s' = false \/ catchFailed s' = false.
Proof.
  cbv zeta. intros Hs Hf. unfold attemptCatch.
  destruct s; cbn in *; subst.
  repeat (case_if; cbn [fst negb]); cbn; auto.
Qed.

Lemma attemptCatch_spread (s : t) (bp bv : Point) (dt : R) :
  let s' := fst (attemptCatch s bp bv dt) in
  5 <= armsHorizontalPosition s <= 15 ->
  0 <= armClosingSpeed s * dt ->
  5 <= armsHorizontalPosition s' <= 15
  /\ armsHorizontalPosition s' <= armsHorizontalPosition s.
Proof.
  cbv zeta. intros Hh Hc. unfold attemptCatch.
  destruct s; cbn in *.
  destruct catchInProgress0; cbn [negb fst]; [|cbn; lra].
  case_if; [|case_if; cbn; lra].
  case_if; [|case_if; cbn; lra].
  destruct armsOpen0; [|cbn; lra].
  js_case (armsHorizontalPosition0 - armClosingSpeed0 * dt <=? 5).
  - case_if; cbn; lra.
  - cbn. lra.
Qed.

Lemma updateArmPosition_step (s : t) (bp : Point) (dt : R) :
  let s' := fst (updateArmPosition s bp dt) in
  trackingActive s = true ->
  20 <= towerHeight s -> 0 <= armSpeed s * dt ->
  10 <= armsVerticalPosition s' <= towerHeight s - 10
  /\ y (armPosition s') = armsVerticalPosition s'
  /\ (10 <= armsVerticalPosition s <= towerHeight s - 10 ->
      Rabs (armsVerticalPosition s' - armsVerticalPosition s)
      <= armSpeed s * dt).
Proof.
  cbv zeta. intros Ht Hh Hs. unfold updateArmPosition. rewrite Ht.
  cbn [negb]. destruct s; cbn in *.
  set (d := y bp - (71 - catchPointsHeight0) - armsVerticalPosition0).
  set (m := JS.min (JS.abs d) (armSpeed0 * dt) * JS.sign d).
  assert (Hm : Rabs m <= armSpeed0 * dt).
  { unfold m, JS.min, JS.abs, JS.sign.
    pose proof (Rabs_pos d) as Hd.
    pose proof (Rmin_r (Rabs d) (armSpeed0 * dt)) as Hr.
    pose proof (Rmin_glb _ _ _ Hd Hs) as Hg.
    set (q := Rmin (Rabs d) (armSpeed0 * dt)) in *.
    destruct (0 <? d); [|destruct (d <? 0)]; apply Rabs_le; lra. }
  clearbody m.
  pose proof (clamp_between 10 (towerHeight0 - 10)
                (armsVerticalPosition0 + m) ltac:(lra)) as Hc.
  unfold JS.max, JS.min in *.
  rewrite (Rmin_comm (armsVerticalPosition0 + m) (towerHeight0 - 10)).
  split; [exact Hc|]. split; [reflexivity|].
  intros Hv. apply Rabs_le.
  assert (Hm' : - (armSpeed0 * dt) <= m <= armSpeed0 * dt).
  { unfold Rabs in Hm. destruct (Rcase_abs m); lra. }
  clear Hm.
  set (c := Rmax 10 (Rmin (towerHeight0 - 10) (armsVerticalPosition0 + m)))
    in *.
  assert (Hc1 : c = armsVerticalPosition0 + m \/
                (c = 10 /\ armsVerticalPosition0 + m <= 10) \/
                (c = towerHeight0 - 10
                 /\ towerHeight0 - 10 <= armsVerticalPosition0 + m)).
  { unfold c, Rmax, Rmin.
    destruct (Rle_dec (towerHeight0 - 10) (armsVerticalPosition0 + m));
      destruct (Rle_dec 10 _); try lra;
      first [ left; reflexivity
            | right; left; split; [reflexivity | lra]
            | right; right; split; [reflexivity | lra] ]. }
  destruct Hc1 as [-> | [[-> H1] | [-> H1]]]; lra.
Qed.

End Arms.

(** X8.  While tracking, [updateArmPosition] keeps the arms within the
    tower limits, between 10 m and towerHeight - 10 m, keeps the arm
    object at the arms' height, and moves arms that are within the limits
    by at most armSpeed * deltaTime; without tracking it changes nothing
    and reports false. *)
Theorem arms_stay_on_tower :
  forall (s : MechazillaCatchSimulation.t)
         (boosterPosition : MechazillaCatchSimulation.Point) (deltaTime : R),
    let s' :=
      fst (MechazillaCatchSimulation.updateArmPosition
             s boosterPosition deltaTime) in
    20 <= MechazillaCatchSimulation.towerHeight s ->
    0 <= MechazillaCatchSimulation.armSpeed s * deltaTime ->
    (MechazillaCatchSimulation.trackingActive s = true ->
     10 <= MechazillaCatchSimulation.armsVerticalPosition s'
        <= MechazillaCatchSimulation.towerHeight s - 10
     /\ MechazillaCatchSimulation.y (MechazillaCatchSimulation.armPosition s')
        = MechazillaCatchSimulation.armsVerticalPosition s'
     /\ (10 <= MechazillaCatchSimulation.armsVerticalPosition s
            <= MechazillaCatchSimulation.towerHeight s - 10 ->
         Rabs (MechazillaCatchSimulation.armsVerticalPosition s'
               - MechazillaCatchSimulation.armsVerticalPosition s)
         <= MechazillaCatchSimulation.armSpeed s * deltaTime))
    /\ (MechazillaCatchSimulation.trackingActive s = false ->
        MechazillaCatchSimulation.updateArmPosition
          s boosterPosition deltaTime = (s, false)).
Proof.
  intros s bp dt s' Hh Hs. split.
  - intros Ht. apply updateArmPosition_step; assumption.
  - intros Ht. apply (updateArmPosition_arms bp dt s). exact Ht.
Qed.

Lemma arms_stay_on_tower_witness :
  10 <= MechazillaCatchSimulation.armsVerticalPosition
          (fst (MechazillaCatchSimulation.updateArmPosition
                  Scenario.armsClosing Scenario.boosterAtArms 0.1))
     <= MechazillaCatchSimulation.towerHeight Scenario.armsClosing - 10.
Proof.
  apply (arms_stay_on_tower Scenario.armsClosing Scenario.boosterAtArms 0.1
           ltac:(cbn; lra) ltac:(cbn; lra)).
  reflexivity.
Defined.

(** X9.  The outcome of a catch is final and never contradictory: once
    [catchSuccessful] or [catchFailed] is set, [update] changes neither
    flag, whatever the booster does afterwards; and [update] never sets
    both flags. *)
Theorem catch_outcome_is_final :
  forall (s : MechazillaCatchSimulation.t)
         (rnd : MechazillaCatchSimulation.Point) (deltaTime : R)
         (boosterPosition boosterVelocity : MechazillaCatchSimulation.Point)
         (boosterOrientation : MechazillaCatchSimulation.Orientation),
    let s' :=
      MechazillaCatchSimulation.update s rnd deltaTime boosterPosition
        boosterVelocity boosterOrientation in
    (MechazillaCatchSimulation.catchSuccessful s = true
     \/ MechazillaCatchSimulation.catchFailed s = true ->
     MechazillaCatchSimulation.catchSuccessful s'
     = MechazillaCatchSimulation.catchSuccessful s
     /\ MechazillaCatchSimulation.catchFailed s'
        = MechazillaCatchSimulation.catchFailed s)
    /\ (MechazillaCatchSimulation.catchSuccessful s = false
        \/ MechazillaCatchSimulation.catchFailed s = false ->
        MechazillaCatchSimulation.catchSuccessful s' = false
        \/ MechazillaCatchSimulation.catchFailed s' = false).
Proof.
  intros s rnd dt bp bv bo s'.
  destruct (update_before_attempt s rnd dt bp bv bo)
    as [s3 [Hu [A [B _]]]].
  assert (Final :
            MechazillaCatchSimulation.catchSuccessful s = true
            \/ MechazillaCatchSimulation.catchFailed s = true ->
            MechazillaCatchSimulation.catchSuccessful s'
            = MechazillaCatchSimulation.catchSuccessful s
            /\ MechazillaCatchSimulation.catchFailed s'
               = MechazillaCatchSimulation.catchFailed s).
  { intros H. unfold s'. rewrite Hu.
    destruct (_ && _ && _) eqn:Ec; [|split; assumption].
    apply andb_prop in Ec. destruct Ec as [Ec1 Ec2].
    apply andb_prop in Ec1. destruct Ec1 as [_ Ec1].
    rewrite A in Ec1. rewrite B in Ec2.
    destruct H as [H | H]; rewrite H in *; discriminate. }
  split; [exact Final|].
  intros H.
  destruct (MechazillaCatchSimulation.catchSuccessful s) eqn:Es;
    destruct (MechazillaCatchSimulation.catchFailed s) eqn:Ef.
  - destruct H; discriminate.
  - destruct Final as [F1 F2]; [left; reflexivity|]. right. congruence.
  - destruct Final as [F1 F2]; [right; reflexivity|]. left. congruence.
  - unfold s'. rewrite Hu.
    destruct (_ && _ && _).
    + apply attemptCatch_at_most_one; assumption.
    + left. assumption.
Qed.

(** X10.  The arms' spread stays between closed (5 m) and open (15 m):
    for a spread in [5, 15] and a non-negative closing step, the spread
    after [update] is again in [5, 15]. *)
Theorem arms_spread_stays_in_range :
  forall (s : MechazillaCatchSimulation.t)
         (rnd : MechazillaCatchSimulation.Point) (deltaTime : R)
         (boosterPosition boosterVelocity : MechazillaCatchSimulation.Point)
         (boosterOrientation : MechazillaCatchSimulation.Orientation),
    5 <= MechazillaCatchSimulation.armsHorizontalPosition s <= 15 ->
    0 <= MechazillaCatchSimulation.armClosingSpeed s * deltaTime ->
    5 <= MechazillaCatchSimulation.armsHorizontalPosition
           (MechazillaCatchSimulation.update s rnd deltaTime boosterPosition
              boosterVelocity boosterOrientation) <= 15.
Proof.
  intros s rnd dt bp bv bo Hh Hc.
  destruct (update_before_attempt s rnd dt bp bv bo)
    as [s3 [Hu [_ [_ [C [D _]]]]]].
  rewrite Hu.
  assert (H3 : 5 <= MechazillaCatchSimulation.armsHorizontalPosition s3 <= 15)
    by (destruct D as [-> | ->]; lra).
  destruct (_ && _ && _); [|exact H3].
  apply attemptCatch_spread; [exact H3 | rewrite C; exact Hc].
Qed.

Lemma arms_spread_stays_in_range_witness :
  5 <= MechazillaCatchSimulation.armsHorizontalPosition
         (MechazillaCatchSimulation.update Scenario.armsClosing
            (MechazillaCatchSimulation.mkPoint 0.5 0.5 0.5) 0.1
            Scenario.boosterAtArms
            (MechazillaCatchSimulation.mkPoint 0 (-1) 0)
            (MechazillaCatchSimulation.mkOrientation 0 0 0)) <= 15.
Proof.
  apply (arms_spread_stays_in_range Scenario.armsClosing
           (MechazillaCatchSimulation.mkPoint 0.5 0.5 0.5) 0.1
           Scenario.boosterAtArms
           (MechazillaCatchSimulation.mkPoint 0 (-1) 0)
           (MechazillaCatchSimulation.mkOrientation 0 0 0)).
  - cbn. lra.
  - cbn. lra.
Defined.

(** X11.  A booster beyond the tracking range is ignored: when the
    simulation is not tracking, no catch is in progress and the booster is
    farther from the tower base than [trackingRange], [update] only
    records the booster's state; arms, flags and tracking stay as they
    were. *)
Theorem update_ignores_booster_out_of_range :
  forall (s : MechazillaCatchSimulation.t)
         (rnd : MechazillaCatchSimulation.Point) (deltaTime : R)
         (boosterPosition boosterVelocity : MechazillaCatchSimulation.Point)
         (boosterOrientation : MechazillaCatchSimulation.Orientation),
    let dx := MechazillaCatchSimulation.x boosterPosition
              - MechazillaCatchSimulation.x
                  (MechazillaCatchSimulation.towerPosition s) in
    let dy := MechazillaCatchSimulation.y boosterPosition
              - MechazillaCatchSimulation.y
                  (MechazillaCatchSimulation.towerPosition s) in
    let dz := MechazillaCatchSimulation.z boosterPosition
              - MechazillaCatchSimulation.z
                  (MechazillaCatchSimulation.towerPosition s) in
    MechazillaCatchSimulation.trackingActive s = false ->
    MechazillaCatchSimulation.catchInProgress s = false ->
    MechazillaCatchSimulation.trackingRange s
    < sqrt (dx * dx + dy * dy + dz * dz) ->
    MechazillaCatchSimulation.update s rnd deltaTime boosterPosition
      boosterVelocity boosterOrientation
    = MechazillaCatchSimulation.set_booster boosterPosition boosterVelocity
        boosterOrientation s.
Proof.
  intros s rnd dt bp bv bo dx dy dz Ht Hc Hr.
  unfold MechazillaCatchSimulation.update,
    MechazillaCatchSimulation.startTracking,
    MechazillaCatchSimulation.updateArmPosition.
  destruct s; cbn in *. subst.
  cbn.
  replace (_ <=? _) with false.
  - reflexivity.
  - symmetry. apply leb_false_iff. exact Hr.
Qed.

Lemma update_ignores_booster_out_of_range_witness :
  MechazillaCatchSimulation.update MechazillaCatchSimulation.new
    (MechazillaCatchSimulation.mkPoint 0.5 0.5 0.5) 0.1
    (MechazillaCatchSimulation.mkPoint 2950 0 0)
    (MechazillaCatchSimulation.mkPoint 0 (-100) 0)
    (MechazillaCatchSimulation.mkOrientation 0 0 0)
  = MechazillaCatchSimulation.set_booster
      (MechazillaCatchSimulation.mkPoint 2950 0 0)
      (MechazillaCatchSimulation.mkPoint 0 (-100) 0)
      (MechazillaCatchSimulation.mkOrientation 0 0 0)
      MechazillaCatchSimulation.new.
Proof.
  apply (update_ignores_booster_out_of_range MechazillaCatchSimulation.new).
  - reflexivity.
  - reflexivity.
  - cbn.
    replace ((2950 - -50) * (2950 - -50) + (0 - 0) * (0 - 0)
             + (0 - 0) * (0 - 0)) with (3000 * 3000) by ring.
    rewrite sqrt_square by lra. lra.
Defined.

(** ** The catch guidance of the physics engine *)

Section CatchGuidance.

Import ImprovedPhysicsEngine Motion Frame.

Lemma throttle_set_rotation (r : Euler.t) (v : Vehicle) :
  throttle (set_rotation r v) = throttle v.
Proof. destruct v; reflexivity. Qed.

Lemma updateMechazillaCatch_throttle (e : Engine) (deltaTime : R) :
  let r := snd (updateMechazillaCatch e deltaTime) in
  let e' := fst (updateMechazillaCatch e deltaTime) in
  engineThrottle r = 0.1 + 0.2 * JS.min 1.0 (distanceToCatch r / 50)
  /\ throttle (vehicles e' superHeavy) = engineThrottle r
  /\ distanceToCatch r
     = Vector3.distanceTo (position (vehicles e superHeavy)) catchPosition.
Proof.
  cbv zeta. unfold updateMechazillaCatch. cbv zeta.
  match goal with
  | |- context [updateVehiclePhysics (set_vehicle superHeavy ?b e)] =>
      set (b1 := b)
  end.
  assert (Hb : throttle b1
               = 0.1 + 0.2 * JS.min 1.0
                         (Vector3.distanceTo
                            (position (vehicles e superHeavy)) catchPosition
                          / 50)).
  { unfold b1. destruct (vehicles e superHeavy).
    cbn [set_acceleration set_throttle position acceleration].
    match goal with |- context [if ?t then _ else _] => destruct t end;
      reflexivity. }
  clearbody b1.
  destruct (updateVehiclePhysics_stored (set_vehicle superHeavy b1 e)
              superHeavy deltaTime true) as [[Ht _] _].
  rewrite vehicles_set_vehicle_same in Ht.
  set (e2 := updateVehiclePhysics (set_vehicle superHeavy b1 e)
               superHeavy deltaTime true) in *.
  cbn [fst snd engineThrottle distanceToCatch].
  rewrite vehicles_set_vehicle_same.
  match goal with |- context [if ?t then _ else _] => destruct t end;
    rewrite ?throttle_set_rotation; repeat split; congruence.
Qed.

End CatchGuidance.

(** X12.  During the catch approach [updateMechazillaCatch] throttles the
    booster between 0.1 and 0.3: the throttle it reports is the one it
    leaves on the booster, it grows with the distance to the catch point
    measured when the call starts, and it is 0.3 from 50 m on. *)
Theorem catch_guidance_throttle_range :
  forall (e : ImprovedPhysicsEngine.Engine) (deltaTime : R),
    let r := snd (ImprovedPhysicsEngine.updateMechazillaCatch e deltaTime) in
    let e' := fst (ImprovedPhysicsEngine.updateMechazillaCatch e deltaTime) in
    0.1 <= ImprovedPhysicsEngine.engineThrottle r <= 0.3
    /\ ImprovedPhysicsEngine.throttle
         (ImprovedPhysicsEngine.vehicles e' ImprovedPhysicsEngine.superHeavy)
       = ImprovedPhysicsEngine.engineThrottle r
    /\ 0 <= ImprovedPhysicsEngine.distanceToCatch r
    /\ (50 <= ImprovedPhysicsEngine.distanceToCatch r ->
        ImprovedPhysicsEngine.engineThrottle r = 0.3)
    /\ (ImprovedPhysicsEngine.distanceToCatch r <= 50 ->
        ImprovedPhysicsEngine.engineThrottle r
        = 0.1 + ImprovedPhysicsEngine.distanceToCatch r / 250).
Proof.
  intros e deltaTime r e'.
  destruct (updateMechazillaCatch_throttle e deltaTime) as [Ht [He Hd]].
  fold r in Ht, He, Hd. fold e' in He.
  assert (H0 : 0 <= ImprovedPhysicsEngine.distanceToCatch r).
  { rewrite Hd. unfold Vector3.distanceTo. apply sqrt_pos. }
  set (d := ImprovedPhysicsEngine.distanceToCatch r) in *.
  unfold JS.min, Rmin in Ht.
  destruct (Rle_dec 1.0 (d / 50)).
  - split; [lra|]. split; [exact He|]. split; [exact H0|]. split; lra.
  - split; [lra|]. split; [exact He|]. split; [exact H0|]. split; lra.
Qed.

(** ** What the physics step leaves alone *)

Section MissionFrame.

Import ImprovedPhysicsEngine Motion Frame.

Lemma sameMission_refl (e : Engine) : sameMission e e.
Proof. unfold sameMission; repeat split. Qed.

Lemma sameMission_trans (a b c : Engine) :
  sameMission a b -> sameMission b c -> sameMission a c.
Proof.
  unfold sameMission. intros H1 H2.
  repeat match goal with H : _ /\ _ |- _ => destruct H end.
  repeat split; congruence.
Qed.

Lemma sameMission_set_vehicle (id : VehicleId) (v : Vehicle) (e : Engine) :
  sameMission e (set_vehicle id v e).
Proof. destruct e, id; unfold sameMission; cbn; repeat split. Qed.

Lemma sameMission_set_landingPhase (p : LandingPhase) (e : Engine) :
  sameMission e (set_landingPhase p e).
Proof. destruct e; unfold sameMission; cbn; repeat split. Qed.

(** [updateVehiclePhysics] touches the vehicle it is given and, when the
    booster lands in phase 'final', the landing phase; nothing else. *)
Lemma updateVehiclePhysics_mission (e : Engine) (id : VehicleId)
    (deltaTime : R) (enginesOn : bool) :
  let e' := updateVehiclePhysics e id deltaTime enginesOn in
  sameMission e e'
  /\ (forall id', id' <> id -> vehicles e' id' = vehicles e id')
  /\ (landingPhase e' = landingPhase e
      \/ (landingPhase e = final /\ landingPhase e' = touchdown
          /\ id = superHeavy)).
Proof.
  cbv zeta. unfold updateVehiclePhysics.
  destruct (calculateForces e (vehicles e id) (JS.min deltaTime 0.1))
    as [F v1].
  assert (Hset : forall v e0,
             sameMission e0 (set_vehicle id v e0)
             /\ (forall id', id' <> id ->
                             vehicles (set_vehicle id v e0) id'
                             = vehicles e0 id')
             /\ landingPhase (set_vehicle id v e0) = landingPhase e0).
  { intros v e0. split; [apply sameMission_set_vehicle|]. split.
    - intros id' Hne. apply vehicles_set_vehicle_other. auto.
    - apply landingPhase_set_vehicle. }
  destruct (_ <=? 0).
  - destruct (Hset v1 e) as [A [B C]].
    split; [exact A | split; [exact B | left; exact C]].
  - destruct (_ <? 0).
    + destruct (VehicleId_eqb id superHeavy
                && LandingPhase_eqb (landingPhase e) final) eqn:Ec.
      * apply andb_prop in Ec. destruct Ec as [Ei Ep].
        match goal with
        | |- context [set_vehicle id ?v (set_landingPhase touchdown e)] =>
            destruct (Hset v (set_landingPhase touchdown e)) as [A [B C]]
        end.
        split; [|split].
        -- eapply sameMission_trans; [apply sameMission_set_landingPhase|].
           exact A.
        -- intros id' Hne. rewrite B by exact Hne.
           apply vehicles_set_landingPhase.
        -- right. rewrite C.
           destruct id; try discriminate.
           destruct (landingPhase e) eqn:El; try discriminate.
           split; [reflexivity|]. split; [|reflexivity].
           destruct e; reflexivity.
      * match goal with
        | |- context [set_vehicle id ?v e] =>
            destruct (Hset v e) as [A [B C]]
        end.
        split; [exact A | split; [exact B | left; exact C]].
    + match goal with
      | |- context [set_vehicle id ?v e] =>
          destruct (Hset v e) as [A [B C]]
      end.
      split; [exact A | split; [exact B | left; exact C]].
Qed.

End MissionFrame.

(** ** The thermal model *)

Section Thermal.

Import ImprovedPhysicsEngine FlightPhases.

Lemma temperature_layers (h : R) :
  (h < 11000 /\ calculateAtmosphericTemperature h = 288.15 - 0.0065 * h)
  \/ (11000 <= h < 20000 /\ calculateAtmosphericTemperature h = 216.65)
  \/ (20000 <= h < 50000
      /\ calculateAtmosphericTemperature h = 216.65 + 0.001 * (h - 20000))
  \/ (50000 <= h
      /\ calculateAtmosphericTemperature h = 270.65 - 0.0025 * (h - 50000)).
Proof.
  unfold calculateAtmosphericTemperature. cbv zeta.
  js_case (h <? 11000); [left; split; [lra|reflexivity]|].
  js_case (h <? 20000); [right; left; split; [lra|reflexivity]|].
  js_case (h <? 50000); [right; right; left; split; [lra|reflexivity]|].
  right; right; right. split; [lra|reflexivity].
Qed.

Lemma heatingRate_at_rest (e : Engine) (v : Vehicle) (altitude : R) :
  velocity v = Vector3.mk 0 0 0 -> calculateHeatingRate e v altitude = 0.
Proof.
  intros H. unfold calculateHeatingRate. rewrite H.
  unfold Vector3.length. cbn.
  replace (0 * 0 + 0 * 0 + 0 * 0) with 0 by ring. rewrite sqrt_0. ring.
Qed.

Lemma heatingRate_nonneg (e : Engine) (v : Vehicle) (altitude : R) :
  0 <= calculateHeatingRate e v altitude.
Proof.
  unfold calculateHeatingRate.
  apply Rmult_le_pos; [|apply sqrt_pos].
  apply Rmult_le_pos; [lra|].
  apply pow_le. apply sqrt_pos.
Qed.

End Thermal.

(** X13.  [calculateAtmosphericTemperature] below 50 km: the temperature
    lies between 216.65 K and the sea-level 288.15 K, and the three lower
    layers join without a jump: two altitudes in [0, 50000) differ in
    temperature by at most the lapse rate 0.0065 K/m times their
    distance. *)
Theorem temperature_below_50km :
  forall h1 h2 : R,
    0 <= h1 < 50000 -> 0 <= h2 < 50000 ->
    216.65 <= FlightPhases.calculateAtmosphericTemperature h1 <= 288.15
    /\ Rabs (FlightPhases.calculateAtmosphericTemperature h1
             - FlightPhases.calculateAtmosphericTemperature h2)
       <= 0.0065 * Rabs (h1 - h2).
Proof.
  intros h1 h2 H1 H2.
  destruct (temperature_layers h1) as [[A ->] | [[A ->] | [[A ->] | [A _]]]];
    [| | |lra];
    (split; [lra|]);
    destruct (temperature_layers h2) as [[B ->] | [[B ->] | [[B ->] | [B _]]]];
    try lra;
    unfold Rabs;
    repeat match goal with
           | |- context [Rcase_abs ?x] => destruct (Rcase_abs x)
           end; lra.
Qed.

Lemma temperature_below_50km_witness :
  216.65 <= FlightPhases.calculateAtmosphericTemperature 5000 <= 288.15
  /\ Rabs (FlightPhases.calculateAtmosphericTemperature 5000
           - FlightPhases.calculateAtmosphericTemperature 30000)
     <= 0.0065 * Rabs (5000 - 30000).
Proof.
  apply (temperature_below_50km 5000 30000); lra.
Defined.

(** X14.  [updateThermalState] changes the heat shield's temperature and
    nothing else, and never leaves it below the ambient temperature of
    the altitude; for a sea-level density >= 0 and a scale height > 0
    (so that the heating rate is a number), a step deltaTime >= 0, a
    cooling rate >= 0 and an altitude >= 0 the new temperature is at
    most the larger of the ambient temperature and the heated
    temperature T + heatingRate * deltaTime, so a vehicle at rest, whose
    heating rate is 0, never gets hotter than the larger of ambient and
    its own temperature. *)
Theorem thermal_state_stays_above_ambient :
  forall (e : ImprovedPhysicsEngine.Engine)
         (vehicle : ImprovedPhysicsEngine.Vehicle) (altitude deltaTime : R),
    let v' := FlightPhases.updateThermalState e vehicle altitude deltaTime in
    let T := ImprovedPhysicsEngine.temperature
               (ImprovedPhysicsEngine.heatShield vehicle) in
    let T' := ImprovedPhysicsEngine.temperature
                (ImprovedPhysicsEngine.heatShield v') in
    let ambient := FlightPhases.calculateAtmosphericTemperature altitude in
    0 <= ImprovedPhysicsEngine.airDensitySeaLevel e ->
    0 < ImprovedPhysicsEngine.atmosphereScaleHeight e ->
    0 <= deltaTime ->
    0 <= ImprovedPhysicsEngine.coolingRate
           (ImprovedPhysicsEngine.heatShield vehicle) ->
    0 <= altitude ->
    ambient <= T'
    /\ T' <= Rmax ambient
               (T + FlightPhases.calculateHeatingRate e vehicle altitude
                    * deltaTime)
    /\ 0 <= FlightPhases.calculateHeatingRate e vehicle altitude
    /\ (ImprovedPhysicsEngine.velocity vehicle = Vector3.mk 0 0 0 ->
        T' <= Rmax ambient T)
    /\ v' = FlightPhases.set_heatShield
              (ImprovedPhysicsEngine.mkHeatShield T'
                 (ImprovedPhysicsEngine.maxTemperature
                    (ImprovedPhysicsEngine.heatShield vehicle))
                 (ImprovedPhysicsEngine.coolingRate
                    (ImprovedPhysicsEngine.heatShield vehicle)))
              vehicle.
Proof.
  intros e vehicle altitude deltaTime v' T T' ambient Hrho _ Hdt Hc Ha.
  assert (HT' : T' = JS.max ambient
                       (T + FlightPhases.calculateHeatingRate e vehicle altitude
                            * deltaTime
                        - ImprovedPhysicsEngine.coolingRate
                            (ImprovedPhysicsEngine.heatShield vehicle)
                          * (1.0 - JS.min 1.0 (altitude / 100000))
                          * deltaTime)).
  { unfold T', v', FlightPhases.updateThermalState.
    destruct vehicle; reflexivity. }
  assert (Hcool : 0 <= ImprovedPhysicsEngine.coolingRate
                         (ImprovedPhysicsEngine.heatShield vehicle)
                       * (1.0 - JS.min 1.0 (altitude / 100000))
                       * deltaTime).
  { apply Rmult_le_pos; [|exact Hdt].
    apply Rmult_le_pos; [exact Hc|].
    unfold JS.min. pose proof (Rmin_l 1.0 (altitude / 100000)). lra. }
  set (cooling := ImprovedPhysicsEngine.coolingRate
                    (ImprovedPhysicsEngine.heatShield vehicle)
                  * (1.0 - JS.min 1.0 (altitude / 100000)) * deltaTime) in *.
  pose proof (heatingRate_nonneg e vehicle altitude) as Hh.
  set (rate := FlightPhases.calculateHeatingRate e vehicle altitude) in *.
  assert (Hup : T' <= Rmax ambient (T + rate * deltaTime)).
  { rewrite HT'. unfold JS.max.
    apply Rmax_lub; [apply Rmax_l|].
    eapply Rle_trans; [|apply Rmax_r]. lra. }
  split; [rewrite HT'; apply Rmax_l|].
  split; [exact Hup|]. split; [exact Hh|]. split.
  - intros Hv. unfold rate in Hup.
    rewrite (heatingRate_at_rest e vehicle altitude Hv) in Hup.
    replace (T + 0 * deltaTime) with T in Hup by ring. exact Hup.
  - unfold T', v', FlightPhases.updateThermalState.
    destruct vehicle; reflexivity.
Qed.

Lemma thermal_state_stays_above_ambient_witness :
  FlightPhases.calculateAtmosphericTemperature 1000
  <= ImprovedPhysicsEngine.temperature
       (ImprovedPhysicsEngine.heatShield
          (FlightPhases.updateThermalState ImprovedPhysicsEngine.newEngine
             ImprovedPhysicsEngine.newSuperHeavy 1000 0.1)).
Proof.
  apply (thermal_state_stays_above_ambient ImprovedPhysicsEngine.newEngine
           ImprovedPhysicsEngine.newSuperHeavy 1000 0.1).
  - cbn. lra.
  - cbn. lra.
  - lra.
  - cbn. lra.
  - lra.
Defined.

(** ** Stage separation *)

Section Separation.

Import ImprovedPhysicsEngine Motion Frame FlightPhases SeparationRun.

Lemma initializeSeparation_frame (e : Engine) :
  let e' := initializeSeparation e in
  separationTimer e' = Some 3.0
  /\ separationCompleted e' = separationCompleted e
  /\ returnParams e' = returnParams e
  /\ landingTarget e' = landingTarget e
  /\ landingPhase e' = landingPhase e
  /\ simulationTime e' = simulationTime e
  /\ combinedStage e' = false.
Proof. destruct e; cbn; repeat split. Qed.

Lemma set_separationTimer_frame (t : option R) (e : Engine) :
  let e' := set_separationTimer t e in
  separationTimer e' = t
  /\ separationCompleted e' = separationCompleted e
  /\ returnParams e' = returnParams e
  /\ landingTarget e' = landingTarget e
  /\ landingPhase e' = landingPhase e
  /\ simulationTime e' = simulationTime e
  /\ combinedStage e' = combinedStage e.
Proof. destruct e; cbn; repeat split. Qed.

Lemma separationPhysics_frame (e : Engine) (dt : R) :
  sameMission e (separationPhysics e dt)
  /\ (landingPhase e <> final ->
      landingPhase (separationPhysics e dt) = landingPhase e).
Proof.
  unfold separationPhysics.
  set (e1 := updateVehiclePhysics e superHeavy dt _).
  destruct (updateVehiclePhysics_mission e superHeavy dt
              (throttle (vehicles e superHeavy) >? 0)) as [A [_ C]].
  fold e1 in A, C.
  destruct (updateVehiclePhysics_mission e1 starship dt
              (throttle (vehicles e1 starship) >? 0)) as [A2 [_ C2]].
  split; [eapply sameMission_trans; eassumption|].
  intros Hne.
  destruct C2 as [C2 | [_ [_ C2]]]; [|discriminate].
  rewrite C2. destruct C as [C | [C _]]; [exact C | contradiction].
Qed.

Lemma continueSeparationForces_frame (e : Engine) (timer : R) :
  sameMission e (continueSeparationForces e timer)
  /\ landingPhase (continueSeparationForces e timer) = landingPhase e.
Proof.
  unfold continueSeparationForces. cbv zeta. split.
  - eapply sameMission_trans; apply sameMission_set_vehicle.
  - rewrite !landingPhase_set_vehicle. reflexivity.
Qed.

Lemma completeSeparation_spec (e : Engine) :
  let e' := completeSeparation e in
  separationCompleted e' = true
  /\ separationTimer e' = separationTimer e
  /\ simulationTime e' = simulationTime e
  /\ landingPhase e' = returning
  /\ landingTarget e' = Vector3.mk (-120) 0 0
  /\ returnParams e'
     = Some (mkReturnParams (simulationTime e) 10.0 5.0 15.0 rCoast)
  /\ throttle (vehicles e' starship) = 1.0
  /\ active (vehicles e' starship) = true
  /\ throttle (vehicles e' superHeavy) = 0.0
  /\ active (vehicles e' superHeavy) = true
  /\ fuel (vehicles e' starship) = fuel (vehicles e starship)
  /\ fuel (vehicles e' superHeavy) = fuel (vehicles e superHeavy).
Proof.
  destruct e as [g cs ad vs vh sl lt lp lpar pid sh st ws wd gs ti sep sc rp
                 lsa ha ts].
  destruct vs, vh. cbn. repeat split.
Qed.

(** The timer [updateStageSeparation] counts down from. *)
Lemma timer_start (e : Engine) :
  exists t0,
    separationTimer (if timerUnset e then initializeSeparation e else e)
    = Some t0
    /\ (timerUnset e = true -> t0 = 3)
    /\ (forall t, separationTimer e = Some t -> t <> 0 -> t0 = t).
Proof.
  unfold timerUnset.
  destruct (separationTimer e) as [t|] eqn:Et.
  - js_case (t !== 0); cbn [negb].
    + exists t. rewrite Et. repeat split.
      * discriminate.
      * intros t' [= ->] _. reflexivity.
    + exists 3. rewrite (proj1 (initializeSeparation_frame e)).
      split; [f_equal; lra|]. split; [reflexivity|].
      intros t' [= <-] Hne. contradiction.
  - exists 3. rewrite (proj1 (initializeSeparation_frame e)).
    split; [f_equal; lra|]. split; [reflexivity|]. intros t' H. discriminate.
Qed.

(** One call: the timer, the report, and the hand-over to the return
    guidance, which happens with the first call that reports completion
    and with no later one. *)
Lemma updateStageSeparation_step (e : Engine) (dt : R) :
  let e' := fst (updateStageSeparation e dt) in
  let r := snd (updateStageSeparation e dt) in
  exists t0,
    (timerUnset e = true -> t0 = 3)
    /\ (forall t, separationTimer e = Some t -> t <> 0 -> t0 = t)
    /\ separationTimer e' = Some (t0 - dt)
    /\ separationTime r = t0 - dt
    /\ separationComplete r = (t0 - dt <=? 0)
    /\ simulationTime e' = simulationTime e
    /\ (separationComplete r = true -> separationCompleted e = false ->
        e' = completeSeparation
               (separationPhysics
                  (set_separationTimer (Some (t0 - dt))
                     (if timerUnset e then initializeSeparation e else e))
                  dt))
    /\ (separationComplete r = false \/ separationCompleted e = true ->
        separationCompleted e' = separationCompleted e
        /\ returnParams e' = returnParams e
        /\ landingTarget e' = landingTarget e).
Proof.
  cbv zeta. unfold updateStageSeparation. cbv zeta.
  destruct (timer_start e) as [t0 [E0 [U0 S0]]].
  set (e0 := if timerUnset e then initializeSeparation e else e) in *.
  assert (F0 : separationCompleted e0 = separationCompleted e
               /\ returnParams e0 = returnParams e
               /\ landingTarget e0 = landingTarget e
               /\ simulationTime e0 = simulationTime e).
  { unfold e0. destruct (timerUnset e); [|repeat split].
    destruct (initializeSeparation_frame e) as [_ [A [B [C [_ [D _]]]]]].
    repeat split; assumption. }
  clearbody e0. rewrite E0.
  exists t0. split; [exact U0|]. split; [exact S0|].
  set (timer := t0 - dt).
  destruct (set_separationTimer_frame (Some timer) e0)
    as [T1 [A1 [B1 [C1 [_ [D1 _]]]]]].
  set (e1 := set_separationTimer (Some timer) e0) in *.
  destruct (separationPhysics_frame e1 dt) as [M2 _].
  set (e2 := separationPhysics e1 dt) in *.
  set (e3 := if negb (timer <=? 0)
             then continueSeparationForces e2 timer else e2).
  assert (M3 : sameMission e2 e3).
  { unfold e3. destruct (negb (timer <=? 0)).
    - apply continueSeparationForces_frame.
    - apply sameMission_refl. }
  assert (M13 : sameMission e1 e3)
    by (eapply sameMission_trans; eassumption).
  unfold sameMission in M13.
  destruct M13 as [_ [_ [_ [_ [_ [G1 [_ [_ [G2 [G3 [G4 G5]]]]]]]]]]].
  cbn [fst snd separationTime separationComplete separationState].
  destruct F0 as [F1 [F2 [F3 F4]]].
  assert (Q1 : separationTimer e3 = Some timer) by (rewrite G3; exact T1).
  assert (Q2 : simulationTime e3 = simulationTime e)
    by (rewrite G2, D1; exact F4).
  assert (Q3 : separationCompleted e3 = separationCompleted e)
    by (rewrite G4, A1; exact F1).
  assert (Q4 : returnParams e3 = returnParams e)
    by (rewrite G5, B1; exact F2).
  assert (Q5 : landingTarget e3 = landingTarget e)
    by (rewrite G1, C1; exact F3).
  assert (Q6 : (timer <=? 0) = true -> e3 = e2).
  { intros H. unfold e3. rewrite H. reflexivity. }
  clearbody e3. clear M3 G1 G2 G3 G4 G5.
  destruct (timer <=? 0) eqn:Ec; cbn [negb andb].
  - destruct (separationCompleted e3) eqn:E3; cbn [negb andb].
    + split; [exact Q1|]. split; [reflexivity|]. split; [reflexivity|].
      split; [exact Q2|]. split.
      * intros _ Hf. rewrite Hf in Q3. discriminate.
      * intros _. split; [rewrite E3; exact Q3|].
        split; [exact Q4 | exact Q5].
    + destruct (completeSeparation_spec e3) as [P1 [P2 [P3 _]]].
      split; [rewrite P2; exact Q1|]. split; [reflexivity|].
      split; [reflexivity|]. split; [rewrite P3; exact Q2|]. split.
      * intros _ _. rewrite (Q6 eq_refl). reflexivity.
      * intros [H | H]; [discriminate|].
        rewrite H in Q3. discriminate.
  - split; [exact Q1|]. split; [reflexivity|]. split; [reflexivity|].
    split; [exact Q2|]. split.
    + intros H. discriminate.
    + intros _. split; [exact Q3|]. split; [exact Q4 | exact Q5].
Qed.

End Separation.

Section SeparationRuns.

Import ImprovedPhysicsEngine Motion Frame FlightPhases SeparationRun.

Lemma elapsed_shift (d t0 : R) (steps : list R) :
  elapsed (t0 + d) steps = map (fun s => s + d) (elapsed t0 steps).
Proof.
  revert t0. induction steps as [|dt rest IH]; intros t0; cbn [elapsed map].
  - reflexivity.
  - replace (t0 + d + dt) with (t0 + dt + d) by ring.
    rewrite IH. reflexivity.
Qed.

Lemma leb_shift (a b : R) : (a - b <=? 0) = (a <=? b).
Proof.
  js_case (a - b <=? 0); js_case (a <=? b); try reflexivity; lra.
Qed.

(** A running timer: the reports of the following calls. *)
Lemma run_running (steps : list R) :
  forall (e : Engine) (t : R),
    separationTimer e = Some t -> t <> 0 ->
    Forall (fun s => s <> t) (elapsed 0 steps) ->
    snd (run e steps) = map (fun s => t <=? s) (elapsed 0 steps).
Proof.
  induction steps as [|dt rest IH]; intros e t Et Hne Hall.
  - reflexivity.
  - cbn [run elapsed map].
    destruct (updateStageSeparation_step e dt)
      as [t0 [_ [S0 [T1 [_ [R1 _]]]]]].
    cbv zeta in T1, R1.
    destruct (updateStageSeparation e dt) as [e1 r] eqn:Eu.
    cbn [fst snd] in T1, R1.
    rewrite (S0 t Et Hne) in T1, R1.
    destruct (run e1 rest) as [e2 reports] eqn:Er.
    cbn [snd]. rewrite R1, leb_shift.
    cbn [elapsed] in Hall.
    inversion Hall as [|? ? Hd Ht]; subst.
    rewrite elapsed_shift in Ht |- *.
    replace (0 + dt) with dt in Hd |- * by ring. f_equal.
    assert (Hrest : Forall (fun s => s <> t - dt) (elapsed 0 rest)).
    { clear - Ht. induction (elapsed 0 rest) as [|a l IHl]; [constructor|].
      cbn [map] in Ht. inversion Ht as [|? ? Ha Hb]; subst.
      constructor; [lra | apply IHl; exact Hb]. }
    specialize (IH e1 (t - dt) T1 ltac:(lra) Hrest).
    rewrite Er in IH. cbn [snd] in IH. rewrite IH, map_map.
    apply map_ext. intros s.
    js_case (t - dt <=? s); js_case (t <=? s + dt); try reflexivity; lra.
Qed.

End SeparationRuns.

(** X15.  Stage separation runs on a three-second timer.  Starting from an
    engine whose [separationTimer] is unset ([null], or exactly 0, which
    [!this.separationTimer] does not tell apart), successive calls of
    [updateStageSeparation] report [separationComplete] exactly from the
    call on at which the time steps add up to three seconds or more,
    whatever the vehicles do, as long as the steps never add up to
    exactly three seconds. *)
Theorem separation_completes_after_three_seconds
    (e : ImprovedPhysicsEngine.Engine) (steps : list R) :
  FlightPhases.timerUnset e = true ->
  Forall (fun s => s <> 3) (SeparationRun.elapsed 0 steps) ->
  snd (SeparationRun.run e steps)
  = map (fun s => 3 <=? s) (SeparationRun.elapsed 0 steps).
Proof.
  intros Hu Hall.
  destruct steps as [|dt rest]; [reflexivity|].
  cbn [SeparationRun.run SeparationRun.elapsed map].
  destruct (updateStageSeparation_step e dt)
    as [t0 [U0 [_ [T1 [_ [R1 _]]]]]].
  cbv zeta in T1, R1.
  destruct (FlightPhases.updateStageSeparation e dt) as [e1 r] eqn:Eu.
  cbn [fst snd] in T1, R1.
  rewrite (U0 Hu) in T1, R1.
  cbn [SeparationRun.elapsed] in Hall.
  inversion Hall as [|? ? Hd Ht]; subst.
  rewrite elapsed_shift in Ht.
  assert (Hrest : Forall (fun s => s <> 3 - dt)
                    (SeparationRun.elapsed 0 rest)).
  { clear - Ht.
    induction (SeparationRun.elapsed 0 rest) as [|a l IHl]; [constructor|].
    cbn [map] in Ht. inversion Ht as [|? ? Ha Hb]; subst.
    constructor; [lra | apply IHl; exact Hb]. }
  pose proof (run_running rest e1 (3 - dt) T1 ltac:(lra) Hrest) as Hr.
  destruct (SeparationRun.run e1 rest) as [e2 reports].
  cbn [snd] in Hr |- *. rewrite R1, leb_shift, Hr, elapsed_shift, map_map.
  f_equal.
  - js_case (3 <=? dt); js_case (3 <=? 0 + dt); try reflexivity; lra.
  - apply map_ext. intros s.
    js_case (3 - dt <=? s); js_case (3 <=? s + dt); try reflexivity; lra.
Qed.

Lemma separation_completes_after_three_seconds_witness :
  snd (SeparationRun.run ImprovedPhysicsEngine.newEngine [1; 1; 1.5])
  = map (fun s => 3 <=? s) (SeparationRun.elapsed 0 [1; 1; 1.5]).
Proof.
  apply separation_completes_after_three_seconds.
  - reflexivity.
  - cbn [SeparationRun.elapsed]. repeat constructor; lra.
Defined.

(** X16.  [updateStageSeparation] hands the booster over to the return
    guidance once.  The first call that reports [separationComplete]
    marks the separation completed, sets the landing phase to the return,
    aims at the tower at (-120, 0, 0), starts the return in its coast
    phase at the current simulation time with durations 10, 5 and 15
    seconds, and leaves both vehicles active, the ship at full throttle
    and the booster at none.  A call that does not report completion, or
    that comes after the separation was completed, leaves the completion
    mark, the return parameters and the landing target as they are. *)
Theorem separation_hands_over_once
    (e : ImprovedPhysicsEngine.Engine) (dt : R) :
  let e' := fst (FlightPhases.updateStageSeparation e dt) in
  let r := snd (FlightPhases.updateStageSeparation e dt) in
  (FlightPhases.separationComplete r = true /\
   ImprovedPhysicsEngine.separationCompleted e = false ->
   ImprovedPhysicsEngine.separationCompleted e' = true
   /\ ImprovedPhysicsEngine.landingPhase e'
      = ImprovedPhysicsEngine.returning
   /\ ImprovedPhysicsEngine.landingTarget e' = Vector3.mk (-120) 0 0
   /\ ImprovedPhysicsEngine.returnParams e'
      = Some (ImprovedPhysicsEngine.mkReturnParams
                (ImprovedPhysicsEngine.simulationTime e) 10.0 5.0 15.0
                ImprovedPhysicsEngine.rCoast)
   /\ ImprovedPhysicsEngine.throttle
        (ImprovedPhysicsEngine.vehicles e' ImprovedPhysicsEngine.starship)
      = 1.0
   /\ ImprovedPhysicsEngine.active
        (ImprovedPhysicsEngine.vehicles e' ImprovedPhysicsEngine.starship)
      = true
   /\ ImprovedPhysicsEngine.throttle
        (ImprovedPhysicsEngine.vehicles e' ImprovedPhysicsEngine.superHeavy)
      = 0.0
   /\ ImprovedPhysicsEngine.active
        (ImprovedPhysicsEngine.vehicles e' ImprovedPhysicsEngine.superHeavy)
      = true)
  /\ (FlightPhases.separationComplete r = false \/
      ImprovedPhysicsEngine.separationCompleted e = true ->
      ImprovedPhysicsEngine.separationCompleted e'
      = ImprovedPhysicsEngine.separationCompleted e
      /\ ImprovedPhysicsEngine.returnParams e'
         = ImprovedPhysicsEngine.returnParams e
      /\ ImprovedPhysicsEngine.landingTarget e'
         = ImprovedPhysicsEngine.landingTarget e).
Proof.
  cbv zeta.
  destruct (updateStageSeparation_step e dt)
    as [t0 [_ [_ [_ [_ [_ [S1 [H1 H2]]]]]]]].
  cbv zeta in S1, H1, H2.
  split; [|exact H2].
  intros [Hc Hn]. specialize (H1 Hc Hn).
  set (e2 := FlightPhases.separationPhysics _ _) in H1.
  destruct (completeSeparation_spec e2)
    as [P1 [_ [P3 [P4 [P5 [P6 [P7 [P8 [P9 [P10 _]]]]]]]]]].
  cbv zeta in P1, P3, P4, P5, P6, P7, P8, P9, P10.
  rewrite <- H1 in P1, P3, P4, P5, P6, P7, P8, P9, P10.
  rewrite <- P3, S1 in P6.
  repeat split; assumption.
Qed.

(** ** The booster's return *)

Section Return.

Import ImprovedPhysicsEngine Motion Frame FlightPhases.

Lemma set_simulationTime_frame (a : R) (e : Engine) :
  let e' := set_simulationTime a e in
  simulationTime e' = a
  /\ returnParams e' = returnParams e
  /\ landingPhase e' = landingPhase e
  /\ landingTarget e' = landingTarget e
  /\ (forall id, vehicles e' id = vehicles e id).
Proof. destruct e; cbn; repeat split. Qed.

Lemma set_returnParams_frame (a : option ReturnParams) (e : Engine) :
  let e' := set_returnParams a e in
  returnParams e' = a
  /\ simulationTime e' = simulationTime e
  /\ landingPhase e' = landingPhase e
  /\ landingTarget e' = landingTarget e
  /\ (forall id, vehicles e' id = vehicles e id).
Proof. destruct e; cbn; repeat split. Qed.

Lemma set_landingPhase_frame (p : LandingPhase) (e : Engine) :
  let e' := set_landingPhase p e in
  landingPhase e' = p
  /\ returnParams e' = returnParams e
  /\ simulationTime e' = simulationTime e
  /\ landingTarget e' = landingTarget e
  /\ (forall id, vehicles e' id = vehicles e id).
Proof. destruct e; cbn; repeat split. Qed.

Lemma set_vehicle_frame (id : VehicleId) (v : Vehicle) (e : Engine) :
  let e' := set_vehicle id v e in
  returnParams e' = returnParams e
  /\ simulationTime e' = simulationTime e
  /\ landingPhase e' = landingPhase e
  /\ landingTarget e' = landingTarget e.
Proof. destruct e, id; cbn; repeat split. Qed.

(** The landing control leaves the clock and the return parameters. *)
Lemma updateLandingControl_clock (e e' : Engine) (v v' : Vehicle) (dt : R) :
  updateLandingControl e v dt = Some (e', v') ->
  returnParams e' = returnParams e
  /\ simulationTime e' = simulationTime e
  /\ landingTarget e' = landingTarget e.
Proof.
  unfold updateLandingControl.
  match goal with
  | |- context [if ?c then set_landingPhase final e else e] =>
      set (e1 := if c then set_landingPhase final e else e)
  end.
  assert (H1 : returnParams e1 = returnParams e
               /\ simulationTime e1 = simulationTime e
               /\ landingTarget e1 = landingTarget e).
  { unfold e1.
    match goal with |- context [if ?t then _ else _] => destruct t end;
      [destruct e; cbn|]; repeat split. }
  clearbody e1.
  destruct (landingPhase e1); try discriminate.
  - destruct (updatePID_Vector3 _ _ _) as [att ao].
    destruct (updatePID_Vector2 _ _ _) as [hor ho].
    destruct (updatePID_scalar _ _ _) as [ver vo].
    intros H; inversion H; subst; clear H.
    destruct e1; cbn in *. exact H1.
  - destruct (updatePID_Vector2 _ _ _) as [hor ho].
    destruct (updatePID_Vector3 _ _ _) as [att ao].
    destruct (updatePID_scalar _ _ _) as [ver vo].
    intros H; inversion H; subst; clear H.
    destruct e1; cbn in *. exact H1.
Qed.

(** The physics step of the return: clock, return parameters, the ship,
    and the controls and propellant of the booster. *)
Lemma return_physics (e : Engine) (v : Vehicle) (dt : R) :
  let e' :=
    updateVehiclePhysics (set_vehicle superHeavy v e) superHeavy dt
      (throttle v >? 0) in
  returnParams e' = returnParams e
  /\ simulationTime e' = simulationTime e
  /\ landingTarget e' = landingTarget e
  /\ vehicles e' starship = vehicles e starship
  /\ throttle (vehicles e' superHeavy) = throttle v
  /\ (throttle v <= 0 -> fuel (vehicles e' superHeavy) = fuel v)
  /\ (landingPhase e' = landingPhase e
      \/ (landingPhase e = final /\ landingPhase e' = touchdown)).
Proof.
  cbv zeta.
  destruct (updateVehiclePhysics_mission (set_vehicle superHeavy v e)
              superHeavy dt (throttle v >? 0)) as [M [O P]].
  destruct (updateVehiclePhysics_stored (set_vehicle superHeavy v e)
              superHeavy dt (throttle v >? 0)) as [C [F _]].
  cbv zeta in M, O, P, C, F.
  set (e' := updateVehiclePhysics _ _ _ _) in *.
  rewrite vehicles_set_vehicle_same in C, F.
  destruct (set_vehicle_frame superHeavy v e) as [S1 [S2 [S3 S4]]].
  cbv zeta in S1, S2, S3, S4.
  unfold sameMission in M.
  destruct M as [_ [_ [_ [_ [_ [M1 [_ [_ [M2 [_ [_ M3]]]]]]]]]]].
  split; [rewrite M3; exact S1|].
  split; [rewrite M2; exact S2|].
  split; [rewrite M1; exact S4|].
  split.
  { rewrite O by discriminate.
    apply vehicles_set_vehicle_other. discriminate. }
  split; [apply C|].
  split.
  - intros Hz. destruct F as [F | [F0 [m [v1 [F1 [F2 [F3 F4]]]]]]];
      [exact F|].
    rewrite F4, integrate_fuel, F3.
    rewrite (gtb_false _ _ Hz). cbn [andb]. exact F1.
  - rewrite S3 in P. destruct P as [P | [P1 [P2 _]]].
    + left. exact P.
    + right. split; assumption.
Qed.

End Return.

Section ReturnSteps.

Import ImprovedPhysicsEngine Motion Frame FlightPhases.

(** A call of [updateBoosterReturn] in the phases 'coast', 'flip' and
    'burn'. *)
Lemma updateBoosterReturn_guided (e : Engine) (rp : ReturnParams) (dt : R) :
  returnParams e = Some rp ->
  phase rp <> rApproach ->
  let now := simulationTime e + dt in
  let due :=
    match phase rp with
    | rCoast => coastDuration rp
    | rFlip => turnDuration rp
    | _ => burnDuration rp
    end in
  let following :=
    match phase rp with
    | rCoast => rFlip
    | rFlip => rBurn
    | _ => rApproach
    end in
  let commanded :=
    match phase rp with
    | rCoast => 0.0
    | rFlip => 0.2
    | _ => 0.6
    end in
  let rp' :=
    if now - startTime rp >=? due
    then mkReturnParams now (coastDuration rp) (turnDuration rp)
                        (burnDuration rp) following
    else rp in
  exists e' r,
    updateBoosterReturn e dt = Some (e', r)
    /\ simulationTime e' = now
    /\ returnParams e' = Some rp'
    /\ returnPhase r = Some (phase rp')
    /\ vehicles e' starship = vehicles e starship
    /\ landingTarget e' = landingTarget e
    /\ rs_throttle r = throttle (vehicles e' superHeavy)
    /\ rs_fuel r = fuel (vehicles e' superHeavy)
    /\ (phase rp' <> rApproach ->
        throttle (vehicles e' superHeavy) = commanded
        /\ (landingPhase e' = landingPhase e
            \/ (landingPhase e = final /\ landingPhase e' = touchdown)))
    /\ (phase rp' = rApproach ->
        0.1 <= throttle (vehicles e' superHeavy) <= 1
        /\ (landingPhase e' = approach \/ landingPhase e' = final))
    /\ (phase rp = rCoast ->
        fuel (vehicles e' superHeavy) = fuel (vehicles e superHeavy)).
Proof.
  intros Hrp Hph. cbv zeta.
  unfold updateBoosterReturn. cbv zeta.
  destruct (set_simulationTime_frame (simulationTime e + dt) e)
    as [T1 [T2 [T3 [T4 T5]]]].
  cbv zeta in T1, T2, T3, T4, T5.
  set (e0 := set_simulationTime (simulationTime e + dt) e) in *.
  rewrite T2, Hrp. unfold returnGuidance. cbv zeta. rewrite T1.
  set (now := simulationTime e + dt).
  set (v := vehicles e superHeavy).
  assert (Guided :
    forall (b : bool) (p : ReturnPhase) (vg : Vehicle) (c : R),
      throttle vg = c -> fuel vg = fuel v ->
      (p = rApproach -> b = true -> False) ->
      let eg :=
        if b
        then set_returnParams
               (Some (mkReturnParams now (coastDuration rp) (turnDuration rp)
                                     (burnDuration rp) p)) e0
        else e0 in
      let rq :=
        if b
        then mkReturnParams now (coastDuration rp) (turnDuration rp)
                            (burnDuration rp) p
        else rp in
      exists e' r,
        match
          (let e1 :=
             updateVehiclePhysics (set_vehicle superHeavy vg eg) superHeavy
               dt (throttle vg >? 0) in
           let vehicle := vehicles e1 superHeavy in
           let approaching :=
             match returnParams e1 with
             | None => true
             | Some rp0 =>
                 match phase rp0 with rApproach => true | _ => false end
             end in
           let controlled :=
             if negb (LandingPhase_eqb (landingPhase e1) none)
                && negb (LandingPhase_eqb (landingPhase e1) touchdown)
                && approaching
             then updateLandingControl e1 vehicle dt
             else Some (e1, vehicle) in
           controlled)
        with
        | None => None
        | Some (e2, vehicle) =>
            let e3 := set_vehicle superHeavy vehicle e2 in
            Some (e3,
                  mkReturnState
                    (position vehicle)
                    (Quaternion.setFromEuler (rotation vehicle))
                    (velocity vehicle) (acceleration vehicle)
                    (rotation vehicle) (fuel vehicle) (throttle vehicle)
                    (LandingPhase_eqb (landingPhase e3) touchdown)
                    (LandingPhase_eqb (landingPhase e3) final
                     && (Vector3.y (position vehicle) <? 100))
                    (option_map phase (returnParams e3))
                    (Vector3.distanceTo (position vehicle)
                                        (landingTarget e3)))
        end = Some (e', r)
        /\ simulationTime e' = now
        /\ returnParams e' = Some rq
        /\ returnPhase r = Some (phase rq)
        /\ vehicles e' starship = vehicles e starship
        /\ landingTarget e' = landingTarget e
        /\ rs_throttle r = throttle (vehicles e' superHeavy)
        /\ rs_fuel r = fuel (vehicles e' superHeavy)
        /\ throttle (vehicles e' superHeavy) = c
        /\ (landingPhase e' = landingPhase e
            \/ (landingPhase e = final /\ landingPhase e' = touchdown))
        /\ (c <= 0 -> fuel (vehicles e' superHeavy) = fuel v)).
  { intros b p vg c Hc Hf Hna. cbv zeta.
    set (eg := if b then _ else e0).
    set (rq := if b then _ else rp).
    assert (G : returnParams eg = Some rq
                /\ simulationTime eg = now
                /\ landingPhase eg = landingPhase e
                /\ landingTarget eg = landingTarget e
                /\ vehicles eg starship = vehicles e starship).
    { unfold eg, rq. destruct b.
      - match goal with
        | |- context [set_returnParams ?a e0] =>
            destruct (set_returnParams_frame a e0) as [A [B [C [D E]]]]
        end.
        cbv zeta in A, B, C, D, E.
        rewrite A, B, C, D, E, T1, T3, T4, T5. repeat split.
      - rewrite T2, T1, T3, T4, T5. repeat split; assumption. }
    destruct G as [G1 [G2 [G3 [G4 G5]]]].
    assert (Hq : phase rq <> rApproach).
    { unfold rq. destruct b; [|exact Hph]. cbn. intros E.
      exact (Hna E eq_refl). }
    clearbody eg rq.
    destruct (return_physics eg vg dt) as [P1 [P2 [P3 [P4 [P5 [P6 P7]]]]]].
    cbv zeta in P1, P2, P3, P4, P5, P6, P7.
    set (e1 := updateVehiclePhysics _ _ _ _) in *.
    rewrite P1, G1.
    replace (match phase rq with rApproach => true | _ => false end)
      with false by (destruct (phase rq); try reflexivity; congruence).
    rewrite andb_false_r.
    eexists; eexists. split; [reflexivity|].
    destruct (set_vehicle_frame superHeavy (vehicles e1 superHeavy) e1)
      as [S1 [S2 [S3 S4]]].
    cbv zeta in S1, S2, S3, S4.
    cbn [returnPhase rs_throttle rs_fuel].
    rewrite vehicles_set_vehicle_same.
    split; [rewrite S2, P2; exact G2|].
    split; [rewrite S1, P1; exact G1|].
    split; [rewrite S1, P1, G1; reflexivity|].
    split.
    { rewrite vehicles_set_vehicle_other by discriminate.
      rewrite P4. exact G5. }
    split; [rewrite S4, P3; exact G4|].
    split; [reflexivity|]. split; [reflexivity|].
    split; [rewrite P5; exact Hc|].
    split.
    - rewrite S3, <- G3. exact P7.
    - intros Hz. rewrite P6 by (rewrite Hc; exact Hz). exact Hf. }
  destruct (phase rp) eqn:Ep; [| | |congruence].
  - (* coast *)
    destruct (Guided (now - startTime rp >=? coastDuration rp) rFlip
                (set_throttle 0.0 v) 0.0)
      as [e' [r [E [A1 [A2 [A3 [A4 [A5 [A6 [A7 [A8 [A9 A10]]]]]]]]]]]].
    { destruct v; reflexivity. }
    { destruct v; reflexivity. }
    { discriminate. }
    cbv zeta in E.
    exists e', r. split; [exact E|].
    split; [exact A1|]. split; [exact A2|]. split; [exact A3|].
    split; [exact A4|]. split; [exact A5|]. split; [exact A6|].
    split; [exact A7|]. split; [intros _; split; assumption|].
    split.
    + intros Ha. exfalso.
      destruct (now - startTime rp >=? coastDuration rp); cbn in Ha;
        congruence.
    + intros _. apply A10. lra.
  - (* flip *)
    destruct (Guided (now - startTime rp >=? turnDuration rp) rBurn
                (turnToward e0 (set_throttle 0.2 v) (0.8 * dt)) 0.2)
      as [e' [r [E [A1 [A2 [A3 [A4 [A5 [A6 [A7 [A8 [A9 A10]]]]]]]]]]]].
    { destruct v; reflexivity. }
    { destruct v; reflexivity. }
    { discriminate. }
    cbv zeta in E.
    exists e', r. split; [exact E|].
    split; [exact A1|]. split; [exact A2|]. split; [exact A3|].
    split; [exact A4|]. split; [exact A5|]. split; [exact A6|].
    split; [exact A7|]. split; [intros _; split; assumption|].
    split.
    + intros Ha. exfalso.
      destruct (now - startTime rp >=? turnDuration rp); cbn in Ha;
        congruence.
    + discriminate.
  - (* burn *)
    destruct (now - startTime rp >=? burnDuration rp) eqn:Eb.
    + (* the burn ends: the landing control takes over *)
      set (vg := turnToward e0 (set_throttle 0.6 v) (0.5 * dt)).
      set (eg := set_landingPhase approach (set_returnParams _ e0)).
      assert (G : returnParams eg
                    = Some (mkReturnParams now (coastDuration rp)
                              (turnDuration rp) (burnDuration rp) rApproach)
                  /\ simulationTime eg = now
                  /\ landingPhase eg = approach
                  /\ landingTarget eg = landingTarget e
                  /\ vehicles eg starship = vehicles e starship).
      { unfold eg.
        match goal with
        | |- context [set_landingPhase approach (set_returnParams ?a e0)] =>
            destruct (set_returnParams_frame a e0) as [A [B [_ [D E]]]];
            destruct (set_landingPhase_frame approach
                        (set_returnParams a e0)) as [A' [B' [C' [D' E']]]]
        end.
        cbv zeta in A, B, D, E, A', B', C', D', E'.
        rewrite A', B', C', D', E', A, B, D, E, T1, T4, T5.
        repeat split. }
      destruct G as [G1 [G2 [G3 [G4 G5]]]]. clearbody eg.
      destruct (return_physics eg vg dt) as [P1 [P2 [P3 [P4 [_ [_ P7]]]]]].
      cbv zeta in P1, P2, P3, P4, P7.
      set (e1 := updateVehiclePhysics _ _ _ _) in *.
      assert (L1 : landingPhase e1 = approach).
      { destruct P7 as [P7 | [P7 _]]; congruence. }
      rewrite P1, G1, L1. cbn [phase LandingPhase_eqb negb andb].
      destruct (updateLandingControl_defined e1 (vehicles e1 superHeavy) dt
                  (or_introl L1)) as [[e2 v2] E2].
      rewrite E2.
      destruct (updateLandingControl_clock _ _ _ _ _ E2) as [C1 [C2 C3]].
      destruct (updateLandingControl_throttle _ _ _ _ _ E2)
        as [H1 [H2 _]].
      destruct (updateLandingControl_frame _ _ _ _ _ E2) as [_ [_ H3]].
      destruct (set_vehicle_frame superHeavy v2 e2) as [S1 [S2 [S3 S4]]].
      cbv zeta in S1, S2, S3, S4.
      eexists; eexists. split; [reflexivity|].
      cbn [returnPhase rs_throttle rs_fuel].
      rewrite vehicles_set_vehicle_same.
      split; [rewrite S2, C2, P2; exact G2|].
      split; [rewrite S1, C1, P1; exact G1|].
      split; [rewrite S1, C1, P1, G1; reflexivity|].
      split.
      { rewrite vehicles_set_vehicle_other by discriminate.
        rewrite H3, P4. exact G5. }
      split; [rewrite S4, C3, P3; exact G4|].
      split; [reflexivity|]. split; [reflexivity|].
      split; [intros Hn; cbn in Hn; congruence|].
      split; [|discriminate].
      intros _. split; [exact H1|]. rewrite S3. exact H2.
    + pose proof (Guided false rApproach
                    (turnToward e0 (set_throttle 0.6 v) (0.5 * dt)) 0.6)
        as G.
      destruct G
        as [e' [r [E [A1 [A2 [A3 [A4 [A5 [A6 [A7 [A8 [A9 A10]]]]]]]]]]]].
      { destruct v; reflexivity. }
      { destruct v; reflexivity. }
      { discriminate. }
      cbv zeta in E.
      exists e', r. split; [exact E|].
      split; [exact A1|]. split; [exact A2|]. split; [exact A3|].
      split; [exact A4|]. split; [exact A5|]. split; [exact A6|].
      split; [exact A7|]. split; [intros _; split; assumption|].
      split; [|discriminate].
      intros Ha. congruence.
Qed.

End ReturnSteps.

(** X17.  The return guidance of [updateBoosterReturn] walks through its
    phases in the order coast, flip, burn, approach, by the simulation
    clock.  A call in one of the first three phases advances the clock by
    [deltaTime]; the phase ends with the first call at which the time
    since the phase began has reached its duration, and then the next
    phase begins at the new clock time; durations, landing target and
    the ship are left alone, and the call reports the phase it leaves.
    The time step is positive (the landing control that takes over when
    the burn ends divides by it). *)
Theorem return_phases_follow_the_clock
    (e : ImprovedPhysicsEngine.Engine)
    (rp : ImprovedPhysicsEngine.ReturnParams) (dt : R) :
  0 < dt ->
  ImprovedPhysicsEngine.returnParams e = Some rp ->
  ImprovedPhysicsEngine.phase rp <> ImprovedPhysicsEngine.rApproach ->
  let now := ImprovedPhysicsEngine.simulationTime e + dt in
  let due :=
    match ImprovedPhysicsEngine.phase rp with
    | ImprovedPhysicsEngine.rCoast => ImprovedPhysicsEngine.coastDuration rp
    | ImprovedPhysicsEngine.rFlip => ImprovedPhysicsEngine.turnDuration rp
    | _ => ImprovedPhysicsEngine.burnDuration rp
    end in
  let following :=
    match ImprovedPhysicsEngine.phase rp with
    | ImprovedPhysicsEngine.rCoast => ImprovedPhysicsEngine.rFlip
    | ImprovedPhysicsEngine.rFlip => ImprovedPhysicsEngine.rBurn
    | _ => ImprovedPhysicsEngine.rApproach
    end in
  let rp' :=
    if now - ImprovedPhysicsEngine.startTime rp >=? due
    then ImprovedPhysicsEngine.mkReturnParams now
           (ImprovedPhysicsEngine.coastDuration rp)
           (ImprovedPhysicsEngine.turnDuration rp)
           (ImprovedPhysicsEngine.burnDuration rp) following
    else rp in
  exists e' r,
    FlightPhases.updateBoosterReturn e dt = Some (e', r)
    /\ ImprovedPhysicsEngine.simulationTime e' = now
    /\ ImprovedPhysicsEngine.returnParams e' = Some rp'
    /\ FlightPhases.returnPhase r = Some (ImprovedPhysicsEngine.phase rp')
    /\ ImprovedPhysicsEngine.landingTarget e'
       = ImprovedPhysicsEngine.landingTarget e
    /\ ImprovedPhysicsEngine.vehicles e' ImprovedPhysicsEngine.starship
       = ImprovedPhysicsEngine.vehicles e ImprovedPhysicsEngine.starship.
Proof.
  intros _ Hrp Hph.
  destruct (updateBoosterReturn_guided e rp dt Hrp Hph)
    as [e' [r [E [A1 [A2 [A3 [A4 [A5 _]]]]]]]].
  cbv zeta in *. exists e', r.
  repeat split; assumption.
Qed.

Lemma return_phases_follow_the_clock_witness :
  exists e' r,
    FlightPhases.updateBoosterReturn
      (ImprovedPhysicsEngine.initializeBoosterReturn
         ImprovedPhysicsEngine.newEngine) 10
    = Some (e', r)
    /\ FlightPhases.returnPhase r = Some ImprovedPhysicsEngine.rFlip.
Proof.
  destruct (return_phases_follow_the_clock
              (ImprovedPhysicsEngine.initializeBoosterReturn
                 ImprovedPhysicsEngine.newEngine)
              (ImprovedPhysicsEngine.mkReturnParams 0 10.0 5.0 15.0
                 ImprovedPhysicsEngine.rCoast)
              10 ltac:(lra) eq_refl ltac:(discriminate))
    as [e' [r [E [_ [_ [P _]]]]]].
  exists e', r. split; [exact E|].
  rewrite P. cbn.
  js_case (0 + 10 - 0 >=? 10.0); [reflexivity | lra].
Defined.

(** X18.  The return guidance commands the booster's throttle by phase:
    none while coasting, 0.2 in the flip and 0.6 in the burn, whatever
    the throttle was before; the call that ends the burn hands over to
    the landing control in phase 'approach' or 'final', whose command
    lies between 0.1 and 1 for a positive time step.  While coasting the
    booster uses no propellant. *)
Theorem return_throttle_by_phase
    (e : ImprovedPhysicsEngine.Engine)
    (rp : ImprovedPhysicsEngine.ReturnParams) (dt : R) :
  0 < dt ->
  ImprovedPhysicsEngine.returnParams e = Some rp ->
  ImprovedPhysicsEngine.phase rp <> ImprovedPhysicsEngine.rApproach ->
  exists e' r,
    FlightPhases.updateBoosterReturn e dt = Some (e', r)
    /\ FlightPhases.rs_throttle r
       = ImprovedPhysicsEngine.throttle
           (ImprovedPhysicsEngine.vehicles e'
              ImprovedPhysicsEngine.superHeavy)
    /\ FlightPhases.rs_fuel r
       = ImprovedPhysicsEngine.fuel
           (ImprovedPhysicsEngine.vehicles e'
              ImprovedPhysicsEngine.superHeavy)
    /\ (ImprovedPhysicsEngine.phase rp = ImprovedPhysicsEngine.rCoast ->
        FlightPhases.rs_throttle r = 0
        /\ FlightPhases.rs_fuel r
           = ImprovedPhysicsEngine.fuel
               (ImprovedPhysicsEngine.vehicles e
                  ImprovedPhysicsEngine.superHeavy))
    /\ (ImprovedPhysicsEngine.phase rp = ImprovedPhysicsEngine.rFlip ->
        FlightPhases.rs_throttle r = 0.2)
    /\ (ImprovedPhysicsEngine.phase rp = ImprovedPhysicsEngine.rBurn ->
        if ImprovedPhysicsEngine.simulationTime e + dt
           - ImprovedPhysicsEngine.startTime rp
           >=? ImprovedPhysicsEngine.burnDuration rp
        then 0.1 <= FlightPhases.rs_throttle r <= 1
             /\ (ImprovedPhysicsEngine.landingPhase e'
                 = ImprovedPhysicsEngine.approach
                 \/ ImprovedPhysicsEngine.landingPhase e'
                    = ImprovedPhysicsEngine.final)
        else FlightPhases.rs_throttle r = 0.6).
Proof.
  intros _ Hrp Hph.
  destruct (updateBoosterReturn_guided e rp dt Hrp Hph)
    as [e' [r [E [_ [_ [_ [_ [_ [A6 [A7 [A8 [A9 A10]]]]]]]]]]]].
  cbv zeta in A8, A9. exists e', r.
  split; [exact E|]. split; [exact A6|]. split; [exact A7|].
  rewrite A6, A7.
  destruct (ImprovedPhysicsEngine.phase rp) eqn:Ep; [| | |congruence];
    match type of A8 with
    | context [if ?c then _ else _] => destruct c eqn:Ec
    end;
    cbn [ImprovedPhysicsEngine.phase] in A8, A9; rewrite ?Ep in A8, A9;
    (split; [|split]); try discriminate; intros _.
  - destruct A8 as [A8 _]; [discriminate|].
    split; [lra | apply A10; reflexivity].
  - destruct A8 as [A8 _]; [discriminate|].
    split; [lra | apply A10; reflexivity].
  - destruct A8 as [A8 _]; [discriminate|]. lra.
  - destruct A8 as [A8 _]; [discriminate|]. lra.
  - apply A9. reflexivity.
  - destruct A8 as [A8 _]; [discriminate|]. lra.
Qed.

Lemma return_throttle_by_phase_witness :
  exists e' r,
    FlightPhases.updateBoosterReturn
      (ImprovedPhysicsEngine.initializeBoosterReturn
         ImprovedPhysicsEngine.newEngine) 1
    = Some (e', r)
    /\ FlightPhases.rs_throttle r = 0
    /\ FlightPhases.rs_fuel r = 3400000.
Proof.
  destruct (return_throttle_by_phase
              (ImprovedPhysicsEngine.initializeBoosterReturn
                 ImprovedPhysicsEngine.newEngine)
              (ImprovedPhysicsEngine.mkReturnParams 0 10.0 5.0 15.0
                 ImprovedPhysicsEngine.rCoast)
              1 ltac:(lra) eq_refl ltac:(discriminate))
    as [e' [r [E [_ [_ [P _]]]]]].
  exists e', r. split; [exact E|]. exact (P eq_refl).
Defined.

Section ReturnApproach.

Import ImprovedPhysicsEngine Motion Frame FlightPhases.

(** The landing control moves the landing phase from 'approach' to
    'final' at most. *)
Lemma updateLandingControl_phase (e e' : Engine) (v v' : Vehicle) (dt : R) :
  updateLandingControl e v dt = Some (e', v') ->
  (landingPhase e = approach /\ landingPhase e' = approach)
  \/ (landingPhase e = approach /\ landingPhase e' = final)
  \/ (landingPhase e = final /\ landingPhase e' = final).
Proof.
  unfold updateLandingControl.
  match goal with
  | |- context [if ?c then set_landingPhase final e else e] =>
      set (e1 := if c then set_landingPhase final e else e)
  end.
  assert (H1 : (landingPhase e = approach /\ landingPhase e1 = final)
               \/ landingPhase e1 = landingPhase e).
  { unfold e1.
    destruct (LandingPhase_eqb (landingPhase e) approach) eqn:Ea;
      cbn [andb]; [|right; reflexivity].
    match goal with |- context [if ?t then _ else _] => destruct t end;
      [|right; reflexivity].
    left. split; [|destruct e; reflexivity].
    destruct (landingPhase e); try discriminate; reflexivity. }
  clearbody e1.
  destruct (landingPhase e1) eqn:Ep; try discriminate.
  - destruct (updatePID_Vector3 _ _ _) as [att ao].
    destruct (updatePID_Vector2 _ _ _) as [hor ho].
    destruct (updatePID_scalar _ _ _) as [ver vo].
    intros H; inversion H; subst; clear H.
    left. destruct H1 as [[_ H1] | H1]; [discriminate|].
    split; [congruence|]. destruct e1; exact Ep.
  - destruct (updatePID_Vector2 _ _ _) as [hor ho].
    destruct (updatePID_Vector3 _ _ _) as [att ao].
    destruct (updatePID_scalar _ _ _) as [ver vo].
    intros H; inversion H; subst; clear H.
    right. destruct H1 as [[H0 _] | H1].
    + left. split; [exact H0|]. destruct e1; exact Ep.
    + right. split; [congruence|]. destruct e1; exact Ep.
Qed.

End ReturnApproach.

(** X19.  In the approach phase of the return, with the landing phase
    'none', 'approach' or 'final' ('final' with the landing settings
    installed) and a positive time step, [updateBoosterReturn] runs the
    landing control: the throttle it reports lies between 0.1 and 1, the
    return parameters and the ship are left alone, the clock advances by
    [deltaTime], and the landing phase only moves forward, from
    'approach' to 'final' to 'touchdown', 'none' counting as
    'approach'. *)
Theorem return_approach_is_controlled
    (e : ImprovedPhysicsEngine.Engine)
    (rp : ImprovedPhysicsEngine.ReturnParams) (dt : R) :
  0 < dt ->
  ImprovedPhysicsEngine.returnParams e = Some rp ->
  ImprovedPhysicsEngine.phase rp = ImprovedPhysicsEngine.rApproach ->
  ImprovedPhysicsEngine.landingPhase e = ImprovedPhysicsEngine.none
  \/ ImprovedPhysicsEngine.landingPhase e = ImprovedPhysicsEngine.approach
  \/ ImprovedPhysicsEngine.landingPhase e = ImprovedPhysicsEngine.final ->
  (ImprovedPhysicsEngine.landingPhase e = ImprovedPhysicsEngine.final ->
   ImprovedPhysicsEngine.landingStartAltitude e <> None) ->
  exists e' r,
    FlightPhases.updateBoosterReturn e dt = Some (e', r)
    /\ ImprovedPhysicsEngine.simulationTime e'
       = ImprovedPhysicsEngine.simulationTime e + dt
    /\ ImprovedPhysicsEngine.returnParams e' = Some rp
    /\ FlightPhases.returnPhase r = Some ImprovedPhysicsEngine.rApproach
    /\ ImprovedPhysicsEngine.vehicles e' ImprovedPhysicsEngine.starship
       = ImprovedPhysicsEngine.vehicles e ImprovedPhysicsEngine.starship
    /\ FlightPhases.rs_throttle r
       = ImprovedPhysicsEngine.throttle
           (ImprovedPhysicsEngine.vehicles e'
              ImprovedPhysicsEngine.superHeavy)
    /\ 0.1 <= FlightPhases.rs_throttle r <= 1
    /\ (ImprovedPhysicsEngine.landingPhase e'
        = ImprovedPhysicsEngine.touchdown
        \/ ImprovedPhysicsEngine.landingPhase e'
           = ImprovedPhysicsEngine.final
        \/ (ImprovedPhysicsEngine.landingPhase e'
            = ImprovedPhysicsEngine.approach
            /\ ImprovedPhysicsEngine.landingPhase e
               <> ImprovedPhysicsEngine.final))
    /\ FlightPhases.rs_landingComplete r
       = ImprovedPhysicsEngine.LandingPhase_eqb
           (ImprovedPhysicsEngine.landingPhase e')
           ImprovedPhysicsEngine.touchdown.
Proof.
  intros _ Hrp Hph Hlp _.
  unfold FlightPhases.updateBoosterReturn. cbv zeta.
  destruct (set_simulationTime_frame
              (ImprovedPhysicsEngine.simulationTime e + dt) e)
    as [T1 [T2 [T3 [T4 T5]]]].
  cbv zeta in T1, T2, T3, T4, T5.
  set (e0 := FlightPhases.set_simulationTime _ e) in *.
  rewrite T2, Hrp. unfold FlightPhases.returnGuidance. cbv zeta.
  rewrite Hph.
  set (v := ImprovedPhysicsEngine.vehicles e
              ImprovedPhysicsEngine.superHeavy).
  set (e0' := if ImprovedPhysicsEngine.LandingPhase_eqb _ _
              then ImprovedPhysicsEngine.set_landingPhase _ e0 else e0).
  assert (G : (ImprovedPhysicsEngine.landingPhase e0'
               = ImprovedPhysicsEngine.approach
               /\ ImprovedPhysicsEngine.landingPhase e
                  <> ImprovedPhysicsEngine.final
               \/ ImprovedPhysicsEngine.landingPhase e0'
                  = ImprovedPhysicsEngine.final)
              /\ ImprovedPhysicsEngine.returnParams e0' = Some rp
              /\ ImprovedPhysicsEngine.simulationTime e0'
                 = ImprovedPhysicsEngine.simulationTime e + dt
              /\ ImprovedPhysicsEngine.vehicles e0'
                   ImprovedPhysicsEngine.starship
                 = ImprovedPhysicsEngine.vehicles e
                     ImprovedPhysicsEngine.starship).
  { unfold e0'. rewrite T3.
    destruct Hlp as [Hn | [Ha | Hf]].
    - rewrite Hn. cbn [ImprovedPhysicsEngine.LandingPhase_eqb].
      destruct (set_landingPhase_frame ImprovedPhysicsEngine.approach e0)
        as [A [B [C [_ D]]]].
      cbv zeta in A, B, C, D. rewrite A, B, C, D, T1, T2, T5.
      split; [left; split; [reflexivity | congruence]|].
      repeat split. exact Hrp.
    - rewrite Ha. cbn [ImprovedPhysicsEngine.LandingPhase_eqb].
      rewrite T1, T2, T3, T5.
      split; [left; split; [exact Ha | congruence]|].
      repeat split. exact Hrp.
    - rewrite Hf. cbn [ImprovedPhysicsEngine.LandingPhase_eqb].
      rewrite T1, T2, T3, T5.
      split; [right; exact Hf|]. repeat split. exact Hrp. }
  destruct G as [G0 [G1 [G2 G3]]]. clearbody e0'.
  assert (G0' : ImprovedPhysicsEngine.landingPhase e0'
                = ImprovedPhysicsEngine.approach
                \/ ImprovedPhysicsEngine.landingPhase e0'
                   = ImprovedPhysicsEngine.final) by tauto.
  destruct (updateLandingControl_defined e0' v dt G0') as [[eg vg] Eg].
  rewrite Eg.
  destruct (updateLandingControl_clock _ _ _ _ _ Eg) as [C1 [C2 _]].
  destruct (updateLandingControl_throttle _ _ _ _ _ Eg) as [H1 _].
  destruct (updateLandingControl_frame _ _ _ _ _ Eg) as [_ [_ H3]].
  pose proof (updateLandingControl_phase _ _ _ _ _ Eg) as H4.
  destruct (return_physics eg vg dt) as [P1 [P2 [_ [P4 [P5 [_ P7]]]]]].
  cbv zeta in P1, P2, P4, P5, P7.
  set (e1 := ImprovedPhysicsEngine.updateVehiclePhysics _ _ _ _) in *.
  rewrite P1, C1, G1, Hph.
  assert (L1 : (ImprovedPhysicsEngine.landingPhase e1
                = ImprovedPhysicsEngine.touchdown)
               \/ (ImprovedPhysicsEngine.landingPhase e1
                   = ImprovedPhysicsEngine.final)
               \/ (ImprovedPhysicsEngine.landingPhase e1
                   = ImprovedPhysicsEngine.approach
                   /\ ImprovedPhysicsEngine.landingPhase e
                      <> ImprovedPhysicsEngine.final)).
  { destruct P7 as [P7 | [_ P7]]; [|left; exact P7].
    rewrite P7.
    destruct H4 as [[Ha Hb] | [[Ha Hb] | [Ha Hb]]].
    - right. right. split; [exact Hb|].
      destruct G0 as [[_ G0] | G0]; [exact G0 | congruence].
    - right. left. exact Hb.
    - right. left. exact Hb. }
  destruct L1 as [L1 | L1].
  - (* touched down during the step *)
    rewrite L1. cbn [ImprovedPhysicsEngine.LandingPhase_eqb negb andb].
    destruct (set_vehicle_frame ImprovedPhysicsEngine.superHeavy
                (ImprovedPhysicsEngine.vehicles e1
                   ImprovedPhysicsEngine.superHeavy) e1)
      as [S1 [S2 [S3 _]]].
    cbv zeta in S1, S2, S3.
    eexists; eexists. split; [reflexivity|].
    cbn [FlightPhases.returnPhase FlightPhases.rs_throttle
         FlightPhases.rs_landingComplete].
    rewrite vehicles_set_vehicle_same.
    split; [rewrite S2, P2, C2; exact G2|].
    split; [rewrite S1, P1, C1; exact G1|].
    split; [rewrite S1, P1, C1, G1; cbn; rewrite Hph; reflexivity|].
    split.
    { rewrite vehicles_set_vehicle_other by discriminate.
      rewrite P4, H3. exact G3. }
    split; [reflexivity|].
    split; [rewrite P5; exact H1|].
    split; [left; rewrite S3; exact L1 | reflexivity].
  - assert (L2 : ImprovedPhysicsEngine.landingPhase e1
                 = ImprovedPhysicsEngine.approach
                 \/ ImprovedPhysicsEngine.landingPhase e1
                    = ImprovedPhysicsEngine.final) by tauto.
    replace (negb (ImprovedPhysicsEngine.LandingPhase_eqb
                     (ImprovedPhysicsEngine.landingPhase e1)
                     ImprovedPhysicsEngine.none)
             && negb (ImprovedPhysicsEngine.LandingPhase_eqb
                        (ImprovedPhysicsEngine.landingPhase e1)
                        ImprovedPhysicsEngine.touchdown)
             && true) with true
      by (destruct L2 as [-> | ->]; reflexivity).
    destruct (updateLandingControl_defined e1
                (ImprovedPhysicsEngine.vehicles e1
                   ImprovedPhysicsEngine.superHeavy) dt L2)
      as [[e2 v2] E2].
    rewrite E2.
    destruct (updateLandingControl_clock _ _ _ _ _ E2) as [D1 [D2 _]].
    destruct (updateLandingControl_throttle _ _ _ _ _ E2) as [K1 _].
    destruct (updateLandingControl_frame _ _ _ _ _ E2) as [_ [_ K3]].
    pose proof (updateLandingControl_phase _ _ _ _ _ E2) as K4.
    destruct (set_vehicle_frame ImprovedPhysicsEngine.superHeavy v2 e2)
      as [S1 [S2 [S3 _]]].
    cbv zeta in S1, S2, S3.
    eexists; eexists. split; [reflexivity|].
    cbn [FlightPhases.returnPhase FlightPhases.rs_throttle
         FlightPhases.rs_landingComplete].
    rewrite vehicles_set_vehicle_same.
    split; [rewrite S2, D2, P2, C2; exact G2|].
    split; [rewrite S1, D1, P1, C1; exact G1|].
    split; [rewrite S1, D1, P1, C1, G1; cbn; rewrite Hph; reflexivity|].
    split.
    { rewrite vehicles_set_vehicle_other by discriminate.
      rewrite K3, P4, H3. exact G3. }
    split; [reflexivity|].
    split; [exact K1|].
    split; [|reflexivity].
    rewrite S3. right.
    destruct K4 as [[Ka Kb] | [[Ka Kb] | [Ka Kb]]].
    + right. split; [exact Kb|].
      destruct L1 as [L1 | [_ L1]]; [congruence | exact L1].
    + left. exact Kb.
    + left. exact Kb.
Qed.

Lemma return_approach_is_controlled_witness :
  exists e' r,
    FlightPhases.updateBoosterReturn
      (ImprovedPhysicsEngine.set_returnParams
         (Some (ImprovedPhysicsEngine.mkReturnParams 30 10.0 5.0 15.0
                  ImprovedPhysicsEngine.rApproach))
         ImprovedPhysicsEngine.newEngine) 1
    = Some (e', r)
    /\ 0.1 <= FlightPhases.rs_throttle r <= 1.
Proof.
  destruct (return_approach_is_controlled
              (ImprovedPhysicsEngine.set_returnParams
                 (Some (ImprovedPhysicsEngine.mkReturnParams 30 10.0 5.0
                          15.0 ImprovedPhysicsEngine.rApproach))
                 ImprovedPhysicsEngine.newEngine)
              (ImprovedPhysicsEngine.mkReturnParams 30 10.0 5.0 15.0
                 ImprovedPhysicsEngine.rApproach)
              1 ltac:(lra) eq_refl eq_refl (or_introl eq_refl)
              ltac:(cbn; discriminate))
    as [e' [r [E [_ [_ [_ [_ [_ [P _]]]]]]]]].
  exists e', r. split; [exact E | exact P].
Defined.

(** ** The booster's landing sequence *)

Section Landing.

Import ImprovedPhysicsEngine Motion Frame FlightPhases.

(** The fins after the deployment block. *)
Lemma moveGridFins_range (tables : LandingTables) (fins : GridFins)
    (altitude deltaTime : R) :
  let fins' := moveGridFins tables fins altitude deltaTime in
  0 <= gf_deploymentRate fins * deltaTime ->
  0 <= gf_effectiveness fins <= 1 ->
  0 <= gf_effectiveness fins' <= 1
  /\ gf_deploymentRate fins' = gf_deploymentRate fins
  /\ gf_dragContribution fins' = gf_dragContribution fins
  /\ (gf_deployed fins = false ->
      gf_effectiveness fins <= gf_effectiveness fins'
      /\ (gf_deployed fins' = true -> gf_effectiveness fins' = 1))
  /\ (gf_deployed fins = true ->
      gf_effectiveness fins' <= gf_effectiveness fins
      /\ (gf_deployed fins' = false -> gf_effectiveness fins' = 0)).
Proof.
  cbv zeta. intros Hr He. unfold moveGridFins.
  destruct fins as [dep eff dc rate]. cbn in *.
  destruct dep; cbn [negb andb];
    rewrite ?andb_false_r, ?andb_true_r;
    repeat match goal with
           | |- context [if ?c then _ else _] =>
               first [js_case c | destruct c]
           end;
    cbn; repeat (split || intro); try congruence; lra.
Qed.

(** The legs after the deployment block. *)
Lemma moveLandingLegs_range (tables : LandingTables) (rate : R)
    (legs : LandingLegs) (altitude deltaTime : R) :
  let legs' := moveLandingLegs tables rate legs altitude deltaTime in
  0 <= rate * deltaTime ->
  0 <= ll_deploymentProgress legs <= 1 ->
  0 <= ll_deploymentProgress legs' <= 1
  /\ ll_deploymentProgress legs <= ll_deploymentProgress legs'
  /\ (ll_deployed legs = true -> legs' = legs)
  /\ (ll_deployed legs' = true ->
      ll_deployed legs = true \/ ll_deploymentProgress legs' = 1)
  /\ (landingLegDeployAltitude tables < altitude -> legs' = legs).
Proof.
  cbv zeta. intros Hr Hp. unfold moveLandingLegs.
  destruct legs as [dep prog]. cbn in *.
  js_case (altitude <=? landingLegDeployAltitude tables); cbn [andb];
    destruct dep; cbn [negb];
    repeat match goal with
           | |- context [if ?c then _ else _] =>
               first [js_case c | destruct c]
           end;
    cbn; repeat (split || intro); try congruence; try lra;
    try (left; reflexivity); try (right; lra).
Qed.

(** What the phase-specific block leaves of the booster. *)
Lemma phaseBehavior_frame (tables : LandingTables) (e : Engine)
    (phase : LandingPhase) (cpt : R) (fins : GridFins) (hp : Vector2.t)
    (altitude dt : R) (pid : PIDControllers) (booster : Vehicle) :
  let booster' :=
    snd (phaseBehavior tables e phase cpt fins hp altitude dt pid booster) in
  gridFins booster' = gridFins booster
  /\ landingLegs booster' = landingLegs booster
  /\ heatShield booster' = heatShield booster
  /\ fuel booster' = fuel booster
  /\ maxThrust booster' = maxThrust booster
  /\ position booster' = position booster
  /\ velocity booster' = velocity booster.
Proof.
  cbv zeta. unfold phaseBehavior.
  destruct phase; cbv zeta;
    repeat match goal with
           | |- context [let '(_, _) := ?t in _] => destruct t
           | |- context [if ?c then _ else _] => destruct c
           end;
    destruct booster; cbn; repeat split.
Qed.

Lemma sameWorld_refl (e : Engine) : sameWorld e e.
Proof. unfold sameWorld; repeat split. Qed.

Lemma sameWorld_trans (a b c : Engine) :
  sameWorld a b -> sameWorld b c -> sameWorld a c.
Proof.
  unfold sameWorld. intros H1 H2.
  repeat match goal with H : _ /\ _ |- _ => destruct H end.
  repeat split; congruence.
Qed.

Lemma sameWorld_set_simulationTime (a : R) (e : Engine) :
  sameWorld e (set_simulationTime a e)
  /\ simulationTime (set_simulationTime a e) = a
  /\ landingPhase (set_simulationTime a e) = landingPhase e
  /\ landingParams (set_simulationTime a e) = landingParams e
  /\ pidControllers (set_simulationTime a e) = pidControllers e.
Proof. destruct e; unfold sameWorld; cbn; repeat split. Qed.

Lemma sameWorld_set_landingParams (a : LandingParams) (e : Engine) :
  sameWorld e (set_landingParams a e)
  /\ simulationTime (set_landingParams a e) = simulationTime e
  /\ landingPhase (set_landingParams a e) = landingPhase e
  /\ landingParams (set_landingParams a e) = a
  /\ pidControllers (set_landingParams a e) = pidControllers e.
Proof. destruct e; unfold sameWorld; cbn; repeat split. Qed.

Lemma sameWorld_set_landingPhase (a : LandingPhase) (e : Engine) :
  sameWorld e (set_landingPhase a e)
  /\ simulationTime (set_landingPhase a e) = simulationTime e
  /\ landingPhase (set_landingPhase a e) = a
  /\ landingParams (set_landingPhase a e) = landingParams e
  /\ pidControllers (set_landingPhase a e) = pidControllers e.
Proof. destruct e; unfold sameWorld; cbn; repeat split. Qed.

Lemma sameWorld_set_pidControllers (a : PIDControllers) (e : Engine) :
  sameWorld e (set_pidControllers a e)
  /\ simulationTime (set_pidControllers a e) = simulationTime e
  /\ landingPhase (set_pidControllers a e) = landingPhase e
  /\ landingParams (set_pidControllers a e) = landingParams e.
Proof. destruct e; unfold sameWorld; cbn; repeat split. Qed.

Lemma updateThermalState_sameWorld (e e' : Engine) (v : Vehicle)
    (altitude dt : R) :
  sameWorld e e' ->
  updateThermalState e' v altitude dt = updateThermalState e v altitude dt.
Proof.
  intros [_ [H1 [H2 _]]].
  unfold updateThermalState, calculateHeatingRate, calculateAirDensity.
  rewrite H1, H2. reflexivity.
Qed.

Lemma updateThermalState_frame (e : Engine) (v : Vehicle) (altitude dt : R) :
  let v' := updateThermalState e v altitude dt in
  gridFins v' = gridFins v /\ landingLegs v' = landingLegs v
  /\ fuel v' = fuel v /\ maxThrust v' = maxThrust v
  /\ position v' = position v /\ velocity v' = velocity v.
Proof. destruct v; cbn; repeat split. Qed.

Lemma nextLandingPhase_unmoved (tables : LandingTables)
    (phase : LandingPhase) (altitude cpt : R) :
  snd (nextLandingPhase tables phase altitude cpt) = false ->
  fst (nextLandingPhase tables phase altitude cpt) = phase.
Proof.
  unfold nextLandingPhase.
  repeat match goal with
         | |- context [if ?c then _ else _] => destruct c
         end; cbn; congruence.
Qed.

(** The phase bookkeeping of [updateBoosterLanding]. *)
Lemma trackLandingPhase_spec (tables : LandingTables) (e : Engine)
    (altitude : R) :
  let now := simulationTime e in
  let starting := LandingPhase_eqb (landingPhase e) none in
  let phase0 := if starting then descent else landingPhase e in
  let start0 := if starting then now else phaseStartTime (landingParams e) in
  let next := nextLandingPhase tables phase0 altitude (now - start0) in
  let e' := trackLandingPhase tables e altitude in
  sameWorld e e'
  /\ simulationTime e' = now
  /\ landingPhase e' = fst next
  /\ landingParams e'
     = mkLandingParams (if snd next then now else start0) (now - start0)
  /\ pidControllers e' = pidControllers e.
Proof.
  cbv zeta. unfold trackLandingPhase.
  set (e1 := if LandingPhase_eqb (landingPhase e) none then _ else e).
  assert (F1 : sameWorld e e1
               /\ simulationTime e1 = simulationTime e
               /\ landingPhase e1
                  = (if LandingPhase_eqb (landingPhase e) none
                     then descent else landingPhase e)
               /\ phaseStartTime (landingParams e1)
                  = (if LandingPhase_eqb (landingPhase e) none
                     then simulationTime e
                     else phaseStartTime (landingParams e))
               /\ pidControllers e1 = pidControllers e).
  { unfold e1. destruct (LandingPhase_eqb (landingPhase e) none).
    - destruct (sameWorld_set_landingPhase descent e)
        as [W1 [A1 [B1 [C1 D1]]]].
      match goal with
      | |- context [set_landingParams ?p (set_landingPhase descent e)] =>
          destruct (sameWorld_set_landingParams p
                      (set_landingPhase descent e))
            as [W2 [A2 [B2 [C2 D2]]]]
      end.
      split; [eapply sameWorld_trans; eassumption|].
      rewrite A2, B2, C2, D2, A1, B1, D1. cbn.
      split; [reflexivity|]. split; [reflexivity|].
      split; reflexivity.
    - split; [apply sameWorld_refl|]. repeat split. }
  destruct F1 as [W1 [A1 [B1 [C1 D1]]]]. clearbody e1.
  cbv zeta. rewrite A1, C1.
  set (now := simulationTime e) in *.
  set (start0 := if LandingPhase_eqb (landingPhase e) none then now else _)
    in *.
  set (phase0 := if LandingPhase_eqb (landingPhase e) none then descent
                 else _) in *.
  set (cpt := now - start0).
  match goal with
  | |- context [set_landingParams ?p e1] =>
      destruct (sameWorld_set_landingParams p e1) as [W2 [A2 [B2 [C2 D2]]]];
      set (e2 := set_landingParams p e1) in *
  end.
  rewrite B2, B1.
  pose proof (nextLandingPhase_unmoved tables phase0 altitude cpt) as Hun.
  destruct (nextLandingPhase tables phase0 altitude cpt) as [phase1 moved].
  cbn [fst snd] in Hun |- *.
  destruct moved.
  - destruct (sameWorld_set_landingPhase phase1 e2)
      as [W3 [A3 [B3 [C3 D3]]]].
    match goal with
    | |- context [set_landingParams ?p (set_landingPhase phase1 e2)] =>
        destruct (sameWorld_set_landingParams p (set_landingPhase phase1 e2))
          as [W4 [A4 [B4 [C4 D4]]]]
    end.
    split.
    { eapply sameWorld_trans; [exact W1|].
      eapply sameWorld_trans; [exact W2|].
      eapply sameWorld_trans; eassumption. }
    rewrite A4, B4, C4, D4, A3, B3, D3, A2, D2, A1, D1.
    split; [reflexivity|]. split; [reflexivity|].
    split; reflexivity.
  - split; [eapply sameWorld_trans; eassumption|].
    rewrite A2, B2, C2, D2, A1, B1, D1.
    split; [reflexivity|]. split; [symmetry; apply Hun; reflexivity|].
    split; reflexivity.
Qed.

Lemma commandThrottle_spec (phase : LandingPhase) (pid : PIDControllers)
    (baseThrottle dt : R) (booster : Vehicle) :
  let booster' := snd (commandThrottle phase pid baseThrottle dt booster) in
  0 <= throttle booster' <= 1
  /\ (phase <> landing -> phase <> touchdown ->
      throttle booster' = JS.min 1.0 (JS.max 0.0 baseThrottle))
  /\ gridFins booster' = gridFins booster
  /\ landingLegs booster' = landingLegs booster
  /\ heatShield booster' = heatShield booster
  /\ fuel booster' = fuel booster
  /\ maxThrust booster' = maxThrust booster
  /\ position booster' = position booster
  /\ velocity booster' = velocity booster.
Proof.
  cbv zeta. unfold commandThrottle.
  assert (Hclamp : forall x, 0 <= JS.min 1.0 (JS.max 0.0 x) <= 1).
  { intros x. unfold JS.min, JS.max.
    pose proof (Rmin_l 1.0 (Rmax 0.0 x)).
    pose proof (Rmax_l 0.0 x).
    split; [apply Rmin_glb; lra | lra]. }
  destruct (LandingPhase_eqb phase landing || LandingPhase_eqb phase touchdown)
    eqn:Ep.
  - destruct (updatePID_scalar _ _ _) as [ver vc]. cbn [snd].
    destruct booster; cbn.
    split; [apply Hclamp|]. split; [|repeat split].
    intros H1 H2. destruct phase; cbn in Ep; congruence.
  - cbn [snd]. destruct booster; cbn.
    split; [apply Hclamp|]. repeat split.
Qed.

Lemma commandAttitude_spec (e : Engine) (pid : PIDControllers)
    (fins : GridFins) (altitude dt : R) (booster : Vehicle) :
  let booster' := snd (commandAttitude e pid fins altitude dt booster) in
  throttle booster' = throttle booster
  /\ gridFins booster' = gridFins booster
  /\ landingLegs booster' = landingLegs booster
  /\ heatShield booster' = heatShield booster
  /\ fuel booster' = fuel booster
  /\ maxThrust booster' = maxThrust booster
  /\ position booster' = position booster
  /\ velocity booster' = velocity booster.
Proof.
  cbv zeta. unfold commandAttitude.
  destruct (updatePID_Vector3 _ _ _) as [att ac]. cbv zeta.
  repeat match goal with
         | |- context [if ?c then _ else _] => destruct c
         end;
    destruct booster; cbn; repeat split.
Qed.

(** The base throttle of the phases before the landing burn. *)
Lemma phaseBehavior_base (tables : LandingTables) (e : Engine)
    (phase : LandingPhase) (cpt : R) (fins : GridFins) (hp : Vector2.t)
    (altitude dt : R) (pid : PIDControllers) (booster : Vehicle) :
  phase <> landing -> phase <> touchdown ->
  fst (fst (phaseBehavior tables e phase cpt fins hp altitude dt pid booster))
  = match phase with
    | coast => coastThrottle tables
    | boostback => boostbackThrottle tables
    | entry => entryThrottle tables
    | descent => descentThrottle tables
    | _ => 0
    end.
Proof.
  intros H1 H2. unfold phaseBehavior.
  destruct phase; try congruence; cbv zeta;
    repeat match goal with
           | |- context [let '(_, _) := ?t in _] => destruct t
           | |- context [if ?c then _ else _] => destruct c
           end;
    reflexivity.
Qed.

End Landing.

Section LandingShape.

Import ImprovedPhysicsEngine Motion Frame FlightPhases.

(** A call of [updateBoosterLanding] on a booster with grid fins. *)
Lemma updateBoosterLanding_shape (tables : LandingTables) (legRate : R)
    (e : Engine) (deltaTime : R) (fins : GridFins) :
  gridFins (vehicles e superHeavy) = Some fins ->
  let booster := vehicles e superHeavy in
  let altitude := Vector3.y (position booster) in
  let now := simulationTime e + JS.min deltaTime 0.05 in
  let starting := LandingPhase_eqb (landingPhase e) none in
  let phase0 := if starting then descent else landingPhase e in
  let start0 := if starting then now else phaseStartTime (landingParams e) in
  let next := nextLandingPhase tables phase0 altitude (now - start0) in
  exists e' r,
    updateBoosterLanding tables legRate e deltaTime = Some (e', r)
    /\ simulationTime e' = now
    /\ landingParams e'
       = mkLandingParams (if snd next then now else start0) (now - start0)
    /\ (landingPhase e' = fst next
        \/ (fst next = final /\ landingPhase e' = touchdown))
    /\ l_landingPhase r = landingPhase e'
    /\ l_altitude r = altitude
    /\ l_throttle r = throttle (vehicles e' superHeavy)
    /\ 0 <= l_throttle r <= 1
    /\ gridFins (vehicles e' superHeavy)
       = Some (moveGridFins tables fins altitude deltaTime)
    /\ gridFinDeployment r
       = gf_effectiveness (moveGridFins tables fins altitude deltaTime)
    /\ landingLegs (vehicles e' superHeavy)
       = moveLandingLegs tables legRate (landingLegs booster) altitude
           deltaTime
    /\ landingLegDeployment r
       = ll_deploymentProgress
           (moveLandingLegs tables legRate (landingLegs booster) altitude
              deltaTime)
    /\ heatShield (vehicles e' superHeavy)
       = heatShield (updateThermalState e booster altitude deltaTime)
    /\ heatShieldTemperature r
       = temperature
           (heatShield (updateThermalState e booster altitude deltaTime))
    /\ vehicles e' starship = vehicles e starship
    /\ landingTarget e' = landingTarget e
    /\ (fst next <> landing -> fst next <> touchdown ->
        l_throttle r
        = JS.min 1.0
            (JS.max 0.0
               match fst next with
               | coast => coastThrottle tables
               | boostback => boostbackThrottle tables
               | entry => entryThrottle tables
               | descent => descentThrottle tables
               | _ => 0
               end))
    /\ (l_throttle r <= 0 ->
        fuel (vehicles e' superHeavy) = fuel booster).
Proof.
  intros Hfins. cbv zeta.
  unfold updateBoosterLanding. cbv zeta. rewrite Hfins.
  set (booster := vehicles e superHeavy) in *.
  set (altitude := Vector3.y (position booster)).
  set (dt := JS.min deltaTime 0.05).
  destruct (sameWorld_set_simulationTime (simulationTime e + dt) e)
    as [W0 [A0 [B0 [C0 D0]]]].
  set (e0 := set_simulationTime (simulationTime e + dt) e) in *.
  destruct (trackLandingPhase_spec tables e0 altitude)
    as [W1 [A1 [B1 [C1 D1]]]].
  cbv zeta in A1, B1, C1.
  rewrite A0 in A1, B1, C1. rewrite B0 in B1, C1. rewrite C0 in B1, C1.
  set (e1 := trackLandingPhase tables e0 altitude) in *.
  assert (W : sameWorld e e1) by (eapply sameWorld_trans; eassumption).
  set (fins1 := moveGridFins tables fins altitude deltaTime).
  replace (landingLegs (set_gridFins (Some fins1) booster))
    with (landingLegs booster) by (destruct booster; reflexivity).
  set (legs1 := moveLandingLegs tables legRate (landingLegs booster)
                  altitude deltaTime).
  set (b1 := set_landingLegs legs1 (set_gridFins (Some fins1) booster)).
  assert (Hb1 : gridFins b1 = Some fins1 /\ landingLegs b1 = legs1
                /\ heatShield b1 = heatShield booster
                /\ velocity b1 = velocity booster).
  { unfold b1. destruct booster; cbn. repeat split. }
  destruct Hb1 as [G1 [L1 [H1 V1]]].
  rewrite (updateThermalState_sameWorld e e1 b1 altitude deltaTime W).
  destruct (updateThermalState_frame e b1 altitude deltaTime)
    as [G2 [L2 _]].
  cbv zeta in G2, L2.
  assert (H2 : heatShield (updateThermalState e b1 altitude deltaTime)
               = heatShield (updateThermalState e booster altitude
                               deltaTime)).
  { unfold updateThermalState, calculateHeatingRate.
    rewrite H1, V1. destruct b1, booster; reflexivity. }
  set (b2 := updateThermalState e b1 altitude deltaTime) in *.
  match goal with
  | |- context [phaseBehavior tables e1 ?p ?c fins1 ?hp altitude dt ?pid b2] =>
      pose proof (phaseBehavior_frame tables e1 p c fins1 hp altitude dt
                    pid b2) as PB;
      pose proof (phaseBehavior_base tables e1 p c fins1 hp altitude dt
                    pid b2) as PBase;
      destruct (phaseBehavior tables e1 p c fins1 hp altitude dt pid b2)
        as [[baseThrottle pid3] b3]
  end.
  cbv zeta in PB. cbn [fst snd] in PB, PBase.
  destruct PB as [G3 [L3 [H3 [F3 _]]]].
  pose proof (commandThrottle_spec (landingPhase e1) pid3 baseThrottle dt b3)
    as CT.
  destruct (commandThrottle (landingPhase e1) pid3 baseThrottle dt b3)
    as [pid4 b4].
  cbv zeta in CT. cbn [snd] in CT.
  destruct CT as [T4 [TB [G4 [L4 [H4 [F4 _]]]]]].
  pose proof (commandAttitude_spec e1 pid4 fins1 altitude dt b4) as CA.
  destruct (commandAttitude e1 pid4 fins1 altitude dt b4) as [pid5 b5].
  cbv zeta in CA. cbn [snd] in CA.
  destruct CA as [T5 [G5 [L5 [H5 [F5 _]]]]].
  destruct (sameWorld_set_pidControllers pid5 e1) as [W5 [A5 [B5 C5]]].
  set (e5 := set_pidControllers pid5 e1) in *.
  destruct (return_physics e5 b5 deltaTime) as [_ [_ [_ [_ [_ [RF _]]]]]].
  cbv zeta in RF.
  destruct (updateVehiclePhysics_mission (set_vehicle superHeavy b5 e5)
              superHeavy deltaTime (throttle b5 >? 0)) as [M [O P]].
  destruct (updateVehiclePhysics_stored (set_vehicle superHeavy b5 e5)
              superHeavy deltaTime (throttle b5 >? 0)) as [C _].
  cbv zeta in M, O, P, C.
  set (e6 := updateVehiclePhysics _ _ _ _) in *.
  rewrite vehicles_set_vehicle_same in C.
  destruct (set_vehicle_frame superHeavy b5 e5) as [_ [S2 [S3 S4]]].
  cbv zeta in S2, S3, S4.
  assert (S5 : landingParams (set_vehicle superHeavy b5 e5)
               = landingParams e5) by (destruct e5; reflexivity).
  unfold sameMission in M.
  destruct M as [_ [_ [_ [_ [_ [M1 [M2 [_ [M3 _]]]]]]]]].
  destruct C as [K1 [_ [_ [_ [K5 [_ [K7 [K8 _]]]]]]]].
  eexists; eexists. split; [reflexivity|].
  unfold landingState. cbv zeta.
  cbn [l_landingPhase l_altitude l_throttle gridFinDeployment
       landingLegDeployment heatShieldTemperature].
  rewrite K1, K5, K7, K8, G5, G4, G3, G2, G1, L5, L4, L3, L2, L1,
    H5, H4, H3, H2, T5.
  split; [rewrite M3, S2, A5; exact A1|].
  split; [rewrite M2, S5, C5; exact C1|].
  split.
  { rewrite S3, B5, B1 in P.
    destruct P as [P | [P1 [P2 _]]]; [left; exact P | right; tauto]. }
  split; [reflexivity|]. split; [reflexivity|]. split; [reflexivity|].
  split; [exact T4|].
  split; [reflexivity|]. split; [reflexivity|].
  split; [reflexivity|]. split; [reflexivity|].
  split; [reflexivity|]. split; [reflexivity|].
  split.
  { rewrite O by discriminate.
    rewrite vehicles_set_vehicle_other by discriminate.
    destruct W5 as [_ [_ [_ [_ [Ws _]]]]].
    destruct W as [_ [_ [_ [_ [Ws' _]]]]].
    cbn [vehicles]. congruence. }
  split.
  { rewrite M1, S4.
    destruct W5 as [_ [_ [_ [Wt _]]]].
    destruct W as [_ [_ [_ [Wt' _]]]]. congruence. }
  split.
  - intros N1 N2. rewrite <- B1 in N1, N2 |- *.
    rewrite TB by assumption. rewrite PBase by assumption. reflexivity.
  - intros Hz. rewrite RF by (rewrite T5; exact Hz).
    rewrite F5, F4, F3.
    unfold b2, b1. destruct booster; reflexivity.
Qed.

End LandingShape.

(** X20.  The landing sequence of [updateBoosterLanding] moves through its
    phases in order.  For a booster with grid fins, a call advances the
    clock by the time step capped at 0.05 s and leaves the phase where it
    was or moves it one step along coast, boostback, entry, descent,
    landing, touchdown; a sequence not yet started begins in 'descent'
    and may go on to 'landing' in the same call; 'touchdown' is never
    left, and is entered only from 'landing' at an altitude <= 0 or from
    'final' by ground contact; 'approach' and 'return' are left alone.
    Whenever the phase changes, other than from 'final', the phase timer
    restarts at the new clock time. *)
Theorem landing_phases_in_order
    (tables : FlightPhases.LandingTables) (legRate : R)
    (e : ImprovedPhysicsEngine.Engine) (deltaTime : R)
    (fins : ImprovedPhysicsEngine.GridFins) :
  Frame.numeric e deltaTime ->
  ImprovedPhysicsEngine.gridFins
    (ImprovedPhysicsEngine.vehicles e ImprovedPhysicsEngine.superHeavy)
  = Some fins ->
  exists e' r,
    FlightPhases.updateBoosterLanding tables legRate e deltaTime
    = Some (e', r)
    /\ FlightPhases.l_landingPhase r = ImprovedPhysicsEngine.landingPhase e'
    /\ ImprovedPhysicsEngine.simulationTime e'
       = ImprovedPhysicsEngine.simulationTime e + JS.min deltaTime 0.05
    /\ match ImprovedPhysicsEngine.landingPhase e with
       | ImprovedPhysicsEngine.none =>
           ImprovedPhysicsEngine.landingPhase e'
           = ImprovedPhysicsEngine.descent
           \/ ImprovedPhysicsEngine.landingPhase e'
              = ImprovedPhysicsEngine.landing
       | ImprovedPhysicsEngine.coast =>
           ImprovedPhysicsEngine.landingPhase e'
           = ImprovedPhysicsEngine.coast
           \/ ImprovedPhysicsEngine.landingPhase e'
              = ImprovedPhysicsEngine.boostback
       | ImprovedPhysicsEngine.boostback =>
           ImprovedPhysicsEngine.landingPhase e'
           = ImprovedPhysicsEngine.boostback
           \/ ImprovedPhysicsEngine.landingPhase e'
              = ImprovedPhysicsEngine.entry
       | ImprovedPhysicsEngine.entry =>
           ImprovedPhysicsEngine.landingPhase e'
           = ImprovedPhysicsEngine.entry
           \/ ImprovedPhysicsEngine.landingPhase e'
              = ImprovedPhysicsEngine.descent
       | ImprovedPhysicsEngine.descent =>
           ImprovedPhysicsEngine.landingPhase e'
           = ImprovedPhysicsEngine.descent
           \/ ImprovedPhysicsEngine.landingPhase e'
              = ImprovedPhysicsEngine.landing
       | ImprovedPhysicsEngine.landing =>
           ImprovedPhysicsEngine.landingPhase e'
           = ImprovedPhysicsEngine.landing
           \/ ImprovedPhysicsEngine.landingPhase e'
              = ImprovedPhysicsEngine.touchdown
       | ImprovedPhysicsEngine.touchdown =>
           ImprovedPhysicsEngine.landingPhase e'
           = ImprovedPhysicsEngine.touchdown
       | ImprovedPhysicsEngine.approach =>
           ImprovedPhysicsEngine.landingPhase e'
           = ImprovedPhysicsEngine.approach
       | ImprovedPhysicsEngine.final =>
           ImprovedPhysicsEngine.landingPhase e'
           = ImprovedPhysicsEngine.final
           \/ ImprovedPhysicsEngine.landingPhase e'
              = ImprovedPhysicsEngine.touchdown
       | ImprovedPhysicsEngine.returning =>
           ImprovedPhysicsEngine.landingPhase e'
           = ImprovedPhysicsEngine.returning
       end
    /\ (ImprovedPhysicsEngine.landingPhase e'
        = ImprovedPhysicsEngine.touchdown ->
        ImprovedPhysicsEngine.landingPhase e
        = ImprovedPhysicsEngine.touchdown
        \/ ImprovedPhysicsEngine.landingPhase e
           = ImprovedPhysicsEngine.final
        \/ (ImprovedPhysicsEngine.landingPhase e
            = ImprovedPhysicsEngine.landing
            /\ Vector3.y
                 (ImprovedPhysicsEngine.position
                    (ImprovedPhysicsEngine.vehicles e
                       ImprovedPhysicsEngine.superHeavy)) <= 0))
    /\ (ImprovedPhysicsEngine.landingPhase e'
        <> ImprovedPhysicsEngine.landingPhase e ->
        ImprovedPhysicsEngine.landingPhase e
        <> ImprovedPhysicsEngine.final ->
        ImprovedPhysicsEngine.phaseStartTime
          (ImprovedPhysicsEngine.landingParams e')
        = ImprovedPhysicsEngine.simulationTime e').
Proof.
  intros _ Hfins.
  destruct (updateBoosterLanding_shape tables legRate e deltaTime fins Hfins)
    as [e' [r [E [A1 [A2 [A3 [A4 _]]]]]]].
  cbv zeta in A1, A2, A3.
  assert (Last : ImprovedPhysicsEngine.landingPhase e'
                 <> ImprovedPhysicsEngine.landingPhase e ->
                 ImprovedPhysicsEngine.landingPhase e
                 <> ImprovedPhysicsEngine.final ->
                 ImprovedPhysicsEngine.phaseStartTime
                   (ImprovedPhysicsEngine.landingParams e')
                 = ImprovedPhysicsEngine.simulationTime e').
  { intros Hne Hnf. rewrite A2, A1.
    cbn [ImprovedPhysicsEngine.phaseStartTime].
    match goal with
    | |- (if ?c then _ else _) = _ => destruct c eqn:Es
    end; [reflexivity|].
    apply nextLandingPhase_unmoved in Es. rewrite Es in A3.
    destruct (ImprovedPhysicsEngine.LandingPhase_eqb
                (ImprovedPhysicsEngine.landingPhase e)
                ImprovedPhysicsEngine.none); [reflexivity|].
    exfalso. destruct A3 as [A3 | [A3 _]]; congruence. }
  exists e', r. split; [exact E|]. split; [exact A4|]. split; [exact A1|].
  split; [|split; [|exact Last]]; clear Last A2;
    revert A3; unfold FlightPhases.nextLandingPhase;
    destruct (ImprovedPhysicsEngine.landingPhase e) eqn:Ep;
    cbn [ImprovedPhysicsEngine.LandingPhase_eqb andb];
    repeat match goal with
           | |- context [if ?c then _ else _] =>
               first [js_case c | destruct c]
           end;
    cbn [fst snd]; intros [A3 | [A3 A3']]; try discriminate A3;
    rewrite ?A3, ?A3'; intros; try congruence; try tauto;
    try (right; right; split; [reflexivity | assumption]).
Qed.

Lemma landing_phases_in_order_witness :
  exists e' r,
    FlightPhases.updateBoosterLanding FlightPhases.constructorTables
      FlightPhases.boosterLegDeploymentRate
      ImprovedPhysicsEngine.newEngine 0.1
    = Some (e', r)
    /\ (FlightPhases.l_landingPhase r = ImprovedPhysicsEngine.descent
        \/ FlightPhases.l_landingPhase r = ImprovedPhysicsEngine.landing).
Proof.
  destruct (landing_phases_in_order FlightPhases.constructorTables
              FlightPhases.boosterLegDeploymentRate
              ImprovedPhysicsEngine.newEngine 0.1
              (ImprovedPhysicsEngine.mkGridFins false 0.0 0.2 0.2)
              ltac:(unfold Frame.numeric; cbn; lra) eq_refl)
    as [e' [r [E [P1 [_ [P2 _]]]]]].
  exists e', r. split; [exact E|]. rewrite P1. exact P2.
Defined.

(** X21.  The throttle of the landing sequence.  For a booster with grid
    fins, [updateBoosterLanding] reports the throttle it leaves on the
    booster, always between 0 and 1.  With the throttle table of the
    constructor, a call that ends in phase 'coast', 'descent',
    'approach', 'final' or 'return' leaves the engines off and the
    propellant as it was, one that ends in 'boostback' commands 0.6 and
    one that ends in 'entry' commands 0.4. *)
Theorem landing_throttle_by_phase
    (legRate : R) (e : ImprovedPhysicsEngine.Engine) (deltaTime : R)
    (fins : ImprovedPhysicsEngine.GridFins) :
  Frame.numeric e deltaTime ->
  ImprovedPhysicsEngine.gridFins
    (ImprovedPhysicsEngine.vehicles e ImprovedPhysicsEngine.superHeavy)
  = Some fins ->
  exists e' r,
    FlightPhases.updateBoosterLanding FlightPhases.constructorTables
      legRate e deltaTime
    = Some (e', r)
    /\ FlightPhases.l_throttle r
       = ImprovedPhysicsEngine.throttle
           (ImprovedPhysicsEngine.vehicles e'
              ImprovedPhysicsEngine.superHeavy)
    /\ 0 <= FlightPhases.l_throttle r <= 1
    /\ (FlightPhases.l_landingPhase r = ImprovedPhysicsEngine.coast
        \/ FlightPhases.l_landingPhase r = ImprovedPhysicsEngine.descent
        \/ FlightPhases.l_landingPhase r = ImprovedPhysicsEngine.approach
        \/ FlightPhases.l_landingPhase r = ImprovedPhysicsEngine.final
        \/ FlightPhases.l_landingPhase r = ImprovedPhysicsEngine.returning ->
        FlightPhases.l_throttle r = 0
        /\ ImprovedPhysicsEngine.fuel
             (ImprovedPhysicsEngine.vehicles e'
                ImprovedPhysicsEngine.superHeavy)
           = ImprovedPhysicsEngine.fuel
               (ImprovedPhysicsEngine.vehicles e
                  ImprovedPhysicsEngine.superHeavy))
    /\ (FlightPhases.l_landingPhase r = ImprovedPhysicsEngine.boostback ->
        FlightPhases.l_throttle r = 0.6)
    /\ (FlightPhases.l_landingPhase r = ImprovedPhysicsEngine.entry ->
        FlightPhases.l_throttle r = 0.4).
Proof.
  intros _ Hfins.
  destruct (updateBoosterLanding_shape FlightPhases.constructorTables
              legRate e deltaTime fins Hfins)
    as [e' [r [E [_ [_ [A3 [A4 [_ [A6 [A7 [_ [_ [_ [_ [_ [_ [_ [_
          [A16 A17]]]]]]]]]]]]]]]]]]].
  cbv zeta in A3, A16, A17.
  exists e', r. split; [exact E|]. split; [exact A6|]. split; [exact A7|].
  rewrite A4.
  assert (Hmin : forall x, 0 <= x <= 1 -> JS.min 1.0 (JS.max 0.0 x) = x).
  { intros x Hx. unfold JS.min, JS.max.
    rewrite Rmax_right by lra. rewrite Rmin_right by lra. reflexivity. }
  match type of A3 with
  | _ = ?n \/ _ => set (p1 := n) in *
  end.
  clearbody p1.
  assert (Phase : forall p,
             ImprovedPhysicsEngine.landingPhase e' = p ->
             p <> ImprovedPhysicsEngine.touchdown -> p1 = p).
  { intros p Hp Hn. destruct A3 as [A3 | [_ A3]]; congruence. }
  assert (Off : p1 = ImprovedPhysicsEngine.coast
                \/ p1 = ImprovedPhysicsEngine.descent
                \/ p1 = ImprovedPhysicsEngine.approach
                \/ p1 = ImprovedPhysicsEngine.final
                \/ p1 = ImprovedPhysicsEngine.returning ->
                FlightPhases.l_throttle r = 0).
  { intros Hq. rewrite A16.
    - destruct Hq as [-> | [-> | [-> | [-> | ->]]]]; cbn; rewrite Hmin by lra; lra.
    - destruct Hq as [-> | [-> | [-> | [-> | ->]]]]; discriminate.
    - destruct Hq as [-> | [-> | [-> | [-> | ->]]]]; discriminate. }
  split; [|split].
  - intros Hp.
    assert (Hz : FlightPhases.l_throttle r = 0).
    { apply Off.
      destruct Hp as [Hp | [Hp | [Hp | [Hp | Hp]]]];
        rewrite (Phase _ Hp ltac:(discriminate)); tauto. }
    split; [exact Hz|]. apply A17. lra.
  - intros Hp. pose proof (Phase _ Hp ltac:(discriminate)) as Hq.
    subst p1. rewrite A16 by discriminate. cbn. rewrite Hmin by lra; lra.
  - intros Hp. pose proof (Phase _ Hp ltac:(discriminate)) as Hq.
    subst p1. rewrite A16 by discriminate. cbn. rewrite Hmin by lra; lra.
Qed.

Lemma landing_throttle_by_phase_witness :
  exists e' r,
    FlightPhases.updateBoosterLanding FlightPhases.constructorTables
      FlightPhases.boosterLegDeploymentRate
      ImprovedPhysicsEngine.newEngine 0.1
    = Some (e', r)
    /\ 0 <= FlightPhases.l_throttle r <= 1.
Proof.
  destruct (landing_throttle_by_phase
              FlightPhases.boosterLegDeploymentRate
              ImprovedPhysicsEngine.newEngine 0.1
              (ImprovedPhysicsEngine.mkGridFins false 0.0 0.2 0.2)
              ltac:(unfold Frame.numeric; cbn; lra) eq_refl)
    as [e' [r [E [_ [P _]]]]].
  exists e', r. split; [exact E | exact P].
Defined.

(** X22.  Grid fins and landing legs during the landing sequence.  For a
    booster whose fin effectiveness and leg progress lie in [0, 1] and
    whose deployment rates are not negative, after [updateBoosterLanding]
    both still lie in [0, 1] and are the values reported; the fins keep
    their rate and drag contribution, gain effectiveness only while not
    yet deployed and lose it only while deployed; the legs never retract,
    stay as they are once deployed or while the booster is above the
    deployment altitude, and are marked deployed only at full
    progress. *)
Theorem landing_equipment_stays_in_range
    (tables : FlightPhases.LandingTables) (legRate : R)
    (e : ImprovedPhysicsEngine.Engine) (deltaTime : R)
    (fins : ImprovedPhysicsEngine.GridFins) :
  let booster :=
    ImprovedPhysicsEngine.vehicles e ImprovedPhysicsEngine.superHeavy in
  let legs := ImprovedPhysicsEngine.landingLegs booster in
  Frame.numeric e deltaTime ->
  ImprovedPhysicsEngine.gridFins booster = Some fins ->
  0 <= ImprovedPhysicsEngine.gf_effectiveness fins <= 1 ->
  0 <= ImprovedPhysicsEngine.gf_deploymentRate fins ->
  0 <= ImprovedPhysicsEngine.ll_deploymentProgress legs <= 1 ->
  0 <= legRate ->
  exists e' r fins',
    FlightPhases.updateBoosterLanding tables legRate e deltaTime
    = Some (e', r)
    /\ ImprovedPhysicsEngine.gridFins
         (ImprovedPhysicsEngine.vehicles e'
            ImprovedPhysicsEngine.superHeavy) = Some fins'
    /\ FlightPhases.gridFinDeployment r
       = ImprovedPhysicsEngine.gf_effectiveness fins'
    /\ 0 <= ImprovedPhysicsEngine.gf_effectiveness fins' <= 1
    /\ ImprovedPhysicsEngine.gf_deploymentRate fins'
       = ImprovedPhysicsEngine.gf_deploymentRate fins
    /\ ImprovedPhysicsEngine.gf_dragContribution fins'
       = ImprovedPhysicsEngine.gf_dragContribution fins
    /\ (ImprovedPhysicsEngine.gf_deployed fins = false ->
        ImprovedPhysicsEngine.gf_effectiveness fins
        <= ImprovedPhysicsEngine.gf_effectiveness fins')
    /\ (ImprovedPhysicsEngine.gf_deployed fins = true ->
        ImprovedPhysicsEngine.gf_effectiveness fins'
        <= ImprovedPhysicsEngine.gf_effectiveness fins)
    /\ let legs' :=
         ImprovedPhysicsEngine.landingLegs
           (ImprovedPhysicsEngine.vehicles e'
              ImprovedPhysicsEngine.superHeavy) in
       FlightPhases.landingLegDeployment r
       = ImprovedPhysicsEngine.ll_deploymentProgress legs'
       /\ ImprovedPhysicsEngine.ll_deploymentProgress legs
          <= ImprovedPhysicsEngine.ll_deploymentProgress legs' <= 1
       /\ (ImprovedPhysicsEngine.ll_deployed legs = true -> legs' = legs)
       /\ (FlightPhases.landingLegDeployAltitude tables
           < Vector3.y (ImprovedPhysicsEngine.position booster) ->
           legs' = legs)
       /\ (ImprovedPhysicsEngine.ll_deployed legs' = true ->
           ImprovedPhysicsEngine.ll_deployed legs = true
           \/ ImprovedPhysicsEngine.ll_deploymentProgress legs' = 1).
Proof.
  intros booster legs Hnum Hfins He Hr Hp Hl.
  destruct Hnum as [Hdt _].
  destruct (updateBoosterLanding_shape tables legRate e deltaTime fins Hfins)
    as [e' [r [E [_ [_ [_ [_ [_ [_ [_ [A8 [A9 [A10 [A11 _]]]]]]]]]]]]]].
  cbv zeta in A8, A9, A10, A11. fold booster in A8, A9, A10, A11.
  fold legs in A10, A11.
  destruct (moveGridFins_range tables fins
              (Vector3.y (ImprovedPhysicsEngine.position booster)) deltaTime
              ltac:(apply Rmult_le_pos; lra) He)
    as [F1 [F2 [F3 [F4 F5]]]].
  destruct (moveLandingLegs_range tables legRate legs
              (Vector3.y (ImprovedPhysicsEngine.position booster)) deltaTime
              ltac:(apply Rmult_le_pos; lra) Hp)
    as [L1 [L2 [L3 [L4 L5]]]].
  eexists e', r, _. split; [exact E|]. split; [exact A8|].
  split; [exact A9|]. split; [exact F1|]. split; [exact F2|].
  split; [exact F3|]. split; [intros H; apply F4; exact H|].
  split; [intros H; apply F5; exact H|].
  cbv zeta. rewrite A10, A11.
  split; [reflexivity|]. split; [lra|]. split; [exact L3|].
  split; [exact L5 | exact L4].
Qed.

Lemma landing_equipment_stays_in_range_witness :
  exists e' r,
    FlightPhases.updateBoosterLanding FlightPhases.constructorTables
      FlightPhases.boosterLegDeploymentRate
      ImprovedPhysicsEngine.newEngine 0.1
    = Some (e', r)
    /\ 0 <= FlightPhases.gridFinDeployment r <= 1
    /\ 0 <= FlightPhases.landingLegDeployment r <= 1.
Proof.
  destruct (landing_equipment_stays_in_range FlightPhases.constructorTables
              FlightPhases.boosterLegDeploymentRate
              ImprovedPhysicsEngine.newEngine 0.1
              (ImprovedPhysicsEngine.mkGridFins false 0.0 0.2 0.2)
              ltac:(unfold Frame.numeric; cbn; lra) eq_refl
              ltac:(cbn; lra) ltac:(cbn; lra) ltac:(cbn; lra)
              ltac:(unfold FlightPhases.boosterLegDeploymentRate; lra))
    as [e' [r [fins' [E [_ [P1 [P2 [_ [_ [_ [_ P3]]]]]]]]]]].
  cbv zeta in P3. destruct P3 as [Q1 [Q2 _]].
  exists e', r. split; [exact E|]. split.
  - rewrite P1. exact P2.
  - rewrite Q1. cbn in Q2 |- *. lra.
Defined.

(** ** The ship's ascent *)

Section Ascent.

Import ImprovedPhysicsEngine Motion Frame FlightPhases.

(** The propellant [updateVehiclePhysics] leaves on a vehicle of positive
    total mass. *)
Lemma updateVehiclePhysics_burn (e : Engine) (id : VehicleId)
    (deltaTime : R) (enginesOn : bool) :
  let v := vehicles e id in
  0 < mass v + fuel v ->
  fuel (vehicles (updateVehiclePhysics e id deltaTime enginesOn) id)
  = if enginesOn && (throttle v >? 0)
    then JS.max 0 (fuel v - maxThrust v * throttle v / 3000
                            * JS.min deltaTime 0.1)
    else fuel v.
Proof.
  cbv zeta. intros Hm. unfold updateVehiclePhysics.
  destruct (calculateForces e (vehicles e id) (JS.min deltaTime 0.1))
    as [F v1] eqn:EF.
  destruct (sameControls_calculateForces e (vehicles e id)
              (JS.min deltaTime 0.1)) as [Hc [Hf _]].
  rewrite EF in Hc, Hf. cbn [snd] in Hc, Hf.
  destruct Hc as [Ht [Hmt [Hma _]]].
  rewrite (proj2 (leb_false_iff (mass v1 + fuel v1) 0))
    by (rewrite Hma, Hf; exact Hm).
  match goal with
  | |- context [if ?c then _ else _] => destruct c
  end; rewrite vehicles_set_vehicle_same.
  - rewrite (proj1 (proj2 (sameControls_groundContact _))).
    rewrite integrate_fuel, Ht, Hmt, Hf. reflexivity.
  - rewrite integrate_fuel, Ht, Hmt, Hf. reflexivity.
Qed.

End Ascent.

(** X23.  [updateStarshipAscent] flies the ship at full throttle: whatever
    the throttle was, the call reports throttle 1 and the ship's maximum
    thrust, and leaves that throttle on the ship; the booster, the
    landing target and the return parameters are not touched; a ship of
    positive total mass burns maxThrust / 3000 kg of propellant per
    second over the time step capped at 0.1 s, down to an empty tank and
    not below; and orbit is reported exactly above 200 km. *)
Theorem ascent_runs_at_full_throttle
    (e : ImprovedPhysicsEngine.Engine) (deltaTime : R) :
  let ship :=
    ImprovedPhysicsEngine.vehicles e ImprovedPhysicsEngine.starship in
  let e' := fst (FlightPhases.updateStarshipAscent e deltaTime) in
  let r := snd (FlightPhases.updateStarshipAscent e deltaTime) in
  let ship' :=
    ImprovedPhysicsEngine.vehicles e' ImprovedPhysicsEngine.starship in
  FlightPhases.as_throttle r = 1
  /\ FlightPhases.as_thrust r = ImprovedPhysicsEngine.maxThrust ship * 1
  /\ ImprovedPhysicsEngine.throttle ship' = 1
  /\ FlightPhases.as_fuel r = ImprovedPhysicsEngine.fuel ship'
  /\ FlightPhases.as_position r = ImprovedPhysicsEngine.position ship'
  /\ FlightPhases.orbitReached r
     = (Vector3.y (ImprovedPhysicsEngine.position ship') >? 200000)
  /\ ImprovedPhysicsEngine.vehicles e' ImprovedPhysicsEngine.superHeavy
     = ImprovedPhysicsEngine.vehicles e ImprovedPhysicsEngine.superHeavy
  /\ ImprovedPhysicsEngine.landingTarget e'
     = ImprovedPhysicsEngine.landingTarget e
  /\ ImprovedPhysicsEngine.returnParams e'
     = ImprovedPhysicsEngine.returnParams e
  /\ (0 < ImprovedPhysicsEngine.mass ship + ImprovedPhysicsEngine.fuel ship ->
      ImprovedPhysicsEngine.fuel ship'
      = JS.max 0 (ImprovedPhysicsEngine.fuel ship
                  - ImprovedPhysicsEngine.maxThrust ship / 3000
                    * JS.min deltaTime 0.1)).
Proof.
  cbv zeta. unfold FlightPhases.updateStarshipAscent. cbv zeta.
  cbn [fst snd FlightPhases.as_throttle FlightPhases.as_thrust
       FlightPhases.as_fuel FlightPhases.as_position
       FlightPhases.orbitReached].
  set (ship := ImprovedPhysicsEngine.vehicles e
                 ImprovedPhysicsEngine.starship).
  set (e1 := ImprovedPhysicsEngine.set_vehicle
               ImprovedPhysicsEngine.starship
               (ImprovedPhysicsEngine.set_throttle 1.0 ship) e).
  assert (V1 : ImprovedPhysicsEngine.vehicles e1
                 ImprovedPhysicsEngine.starship
               = ImprovedPhysicsEngine.set_throttle 1.0 ship)
    by apply vehicles_set_vehicle_same.
  assert (V2 : ImprovedPhysicsEngine.vehicles e1
                 ImprovedPhysicsEngine.superHeavy
               = ImprovedPhysicsEngine.vehicles e
                   ImprovedPhysicsEngine.superHeavy)
    by (apply vehicles_set_vehicle_other; discriminate).
  destruct (set_vehicle_frame ImprovedPhysicsEngine.starship
              (ImprovedPhysicsEngine.set_throttle 1.0 ship) e)
    as [S1 [_ [_ S4]]].
  cbv zeta in S1, S4. fold e1 in S1, S4.
  assert (Hs : ImprovedPhysicsEngine.throttle
                 (ImprovedPhysicsEngine.set_throttle 1.0 ship) = 1.0
               /\ ImprovedPhysicsEngine.maxThrust
                    (ImprovedPhysicsEngine.set_throttle 1.0 ship)
                  = ImprovedPhysicsEngine.maxThrust ship
               /\ ImprovedPhysicsEngine.fuel
                    (ImprovedPhysicsEngine.set_throttle 1.0 ship)
                  = ImprovedPhysicsEngine.fuel ship
               /\ ImprovedPhysicsEngine.mass
                    (ImprovedPhysicsEngine.set_throttle 1.0 ship)
                  = ImprovedPhysicsEngine.mass ship)
    by (destruct ship; cbn; repeat split).
  destruct Hs as [Hs1 [Hs2 [Hs3 Hs4]]].
  destruct (updateVehiclePhysics_mission e1 ImprovedPhysicsEngine.starship
              deltaTime true) as [M [O _]].
  destruct (updateVehiclePhysics_stored e1 ImprovedPhysicsEngine.starship
              deltaTime true) as [[C1 [C2 _]] _].
  pose proof (updateVehiclePhysics_burn e1 ImprovedPhysicsEngine.starship
                deltaTime true) as B.
  cbv zeta in M, O, C1, C2, B.
  set (e2 := ImprovedPhysicsEngine.updateVehiclePhysics e1
               ImprovedPhysicsEngine.starship deltaTime true) in *.
  rewrite V1 in C1, C2, B. rewrite Hs1 in C1. rewrite Hs2 in C2.
  rewrite Hs1, Hs2, Hs3, Hs4 in B.
  unfold Frame.sameMission in M.
  destruct M as [_ [_ [_ [_ [_ [M1 [_ [_ [_ [_ [_ M3]]]]]]]]]]].
  rewrite C1, C2.
  split; [lra|]. split; [f_equal; lra|]. split; [lra|].
  split; [reflexivity|]. split; [reflexivity|]. split; [reflexivity|].
  split; [rewrite O by discriminate; exact V2|].
  split; [rewrite M1; exact S4|].
  split; [rewrite M3; exact S1|].
  intros Hm. rewrite (B Hm).
  rewrite (gtb_true 1.0 0) by lra. cbn [andb].
  replace (ImprovedPhysicsEngine.maxThrust ship * 1.0)
    with (ImprovedPhysicsEngine.maxThrust ship) by lra.
  reflexivity.
Qed.

(** ** Reentry formulas and camera easing *)

Section Reentry.

Import ReentrySimulation.

Lemma lt_div (a n d : R) : 0 < d -> a * d < n -> a < n / d.
Proof.
  intros Hd H. apply (Rmult_lt_reg_r d); [exact Hd|].
  unfold Rdiv. rewrite Rmult_assoc, Rinv_l by lra. lra.
Qed.

Lemma div_lt (a n d : R) : 0 < d -> n < a * d -> n / d < a.
Proof.
  intros Hd H. apply (Rmult_lt_reg_r d); [exact Hd|].
  unfold Rdiv. rewrite Rmult_assoc, Rinv_l by lra. lra.
Qed.

Lemma le_div (a n d : R) : 0 < d -> a * d <= n -> a <= n / d.
Proof.
  intros Hd H. apply (Rmult_le_reg_r d); [exact Hd|].
  unfold Rdiv. rewrite Rmult_assoc, Rinv_l by lra. lra.
Qed.

Lemma EARTH_MU_pos : 0 < EARTH_MU.
Proof. unfold EARTH_MU, G, EARTH_MASS. lra. Qed.

Lemma calculateGravity_pos (h : R) : - EARTH_RADIUS < h -> 0 < calculateGravity h.
Proof.
  intros Hh. unfold calculateGravity. cbv zeta.
  apply Rdiv_lt_0_compat; [apply EARTH_MU_pos|].
  unfold EARTH_RADIUS in *. nra.
Qed.

Lemma calculateGravity_decreasing (h1 h2 : R) :
  - EARTH_RADIUS < h1 -> h1 <= h2 ->
  calculateGravity h2 <= calculateGravity h1.
Proof.
  intros H1 H2. unfold calculateGravity. cbv zeta.
  unfold Rdiv. apply Rmult_le_compat_l; [left; apply EARTH_MU_pos|].
  apply Rinv_le_contravar; unfold EARTH_RADIUS in *; nra.
Qed.

Lemma calculateGravity_surface : 9.81 < calculateGravity 0 < 9.83.
Proof.
  unfold calculateGravity, EARTH_MU, G, EARTH_MASS, EARTH_RADIUS. cbv zeta.
  split.
  - apply lt_div; lra.
  - apply div_lt; lra.
Qed.

Lemma calculateAirDensity_pos (h : R) : 0 < calculateAirDensity h.
Proof.
  unfold calculateAirDensity, AIR_DENSITY_SEA_LEVEL.
  apply Rmult_lt_0_compat; [lra | apply exp_pos].
Qed.

Lemma cube_le (a b : R) : a <= b -> a * a * a <= b * b * b.
Proof.
  intros H.
  assert (E : b * b * b - a * a * a
              = (b - a) * (a * a + a * b + b * b)) by ring.
  assert (Q : 0 <= a * a + a * b + b * b) by nra.
  assert (P : 0 <= (b - a) * (a * a + a * b + b * b))
    by (apply Rmult_le_pos; lra).
  lra.
Qed.

End Reentry.

(** X24.  [ReentrySimulation.calculateGravity] is the inverse-square law:
    above the centre of the Earth it is positive and multiplied by the
    square of the distance to the centre it gives G times the Earth's
    mass; it never increases with altitude; and at the surface it lies
    between 9.81 and 9.83 m/s^2, so that it never exceeds 9.83 m/s^2 at
    or above the surface. *)
Theorem reentry_gravity_is_inverse_square (h1 h2 : R) :
  - ReentrySimulation.EARTH_RADIUS < h1 -> h1 <= h2 ->
  0 < ReentrySimulation.calculateGravity h2
    <= ReentrySimulation.calculateGravity h1
  /\ ReentrySimulation.calculateGravity h1
     * ((ReentrySimulation.EARTH_RADIUS + h1)
        * (ReentrySimulation.EARTH_RADIUS + h1))
     = ReentrySimulation.G * ReentrySimulation.EARTH_MASS
  /\ 9.81 < ReentrySimulation.calculateGravity 0 < 9.83
  /\ (0 <= h1 -> ReentrySimulation.calculateGravity h1 < 9.83).
Proof.
  intros H1 H2.
  split; [split|split; [|split]].
  - apply calculateGravity_pos. lra.
  - apply calculateGravity_decreasing; assumption.
  - unfold ReentrySimulation.calculateGravity, ReentrySimulation.EARTH_MU.
    cbv zeta. field. unfold ReentrySimulation.EARTH_RADIUS in *. lra.
  - apply calculateGravity_surface.
  - intros H0.
    pose proof (calculateGravity_decreasing 0 h1
                  ltac:(unfold ReentrySimulation.EARTH_RADIUS; lra) H0).
    pose proof calculateGravity_surface. lra.
Qed.

Lemma reentry_gravity_is_inverse_square_witness :
  0 < ReentrySimulation.calculateGravity 100000
    <= ReentrySimulation.calculateGravity 0.
Proof.
  apply (reentry_gravity_is_inverse_square 0 100000).
  - unfold ReentrySimulation.EARTH_RADIUS. lra.
  - lra.
Defined.

(** X25.  The aerodynamic forces of [ReentrySimulation] on a moving
    vehicle: the drag is the velocity scaled by -dragMagnitude / speed,
    with dragMagnitude >= 0, so it points against the motion; the lift is
    horizontal and perpendicular to the velocity, and vanishes for a
    vertical velocity; and the total is their sum. *)
Theorem reentry_drag_opposes_and_lift_is_normal
    (velocity : Vector3.t) (altitude angleOfAttack : R) :
  let f :=
    ReentrySimulation.calculateAerodynamicForces velocity altitude
      angleOfAttack in
  let speed := Vector3.length velocity in
  0 < speed ->
  0 <= ReentrySimulation.dragMagnitude f
  /\ ReentrySimulation.drag f
     = Vector3.multiplyScalar velocity
         (- (ReentrySimulation.dragMagnitude f / speed))
  /\ Vector3.y (ReentrySimulation.lift f) = 0
  /\ Vector3.x (ReentrySimulation.lift f) * Vector3.x velocity
     + Vector3.y (ReentrySimulation.lift f) * Vector3.y velocity
     + Vector3.z (ReentrySimulation.lift f) * Vector3.z velocity = 0
  /\ (Vector3.x velocity = 0 -> Vector3.z velocity = 0 ->
      ReentrySimulation.lift f = Vector3.mk 0 0 0)
  /\ ReentrySimulation.total f
     = Vector3.add (ReentrySimulation.drag f) (ReentrySimulation.lift f).
Proof.
  cbv zeta. intros Hs.
  unfold ReentrySimulation.calculateAerodynamicForces. cbv zeta.
  cbn [ReentrySimulation.drag ReentrySimulation.lift ReentrySimulation.total
       ReentrySimulation.dragMagnitude].
  destruct velocity as [vx vy vz]. unfold Vector3.length in *.
  cbn [Vector3.x Vector3.y Vector3.z] in *.
  set (s := sqrt (vx * vx + vy * vy + vz * vz)) in *.
  set (rho := ReentrySimulation.calculateAirDensity altitude).
  pose proof (calculateAirDensity_pos altitude) as Hrho. fold rho in Hrho.
  pose proof (SIN_bound angleOfAttack) as Hsin.
  pose proof PI_RGT_0 as Hpi.
  split.
  { unfold ReentrySimulation.dragCoefficient,
      ReentrySimulation.crossSectionalArea.
    assert (A1 : 0 <= 0.5 * rho * s ^ 2) by nra.
    assert (A2 : 0 <= 0.3 * (1 + 0.5 * sin angleOfAttack)) by lra.
    assert (A3 : 0 <= PI * (9 / 2) ^ 2) by nra.
    apply Rmult_le_pos; [apply Rmult_le_pos|]; assumption. }
  set (D := 0.5 * rho * s ^ 2
            * (ReentrySimulation.dragCoefficient
               * (1 + 0.5 * sin angleOfAttack))
            * ReentrySimulation.crossSectionalArea).
  set (L := 0.5 * rho * s ^ 2
            * (ReentrySimulation.liftCoefficient
               * sin (2 * angleOfAttack))
            * ReentrySimulation.crossSectionalArea).
  split.
  { unfold Vector3.multiplyScalar. cbn [Vector3.x Vector3.y Vector3.z].
    f_equal; field; lra. }
  set (m := sqrt (- vz * - vz + 0 * 0 + vx * vx)).
  assert (Hm0 : 0 <= m) by apply sqrt_pos.
  js_case (m >? 0); cbn [Vector3.x Vector3.y Vector3.z].
  - split; [unfold Rdiv; ring|].
    split; [field; lra|].
    split.
    + intros Hx Hz. exfalso. subst vx vz.
      unfold m in Hcmp.
      replace (- 0 * - 0 + 0 * 0 + 0 * 0) with 0 in Hcmp by ring.
      rewrite sqrt_0 in Hcmp. lra.
    + unfold Vector3.add. cbn [Vector3.x Vector3.y Vector3.z]. reflexivity.
  - split; [ring|]. split; [ring|].
    split.
    + intros Hx Hz. subst vx vz. f_equal; ring.
    + unfold Vector3.add. cbn [Vector3.x Vector3.y Vector3.z]. reflexivity.
Qed.

Lemma reentry_drag_opposes_and_lift_is_normal_witness :
  0 <= ReentrySimulation.dragMagnitude
         (ReentrySimulation.calculateAerodynamicForces
            (Vector3.mk 0 (-1000) 0) 1000 0).
Proof.
  apply (reentry_drag_opposes_and_lift_is_normal
           (Vector3.mk 0 (-1000) 0) 1000 0).
  unfold Vector3.length. cbn [Vector3.x Vector3.y Vector3.z].
  apply sqrt_lt_R0. lra.
Defined.

(** X26.  [ReentrySimulation.calculateLandingBurnThrottle] for a vehicle
    above the ground with a vertical velocity other than zero: the
    throttle lies between 0 and 1; it is the thrust for the deceleration
    g(h) - vy^2 / h, as a fraction of the 1200 t maximum thrust, clamped
    to that range; hence it is at most the fraction that balances the
    vehicle's weight, below 0.1003, and it is 0 whenever vy^2 >= g(h) * h. *)
Theorem landing_burn_throttle_is_clamped
    (altitude : R) (velocity : Vector3.t) :
  let throttle :=
    ReentrySimulation.calculateLandingBurnThrottle altitude velocity in
  let vy := Vector3.y velocity in
  let g := ReentrySimulation.calculateGravity altitude in
  0 < altitude -> vy <> 0 ->
  0 <= throttle <= 1
  /\ throttle
     = JS.max 0
         (JS.min 1
            (ReentrySimulation.mass * (g - vy * vy / altitude)
             / (1200000 * 9.81)))
  /\ throttle <= ReentrySimulation.mass * g / (1200000 * 9.81)
  /\ throttle < 0.1003
  /\ (g * altitude <= vy * vy -> throttle = 0).
Proof.
  cbv zeta. intros Hh Hv.
  unfold ReentrySimulation.calculateLandingBurnThrottle. cbv zeta.
  set (vy := Vector3.y velocity) in *.
  set (g := ReentrySimulation.calculateGravity altitude).
  assert (Hg : 0 < g < 9.83).
  { pose proof (calculateGravity_pos altitude
                  ltac:(unfold ReentrySimulation.EARTH_RADIUS; lra)).
    pose proof (calculateGravity_decreasing 0 altitude
                  ltac:(unfold ReentrySimulation.EARTH_RADIUS; lra)
                  ltac:(lra)).
    pose proof calculateGravity_surface. unfold g. lra. }
  assert (E : vy / (altitude / - vy) + g = g - vy * vy / altitude)
    by (field; lra).
  rewrite E.
  set (a := g - vy * vy / altitude).
  assert (Ha : a <= g).
  { unfold a. assert (0 <= vy * vy / altitude).
    { apply Rmult_le_pos; [nra | left; apply Rinv_0_lt_compat; lra]. }
    lra. }
  set (x := ReentrySimulation.mass * a / (1200000 * 9.81)).
  assert (Hx : x <= ReentrySimulation.mass * g / (1200000 * 9.81)).
  { unfold x, ReentrySimulation.mass.
    apply Rmult_le_compat_r; [left; apply Rinv_0_lt_compat; lra | lra]. }
  assert (Hw : ReentrySimulation.mass * g / (1200000 * 9.81) < 0.1003).
  { unfold ReentrySimulation.mass. apply div_lt; lra. }
  assert (Hw0 : 0 < ReentrySimulation.mass * g / (1200000 * 9.81)).
  { unfold ReentrySimulation.mass. apply Rdiv_lt_0_compat; lra. }
  pose proof (clamp_between 0 1 x ltac:(lra)) as Hc.
  assert (Hle : JS.max 0 (JS.min 1 x)
                <= ReentrySimulation.mass * g / (1200000 * 9.81)).
  { unfold JS.max, JS.min. apply Rmax_lub; [lra|].
    eapply Rle_trans; [apply Rmin_r | exact Hx]. }
  split; [exact Hc|]. split; [reflexivity|]. split; [exact Hle|].
  split; [lra|].
  intros Hfast.
  assert (Hneg : a <= 0).
  { unfold a. assert (g <= vy * vy / altitude).
    { apply le_div; lra. }
    lra. }
  assert (Hx0 : x <= 0).
  { unfold x, ReentrySimulation.mass.
    assert (0 < / (1200000 * 9.81)) by (apply Rinv_0_lt_compat; lra).
    unfold Rdiv. nra. }
  unfold JS.max, JS.min. rewrite Rmin_right by lra.
  apply Rmax_left. exact Hx0.
Qed.

Lemma landing_burn_throttle_is_clamped_witness :
  0 <= ReentrySimulation.calculateLandingBurnThrottle 1000
         (Vector3.mk 0 (-100) 0) <= 1.
Proof.
  apply (landing_burn_throttle_is_clamped 1000 (Vector3.mk 0 (-100) 0)).
  - lra.
  - cbn. lra.
Defined.

(** X27.  The easing of camera transitions, [easeInOutCubic]: it maps 0
    to 0, one half to one half and 1 to 1, never decreases, stays within
    [0, 1] for a progress within [0, 1], and is symmetric about the
    midpoint: the eased value at 1 - t is 1 minus the eased value at t. *)
Theorem easeInOutCubic_is_a_smooth_step (t u : R) :
  Camera.easeInOutCubic 0 = 0
  /\ Camera.easeInOutCubic 0.5 = 0.5
  /\ Camera.easeInOutCubic 1 = 1
  /\ (t <= u -> Camera.easeInOutCubic t <= Camera.easeInOutCubic u)
  /\ (0 <= t <= 1 -> 0 <= Camera.easeInOutCubic t <= 1)
  /\ Camera.easeInOutCubic (1 - t) = 1 - Camera.easeInOutCubic t.
Proof.
  assert (Mono : forall a b, a <= b ->
                   Camera.easeInOutCubic a <= Camera.easeInOutCubic b).
  { intros a b Hab. unfold Camera.easeInOutCubic.
    js_case (a <? 0.5); js_case (b <? 0.5).
    - pose proof (cube_le a b Hab). lra.
    - pose proof (cube_le a 0.5 ltac:(lra)).
      pose proof (cube_le (-2 * b + 2) 1 ltac:(lra)).
      simpl pow. lra.
    - lra.
    - pose proof (cube_le (-2 * b + 2) (-2 * a + 2) ltac:(lra)).
      simpl pow. lra. }
  assert (E0 : Camera.easeInOutCubic 0 = 0).
  { unfold Camera.easeInOutCubic.
    rewrite (proj2 (ltb_true_iff 0 0.5)) by lra. ring. }
  assert (E1 : Camera.easeInOutCubic 1 = 1).
  { unfold Camera.easeInOutCubic.
    rewrite (proj2 (ltb_false_iff 1 0.5)) by lra. simpl pow. lra. }
  split; [exact E0|]. split.
  { unfold Camera.easeInOutCubic.
    rewrite (proj2 (ltb_false_iff 0.5 0.5)) by lra. simpl pow. lra. }
  split; [exact E1|]. split; [apply Mono|]. split.
  - intros [H0 H1].
    pose proof (Mono 0 t H0). pose proof (Mono t 1 H1). lra.
  - unfold Camera.easeInOutCubic.
    js_case (t <? 0.5); js_case (1 - t <? 0.5); simpl pow;
      first [lra | nra | (assert (t = 0.5) by lra; subst t; lra)].
Qed.

(** ** Engine commands of the aerospace engine *)

Section Propulsion.

Import AerospacePropulsion.

Lemma Forall2_map_self {A : Type} (P : A -> A -> Prop) (f : A -> A)
    (l : list A) :
  (forall a, P a (f a)) -> Forall2 P l (map f l).
Proof.
  intros H. induction l as [|a l IH]; cbn; constructor; auto.
Qed.

Lemma propulsion_vehicles_same (id : ImprovedPhysicsEngine.VehicleId)
    (a : Vehicle) (v : Vehicles) :
  vehicles (set_vehicle id a v) id = a.
Proof. destruct id; reflexivity. Qed.

Lemma propulsion_vehicles_other (id other : ImprovedPhysicsEngine.VehicleId)
    (a : Vehicle) (v : Vehicles) :
  other <> id -> vehicles (set_vehicle id a v) other = vehicles v other.
Proof. destruct id, other; intros H; try reflexivity; congruence. Qed.

Lemma set_vehicle_same (id : ImprovedPhysicsEngine.VehicleId)
    (v : Vehicles) :
  set_vehicle id (vehicles v id) v = v.
Proof. destruct id, v; reflexivity. Qed.

Lemma set_vehicle_twice (id : ImprovedPhysicsEngine.VehicleId)
    (a b : Vehicle) (v : Vehicles) :
  set_vehicle id a (set_vehicle id b v) = set_vehicle id a v.
Proof. destruct id; reflexivity. Qed.

Lemma map_unlit (f : RocketEngine -> RocketEngine) (l : list RocketEngine) :
  Forall (fun e => lit e = false) l ->
  map (fun e => if lit e then f e else e) l = l.
Proof.
  induction 1 as [|e l He _ IH]; cbn; [reflexivity|].
  rewrite He, IH. reflexivity.
Qed.

Lemma existsb_unlit (l : list RocketEngine) :
  Forall (fun e => lit e = false) l -> existsb lit l = false.
Proof.
  induction 1 as [|e l He _ IH]; cbn; [reflexivity|].
  rewrite He, IH. reflexivity.
Qed.

End Propulsion.

(** Case analysis on every [Rmax] and [Rmin] of the goal. *)
Ltac minmax_at a b :=
  destruct (Rle_dec a b);
  [rewrite ?(Rmax_right a b), ?(Rmin_left a b) in * by assumption
  |rewrite ?(Rmax_left a b), ?(Rmin_right a b) in * by lra].

Ltac minmax :=
  unfold JS.max, JS.min in *;
  repeat match goal with
         | |- context [Rmax ?a ?b] => minmax_at a b
         | |- context [Rmin ?a ?b] => minmax_at a b
         | H : context [Rmax ?a ?b] |- _ => minmax_at a b
         | H : context [Rmin ?a ?b] |- _ => minmax_at a b
         end;
  try lra.

(** X28.  Engine commands respect each engine's throttle range.
    [setThrottle] without engine ids touches the lit engines of the named
    vehicle only: an unlit engine, the other vehicle and the vehicle's
    [engines_lit] flag stay as they are, and a lit engine changes in its
    throttle alone, which becomes 0 for a command <= 0 and otherwise, for
    a range 0 <= min <= max, the command clamped into [min, max].
    After [shutdownEngines] without ids every engine of the vehicle is
    unlit at throttle 0, the flag is off, and a throttle command changes
    nothing; after [startEngines] without ids every engine is lit at its
    minimum throttle and the flag is on. *)
Theorem throttle_commands_respect_range
    (v : AerospacePropulsion.Vehicles)
    (vehicleId : ImprovedPhysicsEngine.VehicleId) (c : R) :
  let before := AerospacePropulsion.vehicles v vehicleId in
  let v' := AerospacePropulsion.setThrottle v vehicleId c None in
  let off := AerospacePropulsion.shutdownEngines v vehicleId None in
  let on := AerospacePropulsion.startEngines v vehicleId None in
  Forall2
    (fun e e' =>
       (AerospacePropulsion.lit e = false -> e' = e)
       /\ (AerospacePropulsion.lit e = true ->
           e' = AerospacePropulsion.set_throttle
                  (AerospacePropulsion.throttle e') e
           /\ (c <= 0 -> AerospacePropulsion.throttle e' = 0)
           /\ (0 < c ->
               0 <= fst (AerospacePropulsion.throttleRange e)
                 <= snd (AerospacePropulsion.throttleRange e) ->
               fst (AerospacePropulsion.throttleRange e)
               <= AerospacePropulsion.throttle e'
               <= snd (AerospacePropulsion.throttleRange e)
               /\ (fst (AerospacePropulsion.throttleRange e) <= c
                   <= snd (AerospacePropulsion.throttleRange e) ->
                   AerospacePropulsion.throttle e' = c))))
    (AerospacePropulsion.engines before)
    (AerospacePropulsion.engines
       (AerospacePropulsion.vehicles v' vehicleId))
  /\ AerospacePropulsion.engines_lit
       (AerospacePropulsion.vehicles v' vehicleId)
     = AerospacePropulsion.engines_lit before
  /\ (forall other, other <> vehicleId ->
        AerospacePropulsion.vehicles v' other
        = AerospacePropulsion.vehicles v other)
  /\ Forall (fun e => AerospacePropulsion.lit e = false
                      /\ AerospacePropulsion.throttle e = 0)
       (AerospacePropulsion.engines
          (AerospacePropulsion.vehicles off vehicleId))
  /\ AerospacePropulsion.engines_lit
       (AerospacePropulsion.vehicles off vehicleId) = false
  /\ AerospacePropulsion.setThrottle off vehicleId c None = off
  /\ Forall2
       (fun e e' =>
          e' = AerospacePropulsion.set_throttle
                 (fst (AerospacePropulsion.throttleRange e))
                 (AerospacePropulsion.set_lit true e))
       (AerospacePropulsion.engines before)
       (AerospacePropulsion.engines
          (AerospacePropulsion.vehicles on vehicleId))
  /\ AerospacePropulsion.engines_lit
       (AerospacePropulsion.vehicles on vehicleId) = true.
Proof.
  cbv zeta.
  unfold AerospacePropulsion.setThrottle, AerospacePropulsion.shutdownEngines,
    AerospacePropulsion.startEngines.
  cbv zeta. rewrite !propulsion_vehicles_same.
  cbn [AerospacePropulsion.engines AerospacePropulsion.engines_lit].
  set (l := AerospacePropulsion.engines
              (AerospacePropulsion.vehicles v vehicleId)).
  assert (Off : Forall (fun e => AerospacePropulsion.lit e = false
                                 /\ AerospacePropulsion.throttle e = 0)
                  (map (fun engine =>
                          AerospacePropulsion.set_throttle 0
                            (AerospacePropulsion.set_lit false engine)) l)).
  { apply Forall_forall. intros e He. apply in_map_iff in He.
    destruct He as [e0 [<- _]]. split; reflexivity. }
  assert (Unlit : Forall (fun e => AerospacePropulsion.lit e = false)
                    (map (fun engine =>
                            AerospacePropulsion.set_throttle 0
                              (AerospacePropulsion.set_lit false engine)) l)).
  { eapply Forall_impl; [|exact Off]. intros e [H _]. exact H. }
  split.
  { apply Forall2_map_self. intros e.
    destruct (AerospacePropulsion.lit e) eqn:El.
    - split; [discriminate|]. intros _.
      cbn [AerospacePropulsion.throttle AerospacePropulsion.set_throttle].
      split; [reflexivity|]. split.
      + intros Hc. rewrite (gtb_false c 0 Hc). minmax.
      + intros Hc Hr. rewrite (gtb_true c 0 Hc).
        split; [|intros Hin]; minmax.
    - split; [reflexivity | discriminate]. }
  split; [reflexivity|].
  split; [intros other Ho; apply propulsion_vehicles_other; exact Ho|].
  split; [exact Off|].
  split; [apply existsb_unlit; exact Unlit|].
  split.
  { rewrite set_vehicle_twice. f_equal. f_equal.
    apply map_unlit. exact Unlit. }
  split; [|reflexivity].
  apply Forall2_map_self. intros e. reflexivity.
Qed.

Section Gimbal.

Import AerospacePropulsion.

Lemma map_ungimbaled (f : RocketEngine -> RocketEngine)
    (l : list RocketEngine) :
  Forall (fun e => gimbal e = None) l ->
  map (fun e =>
         if match gimbal e with Some _ => true | None => false end
         then match gimbal e with Some _ => f e | None => e end
         else e) l = l.
Proof.
  induction 1 as [|e l He _ IH]; cbn; [reflexivity|].
  rewrite He, IH. reflexivity.
Qed.

Lemma initializeEngines_ungimbaled (specs : list (string * EngineSpec)) :
  Forall (fun s => gimbaled (snd s) = false) specs ->
  Forall (fun e => gimbal e = None) (initializeEngines specs).
Proof.
  unfold initializeEngines.
  induction 1 as [|[ty sp] specs Hs _ IH]; cbn [flat_map];
    [constructor|].
  apply Forall_app. split; [|exact IH].
  apply Forall_forall. intros e He. apply in_map_iff in He.
  destruct He as [i [<- _]]. cbn in Hs |- *. rewrite Hs. reflexivity.
Qed.

End Gimbal.

(** X29.  Gimbal commands stay within each engine's gimbal range.
    [setGimbal] without engine ids leaves every engine that has no gimbal,
    the other vehicle and the [engines_lit] flag as they are; an engine
    with a gimbal changes in its gimbal alone, and for a range >= 0 both
    angles become the commanded ones clamped to plus or minus
    gimbalRange * pi / 180.  A vehicle none of whose engines has a gimbal
    is not changed at all; the ship of the constructor, whose engine
    tables name no gimbal, is such a vehicle. *)
Theorem gimbal_commands_stay_within_range
    (v : AerospacePropulsion.Vehicles)
    (vehicleId : ImprovedPhysicsEngine.VehicleId) (g : Vector2.t) :
  let before := AerospacePropulsion.vehicles v vehicleId in
  let v' := AerospacePropulsion.setGimbal v vehicleId g None in
  Forall2
    (fun e e' =>
       match AerospacePropulsion.gimbal e with
       | None => e' = e
       | Some _ =>
           exists g',
             e' = AerospacePropulsion.set_gimbal (Some g') e
             /\ (0 <= AerospacePropulsion.gimbalRange e ->
                 let m := AerospacePropulsion.gimbalRange e * PI / 180 in
                 - m <= Vector2.x g' <= m
                 /\ - m <= Vector2.y g' <= m
                 /\ (- m <= Vector2.x g <= m -> Vector2.x g' = Vector2.x g)
                 /\ (- m <= Vector2.y g <= m -> Vector2.y g' = Vector2.y g))
       end)
    (AerospacePropulsion.engines before)
    (AerospacePropulsion.engines
       (AerospacePropulsion.vehicles v' vehicleId))
  /\ AerospacePropulsion.engines_lit
       (AerospacePropulsion.vehicles v' vehicleId)
     = AerospacePropulsion.engines_lit before
  /\ (forall other, other <> vehicleId ->
        AerospacePropulsion.vehicles v' other
        = AerospacePropulsion.vehicles v other)
  /\ (Forall (fun e => AerospacePropulsion.gimbal e = None)
        (AerospacePropulsion.engines before) -> v' = v)
  /\ AerospacePropulsion.setGimbal AerospacePropulsion.newVehicles
       ImprovedPhysicsEngine.starship g None
     = AerospacePropulsion.newVehicles.
Proof.
  cbv zeta.
  assert (Same : forall w id,
             Forall (fun e => AerospacePropulsion.gimbal e = None)
               (AerospacePropulsion.engines
                  (AerospacePropulsion.vehicles w id)) ->
             AerospacePropulsion.setGimbal w id g None = w).
  { intros w id Hall. unfold AerospacePropulsion.setGimbal. cbv zeta.
    rewrite (map_ungimbaled _ _ Hall).
    replace (AerospacePropulsion.mkVehicle
               (AerospacePropulsion.engines
                  (AerospacePropulsion.vehicles w id))
               (AerospacePropulsion.engines_lit
                  (AerospacePropulsion.vehicles w id)))
      with (AerospacePropulsion.vehicles w id)
      by (destruct (AerospacePropulsion.vehicles w id); reflexivity).
    apply set_vehicle_same. }
  split; [|split; [|split; [|split]]].
  - unfold AerospacePropulsion.setGimbal. cbv zeta.
    rewrite propulsion_vehicles_same.
    cbn [AerospacePropulsion.engines].
    apply Forall2_map_self. intros e.
    destruct (AerospacePropulsion.gimbal e) as [g0|] eqn:Eg;
      [|reflexivity].
    eexists. split; [reflexivity|].
    intros Hr. cbv zeta. cbn [Vector2.x Vector2.y].
    assert (Hm : 0 <= AerospacePropulsion.gimbalRange e * PI / 180).
    { pose proof PI_RGT_0. unfold Rdiv.
      apply Rmult_le_pos; [apply Rmult_le_pos|]; lra. }
    set (m := AerospacePropulsion.gimbalRange e * PI / 180) in *.
    repeat split; try intros Hin; minmax.
  - unfold AerospacePropulsion.setGimbal. cbv zeta.
    rewrite propulsion_vehicles_same. reflexivity.
  - intros other Ho. unfold AerospacePropulsion.setGimbal. cbv zeta.
    apply propulsion_vehicles_other. exact Ho.
  - apply Same.
  - apply Same.
    apply (initializeEngines_ungimbaled
             AerospacePropulsion.starshipEngineSpecs).
    repeat constructor.
Qed.

(** X30.  Propellant flow and thrust of an engine in an atmosphere whose
    pressure lies between vacuum and the standard atmosphere, for a
    positive specific impulse.  The effective specific impulse lies
    between the engine's sea-level value and that value plus 50 s;
    [updateFuelFlow] changes the two flows alone: a lit engine at a
    positive throttle draws thrust * throttle / (Isp * g0) in total, split
    in the mixture ratio of 3.6 parts oxidizer to one part fuel, and any
    other engine draws nothing; and the thrust at altitude lies between
    the rated thrust and 1.1 times it. *)
Theorem fuel_flow_follows_mixture_ratio
    (conditions : AerospacePhysicsEngine.AtmosphericConditions)
    (e : AerospacePropulsion.RocketEngine) :
  let e' := AerospacePropulsion.updateFuelFlow conditions e in
  let Isp := AerospacePropulsion.calculateEffectiveIsp conditions e in
  0 <= AerospacePhysicsEngine.pressure conditions
    <= AerospacePhysicsEngine.STANDARD_ATMOSPHERE ->
  0 < AerospacePropulsion.isp e ->
  AerospacePropulsion.isp e <= Isp <= AerospacePropulsion.isp e + 50
  /\ e' = AerospacePropulsion.set_flows (AerospacePropulsion.fuelFlow e')
            (AerospacePropulsion.oxidFlow e') e
  /\ (AerospacePropulsion.lit e = true ->
      0 < AerospacePropulsion.throttle e ->
      AerospacePropulsion.oxidFlow e'
      = AerospacePropulsion.mixtureRatio * AerospacePropulsion.fuelFlow e'
      /\ AerospacePropulsion.fuelFlow e' + AerospacePropulsion.oxidFlow e'
         = AerospacePropulsion.thrust e * AerospacePropulsion.throttle e
           / (Isp * AerospacePhysicsEngine.EARTH_GRAVITY))
  /\ (AerospacePropulsion.lit e = false
      \/ AerospacePropulsion.throttle e <= 0 ->
      AerospacePropulsion.fuelFlow e' = 0
      /\ AerospacePropulsion.oxidFlow e' = 0)
  /\ (0 <= AerospacePropulsion.thrust e ->
      AerospacePropulsion.thrust e
      <= AerospacePropulsion.calculateAtmosphericThrust conditions e
      <= 1.1 * AerospacePropulsion.thrust e).
Proof.
  cbv zeta. intros Hp Hisp.
  unfold AerospacePhysicsEngine.STANDARD_ATMOSPHERE in Hp.
  set (p := AerospacePhysicsEngine.pressure conditions) in *.
  assert (Hr : 0 <= p / 101325 <= 1).
  { split.
    - apply Rmult_le_pos; [lra | left; apply Rinv_0_lt_compat; lra].
    - apply (Rmult_le_reg_r 101325); [lra|].
      unfold Rdiv. rewrite Rmult_assoc, Rinv_l by lra. lra. }
  assert (HI : AerospacePropulsion.isp e
               <= AerospacePropulsion.calculateEffectiveIsp conditions e
               <= AerospacePropulsion.isp e + 50).
  { unfold AerospacePropulsion.calculateEffectiveIsp. cbv zeta.
    unfold AerospacePhysicsEngine.STANDARD_ATMOSPHERE. fold p.
    set (q := p / 101325) in *.
    destruct (String.eqb (AerospacePropulsion.type e) "vacuum"); nra. }
  split; [exact HI|].
  unfold AerospacePropulsion.updateFuelFlow. cbv zeta.
  set (Isp := AerospacePropulsion.calculateEffectiveIsp conditions e) in *.
  split; [|split; [|split]].
  - destruct (_ && _); reflexivity.
  - intros Hl Ht. rewrite Hl, (gtb_true _ _ Ht). cbn [andb].
    cbn [AerospacePropulsion.set_flows AerospacePropulsion.fuelFlow
         AerospacePropulsion.oxidFlow].
    unfold AerospacePropulsion.mixtureRatio,
      AerospacePhysicsEngine.EARTH_GRAVITY.
    split; field; lra.
  - intros [Hl | Ht].
    + rewrite Hl. cbn. split; reflexivity.
    + rewrite (gtb_false _ _ Ht), andb_false_r. cbn. split; reflexivity.
  - intros Hth. unfold AerospacePropulsion.calculateAtmosphericThrust.
    cbv zeta. unfold AerospacePhysicsEngine.STANDARD_ATMOSPHERE. fold p.
    set (q := p / 101325) in *.
    assert (Hk : 1 <= JS.min 1.1 (1.0 + (1.0 - q) * 0.2) <= 1.1)
      by (split; minmax).
    set (k := JS.min 1.1 (1.0 + (1.0 - q) * 0.2)) in *.
    nra.
Qed.

Lemma fuel_flow_follows_mixture_ratio_witness :
  let conditions :=
    AerospacePhysicsEngine.mkAtmosphericConditions 288.15 101325 1.225 0 0 in
  let e :=
    AerospacePropulsion.mkRocketEngine "vacuum" "vacuum_0" 2200000 380 1
      (0.4, 1.0) None 0 true false 0 0 80 in
  AerospacePropulsion.oxidFlow
    (AerospacePropulsion.updateFuelFlow conditions e)
  = AerospacePropulsion.mixtureRatio
    * AerospacePropulsion.fuelFlow
        (AerospacePropulsion.updateFuelFlow conditions e).
Proof.
  cbv zeta.
  apply (fuel_flow_follows_mixture_ratio
           (AerospacePhysicsEngine.mkAtmosphericConditions
              288.15 101325 1.225 0 0)
           (AerospacePropulsion.mkRocketEngine "vacuum" "vacuum_0" 2200000
              380 1 (0.4, 1.0) None 0 true false 0 0 80)).
  - cbn. unfold AerospacePhysicsEngine.STANDARD_ATMOSPHERE. lra.
  - cbn. lra.
  - reflexivity.
  - cbn. lra.
Defined.
